(** * Garnet router core: routing unit, switch allocator and SPIN handlers

    A shallow embedding of the per-cycle router pipeline of the Garnet
    network model (RoutingUnit.cc, SwitchAllocator.cc, InputUnit.cc,
    Router.cc, Router.hh, RoutingUnit.hh, flit.hh, CommonTypes.hh), the
    properties of it that the specification states, and further properties
    read off the code.

    C++ [int], [unsigned], [Tick] and [Cycles] values are integers of [Z];
    a [std::vector] is a list read and written by index, where an index out
    of range is undefined behaviour in the source and an error here; a
    [std::queue<int>] is a list whose head is the front; a [std::map] is a
    finite map.  Code that mutates the router runs in a state-and-error
    monad over the [Router] record. *)

From Stdlib Require Import ZArith List Bool Lia String.
From stdpp Require Import base list gmap strings.
Import ListNotations.

Local Open Scope Z_scope.

(** ** Errors and the state monad *)

(** How a run of the simulator can stop: [fatal(...)], [panic(...)], a failed
    [assert], or behaviour the C++ standard leaves undefined (an index out of
    range, [front()] of an empty queue, a division by zero). *)
Inductive error : Set :=
| Fatal
| Panic
| AssertFail
| Undefined.

Inductive res (A : Type) : Type :=
| Ok (a : A)
| Err (e : error).
Arguments Ok {A} a.
Arguments Err {A} e.

Definition M (St A : Type) : Type := St -> res (A * St).

Definition ret {St A : Type} (a : A) : M St A := fun s => Ok (a, s).

Definition bind {St A B : Type} (m : M St A) (k : A -> M St B) : M St B :=
  fun s => match m s with
           | Ok (a, s') => k a s'
           | Err e => Err e
           end.

Definition throw {St A : Type} (e : error) : M St A := fun _ => Err e.
Definition get {St : Type} : M St St := fun s => Ok (s, s).
Definition gets {St A : Type} (f : St -> A) : M St A := fun s => Ok (f s, s).
Definition put {St : Type} (s : St) : M St unit := fun _ => Ok (tt, s).
Definition modify {St : Type} (f : St -> St) : M St unit := fun s => Ok (tt, f s).
Definition lift {St A : Type} (x : res A) : M St A :=
  fun s => match x with Ok a => Ok (a, s) | Err e => Err e end.

(** [assert(b)] *)
Definition assert {St : Type} (b : bool) : M St unit :=
  if b then ret tt else throw AssertFail.

Notation "'let*' x ':=' m 'in' k" := (bind m (fun x => k))
  (at level 10, x name, m at level 100, k at level 200).

(** [when b m]: a C++ [if (b) { m }] without else. *)
Definition when {St : Type} (b : bool) (m : M St unit) : M St unit :=
  if b then m else ret tt.

(** ** Vectors indexed by C++ integers *)

(** [v[i]]: defined only for [0 <= i < v.size()]. *)
Definition vget {A : Type} (v : list A) (i : Z) : res A :=
  if (0 <=? i) && (i <? Z.of_nat (length v))
  then match v !! Z.to_nat i with
       | Some a => Ok a
       | None => Err Undefined
       end
  else Err Undefined.

(** [v[i] = a]. *)
Definition vset {A : Type} (v : list A) (i : Z) (a : A) : res (list A) :=
  if (0 <=? i) && (i <? Z.of_nat (length v))
  then Ok (<[Z.to_nat i := a]> v)
  else Err Undefined.

Definition vsize {A : Type} (v : list A) : Z := Z.of_nat (length v).

(** The integers [lo, lo+1, ..., lo+n-1], the index values of a counted loop. *)
Definition zrange (lo : Z) (n : nat) : list Z :=
  map (fun k => lo + Z.of_nat k) (seq 0 n).

(** ** Common types (CommonTypes.hh) *)

Definition Tick := Z.
Definition Cycles := Z.
Definition PortDirection := string.

Inductive flit_type : Set :=
| HEAD_ | BODY_ | TAIL_ | HEAD_TAIL_
| PROBE_ | MOVE_ | CHECK_PROBE_ | KILL_MOVE_
| CREDIT_.

Inductive VC_state_type : Set := IDLE_ | VC_AB_ | ACTIVE_.

Inductive flit_stage : Set := I_ | VA_ | SA_ | ST_ | LT_.

Inductive RoutingAlgorithm : Set :=
| TABLE_ | XY_ | CUSTOM_ | ADAPTIVE_ | CAR3D_ | UGAL_.

Inductive Counter_state : Set :=
| s_off | s_move | s_frozen | s_deadlock_detection
| s_forward_progress | s_check_probe.

Definition flit_type_eqb (a b : flit_type) : bool :=
  match a, b with
  | HEAD_, HEAD_ | BODY_, BODY_ | TAIL_, TAIL_ | HEAD_TAIL_, HEAD_TAIL_
  | PROBE_, PROBE_ | MOVE_, MOVE_ | CHECK_PROBE_, CHECK_PROBE_
  | KILL_MOVE_, KILL_MOVE_ | CREDIT_, CREDIT_ => true
  | _, _ => false
  end.

Definition VC_state_eqb (a b : VC_state_type) : bool :=
  match a, b with
  | IDLE_, IDLE_ | VC_AB_, VC_AB_ | ACTIVE_, ACTIVE_ => true
  | _, _ => false
  end.

Definition flit_stage_eqb (a b : flit_stage) : bool :=
  match a, b with
  | I_, I_ | VA_, VA_ | SA_, SA_ | ST_, ST_ | LT_, LT_ => true
  | _, _ => false
  end.

Definition Counter_state_eqb (a b : Counter_state) : bool :=
  match a, b with
  | s_off, s_off | s_move, s_move | s_frozen, s_frozen
  | s_deadlock_detection, s_deadlock_detection
  | s_forward_progress, s_forward_progress
  | s_check_probe, s_check_probe => true
  | _, _ => false
  end.

(** [#define INFINITE_ 10000] *)
Definition INFINITE_ : Z := 10000.

(** Modelled from the spec: the destination set [NetDest]
    (mem/ruby/common/NetDest.hh is not among the sources).  The spec only
    uses it through "destination-set intersects [route.net_dest]"; it is the
    list of the node ids in the set. *)
Definition NetDest := list Z.

Definition intersectionIsNotEmpty (a b : NetDest) : bool :=
  existsb (fun x => existsb (Z.eqb x) b) a.

(** [struct RouteInfo] *)
Record RouteInfo : Type := mkRouteInfo {
  ri_vnet : Z;
  net_dest : NetDest;
  src_ni : Z;
  src_router : Z;
  dest_ni : Z;
  dest_router : Z;
  hops_traversed : Z
}.

(** [struct move_info]: one entry of the SPIN move registry. *)
Record move_info : Type := mkMoveInfo {
  mi_inport : Z;
  mi_vc : Z;
  mi_outport : Z;
  vc_at_downstream_router : Z;
  tail_moved : bool;
  cur_move_count : Z
}.

(** ** Flits (flit.hh) *)

Record flit : Type := mkFlit {
  m_width : Z;
  m_packet_id : Z;
  m_id : Z;
  m_vnet : Z;
  m_vc : Z;
  m_route : RouteInfo;
  m_size : Z;
  m_enqueue_time : Tick;
  m_dequeue_time : Tick;
  m_time : Tick;
  m_type : flit_type;
  m_outport : Z;
  src_delay : Tick;
  m_stage : flit_stage * Tick;
  (* SPIN metadata *)
  m_must_send : bool;
  m_part_of_move : bool;
  m_source_id : Z;
  m_source_inp_port : Z;
  m_source_vc : Z;
  m_inport : Z;
  m_path : list Z;
  m_delay : Tick
}.

Definition set_outport (port : Z) (f : flit) : flit :=
  mkFlit (m_width f) (m_packet_id f) (m_id f) (m_vnet f) (m_vc f) (m_route f)
    (m_size f) (m_enqueue_time f) (m_dequeue_time f) (m_time f) (m_type f)
    port (src_delay f) (m_stage f) (m_must_send f) (m_part_of_move f)
    (m_source_id f) (m_source_inp_port f) (m_source_vc f) (m_inport f)
    (m_path f) (m_delay f).

Definition set_time (time : Tick) (f : flit) : flit :=
  mkFlit (m_width f) (m_packet_id f) (m_id f) (m_vnet f) (m_vc f) (m_route f)
    (m_size f) (m_enqueue_time f) (m_dequeue_time f) time (m_type f)
    (m_outport f) (src_delay f) (m_stage f) (m_must_send f) (m_part_of_move f)
    (m_source_id f) (m_source_inp_port f) (m_source_vc f) (m_inport f)
    (m_path f) (m_delay f).

Definition set_vc (vc : Z) (f : flit) : flit :=
  mkFlit (m_width f) (m_packet_id f) (m_id f) (m_vnet f) vc (m_route f)
    (m_size f) (m_enqueue_time f) (m_dequeue_time f) (m_time f) (m_type f)
    (m_outport f) (src_delay f) (m_stage f) (m_must_send f) (m_part_of_move f)
    (m_source_id f) (m_source_inp_port f) (m_source_vc f) (m_inport f)
    (m_path f) (m_delay f).

Definition set_route (route : RouteInfo) (f : flit) : flit :=
  mkFlit (m_width f) (m_packet_id f) (m_id f) (m_vnet f) (m_vc f) route
    (m_size f) (m_enqueue_time f) (m_dequeue_time f) (m_time f) (m_type f)
    (m_outport f) (src_delay f) (m_stage f) (m_must_send f) (m_part_of_move f)
    (m_source_id f) (m_source_inp_port f) (m_source_vc f) (m_inport f)
    (m_path f) (m_delay f).

(** [m_route.hops_traversed++] *)
Definition increment_hops (f : flit) : flit :=
  let r := m_route f in
  set_route (mkRouteInfo (ri_vnet r) (net_dest r) (src_ni r) (src_router r)
               (dest_ni r) (dest_router r) (hops_traversed r + 1)) f.

Definition is_stage (stage : flit_stage) (time : Tick) (f : flit) : bool :=
  flit_stage_eqb stage (fst (m_stage f)) && (snd (m_stage f) <=? time).

Definition advance_stage (t_stage : flit_stage) (newTime : Tick) (f : flit) : flit :=
  mkFlit (m_width f) (m_packet_id f) (m_id f) (m_vnet f) (m_vc f) (m_route f)
    (m_size f) (m_enqueue_time f) (m_dequeue_time f) (m_time f) (m_type f)
    (m_outport f) (src_delay f) (t_stage, newTime) (m_must_send f)
    (m_part_of_move f) (m_source_id f) (m_source_inp_port f) (m_source_vc f)
    (m_inport f) (m_path f) (m_delay f).

Definition setMustSend (v : bool) (f : flit) : flit :=
  mkFlit (m_width f) (m_packet_id f) (m_id f) (m_vnet f) (m_vc f) (m_route f)
    (m_size f) (m_enqueue_time f) (m_dequeue_time f) (m_time f) (m_type f)
    (m_outport f) (src_delay f) (m_stage f) v (m_part_of_move f)
    (m_source_id f) (m_source_inp_port f) (m_source_vc f) (m_inport f)
    (m_path f) (m_delay f).

Definition setInport (port : Z) (f : flit) : flit :=
  mkFlit (m_width f) (m_packet_id f) (m_id f) (m_vnet f) (m_vc f) (m_route f)
    (m_size f) (m_enqueue_time f) (m_dequeue_time f) (m_time f) (m_type f)
    (m_outport f) (src_delay f) (m_stage f) (m_must_send f) (m_part_of_move f)
    (m_source_id f) (m_source_inp_port f) (m_source_vc f) port
    (m_path f) (m_delay f).

Definition setPath (p : list Z) (f : flit) : flit :=
  mkFlit (m_width f) (m_packet_id f) (m_id f) (m_vnet f) (m_vc f) (m_route f)
    (m_size f) (m_enqueue_time f) (m_dequeue_time f) (m_time f) (m_type f)
    (m_outport f) (src_delay f) (m_stage f) (m_must_send f) (m_part_of_move f)
    (m_source_id f) (m_source_inp_port f) (m_source_vc f) (m_inport f)
    p (m_delay f).

Definition setDelay (d : Tick) (f : flit) : flit :=
  mkFlit (m_width f) (m_packet_id f) (m_id f) (m_vnet f) (m_vc f) (m_route f)
    (m_size f) (m_enqueue_time f) (m_dequeue_time f) (m_time f) (m_type f)
    (m_outport f) (src_delay f) (m_stage f) (m_must_send f) (m_part_of_move f)
    (m_source_id f) (m_source_inp_port f) (m_source_vc f) (m_inport f)
    (m_path f) d.

(** [int peekPathTop() const { return m_path.empty() ? -1 : m_path.front(); }] *)
Definition peekPathTop (f : flit) : Z :=
  match m_path f with
  | [] => -1
  | v :: _ => v
  end.

(** [int getPathTop() { int v = m_path.front(); m_path.pop(); return v; }]:
    [front()] of an empty queue is undefined. *)
Definition getPathTop (f : flit) : res (Z * flit) :=
  match m_path f with
  | [] => Err Undefined
  | v :: rest => Ok (v, setPath rest f)
  end.

Definition getNumTurns (f : flit) : Z := vsize (m_path f).

Definition addDelay (t : Tick) (f : flit) : flit := setDelay (m_delay f + t) f.

(** [if (t <= m_delay) m_delay -= t; else m_delay = 0;] *)
Definition subDelay (t : Tick) (f : flit) : flit :=
  if t <=? m_delay f then setDelay (m_delay f - t) f else setDelay 0 f.

(** Modelled from the spec: the constructors of SPIN control flits (flit.cc
    is not among the sources).  The spec lists what a control flit carries:
    source router id, source inport, source VC, its vnet, its type, its
    time and its path; Router.cc notes that the constructor sets the
    outport from the head of the path.  The fields the spec does not speak
    of take the defaults of the class where it has them ([-1] for the
    inport, [false] for the flags, [0] for the delay) and zero elsewhere. *)
Definition new_control_flit (src_id src_inp_port src_vc vnet : Z)
    (type : flit_type) (curTime : Tick) (path : list Z) : flit :=
  mkFlit 0 0 0 vnet src_vc
    (mkRouteInfo vnet [] 0 src_id 0 0 0) 1 curTime curTime curTime type
    (match path with [] => -1 | v :: _ => v end) 0 (I_, curTime)
    false false src_id src_inp_port src_vc (-1) path 0.

(** [flit(src_id, path, curTime, inport)], the KILL_MOVE constructor. *)
Definition new_kill_move_flit (src_id : Z) (path : list Z) (curTime : Tick)
    (inport : Z) : flit :=
  mkFlit 0 0 0 0 0
    (mkRouteInfo 0 [] 0 src_id 0 0 0) 1 curTime curTime curTime KILL_MOVE_
    (match path with [] => -1 | v :: _ => v end) 0 (I_, curTime)
    false false src_id inport (-1) (-1) path 0.

(** Modelled from the spec: a credit (Credit.hh is not among the sources):
    "Credit(in_vc, free_signal, cur_time)", a one-shot message that names
    the VC, says whether the VC became free, and carries its time. *)
Record Credit : Type := mkCredit {
  credit_vc : Z;
  is_free_signal : bool;
  credit_time : Tick
}.

(** ** Virtual channels *)

(** Modelled from the spec: [VirtualChannel] (VirtualChannel.hh/.cc are not
    among the sources).  Section 3 gives its attributes: the lifecycle state
    with the tick it was entered, the FIFO of buffered flits, the chosen
    outport, the downstream VC ([-1] until allocated) and the enqueue time. *)
Record VirtualChannel : Type := mkVC {
  m_vc_state : VC_state_type * Tick;
  inputBuffer : list flit;
  m_output_port : Z;
  m_output_vc : Z;
  vc_enqueue_time : Tick
}.

Module VC.

Definition get_state (c : VirtualChannel) : VC_state_type := fst (m_vc_state c).

(** "[set_state(s, time)]" *)
Definition set_state (s : VC_state_type) (t : Tick) (c : VirtualChannel) :=
  mkVC (s, t) (inputBuffer c) (m_output_port c) (m_output_vc c) (vc_enqueue_time c).

(** Entering ACTIVE records the enqueue time of the packet. *)
Definition set_active (t : Tick) (c : VirtualChannel) :=
  mkVC (ACTIVE_, t) (inputBuffer c) (m_output_port c) (m_output_vc c) t.

(** Entering IDLE: "while IDLE, ... outport/outvc undefined", the downstream
    VC is "[-1] until allocated". *)
Definition set_idle (t : Tick) (c : VirtualChannel) :=
  mkVC (IDLE_, t) (inputBuffer c) (-1) (-1) (vc_enqueue_time c).

(** "[grant_outport(op)]", "[grant_outvc(v)]" *)
Definition set_outport (op : Z) (c : VirtualChannel) :=
  mkVC (m_vc_state c) (inputBuffer c) op (m_output_vc c) (vc_enqueue_time c).

Definition set_outvc (v : Z) (c : VirtualChannel) :=
  mkVC (m_vc_state c) (inputBuffer c) (m_output_port c) v (vc_enqueue_time c).

Definition set_buffer (b : list flit) (c : VirtualChannel) :=
  mkVC (m_vc_state c) b (m_output_port c) (m_output_vc c) (vc_enqueue_time c).

(** "[insert_flit(f)] appends" *)
Definition insertFlit (f : flit) (c : VirtualChannel) :=
  set_buffer (inputBuffer c ++ [f]) c.

(** "[is_ready(t)] true iff head flit's stage is SA and [t >= stage_time]";
    [need_stage] is the same test for any stage. *)
Definition need_stage (stage : flit_stage) (t : Tick) (c : VirtualChannel) : bool :=
  match inputBuffer c with
  | [] => false
  | f :: _ => is_stage stage t f
  end.

Definition isReady (t : Tick) (c : VirtualChannel) : bool := need_stage SA_ t c.

(** "[contains_head_and_tail] true iff both present": a HEAD_TAIL flit is
    both. *)
Definition containsHeadAndTail (c : VirtualChannel) : bool :=
  existsb (fun f => flit_type_eqb (m_type f) HEAD_
                    || flit_type_eqb (m_type f) HEAD_TAIL_) (inputBuffer c)
  && existsb (fun f => flit_type_eqb (m_type f) TAIL_
                       || flit_type_eqb (m_type f) HEAD_TAIL_) (inputBuffer c).

End VC.

(** ** Input units (InputUnit.cc) *)

(** The members of [InputUnit] that InputUnit.cc uses (InputUnit.hh is not
    among the sources).  The incoming link is its buffer of flits in
    arrival order; the credit link is the list of the ticks it was scheduled
    for. *)
Record InputUnit : Type := mkInputUnit {
  iu_id : Z;
  m_direction : PortDirection;
  virtualChannels : list VirtualChannel;
  m_stall_count : list Z;
  m_vc_frozen : list bool;
  m_fork_vector : list bool;
  creditQueue : list Credit;
  m_credit_link : list Tick;
  m_in_link : list flit;
  m_num_buffer_reads : list Z;
  m_num_buffer_writes : list Z;
  m_num_probes_dropped : Z;
  m_num_move_dropped : Z;
  m_num_check_probe_dropped : Z
}.

Module IU.

Definition set_virtualChannels (x : list VirtualChannel) (u : InputUnit) :=
  mkInputUnit (iu_id u) (m_direction u) x (m_stall_count u) (m_vc_frozen u)
    (m_fork_vector u) (creditQueue u) (m_credit_link u) (m_in_link u)
    (m_num_buffer_reads u) (m_num_buffer_writes u) (m_num_probes_dropped u)
    (m_num_move_dropped u) (m_num_check_probe_dropped u).

Definition set_stall_count (x : list Z) (u : InputUnit) :=
  mkInputUnit (iu_id u) (m_direction u) (virtualChannels u) x (m_vc_frozen u)
    (m_fork_vector u) (creditQueue u) (m_credit_link u) (m_in_link u)
    (m_num_buffer_reads u) (m_num_buffer_writes u) (m_num_probes_dropped u)
    (m_num_move_dropped u) (m_num_check_probe_dropped u).

Definition set_vc_frozen (x : list bool) (u : InputUnit) :=
  mkInputUnit (iu_id u) (m_direction u) (virtualChannels u) (m_stall_count u) x
    (m_fork_vector u) (creditQueue u) (m_credit_link u) (m_in_link u)
    (m_num_buffer_reads u) (m_num_buffer_writes u) (m_num_probes_dropped u)
    (m_num_move_dropped u) (m_num_check_probe_dropped u).

Definition set_fork_vector (x : list bool) (u : InputUnit) :=
  mkInputUnit (iu_id u) (m_direction u) (virtualChannels u) (m_stall_count u)
    (m_vc_frozen u) x (creditQueue u) (m_credit_link u) (m_in_link u)
    (m_num_buffer_reads u) (m_num_buffer_writes u) (m_num_probes_dropped u)
    (m_num_move_dropped u) (m_num_check_probe_dropped u).

Definition set_credits (q : list Credit) (l : list Tick) (u : InputUnit) :=
  mkInputUnit (iu_id u) (m_direction u) (virtualChannels u) (m_stall_count u)
    (m_vc_frozen u) (m_fork_vector u) q l (m_in_link u)
    (m_num_buffer_reads u) (m_num_buffer_writes u) (m_num_probes_dropped u)
    (m_num_move_dropped u) (m_num_check_probe_dropped u).

Definition set_in_link (x : list flit) (u : InputUnit) :=
  mkInputUnit (iu_id u) (m_direction u) (virtualChannels u) (m_stall_count u)
    (m_vc_frozen u) (m_fork_vector u) (creditQueue u) (m_credit_link u) x
    (m_num_buffer_reads u) (m_num_buffer_writes u) (m_num_probes_dropped u)
    (m_num_move_dropped u) (m_num_check_probe_dropped u).

Definition set_buffer_activity (rd wr : list Z) (u : InputUnit) :=
  mkInputUnit (iu_id u) (m_direction u) (virtualChannels u) (m_stall_count u)
    (m_vc_frozen u) (m_fork_vector u) (creditQueue u) (m_credit_link u)
    (m_in_link u) rd wr (m_num_probes_dropped u)
    (m_num_move_dropped u) (m_num_check_probe_dropped u).

Definition set_dropped (p m c : Z) (u : InputUnit) :=
  mkInputUnit (iu_id u) (m_direction u) (virtualChannels u) (m_stall_count u)
    (m_vc_frozen u) (m_fork_vector u) (creditQueue u) (m_credit_link u)
    (m_in_link u) (m_num_buffer_reads u) (m_num_buffer_writes u) p m c.

End IU.

(** ** Output units *)

(** Modelled from the spec: [OutputUnit] (OutputUnit.hh/.cc are not among the
    sources).  Section 3: per downstream VC a lifecycle [{IDLE, ACTIVE}] and
    a credit counter; section 4.4 gives the operations. *)
Record OutVcState : Type := mkOutVc {
  ovc_state : VC_state_type;
  credit_count : Z
}.

Record OutputUnit : Type := mkOutputUnit {
  ou_direction : PortDirection;
  outVcState : list OutVcState
}.

Module OU.

Section WithGeometry.
(** The VCs of a vnet are [vnet * vc_per_vnet + off] for
    [0 <= off < vc_per_vnet]; offset 0 is the escape VC when escape VCs
    are enabled. *)
Variable vc_per_vnet : Z.
Variable escape_en : bool.

(** "[is_vc_idle(vc, t)]" *)
Definition is_vc_idle (vc : Z) (u : OutputUnit) : bool :=
  match vget (outVcState u) vc with
  | Ok st => VC_state_eqb (ovc_state st) IDLE_
  | Err _ => false
  end.

(** "[get_credit_count(vc)]" *)
Definition get_credit_count (vc : Z) (u : OutputUnit) : Z :=
  match vget (outVcState u) vc with
  | Ok st => credit_count st
  | Err _ => 0
  end.

(** "[has_credit(vc)] - [credit_count[vc] > 0]" *)
Definition has_credit (vc : Z) (u : OutputUnit) : bool :=
  0 <? get_credit_count vc u.

(** The offsets of the non-escape VCs of a vnet. *)
Definition non_escape_offsets : list Z :=
  List.filter (fun off => negb (escape_en && (off =? 0)))
              (zrange 0 (Z.to_nat vc_per_vnet)).

(** "[has_free_vc(vnet)] - some non-escape VC in vnet is IDLE" *)
Definition has_free_vc (vnet : Z) (u : OutputUnit) : bool :=
  existsb (fun off => is_vc_idle (vnet * vc_per_vnet + off) u)
          non_escape_offsets.

(** "[has_free_escape_vc(vnet)] - the designated escape VC (offset 0 of
    the vnet) is IDLE and has credits" *)
Definition has_free_escape_vc (vnet : Z) (u : OutputUnit) : bool :=
  is_vc_idle (vnet * vc_per_vnet) u && has_credit (vnet * vc_per_vnet) u.

Definition set_vc_state (vc : Z) (st : VC_state_type) (u : OutputUnit) : OutputUnit :=
  match vget (outVcState u) vc with
  | Ok o => mkOutputUnit (ou_direction u)
              (<[Z.to_nat vc := mkOutVc st (credit_count o)]> (outVcState u))
  | Err _ => u
  end.

(** "[select_free_vc(vnet)] - returns and marks ACTIVE a free non-escape
    VC or -1": the first one in index order. *)
Definition select_free_vc (vnet : Z) (u : OutputUnit) : Z * OutputUnit :=
  match find (fun off => is_vc_idle (vnet * vc_per_vnet + off) u)
             non_escape_offsets with
  | Some off => (vnet * vc_per_vnet + off,
                 set_vc_state (vnet * vc_per_vnet + off) ACTIVE_ u)
  | None => (-1, u)
  end.

(** "[set_escape_vc(vnet)] - returns and marks ACTIVE the escape VC or
    -1": it is given when it is IDLE. *)
Definition set_escape_vc (vnet : Z) (u : OutputUnit) : Z * OutputUnit :=
  if is_vc_idle (vnet * vc_per_vnet) u
  then (vnet * vc_per_vnet, set_vc_state (vnet * vc_per_vnet) ACTIVE_ u)
  else (-1, u).

(** "[decrement_credit(vc)]" *)
Definition decrement_credit (vc : Z) (u : OutputUnit) : OutputUnit :=
  match vget (outVcState u) vc with
  | Ok o => mkOutputUnit (ou_direction u)
              (<[Z.to_nat vc := mkOutVc (ovc_state o) (credit_count o - 1)]>
                 (outVcState u))
  | Err _ => u
  end.
End WithGeometry.

End OU.

(** ** Routing unit, switch allocator, network configuration *)

(** [struct ChildInfo { int outport; int tin; int tout; }] *)
Record ChildInfo : Type := mkChild {
  c_outport : Z;
  c_tin : Z;
  c_tout : Z
}.

(** The members of [RoutingUnit] that the table and escape routing read
    (RoutingUnit.hh).  The round-robin, EWMA and last-choice members belong
    to the adaptive algorithms only. *)
Record RoutingUnit : Type := mkRoutingUnit {
  m_routing_table : list (list NetDest);
  m_weight_table : list Z;
  m_parentOutport : Z;
  m_children : list ChildInfo
}.

(** The members of [SwitchAllocator] (SwitchAllocator.cc, [init]). *)
Record SwitchAllocator : Type := mkSwitchAllocator {
  m_round_robin_inport : list Z;
  m_round_robin_invc : list Z;
  m_port_requests : list Z;
  m_vc_winners : list Z;
  m_is_escape_req : list bool;
  m_input_arbiter_activity : Z;
  m_output_arbiter_activity : Z
}.

(** What the router asks of [GarnetNetwork] (GarnetNetwork.hh is not among
    the sources): the configuration of section 6 of the spec. *)
Record GarnetNetwork : Type := mkNetwork {
  getRoutingAlgorithm : RoutingAlgorithm;
  isEscapeVcEnabled : bool;
  isSpinSchemeEnabled : bool;
  getSpinDdThreshold : Z;
  getSpinMaxTurnCapacity : Z;
  isVNetOrdered : Z -> bool;
  getNumRows : Z;
  getNumCols : Z;
  tinOf : Z -> Z;
  toutOf : Z -> Z
}.

(** ** SPIN state of a router (Router.hh) *)

(** [struct pointer] and [struct counter] *)
Record counter : Type := mkCounter {
  cptr_input_port : Z;
  cptr_vc : Z;
  cptr_vnet : Z;
  count : Z;
  thresh : Cycles;
  state : Counter_state
}.

Record path_buffer : Type := mkPathBuffer {
  pb_path : list Z;
  pb_valid : bool
}.

Record source_id_buffer : Type := mkSourceIdBuffer {
  sb_source_id : Z;
  sb_move_id : Z;
  sb_valid : bool
}.

Record Spin : Type := mkSpin {
  m_counter : counter;
  m_path_buffer : path_buffer;
  m_source_id_buffer : source_id_buffer;
  m_move : bool;
  loop_delay : Cycles;
  probeQueue : list flit;
  moveQueue : list flit;
  kill_moveQueue : list flit;
  check_probeQueue : list flit;
  kill_move_processed_this_cycle : bool;
  start_move : bool;
  move_registry : list move_info
}.

Module SP.

Definition set_counter (x : counter) (p : Spin) :=
  mkSpin x (m_path_buffer p) (m_source_id_buffer p) (m_move p) (loop_delay p)
    (probeQueue p) (moveQueue p) (kill_moveQueue p) (check_probeQueue p)
    (kill_move_processed_this_cycle p) (start_move p) (move_registry p).

Definition set_path_buffer (x : path_buffer) (p : Spin) :=
  mkSpin (m_counter p) x (m_source_id_buffer p) (m_move p) (loop_delay p)
    (probeQueue p) (moveQueue p) (kill_moveQueue p) (check_probeQueue p)
    (kill_move_processed_this_cycle p) (start_move p) (move_registry p).

Definition set_source_id_buffer (x : source_id_buffer) (p : Spin) :=
  mkSpin (m_counter p) (m_path_buffer p) x (m_move p) (loop_delay p)
    (probeQueue p) (moveQueue p) (kill_moveQueue p) (check_probeQueue p)
    (kill_move_processed_this_cycle p) (start_move p) (move_registry p).

Definition set_move (x : bool) (p : Spin) :=
  mkSpin (m_counter p) (m_path_buffer p) (m_source_id_buffer p) x (loop_delay p)
    (probeQueue p) (moveQueue p) (kill_moveQueue p) (check_probeQueue p)
    (kill_move_processed_this_cycle p) (start_move p) (move_registry p).

Definition set_loop_delay (x : Cycles) (p : Spin) :=
  mkSpin (m_counter p) (m_path_buffer p) (m_source_id_buffer p) (m_move p) x
    (probeQueue p) (moveQueue p) (kill_moveQueue p) (check_probeQueue p)
    (kill_move_processed_this_cycle p) (start_move p) (move_registry p).

Definition set_probeQueue (x : list flit) (p : Spin) :=
  mkSpin (m_counter p) (m_path_buffer p) (m_source_id_buffer p) (m_move p)
    (loop_delay p) x (moveQueue p) (kill_moveQueue p) (check_probeQueue p)
    (kill_move_processed_this_cycle p) (start_move p) (move_registry p).

Definition set_moveQueue (x : list flit) (p : Spin) :=
  mkSpin (m_counter p) (m_path_buffer p) (m_source_id_buffer p) (m_move p)
    (loop_delay p) (probeQueue p) x (kill_moveQueue p) (check_probeQueue p)
    (kill_move_processed_this_cycle p) (start_move p) (move_registry p).

Definition set_kill_moveQueue (x : list flit) (p : Spin) :=
  mkSpin (m_counter p) (m_path_buffer p) (m_source_id_buffer p) (m_move p)
    (loop_delay p) (probeQueue p) (moveQueue p) x (check_probeQueue p)
    (kill_move_processed_this_cycle p) (start_move p) (move_registry p).

Definition set_check_probeQueue (x : list flit) (p : Spin) :=
  mkSpin (m_counter p) (m_path_buffer p) (m_source_id_buffer p) (m_move p)
    (loop_delay p) (probeQueue p) (moveQueue p) (kill_moveQueue p) x
    (kill_move_processed_this_cycle p) (start_move p) (move_registry p).

Definition set_kill_move_processed (x : bool) (p : Spin) :=
  mkSpin (m_counter p) (m_path_buffer p) (m_source_id_buffer p) (m_move p)
    (loop_delay p) (probeQueue p) (moveQueue p) (kill_moveQueue p)
    (check_probeQueue p) x (start_move p) (move_registry p).

Definition set_start_move (x : bool) (p : Spin) :=
  mkSpin (m_counter p) (m_path_buffer p) (m_source_id_buffer p) (m_move p)
    (loop_delay p) (probeQueue p) (moveQueue p) (kill_moveQueue p)
    (check_probeQueue p) (kill_move_processed_this_cycle p) x (move_registry p).

Definition set_move_registry (x : list move_info) (p : Spin) :=
  mkSpin (m_counter p) (m_path_buffer p) (m_source_id_buffer p) (m_move p)
    (loop_delay p) (probeQueue p) (moveQueue p) (kill_moveQueue p)
    (check_probeQueue p) (kill_move_processed_this_cycle p) (start_move p) x.

End SP.

(** ** The router (Router.hh) *)

(** The state of the C library's [rand()]: the sequence of the values it
    will return and how many were drawn.  It is global to the process, not a
    member of any router object. *)
Record ProcessRand : Type := mkRand {
  rand_values : nat -> N;
  rand_drawn : nat
}.

(** The members of [Router], the simulated clock it reads ([curTick()],
    the clock period), the wakeups it scheduled, and the process-wide
    [rand()] state its code draws from. *)
Record Router : Type := mkRouter {
  r_id : Z;
  m_latency : Cycles;
  m_virtual_networks : Z;
  m_vc_per_vnet : Z;
  m_bit_width : Z;
  m_network_ptr : GarnetNetwork;
  routingUnit : RoutingUnit;
  switchAllocator : SwitchAllocator;
  crossbarSwitch : list (list flit);
  m_input_unit : list InputUnit;
  m_output_unit : list OutputUnit;
  m_ugal_min_choices : Z;
  m_ugal_nonmin_choices : Z;
  spin : Spin;
  curTick : Tick;
  clockPeriod : Tick;
  scheduled_wakeups : list Cycles;
  process_rand : ProcessRand
}.

Module R.

Definition set_switchAllocator (x : SwitchAllocator) (r : Router) :=
  mkRouter (r_id r) (m_latency r) (m_virtual_networks r) (m_vc_per_vnet r)
    (m_bit_width r) (m_network_ptr r) (routingUnit r) x (crossbarSwitch r)
    (m_input_unit r) (m_output_unit r) (m_ugal_min_choices r)
    (m_ugal_nonmin_choices r) (spin r) (curTick r) (clockPeriod r)
    (scheduled_wakeups r) (process_rand r).

Definition set_crossbarSwitch (x : list (list flit)) (r : Router) :=
  mkRouter (r_id r) (m_latency r) (m_virtual_networks r) (m_vc_per_vnet r)
    (m_bit_width r) (m_network_ptr r) (routingUnit r) (switchAllocator r) x
    (m_input_unit r) (m_output_unit r) (m_ugal_min_choices r)
    (m_ugal_nonmin_choices r) (spin r) (curTick r) (clockPeriod r)
    (scheduled_wakeups r) (process_rand r).

Definition set_input_unit (x : list InputUnit) (r : Router) :=
  mkRouter (r_id r) (m_latency r) (m_virtual_networks r) (m_vc_per_vnet r)
    (m_bit_width r) (m_network_ptr r) (routingUnit r) (switchAllocator r)
    (crossbarSwitch r) x (m_output_unit r) (m_ugal_min_choices r)
    (m_ugal_nonmin_choices r) (spin r) (curTick r) (clockPeriod r)
    (scheduled_wakeups r) (process_rand r).

Definition set_output_unit (x : list OutputUnit) (r : Router) :=
  mkRouter (r_id r) (m_latency r) (m_virtual_networks r) (m_vc_per_vnet r)
    (m_bit_width r) (m_network_ptr r) (routingUnit r) (switchAllocator r)
    (crossbarSwitch r) (m_input_unit r) x (m_ugal_min_choices r)
    (m_ugal_nonmin_choices r) (spin r) (curTick r) (clockPeriod r)
    (scheduled_wakeups r) (process_rand r).

Definition set_ugal (mn nm : Z) (r : Router) :=
  mkRouter (r_id r) (m_latency r) (m_virtual_networks r) (m_vc_per_vnet r)
    (m_bit_width r) (m_network_ptr r) (routingUnit r) (switchAllocator r)
    (crossbarSwitch r) (m_input_unit r) (m_output_unit r) mn nm (spin r)
    (curTick r) (clockPeriod r) (scheduled_wakeups r) (process_rand r).

Definition set_spin (x : Spin) (r : Router) :=
  mkRouter (r_id r) (m_latency r) (m_virtual_networks r) (m_vc_per_vnet r)
    (m_bit_width r) (m_network_ptr r) (routingUnit r) (switchAllocator r)
    (crossbarSwitch r) (m_input_unit r) (m_output_unit r)
    (m_ugal_min_choices r) (m_ugal_nonmin_choices r) x (curTick r)
    (clockPeriod r) (scheduled_wakeups r) (process_rand r).

Definition set_scheduled_wakeups (x : list Cycles) (r : Router) :=
  mkRouter (r_id r) (m_latency r) (m_virtual_networks r) (m_vc_per_vnet r)
    (m_bit_width r) (m_network_ptr r) (routingUnit r) (switchAllocator r)
    (crossbarSwitch r) (m_input_unit r) (m_output_unit r)
    (m_ugal_min_choices r) (m_ugal_nonmin_choices r) (spin r) (curTick r)
    (clockPeriod r) x (process_rand r).

Definition set_process_rand (x : ProcessRand) (r : Router) :=
  mkRouter (r_id r) (m_latency r) (m_virtual_networks r) (m_vc_per_vnet r)
    (m_bit_width r) (m_network_ptr r) (routingUnit r) (switchAllocator r)
    (crossbarSwitch r) (m_input_unit r) (m_output_unit r)
    (m_ugal_min_choices r) (m_ugal_nonmin_choices r) (spin r) (curTick r)
    (clockPeriod r) (scheduled_wakeups r) x.

End R.

(** ** Router accessors (Router.hh, Router.cc) *)

Definition get_id : M Router Z := gets r_id.
Definition get_num_vcs (r : Router) : Z := m_virtual_networks r * m_vc_per_vnet r.
Definition get_num_inports (r : Router) : Z := vsize (m_input_unit r).
Definition get_num_outports (r : Router) : Z := vsize (m_output_unit r).
(** [Router::is_escape_vc_enabled()] *)
Definition Router_is_escape_vc_enabled (r : Router) : bool := isEscapeVcEnabled (m_network_ptr r).
Definition spin_scheme_enabled (r : Router) : bool := isSpinSchemeEnabled (m_network_ptr r).

(** The clock of the ticked object, read at a clock edge ([Router::wakeup]
    asserts [clockEdge() == curTick()]): [clockEdge(n)] is [n] periods after
    the current tick and [curCycle()] counts the periods so far. *)
Definition clockEdge (n : Cycles) (r : Router) : Tick := curTick r + n * clockPeriod r.
Definition curCycle (r : Router) : Cycles := curTick r / clockPeriod r.

(** [getInputUnit(unsigned port)]: [assert(port < m_input_unit.size())]. *)
Definition getInputUnit (port : Z) : M Router InputUnit :=
  let* r := get in
  match vget (m_input_unit r) port with
  | Ok u => ret u
  | Err _ => throw AssertFail
  end.

Definition getOutputUnit (port : Z) : M Router OutputUnit :=
  let* r := get in
  match vget (m_output_unit r) port with
  | Ok u => ret u
  | Err _ => throw AssertFail
  end.

(** Writing through the pointer that [getInputUnit] returned. *)
Definition putInputUnit (port : Z) (u : InputUnit) : M Router unit :=
  let* r := get in
  let* us := lift (vset (m_input_unit r) port u) in
  put (R.set_input_unit us r).

Definition putOutputUnit (port : Z) (u : OutputUnit) : M Router unit :=
  let* r := get in
  let* us := lift (vset (m_output_unit r) port u) in
  put (R.set_output_unit us r).

(** [m_output_unit[outport]->get_direction()] *)
Definition getOutportDirection (outport : Z) : M Router PortDirection :=
  let* r := get in
  let* u := lift (vget (m_output_unit r) outport) in
  ret (ou_direction u).

Definition getInportDirection (inport : Z) : M Router PortDirection :=
  let* r := get in
  let* u := lift (vget (m_input_unit r) inport) in
  ret (m_direction u).

(** [scheduleEvent(time)] *)
Definition schedule_wakeup (time : Cycles) : M Router unit :=
  modify (fun r => R.set_scheduled_wakeups (scheduled_wakeups r ++ [time]) r).

Definition incUGALMin : M Router unit :=
  modify (fun r => R.set_ugal (m_ugal_min_choices r + 1) (m_ugal_nonmin_choices r) r).

Definition incUGALNonMin : M Router unit :=
  modify (fun r => R.set_ugal (m_ugal_min_choices r) (m_ugal_nonmin_choices r + 1) r).

(** [rand()]: the next value of the process-wide generator. *)
Definition rand : M Router Z :=
  let* r := get in
  let g := process_rand r in
  let* _ := put (R.set_process_rand (mkRand (rand_values g) (S (rand_drawn g))) r) in
  ret (Z.of_N (rand_values g (rand_drawn g))).

(** ** Table routing (RoutingUnit.cc) *)

(** First loop of [lookupRoutingTable]: the minimum weight among the links
    whose table entry meets the destination, starting from [INFINITE_]. *)
Fixpoint scan_min_weight (dest : NetDest) (weights : list Z)
    (entries : list NetDest) (link : Z) (min_weight : Z) : res Z :=
  match entries with
  | [] => Ok min_weight
  | e :: rest =>
      if intersectionIsNotEmpty dest e then
        match vget weights link with
        | Ok w => scan_min_weight dest weights rest (link + 1)
                    (if w <=? min_weight then w else min_weight)
        | Err x => Err x
        end
      else scan_min_weight dest weights rest (link + 1) min_weight
  end.

(** Second loop: the links of that weight, in index order. *)
Fixpoint collect_candidates (dest : NetDest) (weights : list Z)
    (entries : list NetDest) (link : Z) (min_weight : Z) : res (list Z) :=
  match entries with
  | [] => Ok []
  | e :: rest =>
      if intersectionIsNotEmpty dest e then
        match vget weights link with
        | Ok w =>
            match collect_candidates dest weights rest (link + 1) min_weight with
            | Ok cs => Ok (if w =? min_weight then link :: cs else cs)
            | Err x => Err x
            end
        | Err x => Err x
        end
      else collect_candidates dest weights rest (link + 1) min_weight
  end.

Definition lookupRoutingTable (vnet : Z) (msg_destination : NetDest) : M Router Z :=
  let* r := get in
  let ru := routingUnit r in
  let* entries := lift (vget (m_routing_table ru) vnet) in
  let* min_weight :=
    lift (scan_min_weight msg_destination (m_weight_table ru) entries 0 INFINITE_) in
  let* output_link_candidates :=
    lift (collect_candidates msg_destination (m_weight_table ru) entries 0 min_weight) in
  let num_candidates := vsize output_link_candidates in
  if vsize output_link_candidates =? 0 then throw Fatal
  else
    let* candidate :=
      (if negb (isVNetOrdered (m_network_ptr r) vnet)
       then let* x := rand in ret (Z.rem x num_candidates)
       else ret 0) in
    lift (vget output_link_candidates candidate).

(** ** Escape routing (RoutingUnit.cc) *)

Definition outportEscapeVC (route : RouteInfo) (inport : Z)
    (inport_dirn : PortDirection) : M Router Z :=
  let* r := get in
  if dest_router route =? r_id r then
    lookupRoutingTable (ri_vnet route) (net_dest route)
  else
    let dest := dest_router route in
    let destTin := tinOf (m_network_ptr r) dest in
    match find (fun c => (c_tin c <=? destTin) && (destTin <? c_tout c))
               (m_children (routingUnit r)) with
    | Some c => ret (c_outport c)
    | None =>
        if negb (m_parentOutport (routingUnit r) =? -1)
        then ret (m_parentOutport (routingUnit r))
        else lookupRoutingTable (ri_vnet route) (net_dest route)
    end.

Definition escape_route_compute := outportEscapeVC.

(** ** The routing dispatcher (RoutingUnit.cc) *)

Section Routing.

(** The bodies of the direction-based and credit-aware algorithms are not
    needed for what is proved below; [outportComputeCar3D] scores its
    candidates in floating point.  They are parameters of the dispatcher. *)
Variable outportComputeXY : RouteInfo -> Z -> PortDirection -> M Router Z.
Variable outportComputeCar3D : RouteInfo -> Z -> PortDirection -> M Router Z.
Variable outportComputeAdaptive : RouteInfo -> Z -> PortDirection -> M Router Z.

(** [panic("%s placeholder executed", __FUNCTION__)] *)
Definition outportComputeCustom (route : RouteInfo) (inport : Z)
    (inport_dirn : PortDirection) : M Router Z := throw Panic.

Definition outportCompute (route : RouteInfo) (inport : Z)
    (inport_dirn : PortDirection) : M Router Z :=
  let* r := get in
  if dest_router route =? r_id r then
    lookupRoutingTable (ri_vnet route) (net_dest route)
  else
    let* outport :=
      match getRoutingAlgorithm (m_network_ptr r) with
      | TABLE_ => lookupRoutingTable (ri_vnet route) (net_dest route)
      | XY_ => outportComputeXY route inport inport_dirn
      | CUSTOM_ => outportComputeCustom route inport inport_dirn
      | CAR3D_ => outportComputeCar3D route inport inport_dirn
      | ADAPTIVE_ => outportComputeAdaptive route inport inport_dirn
      | _ => lookupRoutingTable (ri_vnet route) (net_dest route)
      end in
    let* _ := assert (negb (outport =? -1)) in
    ret outport.

Definition route_compute := outportCompute.

End Routing.

(** ** Input unit helpers used by the allocator (InputUnit.cc) *)

(** [virtualChannels[vc]] of the input unit at [inport]. *)
Definition getVC (inport vc : Z) : M Router VirtualChannel :=
  let* u := getInputUnit inport in
  lift (vget (virtualChannels u) vc).

Definition putVC (inport vc : Z) (c : VirtualChannel) : M Router unit :=
  let* u := getInputUnit inport in
  let* vcs := lift (vset (virtualChannels u) vc c) in
  putInputUnit inport (IU.set_virtualChannels vcs u).

Definition grant_outvc (inport vc outvc : Z) : M Router unit :=
  let* c := getVC inport vc in
  putVC inport vc (VC.set_outvc outvc c).

Definition grant_outport (inport vc outport : Z) : M Router unit :=
  let* c := getVC inport vc in
  putVC inport vc (VC.set_outport outport c).

Definition set_vc_idle (inport vc : Z) (t : Tick) : M Router unit :=
  let* c := getVC inport vc in
  putVC inport vc (VC.set_idle t c).

Definition set_vc_active (inport vc : Z) (t : Tick) : M Router unit :=
  let* c := getVC inport vc in
  putVC inport vc (VC.set_active t c).

(** [getTopFlit(vc)] removes the head of the VC's FIFO. *)
Definition getTopFlit (inport vc : Z) : M Router flit :=
  let* c := getVC inport vc in
  match inputBuffer c with
  | [] => throw Undefined
  | f :: rest =>
      let* _ := putVC inport vc (VC.set_buffer rest c) in
      ret f
  end.

(** [InputUnit::increment_credit]: one credit is put on the credit queue and
    the credit link is scheduled for the next clock edge. *)
Definition increment_credit (inport in_vc : Z) (free_signal : bool)
    (curTime : Tick) : M Router unit :=
  let* r := get in
  let* u := getInputUnit inport in
  putInputUnit inport
    (IU.set_credits (creditQueue u ++ [mkCredit in_vc free_signal curTime])
                    (m_credit_link u ++ [clockEdge 1 r]) u).

(** [Router::grant_switch]: the crossbar records the flit as the winner of
    its inport. *)
Definition grant_switch (inport : Z) (t_flit : flit) : M Router unit :=
  let* r := get in
  let* buf := lift (vget (crossbarSwitch r) inport) in
  let* bufs := lift (vset (crossbarSwitch r) inport (buf ++ [t_flit])) in
  put (R.set_crossbarSwitch bufs r).

(** ** The switch allocator (SwitchAllocator.cc) *)

Definition modify_sa (f : SwitchAllocator -> SwitchAllocator) : M Router unit :=
  modify (fun r => R.set_switchAllocator (f (switchAllocator r)) r).

Definition set_port_request (inport outport : Z) : M Router unit :=
  let* r := get in
  let sa := switchAllocator r in
  let* v := lift (vset (m_port_requests sa) inport outport) in
  put (R.set_switchAllocator
         (mkSwitchAllocator (m_round_robin_inport sa) (m_round_robin_invc sa) v
            (m_vc_winners sa) (m_is_escape_req sa) (m_input_arbiter_activity sa)
            (m_output_arbiter_activity sa)) r).

Definition set_vc_winner (inport invc : Z) : M Router unit :=
  let* r := get in
  let sa := switchAllocator r in
  let* v := lift (vset (m_vc_winners sa) inport invc) in
  put (R.set_switchAllocator
         (mkSwitchAllocator (m_round_robin_inport sa) (m_round_robin_invc sa)
            (m_port_requests sa) v (m_is_escape_req sa)
            (m_input_arbiter_activity sa) (m_output_arbiter_activity sa)) r).

Definition set_round_robin_inport (outport inport : Z) : M Router unit :=
  let* r := get in
  let sa := switchAllocator r in
  let* v := lift (vset (m_round_robin_inport sa) outport inport) in
  put (R.set_switchAllocator
         (mkSwitchAllocator v (m_round_robin_invc sa) (m_port_requests sa)
            (m_vc_winners sa) (m_is_escape_req sa) (m_input_arbiter_activity sa)
            (m_output_arbiter_activity sa)) r).

Definition set_round_robin_invc (inport invc : Z) : M Router unit :=
  let* r := get in
  let sa := switchAllocator r in
  let* v := lift (vset (m_round_robin_invc sa) inport invc) in
  put (R.set_switchAllocator
         (mkSwitchAllocator (m_round_robin_inport sa) v (m_port_requests sa)
            (m_vc_winners sa) (m_is_escape_req sa) (m_input_arbiter_activity sa)
            (m_output_arbiter_activity sa)) r).

Definition inc_input_arbiter_activity : M Router unit :=
  modify_sa (fun sa =>
    mkSwitchAllocator (m_round_robin_inport sa) (m_round_robin_invc sa)
      (m_port_requests sa) (m_vc_winners sa) (m_is_escape_req sa)
      (m_input_arbiter_activity sa + 1) (m_output_arbiter_activity sa)).

Definition inc_output_arbiter_activity : M Router unit :=
  modify_sa (fun sa =>
    mkSwitchAllocator (m_round_robin_inport sa) (m_round_robin_invc sa)
      (m_port_requests sa) (m_vc_winners sa) (m_is_escape_req sa)
      (m_input_arbiter_activity sa) (m_output_arbiter_activity sa + 1)).

(** [a / b] and [a % b] on C++ [int]: undefined for a zero divisor. *)
Definition int_div (a b : Z) : res Z := if b =? 0 then Err Undefined else Ok (Z.quot a b).
Definition int_mod (a b : Z) : res Z := if b =? 0 then Err Undefined else Ok (Z.rem a b).

(** [get_vnet]: the comparison with the unsigned number of vnets also fails
    for a negative quotient. *)
Definition get_vnet (invc : Z) : M Router Z :=
  let* r := get in
  let* vnet := lift (int_div invc (m_vc_per_vnet r)) in
  let* _ := assert ((0 <=? vnet) && (vnet <? m_virtual_networks r)) in
  ret vnet.

(** The loop of the ordering check of [send_allowed]: is there a VC among
    [temp_vcs] whose head is in stage SA now, that asks for [outport] and
    was enqueued before [t_enqueue_time]? *)
Fixpoint earlier_request (u : InputUnit) (outport : Z) (t_enqueue_time now : Tick)
    (temp_vcs : list Z) : res bool :=
  match temp_vcs with
  | [] => Ok false
  | temp_vc :: rest =>
      match vget (virtualChannels u) temp_vc with
      | Ok c =>
          if VC.need_stage SA_ now c
             && (m_output_port c =? outport)
             && (vc_enqueue_time c <? t_enqueue_time)
          then Ok true
          else earlier_request u outport t_enqueue_time now rest
      | Err e => Err e
      end
  end.

Definition send_allowed (inport invc outport outvc : Z)
    (is_escape_vc_enabled : bool) : M Router bool :=
  let* r := get in
  let* vnet := get_vnet invc in
  let has_outvc := negb (outvc =? -1) in
  let* output_unit := getOutputUnit outport in
  let* flags :=
    (if negb has_outvc then
       let* off := lift (int_mod invc (m_vc_per_vnet r)) in
       if is_escape_vc_enabled && (off =? 0) then
         if OU.has_free_escape_vc (m_vc_per_vnet r) vnet output_unit
         then ret (true, true) else ret (has_outvc, false)
       else
         if OU.has_free_vc (m_vc_per_vnet r) (Router_is_escape_vc_enabled r) vnet output_unit
         then ret (true, true) else ret (has_outvc, false)
     else ret (has_outvc, OU.has_credit outvc output_unit)) in
  let '(has_outvc, has_credit) := flags in
  if negb has_outvc || negb has_credit then ret false
  else if isVNetOrdered (m_network_ptr r) vnet then
    let* input_unit := getInputUnit inport in
    let* c := lift (vget (virtualChannels input_unit) invc) in
    let t_enqueue_time := vc_enqueue_time c in
    let vc_base := vnet * m_vc_per_vnet r in
    let* violated :=
      lift (earlier_request input_unit outport t_enqueue_time (curTick r)
              (zrange vc_base (Z.to_nat (m_vc_per_vnet r)))) in
    ret (negb violated)
  else ret true.

(** A counted loop over a list of index values. *)
Fixpoint for_each {St A : Type} (l : list A) (body : A -> M St unit) : M St unit :=
  match l with
  | [] => ret tt
  | a :: rest => let* _ := body a in for_each rest body
  end.

(** SA-I for one inport: the inner loop of [arbitrate_inports], [iters]
    iterations left, looking at [invc]. *)
Fixpoint arbitrate_inport (inport : Z) (iters : nat) (invc : Z) : M Router unit :=
  match iters with
  | O => ret tt
  | S k =>
      let* r := get in
      let* input_unit := getInputUnit inport in
      let* c := lift (vget (virtualChannels input_unit) invc) in
      let* won :=
        (if VC.need_stage SA_ (curTick r) c then
           let outport := m_output_port c in
           let outvc := m_output_vc c in
           let* make_request :=
             send_allowed inport invc outport outvc (Router_is_escape_vc_enabled r) in
           if make_request then
             let* _ := inc_input_arbiter_activity in
             let* _ := set_port_request inport outport in
             let* _ := set_vc_winner inport invc in
             ret true
           else ret false
         else ret false) in
      if won then ret tt
      else
        let invc := invc + 1 in
        let invc := if invc >=? get_num_vcs r then 0 else invc in
        arbitrate_inport inport k invc
  end.

Definition arbitrate_inports : M Router unit :=
  let* r := get in
  for_each (zrange 0 (Z.to_nat (get_num_inports r)))
    (fun inport =>
       let* r := get in
       let* invc := lift (vget (m_round_robin_invc (switchAllocator r)) inport) in
       arbitrate_inport inport (Z.to_nat (get_num_vcs r)) invc).

(** [vc_allocate]: a free VC of the output port for the winner. *)
Definition vc_allocate (outport inport invc : Z) : M Router Z :=
  let* r := get in
  let* off := lift (int_mod invc (m_vc_per_vnet r)) in
  let* outvc :=
    (if Router_is_escape_vc_enabled r && (off =? 0) then
       let* _ := assert false in ret (-1)
     else
       let* output_unit := getOutputUnit outport in
       let* vnet := get_vnet invc in
       let '(outvc, output_unit') :=
         OU.select_free_vc (m_vc_per_vnet r) (Router_is_escape_vc_enabled r)
           vnet output_unit in
       let* _ := putOutputUnit outport output_unit' in
       ret outvc) in
  let* _ := assert (negb (outvc =? -1)) in
  let* _ := grant_outvc inport invc outvc in
  ret outvc.

(** The test of the first pass of SA-II:
    [m_port_requests[inport] == outport && m_is_escape_req[inport]]. *)
Definition is_escape_requester (sa : SwitchAllocator) (outport inport : Z) : res bool :=
  match vget (m_port_requests sa) inport with
  | Ok p => if p =? outport then vget (m_is_escape_req sa) inport else Ok false
  | Err e => Err e
  end.

(** The test of the second pass: [m_port_requests[inport] == outport]. *)
Definition is_requester (sa : SwitchAllocator) (outport inport : Z) : res bool :=
  match vget (m_port_requests sa) inport with
  | Ok p => Ok (p =? outport)
  | Err e => Err e
  end.

(** [for (iter = 0, inport = start; iter < m_num_inports; iter++, inport++)
      { if (inport >= m_num_inports) inport = 0; if (test) { chosen = inport; break; } }]
    with [iters] iterations left; [-1] when no inport passes the test. *)
Fixpoint scan_inports (test : Z -> res bool) (num_inports : Z) (iters : nat)
    (inport : Z) : res Z :=
  match iters with
  | O => Ok (-1)
  | S k =>
      let inport := if inport >=? num_inports then 0 else inport in
      match test inport with
      | Ok true => Ok inport
      | Ok false => scan_inports test num_inports k (inport + 1)
      | Err e => Err e
      end
  end.

(** The two passes that pick the winner of [outport]. *)
Definition choose_inport (r : Router) (outport : Z) : res Z :=
  let sa := switchAllocator r in
  match vget (m_round_robin_inport sa) outport with
  | Ok start_inport =>
      match scan_inports (is_escape_requester sa outport) (get_num_inports r)
              (Z.to_nat (get_num_inports r)) start_inport with
      | Ok chosen_inport =>
          if chosen_inport =? -1 then
            scan_inports (is_requester sa outport) (get_num_inports r)
              (Z.to_nat (get_num_inports r)) start_inport
          else Ok chosen_inport
      | Err e => Err e
      end
  | Err e => Err e
  end.

(** What SA-II does once the winner has a downstream VC: the flit leaves the
    input VC, is stamped, costs a credit, goes to the crossbar, and a credit
    is sent upstream. *)
Definition grant_flit (outport inport invc outvc : Z) : M Router unit :=
  let* t_flit := getTopFlit inport invc in
  let t_flit := set_outport outport t_flit in
  let t_flit := set_vc outvc t_flit in
  let* output_unit := getOutputUnit outport in
  let* _ := putOutputUnit outport (OU.decrement_credit outvc output_unit) in
  let* r := get in
  let t_flit := advance_stage ST_ (curTick r) t_flit in
  let* _ := grant_switch inport t_flit in
  let* _ := inc_output_arbiter_activity in
  let* _ :=
    (if flit_type_eqb (m_type t_flit) TAIL_
        || flit_type_eqb (m_type t_flit) HEAD_TAIL_
     then
       let* c := getVC inport invc in
       let* _ := assert (negb (VC.isReady (curTick r) c)) in
       let* _ := set_vc_idle inport invc (curTick r) in
       increment_credit inport invc true (curTick r)
     else
       increment_credit inport invc false (curTick r)) in
  let* _ := set_port_request inport (-1) in
  let* _ := set_round_robin_inport outport
              (if inport + 1 >=? get_num_inports r then 0 else inport + 1) in
  set_round_robin_invc inport
    (if invc + 1 >=? get_num_vcs r then 0 else invc + 1).

(** SA-II for one outport: the body of the loop of [arbitrate_outports]. *)
Definition arbitrate_outport (outport : Z) : M Router unit :=
  let* r := get in
  let* chosen_inport := lift (choose_inport r outport) in
  if chosen_inport =? -1 then ret tt
  else
    let inport := chosen_inport in
    let* output_unit := getOutputUnit outport in
    let* input_unit := getInputUnit inport in
    let* invc := lift (vget (m_vc_winners (switchAllocator r)) inport) in
    let* c := lift (vget (virtualChannels input_unit) invc) in
    let outvc := m_output_vc c in
    let* granted :=
      (if outvc =? -1 then
         let* esc := lift (vget (m_is_escape_req (switchAllocator r)) inport) in
         if esc && Router_is_escape_vc_enabled r then
           let* vnet := get_vnet invc in
           let '(outvc, output_unit') :=
             OU.set_escape_vc (m_vc_per_vnet r) vnet output_unit in
           let* _ := putOutputUnit outport output_unit' in
           if outvc =? -1 then
             let* _ := set_port_request inport (-1) in
             ret None
           else
             let* _ := grant_outvc inport invc outvc in
             ret (Some outvc)
         else
           let* outvc := vc_allocate outport inport invc in
           ret (Some outvc)
       else ret (Some outvc)) in
    match granted with
    | None => ret tt
    | Some outvc => grant_flit outport inport invc outvc
    end.

Definition arbitrate_outports : M Router unit :=
  let* r := get in
  for_each (zrange 0 (Z.to_nat (get_num_outports r))) arbitrate_outport.

(** ** SPIN helpers of the input unit (InputUnit.cc) *)

Definition Local : PortDirection := "Local"%string.
Definition West : PortDirection := "West"%string.
Definition East : PortDirection := "East"%string.
Definition North : PortDirection := "North"%string.
Definition South : PortDirection := "South"%string.

Definition increment_stall (net : GarnetNetwork) (vc : Z) (u : InputUnit) : InputUnit :=
  if negb (isSpinSchemeEnabled net) then u
  else if negb (isEscapeVcEnabled net) then u
  else if (vc <? 0) || (vc >=? vsize (m_stall_count u)) then u
  else
    match vget (m_vc_frozen u) vc, vget (m_stall_count u) vc with
    | Ok frozen, Ok n =>
        if frozen then u
        else
          let u := IU.set_stall_count (<[Z.to_nat vc := n + 1]> (m_stall_count u)) u in
          let thresh := getSpinDdThreshold net in
          if (0 <? thresh) && (n + 1 >=? thresh)
          then IU.set_vc_frozen (<[Z.to_nat vc := true]> (m_vc_frozen u)) u
          else u
    | _, _ => u
    end.

Definition reset_stall (vc : Z) (u : InputUnit) : InputUnit :=
  if (vc <? 0) || (vc >=? vsize (m_stall_count u)) then u
  else IU.set_stall_count (<[Z.to_nat vc := 0]> (m_stall_count u)) u.

Definition freeze_vc (net : GarnetNetwork) (vc : Z) (u : InputUnit) : InputUnit :=
  if negb (isSpinSchemeEnabled net) then u
  else if (vc <? 0) || (vc >=? vsize (m_vc_frozen u)) then u
  else IU.set_vc_frozen (<[Z.to_nat vc := true]> (m_vc_frozen u)) u.

(** The [DPRINTF] of the frozen case has no effect on the state. *)
Definition thaw_vc (vc : Z) (u : InputUnit) : InputUnit :=
  if (vc <? 0) || (vc >=? vsize (m_vc_frozen u)) then u
  else
    let u := IU.set_vc_frozen (<[Z.to_nat vc := false]> (m_vc_frozen u)) u in
    reset_stall vc u.

Definition is_vc_frozen (vc : Z) (u : InputUnit) : bool :=
  if (vc <? 0) || (vc >=? vsize (m_vc_frozen u)) then false
  else match vget (m_vc_frozen u) vc with Ok b => b | Err _ => false end.

(** [getInputUnit(inport)->f(...)] for a method that changes the unit. *)
Definition on_input_unit (inport : Z) (f : InputUnit -> InputUnit) : M Router unit :=
  let* u := getInputUnit inport in
  putInputUnit inport (f u).

Definition verify_dependence_at_source (inport : Z) (t_flit : flit) : M Router bool :=
  let vc := m_source_vc t_flit in
  if vc <? 0 then ret false
  else
    let expected := peekPathTop t_flit in
    let* c := getVC inport vc in
    ret (m_output_port c =? expected).

Definition clear_fork_vector (inport : Z) : M Router unit :=
  on_input_unit inport
    (fun u => IU.set_fork_vector (map (fun _ => false) (m_fork_vector u)) u).

(** The loop of [create_fork_vector] over the VCs [vcs] of the vnet. *)
Fixpoint create_fork_vector_loop (inport : Z) (vcs : list Z) (any : bool)
    : M Router bool :=
  match vcs with
  | [] => ret any
  | i :: rest =>
      let* c := getVC inport i in
      if negb (VC_state_eqb (VC.get_state c) ACTIVE_) then ret false
      else
        let outp := m_output_port c in
        let* d := getOutportDirection outp in
        if String.eqb d Local then ret false
        else
          let* u := getInputUnit inport in
          let* fv := lift (vset (m_fork_vector u) outp true) in
          let* _ := putInputUnit inport (IU.set_fork_vector fv u) in
          create_fork_vector_loop inport rest true
  end.

Definition create_fork_vector (inport : Z) (t_flit : flit) : M Router bool :=
  let* r := get in
  let vnet := m_vnet t_flit in
  let* _ := clear_fork_vector inport in
  let base := vnet * m_vc_per_vnet r in
  create_fork_vector_loop inport (zrange base (Z.to_nat (m_vc_per_vnet r))) false.

(** The loop of [find_move_vc]. *)
Fixpoint find_move_vc_loop (inport outp : Z) (vcs : list Z) : M Router Z :=
  match vcs with
  | [] => ret (-1)
  | i :: rest =>
      let* c := getVC inport i in
      if negb (VC_state_eqb (VC.get_state c) ACTIVE_) then ret (-1)
      else
        let* d := getOutportDirection (m_output_port c) in
        if String.eqb d Local then ret (-1)
        else if (m_output_port c =? outp) && VC.containsHeadAndTail c then ret i
        else find_move_vc_loop inport outp rest
  end.

Definition find_move_vc (inport : Z) (t_flit : flit) : M Router Z :=
  let* r := get in
  let vnet := m_vnet t_flit in
  let base := vnet * m_vc_per_vnet r in
  let outp := peekPathTop t_flit in
  find_move_vc_loop inport outp (zrange base (Z.to_nat (m_vc_per_vnet r))).

(** ** SPIN state machine of the router (Router.cc) *)

Definition modify_spin (f : Spin -> Spin) : M Router unit :=
  modify (fun r => R.set_spin (f (spin r)) r).

Definition get_counter_state (r : Router) : Counter_state := state (m_counter (spin r)).
Definition get_loop_delay (r : Router) : Cycles := loop_delay (spin r).
Definition set_loop_delay (c : Cycles) : M Router unit := modify_spin (SP.set_loop_delay c).
Definition set_move_bit : M Router unit := modify_spin (SP.set_move true).
Definition reset_move_bit : M Router unit := modify_spin (SP.set_move false).
Definition get_move_bit (r : Router) : bool := m_move (spin r).
Definition set_kill_move_processed_this_cycle : M Router unit :=
  modify_spin (SP.set_kill_move_processed true).
Definition get_num_move_registry_entries (r : Router) : Z := vsize (move_registry (spin r)).

(** An [int] passed for an [unsigned] parameter. *)
Definition to_unsigned (z : Z) : Z := z mod 2 ^ 32.

Definition set_counter (input_port vc : Z) (st : Counter_state) (th : Z)
    : M Router unit :=
  let* r := get in
  let input_port := to_unsigned input_port in
  let vc := to_unsigned vc in
  let* vnet := lift (int_div vc (m_vc_per_vnet r)) in
  let new_thresh :=
    match st with
    | s_move | s_check_probe | s_forward_progress => curCycle r + get_loop_delay r
    | s_frozen => curCycle r + to_unsigned th
    | s_deadlock_detection => curCycle r + getSpinDdThreshold (m_network_ptr r)
    | s_off => INFINITE_
    end in
  let* _ := modify_spin (SP.set_counter (mkCounter input_port vc vnet 0 new_thresh st)) in
  if Counter_state_eqb st s_off then ret tt
  else
    let* _ := assert (0 <? new_thresh - curCycle r) in
    schedule_wakeup (new_thresh - curCycle r).

(** The first VC among [vcs] of the input unit [ip] that is ACTIVE with an
    outport that is not Local: the inner loops of [increment_counter_ptr]. *)
Fixpoint first_active_vc (ip : Z) (vcs : list Z) : M Router (option Z) :=
  match vcs with
  | [] => ret None
  | i :: rest =>
      let* c := getVC ip i in
      let t_outport := m_output_port c in
      let* hit :=
        (if VC_state_eqb (VC.get_state c) ACTIVE_ then
           let* d := getOutportDirection t_outport in
           ret (negb (String.eqb d Local))
         else ret false) in
      if hit then ret (Some i) else first_active_vc ip rest
  end.

(** The outer loops over inports, skipping the Local ones. *)
Fixpoint first_active_inport (ips : list Z) (num_vcs : Z) : M Router (option (Z * Z)) :=
  match ips with
  | [] => ret None
  | ip :: rest =>
      let* d := getInportDirection ip in
      if String.eqb d Local then first_active_inport rest num_vcs
      else
        let* hit := first_active_vc ip (zrange 0 (Z.to_nat num_vcs)) in
        match hit with
        | Some j => ret (Some (ip, j))
        | None => first_active_inport rest num_vcs
        end
  end.

Definition increment_counter_ptr : M Router unit :=
  let* r := get in
  let cur_inp := cptr_input_port (m_counter (spin r)) in
  let cur_vc := cptr_vc (m_counter (spin r)) in
  let num_vcs := get_num_vcs r in
  let* hit := first_active_vc cur_inp
                (zrange (cur_vc + 1) (Z.to_nat (num_vcs - (cur_vc + 1)))) in
  match hit with
  | Some i => set_counter cur_inp i s_deadlock_detection 0
  | None =>
      let* hit := first_active_inport
                    (zrange (cur_inp + 1)
                       (Z.to_nat (get_num_inports r - (cur_inp + 1)))) num_vcs in
      match hit with
      | Some (ip, j) => set_counter ip j s_deadlock_detection 0
      | None =>
          let* hit := first_active_inport
                        (zrange 0 (Z.to_nat (cur_inp + 1))) num_vcs in
          match hit with
          | Some (ip, j) => set_counter ip j s_deadlock_detection 0
          | None => set_counter cur_inp cur_vc s_off 0
          end
      end
  end.

Definition latch_path (f : flit) : M Router unit :=
  modify_spin (SP.set_path_buffer (mkPathBuffer (m_path f) true)).

Definition peek_path_top : M Router Z :=
  let* r := get in
  let* _ := assert (pb_valid (m_path_buffer (spin r))) in
  ret (match pb_path (m_path_buffer (spin r)) with [] => -1 | v :: _ => v end).

Definition invalidate_path_buffer : M Router unit :=
  modify_spin (SP.set_path_buffer (mkPathBuffer [] false)).

Definition latch_source_id_buffer (source_id move_id : Z) : M Router unit :=
  modify_spin (SP.set_source_id_buffer (mkSourceIdBuffer source_id move_id true)).

Definition invalidate_source_id_buffer : M Router unit :=
  modify_spin (SP.set_source_id_buffer (mkSourceIdBuffer (-1) (-1) false)).

Definition partial_check_source_id_buffer (source_id : Z) (r : Router) : bool :=
  if negb (sb_valid (m_source_id_buffer (spin r))) then false
  else sb_source_id (m_source_id_buffer (spin r)) =? source_id.

(** [if (m_latency > 1) schedule_wakeup(Cycles(m_latency - Cycles(1)));] *)
Definition wakeup_after_latency : M Router unit :=
  let* r := get in
  if 1 <? m_latency r then schedule_wakeup (m_latency r - 1) else ret tt.

(** The tick stamp of a control flit: [clockEdge(Cycles(1)) - Cycles(1)]. *)
Definition control_time (r : Router) : Tick := clockEdge 1 r - 1.

(** The latency of this router in ticks: [clockEdge(m_latency) - clockEdge(Cycles(0))]. *)
Definition latency_ticks (r : Router) : Tick := clockEdge (m_latency r) r - clockEdge 0 r.

Definition send_move_msg (inport vc : Z) : M Router Z :=
  let* r := get in
  let* vnet := lift (int_div (to_unsigned vc) (m_vc_per_vnet r)) in
  let move := new_control_flit (r_id r) inport vc vnet MOVE_ (control_time r)
                (pb_path (m_path_buffer (spin r))) in
  let ld := clockEdge (get_loop_delay r) r - clockEdge 0 r in
  let move := addDelay ld move in
  let move := addDelay ld move in
  let move := subDelay (latency_ticks r) move in
  let* _ := modify_spin (fun p => SP.set_moveQueue (moveQueue p ++ [move]) p) in
  let* _ := wakeup_after_latency in
  ret (m_id move).

(** The loop of [fork_probes] from outport [op] on. *)
Fixpoint fork_probes_from (t_flit : flit) (fork_vector : list bool) (op : Z)
    : M Router unit :=
  match fork_vector with
  | [] => ret tt
  | b :: rest =>
      let* _ :=
        (if negb b then ret tt
         else
           let* r := get in
           let path := m_path t_flit ++ [op] in
           let p := new_control_flit (m_source_id t_flit) (m_inport t_flit)
                      (m_source_vc t_flit) (m_vnet t_flit) PROBE_
                      (control_time r) path in
           let p := addDelay (m_delay t_flit) p in
           let p := subDelay (latency_ticks r) p in
           modify_spin (fun s => SP.set_probeQueue (probeQueue s ++ [p]) s)) in
      fork_probes_from t_flit rest (op + 1)
  end.

Definition fork_probes (t_flit : flit) (fork_vector : list bool) : M Router unit :=
  fork_probes_from t_flit fork_vector 0.

Definition send_kill_move (inport : Z) : M Router unit :=
  let* r := get in
  let kill := new_kill_move_flit (r_id r) (pb_path (m_path_buffer (spin r)))
                (control_time r) inport in
  let kill := setMustSend true kill in
  let* _ := modify_spin (fun s => SP.set_kill_moveQueue (kill_moveQueue s ++ [kill]) s) in
  wakeup_after_latency.

Definition forward_kill_move (kill_move : flit) : M Router unit :=
  let* r := get in
  let* popped := lift (getPathTop kill_move) in
  let '(outport, kill_move) := popped in
  let kill_move := set_outport outport kill_move in
  let kill_move := set_time (control_time r) kill_move in
  let* _ := modify_spin (fun s => SP.set_kill_moveQueue (kill_moveQueue s ++ [kill_move]) s) in
  wakeup_after_latency.

Definition forward_move (mv : flit) : M Router unit :=
  let* r := get in
  let mv := subDelay (latency_ticks r) mv in
  let* popped := lift (getPathTop mv) in
  let '(outport, mv) := popped in
  let mv := set_outport outport mv in
  let mv := set_time (control_time r) mv in
  let* _ := modify_spin (fun s => SP.set_moveQueue (moveQueue s ++ [mv]) s) in
  wakeup_after_latency.

Definition forward_check_probe (cp : flit) : M Router unit :=
  let* r := get in
  let cp := subDelay (latency_ticks r) cp in
  let* popped := lift (getPathTop cp) in
  let '(outport, cp) := popped in
  let cp := set_outport outport cp in
  let cp := set_time (control_time r) cp in
  let* _ := modify_spin (fun s => SP.set_check_probeQueue (check_probeQueue s ++ [cp]) s) in
  wakeup_after_latency.

Definition create_move_info_entry (inport vc outport : Z) : M Router unit :=
  let mi := mkMoveInfo inport vc outport (-1) false 0 in
  let* _ := modify_spin (fun s => SP.set_move_registry (move_registry s ++ [mi]) s) in
  let* r := get in
  on_input_unit inport (freeze_vc (m_network_ptr r) vc).

(** The registry with the VC of its first entry for [outport] replaced, and
    that entry as it was. *)
Fixpoint replace_entry_vc (outport vc : Z) (reg : list move_info)
    : option (move_info * list move_info) :=
  match reg with
  | [] => None
  | mi :: rest =>
      if mi_outport mi =? outport
      then Some (mi, mkMoveInfo (mi_inport mi) vc (mi_outport mi)
                       (vc_at_downstream_router mi) (tail_moved mi)
                       (cur_move_count mi) :: rest)
      else match replace_entry_vc outport vc rest with
           | Some (old, rest') => Some (old, mi :: rest')
           | None => None
           end
  end.

Definition update_move_info_entry (inport vc outport : Z) : M Router unit :=
  let* r := get in
  match replace_entry_vc outport vc (move_registry (spin r)) with
  | Some (mi, reg') =>
      let* _ := on_input_unit inport (thaw_vc (mi_vc mi)) in
      let* _ := modify_spin (SP.set_move_registry reg') in
      on_input_unit inport (freeze_vc (m_network_ptr r) vc)
  | None => ret tt
  end.

(** The registry without its first entry for [outport], and that entry. *)
Fixpoint remove_entry (outport : Z) (reg : list move_info)
    : option (move_info * list move_info) :=
  match reg with
  | [] => None
  | mi :: rest =>
      if mi_outport mi =? outport then Some (mi, rest)
      else match remove_entry outport rest with
           | Some (old, rest') => Some (old, mi :: rest')
           | None => None
           end
  end.

Definition invalidate_move_registry_entry (inport outport : Z) : M Router unit :=
  let* r := get in
  match remove_entry outport (move_registry (spin r)) with
  | Some (mi, reg') =>
      let* _ := on_input_unit inport (thaw_vc (mi_vc mi)) in
      modify_spin (SP.set_move_registry reg')
  | None => ret tt
  end.

Definition check_outport_entry_in_move_registry (outport : Z) (r : Router) : bool :=
  existsb (fun mi => mi_outport mi =? outport) (move_registry (spin r)).

Definition clear_move_registry : M Router unit :=
  let* r := get in
  let* _ := for_each (move_registry (spin r))
              (fun mi => on_input_unit (mi_inport mi) (thaw_vc (mi_vc mi))) in
  modify_spin (SP.set_move_registry []).

(** ** The wakeup of an input unit (InputUnit.cc) *)

Definition is_control_type (ft : flit_type) : bool :=
  match ft with
  | PROBE_ | MOVE_ | CHECK_PROBE_ | KILL_MOVE_ => true
  | _ => false
  end.

Definition inc_probes_dropped (inport : Z) : M Router unit :=
  on_input_unit inport (fun u =>
    IU.set_dropped (m_num_probes_dropped u + 1) (m_num_move_dropped u)
      (m_num_check_probe_dropped u) u).

Definition inc_move_dropped (inport : Z) : M Router unit :=
  on_input_unit inport (fun u =>
    IU.set_dropped (m_num_probes_dropped u) (m_num_move_dropped u + 1)
      (m_num_check_probe_dropped u) u).

Definition inc_check_probe_dropped (inport : Z) : M Router unit :=
  on_input_unit inport (fun u =>
    IU.set_dropped (m_num_probes_dropped u) (m_num_move_dropped u)
      (m_num_check_probe_dropped u + 1) u).

(** The id [m_id] of the input unit at index [inport]. *)
Definition unit_id (inport : Z) : M Router Z :=
  let* u := getInputUnit inport in ret (iu_id u).

(** A PROBE that came in at [inport]. *)
Definition wakeup_probe (inport : Z) (t_flit : flit) : M Router unit :=
  let* r := get in
  let* my_id := unit_id inport in
  if m_source_id t_flit =? r_id r then
    let* ok := verify_dependence_at_source inport t_flit in
    if ok then
      let* _ := set_loop_delay 1 in
      let* _ := latch_path t_flit in
      let* move_id := send_move_msg my_id (m_source_vc t_flit) in
      let* _ := latch_source_id_buffer (r_id r) move_id in
      let* top := peek_path_top in
      let* _ := create_move_info_entry my_id (m_source_vc t_flit) top in
      set_counter (m_source_inp_port t_flit) (m_source_vc t_flit) s_move 0
    else inc_probes_dropped inport
  else
    if getSpinMaxTurnCapacity (m_network_ptr r) <? getNumTurns t_flit then
      inc_probes_dropped inport
    else
      let* forked := create_fork_vector inport t_flit in
      let* _ :=
        (if forked then
           let* u := getInputUnit inport in
           fork_probes t_flit (m_fork_vector u)
         else inc_probes_dropped inport) in
      clear_fork_vector inport.

(** What the source does when a MOVE or a CHECK_PROBE that came back does
    not match. *)
Definition abort_move (my_id : Z) : M Router unit :=
  let* _ := send_kill_move my_id in
  let* _ := invalidate_path_buffer in
  let* _ := invalidate_source_id_buffer in
  let* _ := increment_counter_ptr in
  clear_move_registry.

(** A MOVE that came in at [inport]. *)
Definition wakeup_move (inport : Z) (t_flit : flit) : M Router unit :=
  let* r := get in
  let* my_id := unit_id inport in
  if m_source_id t_flit =? r_id r then
    let* ok := verify_dependence_at_source inport t_flit in
    if ok then
      let* _ := set_move_bit in
      set_counter my_id (m_source_vc t_flit) s_forward_progress 0
    else
      let* _ := abort_move my_id in
      inc_move_dropped inport
  else
    let cs := get_counter_state r in
    if negb (Counter_state_eqb cs s_deadlock_detection
             || Counter_state_eqb cs s_off
             || Counter_state_eqb cs s_frozen)
    then inc_move_dropped inport
    else if Counter_state_eqb cs s_frozen
            && negb (partial_check_source_id_buffer (m_source_id t_flit) r)
    then inc_move_dropped inport
    else if check_outport_entry_in_move_registry (peekPathTop t_flit) r
    then inc_move_dropped inport
    else
      let* mvc := find_move_vc inport t_flit in
      if negb (mvc =? -1) then
        let* _ := set_move_bit in
        let* _ := latch_source_id_buffer (m_source_id t_flit) (m_id t_flit) in
        let* _ := create_move_info_entry my_id mvc (peekPathTop t_flit) in
        let* _ := set_counter my_id mvc s_frozen 1 in
        forward_move t_flit
      else inc_move_dropped inport.

(** A CHECK_PROBE that came in at [inport]. *)
Definition wakeup_check_probe (inport : Z) (t_flit : flit) : M Router unit :=
  let* r := get in
  let* my_id := unit_id inport in
  if m_source_id t_flit =? r_id r then
    let* ok := verify_dependence_at_source inport t_flit in
    if ok then
      let* _ := set_move_bit in
      set_counter my_id (m_source_vc t_flit) s_forward_progress 0
    else
      let* _ := abort_move my_id in
      inc_check_probe_dropped inport
  else
    let* _ := assert (Counter_state_eqb (get_counter_state r) s_frozen) in
    let* _ := assert (partial_check_source_id_buffer (m_source_id t_flit) r) in
    let* mvc := find_move_vc inport t_flit in
    if negb (mvc =? -1) then
      let* _ := set_move_bit in
      let* _ := update_move_info_entry my_id mvc (peekPathTop t_flit) in
      let* _ := set_counter my_id mvc s_frozen 1 in
      forward_check_probe t_flit
    else inc_check_probe_dropped inport.

(** A KILL_MOVE that came in at [inport]. *)
Definition wakeup_kill_move (inport : Z) (t_flit : flit) : M Router unit :=
  let* r := get in
  let* my_id := unit_id inport in
  if m_source_id t_flit =? r_id r then ret tt
  else
    let* t_flit :=
      (if partial_check_source_id_buffer (m_source_id t_flit) r then
         let t_flit := setMustSend true t_flit in
         let* _ := set_kill_move_processed_this_cycle in
         let* _ :=
           (if get_num_move_registry_entries r =? 1 then
              let* _ := reset_move_bit in
              let* _ := increment_counter_ptr in
              let* _ := invalidate_source_id_buffer in
              clear_move_registry
            else invalidate_move_registry_entry my_id (peekPathTop t_flit)) in
         ret t_flit
       else ret (setMustSend false t_flit)) in
    forward_kill_move t_flit.

Section Wakeup.

Variable outportComputeXY : RouteInfo -> Z -> PortDirection -> M Router Z.
Variable outportComputeCar3D : RouteInfo -> Z -> PortDirection -> M Router Z.
Variable outportComputeAdaptive : RouteInfo -> Z -> PortDirection -> M Router Z.

(** The data path: a HEAD or HEAD_TAIL takes an IDLE VC and is routed; every
    flit is buffered and marked for switch allocation.  The flit is stamped
    with its stage before it is put in the VC; the source stamps the
    buffered object right after inserting it. *)
Definition wakeup_data (inport : Z) (t_flit : flit) : M Router unit :=
  let* r := get in
  let* u := getInputUnit inport in
  let vc := m_vc t_flit in
  let* _ :=
    (if flit_type_eqb (m_type t_flit) HEAD_
        || flit_type_eqb (m_type t_flit) HEAD_TAIL_
     then
       let* c := getVC inport vc in
       let* _ := assert (VC_state_eqb (VC.get_state c) IDLE_) in
       let* _ := set_vc_active inport vc (curTick r) in
       let* outport :=
         route_compute outportComputeXY outportComputeCar3D outportComputeAdaptive
           (m_route t_flit) (iu_id u) (m_direction u) in
       let* _ := grant_outport inport vc outport in
       let* r1 := get in
       if spin_scheme_enabled r1
          && Counter_state_eqb (get_counter_state r1) s_off
          && negb (String.eqb (m_direction u) Local)
       then
         let* d := getOutportDirection outport in
         if negb (String.eqb d Local)
         then set_counter (iu_id u) vc s_deadlock_detection 0
         else ret tt
       else ret tt
     else
       let* c := getVC inport vc in
       assert (VC_state_eqb (VC.get_state c) ACTIVE_)) in
  let pipe_stages := m_latency r in
  let staged :=
    if pipe_stages =? 1 then advance_stage SA_ (curTick r) t_flit
    else advance_stage SA_ (clockEdge (pipe_stages - 1) r) t_flit in
  let* c := getVC inport vc in
  let* _ := putVC inport vc (VC.insertFlit staged c) in
  let* vnet := lift (int_div vc (m_vc_per_vnet r)) in
  let* u := getInputUnit inport in
  let* wr := lift (vget (m_num_buffer_writes u) vnet) in
  let* rd := lift (vget (m_num_buffer_reads u) vnet) in
  let* _ := putInputUnit inport
              (IU.set_buffer_activity
                 (<[Z.to_nat vnet := rd + 1]> (m_num_buffer_reads u))
                 (<[Z.to_nat vnet := wr + 1]> (m_num_buffer_writes u)) u) in
  let* _ :=
    (if pipe_stages =? 1 then ret tt
     else
       let* _ := assert (1 <? pipe_stages) in
       schedule_wakeup (pipe_stages - 1)) in
  let* u := getInputUnit inport in
  match m_in_link u with
  | next :: _ => if m_time next <=? curTick r then schedule_wakeup 1 else ret tt
  | [] => ret tt
  end.

(** [InputUnit::wakeup] of the unit at [inport]: the link is ready when the
    flit at its head is due. *)
Definition wakeup (inport : Z) : M Router unit :=
  let* r := get in
  let* u := getInputUnit inport in
  match m_in_link u with
  | [] => ret tt
  | t_flit :: rest =>
      if negb (m_time t_flit <=? curTick r) then ret tt
      else
        let* _ := putInputUnit inport (IU.set_in_link rest u) in
        let* _ := assert (m_width t_flit =? m_bit_width r) in
        let t_flit := increment_hops t_flit in
        if spin_scheme_enabled r && is_control_type (m_type t_flit) then
          let t_flit := setInport (r_id r) t_flit in
          match m_type t_flit with
          | PROBE_ => wakeup_probe inport t_flit
          | MOVE_ => wakeup_move inport t_flit
          | CHECK_PROBE_ => wakeup_check_probe inport t_flit
          | _ => wakeup_kill_move inport t_flit
          end
        else wakeup_data inport t_flit
  end.

End Wakeup.

(** ** A small router to run the model on *)

(** Two vnets of two VCs; vnet 0 is ordered.  Outport 0 is Local, 1 goes
    East, 2 goes North; inport 0 is Local, 1 comes from the West, 2 from the
    South.  Router 0 of a 2x2 mesh. *)
Definition ex_network : GarnetNetwork :=
  mkNetwork TABLE_ false true 16 8 (fun vnet => vnet =? 0) 2 2
    (fun id => id) (fun id => id + 1).

Definition ex_routingUnit : RoutingUnit :=
  mkRoutingUnit
    [ [ [0]; [1; 3]; [2; 3] ]; [ [0]; [1; 3]; [2; 3] ] ]
    [1; 1; 1] (-1) [].

Definition ex_idle_vc : VirtualChannel := mkVC (IDLE_, 0) [] (-1) (-1) 0.

Definition ex_input_unit (id : Z) (dir : PortDirection) : InputUnit :=
  mkInputUnit id dir [ex_idle_vc; ex_idle_vc; ex_idle_vc; ex_idle_vc]
    [0; 0; 0; 0] [false; false; false; false] [false; false; false]
    [] [] [] [0; 0] [0; 0] 0 0 0.

Definition ex_output_unit (dir : PortDirection) : OutputUnit :=
  mkOutputUnit dir
    [mkOutVc IDLE_ 4; mkOutVc IDLE_ 4; mkOutVc IDLE_ 4; mkOutVc IDLE_ 4].

Definition ex_switchAllocator : SwitchAllocator :=
  mkSwitchAllocator [0; 0; 0] [0; 0; 0] [-1; -1; -1] [-1; -1; -1]
    [false; false; false] 0 0.

Definition ex_spin : Spin :=
  mkSpin (mkCounter 0 0 0 0 0 s_off) (mkPathBuffer [] false)
    (mkSourceIdBuffer (-1) (-1) false) false 0 [] [] [] [] false false [].

Definition ex_rand : ProcessRand := mkRand (fun n => N.of_nat n) 0.

Definition ex_router : Router :=
  mkRouter 0 1 2 2 128 ex_network ex_routingUnit ex_switchAllocator
    [[]; []; []]
    [ex_input_unit 0 Local; ex_input_unit 1 West; ex_input_unit 2 South]
    [ex_output_unit Local; ex_output_unit East; ex_output_unit North]
    0 0 ex_spin 1000 500 [] ex_rand.

(** The same router under another network configuration. *)
Definition with_network (n : GarnetNetwork) (r : Router) : Router :=
  mkRouter (r_id r) (m_latency r) (m_virtual_networks r) (m_vc_per_vnet r)
    (m_bit_width r) n (routingUnit r) (switchAllocator r) (crossbarSwitch r)
    (m_input_unit r) (m_output_unit r) (m_ugal_min_choices r)
    (m_ugal_nonmin_choices r) (spin r) (curTick r) (clockPeriod r)
    (scheduled_wakeups r) (process_rand r).

Definition with_routingUnit (u : RoutingUnit) (r : Router) : Router :=
  mkRouter (r_id r) (m_latency r) (m_virtual_networks r) (m_vc_per_vnet r)
    (m_bit_width r) (m_network_ptr r) u (switchAllocator r) (crossbarSwitch r)
    (m_input_unit r) (m_output_unit r) (m_ugal_min_choices r)
    (m_ugal_nonmin_choices r) (spin r) (curTick r) (clockPeriod r)
    (scheduled_wakeups r) (process_rand r).

(** A data flit of the given type, ready for switch allocation at tick [t]. *)
Definition ex_flit (ty : flit_type) (vnet vc dest : Z) (t : Tick) : flit :=
  mkFlit 128 7 0 vnet vc (mkRouteInfo vnet [dest] 0 0 dest dest 1) 1 t t t ty
    (-1) 0 (SA_, t) false false (-1) (-1) (-1) (-1) [] 0.

(** The value a run returns, without the final state. *)
Definition result_of {A : Type} (x : res (A * Router)) : res A :=
  match x with
  | Ok (a, _) => Ok a
  | Err e => Err e
  end.

(** * More of the router code *)

(** ** Flit ordering (flit.hh) *)

(** [static bool greater(flit* n1, flit* n2)]: the order of the flit
    heaps, by time and then by id. *)
Definition greater (n1 n2 : flit) : bool :=
  if m_time n1 =? m_time n2 then m_id n2 <? m_id n1
  else m_time n2 <? m_time n1.

(** ** Building the routing table (RoutingUnit.cc) *)

(** The loop of [addRoute]: [m_routing_table[v].push_back(routing_table_entry[v])]
    for [v] from the index of the first entry of [entry] on. *)
Fixpoint addRoute_loop (entry : list NetDest) (v : Z)
    (table : list (list NetDest)) : res (list (list NetDest)) :=
  match entry with
  | [] => Ok table
  | e :: rest =>
      match vget table v with
      | Ok row =>
          match vset table v (row ++ [e]) with
          | Ok table' => addRoute_loop rest (v + 1) table'
          | Err x => Err x
          end
      | Err x => Err x
      end
  end.

(** [addRoute]: the table is resized to the vnets of the entry when it has
    fewer, then every vnet of the entry gets its set as one more link. *)
Definition addRoute (routing_table_entry : list NetDest) (ru : RoutingUnit)
    : res RoutingUnit :=
  let table := m_routing_table ru in
  let table :=
    if vsize table <? vsize routing_table_entry
    then table ++ repeat [] (length routing_table_entry - length table)
    else table in
  match addRoute_loop routing_table_entry 0 table with
  | Ok table' =>
      Ok (mkRoutingUnit table' (m_weight_table ru) (m_parentOutport ru)
            (m_children ru))
  | Err x => Err x
  end.

Definition addWeight (link_weight : Z) (ru : RoutingUnit) : RoutingUnit :=
  mkRoutingUnit (m_routing_table ru) (m_weight_table ru ++ [link_weight])
    (m_parentOutport ru) (m_children ru).

(** ** Port directions of the routing unit (RoutingUnit.cc, RoutingUnit.hh) *)

(** The four [std::map]s between port directions and port indices.  They
    are members of [RoutingUnit]; table routing and escape routing never
    read them, and they are kept in a record of their own. *)
Record Directions : Type := mkDirections {
  m_inports_dirn2idx : gmap PortDirection Z;
  m_inports_idx2dirn : gmap Z PortDirection;
  m_outports_idx2dirn : gmap Z PortDirection;
  m_outports_dirn2idx : gmap PortDirection Z
}.

Definition addInDirection (inport_dirn : PortDirection) (inport_idx : Z)
    (ds : Directions) : Directions :=
  mkDirections (<[inport_dirn := inport_idx]> (m_inports_dirn2idx ds))
    (<[inport_idx := inport_dirn]> (m_inports_idx2dirn ds))
    (m_outports_idx2dirn ds) (m_outports_dirn2idx ds).

Definition addOutDirection (outport_dirn : PortDirection) (outport_idx : Z)
    (ds : Directions) : Directions :=
  mkDirections (m_inports_dirn2idx ds) (m_inports_idx2dirn ds)
    (<[outport_idx := outport_dirn]> (m_outports_idx2dirn ds))
    (<[outport_dirn := outport_idx]> (m_outports_dirn2idx ds)).

(** [outportIndex]: [-1] for a direction that has no outport. *)
Definition outportIndex (dir : PortDirection) (ds : Directions) : Z :=
  match m_outports_dirn2idx ds !! dir with
  | Some i => i
  | None => -1
  end.

(** [getDirection]: ["INVALID"] for an index that has no direction. *)
Definition getDirection (idx : Z) (ds : Directions) : PortDirection :=
  match m_outports_idx2dirn ds !! idx with
  | Some d => d
  | None => "INVALID"%string
  end.

(** [m_outports_dirn2idx[outport_dirn]] read through [operator[]] of a map
    that is not const: a direction that is not a key is inserted with the
    value [int()], which is 0. *)
Definition outports_dirn2idx_at (outport_dirn : PortDirection) : M Directions Z :=
  let* ds := get in
  match m_outports_dirn2idx ds !! outport_dirn with
  | Some i => ret i
  | None =>
      let* _ := put (mkDirections (m_inports_dirn2idx ds) (m_inports_idx2dirn ds)
                       (m_outports_idx2dirn ds)
                       (<[outport_dirn := 0]> (m_outports_dirn2idx ds))) in
      ret 0
  end.

(** [outportComputeXY] of the router [r], which it only reads: the state it
    runs on is the direction maps.  [%] and [/] on [int] truncate towards
    zero. *)
Definition outportComputeXY (r : Router) (route : RouteInfo) (inport : Z)
    (inport_dirn : PortDirection) : M Directions Z :=
  let num_rows := getNumRows (m_network_ptr r) in
  let num_cols := getNumCols (m_network_ptr r) in
  let* _ := assert ((0 <? num_rows) && (0 <? num_cols)) in
  let my_id := r_id r in
  let my_x := Z.rem my_id num_cols in
  let my_y := Z.quot my_id num_cols in
  let dest_id := dest_router route in
  let dest_x := Z.rem dest_id num_cols in
  let dest_y := Z.quot dest_id num_cols in
  let x_hops := Z.abs (dest_x - my_x) in
  let y_hops := Z.abs (dest_y - my_y) in
  let x_dirn := dest_x >=? my_x in
  let y_dirn := dest_y >=? my_y in
  let* _ := assert (negb ((x_hops =? 0) && (y_hops =? 0))) in
  let* outport_dirn :=
    (if 0 <? x_hops then
       if x_dirn then
         let* _ := assert (String.eqb inport_dirn Local
                           || String.eqb inport_dirn West) in
         ret East
       else
         let* _ := assert (String.eqb inport_dirn Local
                           || String.eqb inport_dirn East) in
         ret West
     else if 0 <? y_hops then
       if y_dirn then
         let* _ := assert (negb (String.eqb inport_dirn North)) in
         ret North
       else
         let* _ := assert (negb (String.eqb inport_dirn South)) in
         ret South
     else throw Panic) in
  outports_dirn2idx_at outport_dirn.

(** ** More of the SPIN state machine (Router.hh, Router.cc) *)

Definition set_start_move : M Router unit := modify_spin (SP.set_start_move true).
Definition reset_start_move : M Router unit := modify_spin (SP.set_start_move false).
Definition get_start_move (r : Router) : bool := start_move (spin r).

Definition check_source_id_buffer (source_id move_id : Z) (r : Router) : bool :=
  if negb (sb_valid (m_source_id_buffer (spin r))) then false
  else (sb_source_id (m_source_id_buffer (spin r)) =? source_id)
       && (sb_move_id (m_source_id_buffer (spin r)) =? move_id).

(** [send_probe]: a probe for the VC the counter points at, whose path is
    the outport of that VC. *)
Definition send_probe : M Router unit :=
  let* r := get in
  let inport := cptr_input_port (m_counter (spin r)) in
  let vc := cptr_vc (m_counter (spin r)) in
  let* vnet := lift (int_div (to_unsigned vc) (m_vc_per_vnet r)) in
  let* c := getVC inport vc in
  let p := [m_output_port c] in
  let probe := new_control_flit (r_id r) inport vc vnet PROBE_ (control_time r) p in
  let ld := clockEdge (get_loop_delay r) r - clockEdge 0 r in
  let probe := addDelay ld probe in
  let probe := addDelay ld probe in
  let probe := subDelay (latency_ticks r) probe in
  let* _ := modify_spin (fun s => SP.set_probeQueue (probeQueue s ++ [probe]) s) in
  wakeup_after_latency.

Definition send_check_probe (inport vc : Z) : M Router unit :=
  let* r := get in
  let* vnet := lift (int_div (to_unsigned vc) (m_vc_per_vnet r)) in
  let cp := new_control_flit (r_id r) inport vc vnet CHECK_PROBE_ (control_time r)
              (pb_path (m_path_buffer (spin r))) in
  let ld := clockEdge (get_loop_delay r) r - clockEdge 0 r in
  let cp := addDelay ld cp in
  let cp := addDelay ld cp in
  let cp := subDelay (latency_ticks r) cp in
  let* _ := modify_spin (fun s => SP.set_check_probeQueue (check_probeQueue s ++ [cp]) s) in
  wakeup_after_latency.

(** [check_counter_timeout]: what the router does when the counter has
    reached its threshold. *)
Definition check_counter_timeout : M Router unit :=
  let* r := get in
  let c := m_counter (spin r) in
  if Counter_state_eqb (state c) s_off then ret tt
  else if curCycle r <? thresh c then ret tt
  else
    match state c with
    | s_deadlock_detection =>
        let* _ := send_probe in
        increment_counter_ptr
    | s_move | s_check_probe =>
        let* _ := send_kill_move (cptr_input_port c) in
        let* _ := invalidate_path_buffer in
        let* _ := invalidate_source_id_buffer in
        let* _ := clear_move_registry in
        increment_counter_ptr
    | s_frozen | s_forward_progress =>
        if get_move_bit r then set_start_move else ret tt
    | s_off => ret tt
    end.

(** The registry with [vc_at_downstream_router] of its first entry for
    [outport] set to [vc]. *)
Fixpoint set_downstream_vc (vc outport : Z) (reg : list move_info) : list move_info :=
  match reg with
  | [] => []
  | mi :: rest =>
      if mi_outport mi =? outport
      then mkMoveInfo (mi_inport mi) (mi_vc mi) (mi_outport mi) vc
             (tail_moved mi) (cur_move_count mi) :: rest
      else mi :: set_downstream_vc vc outport rest
  end.

Definition update_move_vc_at_downstream_router (vc outport : Z) : M Router unit :=
  modify_spin (fun s =>
    SP.set_move_registry (set_downstream_vc vc outport (move_registry s)) s).

Definition invalidate_move_vcs : M Router unit :=
  modify_spin (fun s =>
    SP.set_move_registry
      (map (fun mi => mkMoveInfo (mi_inport mi) (mi_vc mi) (mi_outport mi)
                        (-1) false 0)
           (move_registry s)) s).

(** [move_complete]: after a complete move the source starts a check
    probe; every other router forgets how far its moves had come. *)
Definition move_complete : M Router unit :=
  let* _ := reset_start_move in
  let* _ := reset_move_bit in
  let* r := get in
  if Counter_state_eqb (get_counter_state r) s_forward_progress then
    let* _ := assert (vsize (move_registry (spin r)) =? 1) in
    let* mi := lift (vget (move_registry (spin r)) 0) in
    let* _ := assert (mi_inport mi =? cptr_input_port (m_counter (spin r))) in
    let* _ := assert (mi_vc mi =? cptr_vc (m_counter (spin r))) in
    let* _ := send_check_probe (cptr_input_port (m_counter (spin r)))
                (cptr_vc (m_counter (spin r))) in
    let* r1 := get in
    let* _ := set_counter (cptr_input_port (m_counter (spin r1)))
                (cptr_vc (m_counter (spin r1))) s_check_probe 0 in
    let* _ := clear_move_registry in
    let* r2 := get in
    let* top := peek_path_top in
    create_move_info_entry (cptr_input_port (m_counter (spin r2)))
      (cptr_vc (m_counter (spin r2))) top
  else invalidate_move_vcs.

(** ** More of the switch allocator (SwitchAllocator.cc) *)

(** [SwitchAllocator::init]: every vector is resized to the ports of the
    router and every element is assigned. *)
Definition SwitchAllocator_init : M Router unit :=
  let* r := get in
  let m_num_inports := Z.to_nat (get_num_inports r) in
  let m_num_outports := Z.to_nat (get_num_outports r) in
  modify_sa (fun sa =>
    mkSwitchAllocator (repeat 0 m_num_outports) (repeat 0 m_num_inports)
      (repeat (-1) m_num_inports) (repeat (-1) m_num_inports)
      (repeat false m_num_inports)
      (m_input_arbiter_activity sa) (m_output_arbiter_activity sa)).

(** [clear_request_vector]: the two [std::fill]s at the end of SA-II. *)
Definition clear_request_vector : M Router unit :=
  modify_sa (fun sa =>
    mkSwitchAllocator (m_round_robin_inport sa) (m_round_robin_invc sa)
      (map (fun _ => -1) (m_port_requests sa)) (m_vc_winners sa)
      (map (fun _ => false) (m_is_escape_req sa))
      (m_input_arbiter_activity sa) (m_output_arbiter_activity sa)).

Definition set_is_escape_req (inport : Z) (b : bool) : M Router unit :=
  let* r := get in
  let sa := switchAllocator r in
  let* v := lift (vset (m_is_escape_req sa) inport b) in
  put (R.set_switchAllocator
         (mkSwitchAllocator (m_round_robin_inport sa) (m_round_robin_invc sa)
            (m_port_requests sa) (m_vc_winners sa) v
            (m_input_arbiter_activity sa) (m_output_arbiter_activity sa)) r).

(** [peekTopFlit(vc)]: the head of the VC's FIFO; it stays there. *)
Definition peekTopFlit (inport vc : Z) : M Router flit :=
  let* c := getVC inport vc in
  match inputBuffer c with
  | [] => throw Undefined
  | f :: _ => ret f
  end.

(** The first loop of [arbitrate_inports_escape] for one inport,
    [for (invc = 0; invc < m_num_vcs; invc += m_vc_per_vnet)] with [iters]
    iterations left: the first escape VC whose head flit is in stage SA and
    may be sent on the escape route wins. *)
Fixpoint escape_vcs_first (inport : Z) (iters : nat) (invc : Z) : M Router bool :=
  match iters with
  | O => ret false
  | S k =>
      let* r := get in
      if invc >=? get_num_vcs r then ret false
      else
        let* input_unit := getInputUnit inport in
        let* c := lift (vget (virtualChannels input_unit) invc) in
        if negb (VC.need_stage SA_ (curTick r) c)
        then escape_vcs_first inport k (invc + m_vc_per_vnet r)
        else
          let* inDir_esp := getInportDirection inport in
          let* f_esp := peekTopFlit inport invc in
          let r_esp := m_route f_esp in
          let* esc_outport := escape_route_compute r_esp inport inDir_esp in
          let* make_request := send_allowed inport invc esc_outport (-1) true in
          if make_request then
            let* _ := inc_input_arbiter_activity in
            let* _ := set_port_request inport esc_outport in
            let* _ := set_vc_winner inport invc in
            let* _ := set_is_escape_req inport true in
            ret true
          else escape_vcs_first inport k (invc + m_vc_per_vnet r)
  end.

(** The second loop, [iters] iterations left, looking at [invc]: round
    robin over the VCs that are not escape VCs, with the escape route as a
    fallback for a head flit that finds no free downstream VC. *)
Fixpoint other_vcs_round_robin (inport : Z) (iters : nat) (invc : Z)
    : M Router unit :=
  match iters with
  | O => ret tt
  | S k =>
      let* r := get in
      let invc := if invc >=? get_num_vcs r then 0 else invc in
      let* off := lift (int_mod invc (m_vc_per_vnet r)) in
      if off =? 0 then other_vcs_round_robin inport k (invc + 1)
      else
        let* input_unit := getInputUnit inport in
        let* c := lift (vget (virtualChannels input_unit) invc) in
        let* picked :=
          (if VC.need_stage SA_ (curTick r) c then
             let outport := m_output_port c in
             let outvc := m_output_vc c in
             let* make_request :=
               send_allowed inport invc outport outvc
                 (Router_is_escape_vc_enabled r) in
             let* fallback :=
               (if negb make_request && Router_is_escape_vc_enabled r
                   && (outvc =? -1)
                then
                  let* vnet := get_vnet invc in
                  let* inDir := getInportDirection inport in
                  let* f := peekTopFlit inport invc in
                  let rt := m_route f in
                  let* esc_outport := escape_route_compute rt inport inDir in
                  let* outU := getOutputUnit esc_outport in
                  let esc_vc := vnet * m_vc_per_vnet r + 0 in
                  if OU.is_vc_idle esc_vc outU then
                    let* _ := set_is_escape_req inport true in
                    let* _ := set_port_request inport esc_outport in
                    let* _ := set_vc_winner inport invc in
                    ret true
                  else ret false
                else ret false) in
             if fallback then ret true
             else if make_request then
               let* _ := inc_input_arbiter_activity in
               let* _ := set_port_request inport outport in
               let* _ := set_vc_winner inport invc in
               ret true
             else ret false
           else ret false) in
        if picked then ret tt
        else other_vcs_round_robin inport k (invc + 1)
  end.

(** SA-I in escape mode for one inport. *)
Definition arbitrate_inport_escape (inport : Z) : M Router unit :=
  let* r := get in
  let* picked :=
    (if Router_is_escape_vc_enabled r then
       escape_vcs_first inport (Z.to_nat (get_num_vcs r)) 0
     else ret false) in
  if picked then ret tt
  else
    let* start := lift (vget (m_round_robin_invc (switchAllocator r)) inport) in
    let* off := lift (int_mod start (m_vc_per_vnet r)) in
    let start := if off =? 0 then start + 1 else start in
    other_vcs_round_robin inport (Z.to_nat (get_num_vcs r)) start.

Definition arbitrate_inports_escape : M Router unit :=
  let* r := get in
  for_each (zrange 0 (Z.to_nat (get_num_inports r))) arbitrate_inport_escape.

(** ** Building the ports of a router (InputUnit.cc, Router.cc) *)

(** Modelled from the spec: the [VirtualChannel] that the default
    constructor makes (VirtualChannel.cc is not among the sources).  By
    section 3 it is IDLE with an empty FIFO, and has no outport and no
    downstream VC yet. *)
Definition VirtualChannel_new : VirtualChannel := mkVC (IDLE_, 0) [] (-1) (-1) 0.

(** [InputUnit::InputUnit(id, direction, router)].  The fork vector gets
    the size of [m_router->get_num_outports()] as it is when the unit is
    built.  A size below zero makes [resize], [reserve] or [assign] throw
    [std::length_error], which nothing catches; the drop counters start at
    0 (their initialisers are in InputUnit.hh, not among the sources). *)
Definition InputUnit_new (id : Z) (direction : PortDirection) (r : Router)
    : res InputUnit :=
  let m_num_vcs := get_num_vcs r in
  match int_div m_num_vcs (m_vc_per_vnet r) with
  | Ok n =>
      if (n <? 0) || (m_num_vcs <? 0) then Err Panic
      else
        Ok (mkInputUnit id direction
              (repeat VirtualChannel_new (Z.to_nat m_num_vcs))
              (repeat 0 (Z.to_nat m_num_vcs))
              (repeat false (Z.to_nat m_num_vcs))
              (repeat false (Z.to_nat (get_num_outports r)))
              [] [] []
              (repeat 0 (Z.to_nat n)) (repeat 0 (Z.to_nat n)) 0 0 0)
  | Err e => Err e
  end.

(** [Router::addInPort]: the unit is built with the outports the router
    has at that moment and is put behind the other input units.  The link
    is given by its bit width and by what is on it and on its credit link;
    the direction maps are those of the routing unit. *)
Definition addInPort (inport_dirn : PortDirection) (in_link_bitWidth : Z)
    (in_link : list flit) (credit_link : list Tick)
    : M (Router * Directions) unit :=
  let* s := get in
  let r := fst s in
  if negb (in_link_bitWidth =? m_bit_width r) then throw Fatal
  else
    let port_num := get_num_inports r in
    let* input_unit := lift (InputUnit_new port_num inport_dirn r) in
    let input_unit := IU.set_in_link in_link input_unit in
    let input_unit := IU.set_credits (creditQueue input_unit) credit_link input_unit in
    put (R.set_input_unit (m_input_unit r ++ [input_unit]) r,
         addInDirection inport_dirn port_num (snd s)).

(** [Router::addOutPort].  Modelled from the spec: the [OutputUnit] that
    [new OutputUnit(port_num, outport_dirn, this, consumerVcs)] makes
    (OutputUnit.cc is not among the sources) has the direction given and
    one state per downstream VC, [out_vcs].  No input unit is touched: the
    fork vectors of the units built so far keep their size. *)
Definition addOutPort (outport_dirn : PortDirection) (out_link_bitWidth : Z)
    (routing_table_entry : list NetDest) (link_weight : Z)
    (out_vcs : list OutVcState) : M (Router * Directions) unit :=
  let* s := get in
  let r := fst s in
  if negb (out_link_bitWidth =? m_bit_width r) then throw Fatal
  else
    let port_num := get_num_outports r in
    let output_unit := mkOutputUnit outport_dirn out_vcs in
    let r := R.set_output_unit (m_output_unit r ++ [output_unit]) r in
    let* ru := lift (addRoute routing_table_entry (routingUnit r)) in
    put (with_routingUnit (addWeight link_weight ru) r,
         addOutDirection outport_dirn port_num (snd s)).

(** * Vocabulary of the properties and example states *)

(** Link [link] of vnet [vnet] leads to [dest] and has weight [w]. *)
Definition reaches (ru : RoutingUnit) (vnet : Z) (dest : NetDest) (link w : Z) : Prop :=
  exists entries e,
    vget (m_routing_table ru) vnet = Ok entries
    /\ vget entries link = Ok e
    /\ intersectionIsNotEmpty dest e = true
    /\ vget (m_weight_table ru) link = Ok w.

(** [link] is a candidate of minimum weight. *)
Definition min_weight_candidate (ru : RoutingUnit) (vnet : Z) (dest : NetDest)
    (link : Z) : Prop :=
  exists w, reaches ru vnet dest link w
            /\ forall l' w', reaches ru vnet dest l' w' -> w <= w'.

(** [link] is the first candidate of minimum weight. *)
Definition first_min_weight_candidate (ru : RoutingUnit) (vnet : Z)
    (dest : NetDest) (link : Z) : Prop :=
  exists w, reaches ru vnet dest link w
            /\ (forall l' w', reaches ru vnet dest l' w' -> w <= w')
            /\ (forall l', l' < link -> ~ reaches ru vnet dest l' w).

(** The links of [l] are in increasing order, so that no link is listed
    twice. *)
Definition ascending (l : list Z) : Prop :=
  forall (i j : nat) (x y : Z),
    l !! i = Some x -> l !! j = Some y -> (i < j)%nat -> x < y.

(** The router after one more call of [rand()]. *)
Definition after_rand (r : Router) : Router :=
  R.set_process_rand
    (mkRand (rand_values (process_rand r)) (S (rand_drawn (process_rand r)))) r.

(** The value [rand()] returns next. *)
Definition next_rand (r : Router) : Z :=
  Z.of_N (rand_values (process_rand r) (rand_drawn (process_rand r))).

(** The router of the example with another state of the process-wide
    [rand()]: every draw returns 5. *)
Definition ex_router_rand5 : Router :=
  R.set_process_rand (mkRand (fun _ => 5%N) 0) ex_router.

(** The Euler-tour interval of child [c] holds the destination:
    [tin(child) <= tin(dest) < tout(child)]. *)
Definition covers (net : GarnetNetwork) (dest : Z) (c : ChildInfo) : Prop :=
  c_tin c <= tinOf net dest < c_tout c.

(** A router in the middle of an escape tree: its parent is behind outport
    1 and the subtree with the Euler-tour interval [2, 4) hangs below
    outport 2. *)
Definition ex_tree_router : Router :=
  with_routingUnit
    (mkRoutingUnit (m_routing_table ex_routingUnit) (m_weight_table ex_routingUnit)
       1 [mkChild 2 2 4])
    ex_router.

(** The example router configured for UGAL. *)
Definition ex_ugal_router : Router :=
  with_network
    (mkNetwork UGAL_ false true 16 8 (fun vnet => vnet =? 0) 2 2
       (fun id => id) (fun id => id + 1))
    ex_router.

(** A route from router 0 to router 3 on vnet 0. *)
Definition ex_route_to_3 : RouteInfo := mkRouteInfo 0 [3] 0 0 3 3 0.

(** An input unit whose VC 0 has stalled three times and is not frozen. *)
Definition ex_stalled_unit : InputUnit :=
  IU.set_stall_count [3; 0; 0; 0] (ex_input_unit 1 West).

(** Some VC of [vnet] is IDLE at the output unit of [outport]. *)
Definition free_vc_exists (r : Router) (outport vnet : Z) : Prop :=
  exists ou vc st,
    vget (m_output_unit r) outport = Ok ou
    /\ vnet * m_vc_per_vnet r <= vc < vnet * m_vc_per_vnet r + m_vc_per_vnet r
    /\ vget (outVcState ou) vc = Ok st
    /\ ovc_state st = IDLE_.

(** The credit count of downstream VC [outvc] at [outport] is positive. *)
Definition credit_available (r : Router) (outport outvc : Z) : Prop :=
  exists ou st,
    vget (m_output_unit r) outport = Ok ou
    /\ vget (outVcState ou) outvc = Ok st
    /\ 0 < credit_count st.

(** A VC of [vnet] at [inport] whose head flit is in stage SA now, that
    asks for [outport], and was enqueued before tick [t]. *)
Definition earlier_requester (r : Router) (inport vnet outport : Z) (t : Tick) : Prop :=
  exists u temp_vc c,
    vget (m_input_unit r) inport = Ok u
    /\ vnet * m_vc_per_vnet r <= temp_vc < vnet * m_vc_per_vnet r + m_vc_per_vnet r
    /\ vget (virtualChannels u) temp_vc = Ok c
    /\ VC.need_stage SA_ (curTick r) c = true
    /\ m_output_port c = outport
    /\ vc_enqueue_time c < t.

(** An ACTIVE VC that holds the flits [fl], is routed to [outport] with the
    downstream VC [outvc], and was enqueued at tick [t]. *)
Definition ex_active_vc (fl : list flit) (outport outvc : Z) (t : Tick) : VirtualChannel :=
  mkVC (ACTIVE_, t) fl outport outvc t.

(** The West input unit of the example with the VCs [vcs]. *)
Definition ex_west_unit (vcs : list VirtualChannel) : InputUnit :=
  IU.set_virtualChannels vcs (ex_input_unit 1 West).

(** A router with a packet waiting: VC 0 of the West inport holds a
    HEAD_TAIL flit for router 3, routed to outport 1, ready for switch
    allocation. *)
Definition ex_sa_router : Router :=
  R.set_input_unit
    [ex_input_unit 0 Local;
     ex_west_unit [ex_active_vc [ex_flit HEAD_TAIL_ 0 0 3 1000] 1 (-1) 1000;
                   ex_idle_vc; ex_idle_vc; ex_idle_vc];
     ex_input_unit 2 South]
    ex_router.

(** The inports in round-robin order from [start]: [start], [start + 1],
    ..., wrapping to 0 after [n - 1]. *)
Definition rr_order (n start : Z) : list Z :=
  map (fun k => (start + k) mod n) (zrange 0 (Z.to_nat n)).

(** The first inport in [order] that passes [p]; [-1] when none does. *)
Definition first_in_order (p : Z -> bool) (order : list Z) : Z :=
  match find p order with
  | Some i => i
  | None => -1
  end.

(** Inport [i] asked for [outport] in SA-I. *)
Definition requesting (sa : SwitchAllocator) (outport i : Z) : bool :=
  match vget (m_port_requests sa) i with
  | Ok p => p =? outport
  | Err _ => false
  end.

(** Inport [i] asked for [outport] and its request is an escape request. *)
Definition escape_requesting (sa : SwitchAllocator) (outport i : Z) : bool :=
  requesting sa outport i
  && match vget (m_is_escape_req sa) i with
     | Ok b => b
     | Err _ => false
     end.

(** The winner the specification describes: the first escape requester in
    round-robin order from [rr_inport[outport]] if there is one, otherwise
    the first requester, otherwise none ([-1]). *)
Definition sa2_winner (r : Router) (outport start : Z) : Z :=
  let sa := switchAllocator r in
  let order := rr_order (get_num_inports r) start in
  match find (escape_requesting sa outport) order with
  | Some i => i
  | None => first_in_order (requesting sa outport) order
  end.

(** The vectors of the switch allocator have the sizes [init] gave them and
    the round-robin pointers point at inports. *)
Definition sa_sized (r : Router) : Prop :=
  let sa := switchAllocator r in
  vsize (m_round_robin_inport sa) = get_num_outports r
  /\ vsize (m_port_requests sa) = get_num_inports r
  /\ vsize (m_vc_winners sa) = get_num_inports r
  /\ vsize (m_is_escape_req sa) = get_num_inports r
  /\ (forall o s, vget (m_round_robin_inport sa) o = Ok s -> 0 <= s < get_num_inports r).

(** The router with the SA-I request of [inport] removed and nothing else
    changed. *)
Definition clear_request (inport : Z) (r : Router) : Router :=
  let sa := switchAllocator r in
  R.set_switchAllocator
    (mkSwitchAllocator (m_round_robin_inport sa) (m_round_robin_invc sa)
       (<[Z.to_nat inport := -1]> (m_port_requests sa)) (m_vc_winners sa)
       (m_is_escape_req sa) (m_input_arbiter_activity sa)
       (m_output_arbiter_activity sa)) r.

(** A router in escape mode where SA-I left two requests for outport 1: an
    escape request of the West inport (VC 0, the escape VC of vnet 0) and
    an ordinary request of the South inport (VC 1).  The round-robin pointer
    of outport 1 is at the South inport, and the escape VC of vnet 0 at
    outport 1 is taken. *)
Definition ex_escape_router : Router :=
  R.set_switchAllocator
    (mkSwitchAllocator [0; 2; 0] [0; 0; 0] [-1; 1; 1] [-1; 0; 1]
       [false; true; false] 2 0)
    (R.set_output_unit
       [ex_output_unit Local;
        mkOutputUnit East
          [mkOutVc ACTIVE_ 4; mkOutVc IDLE_ 4; mkOutVc IDLE_ 4; mkOutVc IDLE_ 4];
        ex_output_unit North]
       (R.set_input_unit
          [ex_input_unit 0 Local;
           ex_west_unit [ex_active_vc [ex_flit HEAD_TAIL_ 0 0 3 1000] 1 (-1) 1000;
                         ex_idle_vc; ex_idle_vc; ex_idle_vc];
           IU.set_virtualChannels
             [ex_idle_vc; ex_active_vc [ex_flit HEAD_ 0 1 3 900] 1 (-1) 900;
              ex_idle_vc; ex_idle_vc]
             (ex_input_unit 2 South)]
          (with_network
             (mkNetwork TABLE_ true true 16 8 (fun vnet => vnet =? 0) 2 2
                (fun id => id) (fun id => id + 1))
             ex_router))).

(** The router with VC [vc] of inport [inport] replaced. *)
Definition with_vc (inport vc : Z) (u : InputUnit) (c' : VirtualChannel)
    (r : Router) : Router :=
  R.set_input_unit
    (<[Z.to_nat inport :=
         IU.set_virtualChannels (<[Z.to_nat vc := c']> (virtualChannels u)) u]>
       (m_input_unit r)) r.


(** A TAIL or a HEAD_TAIL: the last flit of its packet. *)
Definition is_tail_family (ty : flit_type) : bool :=
  flit_type_eqb ty TAIL_ || flit_type_eqb ty HEAD_TAIL_.


(** The flits of a VC belong to one packet: no flit sits behind a TAIL or
    a HEAD_TAIL.  The input unit takes a HEAD or a HEAD_TAIL into an IDLE
    VC only, and SA-II makes a VC IDLE only when it grants the TAIL or the
    HEAD_TAIL, so that the VCs stay framed as long as every sender sends a
    packet as HEAD, BODY, ..., TAIL and reuses a VC only after the credit
    that frees it. *)
Fixpoint packet_framed (buf : list flit) : bool :=
  match buf with
  | [] => true
  | f :: rest =>
      (negb (is_tail_family (m_type f))
       || match rest with [] => true | _ :: _ => false end)
      && packet_framed rest
  end.




(** The router once the flit at the head of the link of [inport] is
    consumed. *)
Definition consumed (inport : Z) (u : InputUnit) (rest : list flit) (r : Router) : Router :=
  R.set_input_unit (<[Z.to_nat inport := IU.set_in_link rest u]> (m_input_unit r)) r.

(** The control flit as its handler sees it: one more hop, and the router
    id as its inport. *)
Definition arrived (r : Router) (t_flit : flit) : flit :=
  setInport (r_id r) (increment_hops t_flit).

(** The router with the input unit at [inport] replaced. *)
Definition with_unit (inport : Z) (u' : InputUnit) (r : Router) : Router :=
  R.set_input_unit (<[Z.to_nat inport := u']> (m_input_unit r)) r.



(** The router with another counter and more wakeups scheduled: all that
    [set_counter] changes. *)
Definition with_counter (cnt : counter) (w : list Cycles) (r : Router) : Router :=
  R.set_scheduled_wakeups w (R.set_spin (SP.set_counter cnt (spin r)) r).


(** A SPIN control flit as it travels on a link. *)
Definition ex_control_flit (ty : flit_type) (src_id vnet : Z) (path : list Z) : flit :=
  mkFlit 128 0 5 vnet 0 (mkRouteInfo vnet [] 0 src_id 0 0 0) 1 1000 1000 1000 ty
    (-1) 0 (I_, 1000) true false src_id 1 0 (-1) path 0.

(** The router [r] with the flits [fl] due on the link of its West inport,
    whose VCs are [vcs]. *)
Definition ex_link_router (vcs : list VirtualChannel) (fl : list flit) (r : Router) : Router :=
  R.set_input_unit
    [ex_input_unit 0 Local;
     IU.set_in_link fl (ex_west_unit vcs);
     ex_input_unit 2 South]
    r.

(** The routing algorithms that the dispatcher takes as parameters, for
    runs that never reach them. *)
Definition no_algorithm : RouteInfo -> Z -> PortDirection -> M Router Z :=
  fun _ _ _ => throw Panic.

(** VC [c] is ACTIVE and its outport is an outport of the router that is
    not Local: what [find_move_vc] and [create_fork_vector] demand of every
    VC they pass. *)
Definition forkable (r : Router) (c : VirtualChannel) : bool :=
  VC_state_eqb (VC.get_state c) ACTIVE_
  && match vget (m_output_unit r) (m_output_port c) with
     | Ok ou => negb (String.eqb (ou_direction ou) Local)
     | Err _ => false
     end.

(** VC [c] waits for outport [outp] and holds both the head and the tail
    of its packet. *)
Definition move_match (outp : Z) (c : VirtualChannel) : bool :=
  (m_output_port c =? outp) && VC.containsHeadAndTail c.

(** Among the VCs [cs] of the vnet, in index order, the VC at position [k]
    is the first that matches, and it and all VCs before it are ACTIVE with
    an outport that is not Local. *)
Definition first_move_vc (r : Router) (outp : Z) (cs : list VirtualChannel)
    (k : nat) (c : VirtualChannel) : Prop :=
  exists before after,
    cs = before ++ c :: after
    /\ length before = k
    /\ Forall (fun c' => forkable r c' = true /\ move_match outp c' = false) before
    /\ forkable r c = true
    /\ move_match outp c = true.

(** What the loop of [find_move_vc] returns over the VCs [cs] at the
    indices [idxs]. *)
Fixpoint move_vc_scan (r : Router) (outp : Z) (idxs : list Z)
    (cs : list VirtualChannel) : Z :=
  match idxs, cs with
  | i :: idxs', c :: cs' =>
      if negb (forkable r c) then -1
      else if move_match outp c then i
      else move_vc_scan r outp idxs' cs'
  | _, _ => -1
  end.

(** When an intermediate router processes a MOVE: the counter state is
    [deadlock_detection], [off] or [frozen]; when it is [frozen] the source
    id of the flit matches the latched one; and the move registry has no
    entry for the outport at the head of the path. *)
Definition move_allowed (r : Router) (t_flit : flit) : bool :=
  let cs := get_counter_state r in
  (Counter_state_eqb cs s_deadlock_detection
   || Counter_state_eqb cs s_off
   || Counter_state_eqb cs s_frozen)
  && (negb (Counter_state_eqb cs s_frozen)
      || partial_check_source_id_buffer (m_source_id t_flit) r)
  && negb (check_outport_entry_in_move_registry (peekPathTop t_flit) r).

(** The router after it dropped a MOVE that came in at [inport]: the flit
    is off the link and counted; nothing else changed. *)
Definition dropped_move (inport : Z) (u : InputUnit) (rest : list flit)
    (r : Router) : Router :=
  with_unit inport
    (IU.set_dropped (m_num_probes_dropped u) (m_num_move_dropped u + 1)
       (m_num_check_probe_dropped u) (IU.set_in_link rest u)) r.

(** A MOVE of router 2 for vnet 0 with the path [1; 2] ahead. *)
Definition ex_move_flit : flit := ex_control_flit MOVE_ 2 0 [1; 2].

(** The router with that MOVE due on the link of its West inport, whose
    vnet-0 VCs are [c0] and [c1]. *)
Definition ex_move_router (c0 c1 : VirtualChannel) : Router :=
  ex_link_router [c0; c1; ex_idle_vc; ex_idle_vc] [ex_move_flit] ex_router.

(** A VC that holds a whole packet (a HEAD_TAIL flit) routed to outport 1. *)
Definition ex_packet_vc : VirtualChannel :=
  ex_active_vc [ex_flit HEAD_TAIL_ 0 1 3 1000] 1 (-1) 1000.

(** What the loop of [create_fork_vector] returns over the VCs [cs], and
    the fork vector it leaves, from the fork vector [fv] and the flag
    [any]. *)
Fixpoint fork_scan (r : Router) (cs : list VirtualChannel) (fv : list bool)
    (any : bool) : bool * list bool :=
  match cs with
  | [] => (any, fv)
  | c :: cs' =>
      if negb (forkable r c) then (false, fv)
      else fork_scan r cs' (<[Z.to_nat (m_output_port c) := true]> fv) true
  end.

(** The outports that a fork vector marks, from outport [op] on. *)
Fixpoint set_bits (fv : list bool) (op : Z) : list Z :=
  match fv with
  | [] => []
  | b :: rest => (if b then [op] else []) ++ set_bits rest (op + 1)
  end.

(** The copy of the probe [t_flit] that [fork_probes] makes for outport
    [op]. *)
Definition probe_copy (r : Router) (t_flit : flit) (op : Z) : flit :=
  subDelay (latency_ticks r)
    (addDelay (m_delay t_flit)
       (new_control_flit (m_source_id t_flit) (m_inport t_flit)
          (m_source_vc t_flit) (m_vnet t_flit) PROBE_ (control_time r)
          (m_path t_flit ++ [op]))).

(** The router dropped the probe that came in at [inport]: the SPIN state
    of the router, its queues among it, is as before, and the unit counts
    one more dropped probe. *)
Definition probe_dropped (inport : Z) (u : InputUnit) (r r' : Router) : Prop :=
  spin r' = spin r
  /\ exists u',
       vget (m_input_unit r') inport = Ok u'
       /\ m_num_probes_dropped u' = m_num_probes_dropped u + 1.

(** A PROBE of router 2 for vnet 0 that has taken the turn [2] so far. *)
Definition ex_probe_flit : flit := ex_control_flit PROBE_ 2 0 [2].

(** The router with that probe due on the link of its West inport, whose
    vnet-0 VCs both hold a packet for outport 1. *)
Definition ex_probe_router : Router :=
  ex_link_router [ex_packet_vc; ex_packet_vc; ex_idle_vc; ex_idle_vc]
    [ex_probe_flit] ex_router.

(** [n] stalls of VC [vc] in a row: [increment_stall(vc)] called [n] times. *)
Fixpoint stalls (n : nat) (net : GarnetNetwork) (vc : Z) (u : InputUnit) : InputUnit :=
  match n with
  | O => u
  | S k => increment_stall net vc (stalls k net vc u)
  end.

(** How far ahead of the current cycle [set_counter] puts the threshold of
    a counter state that is not [off]. *)
Definition counter_delay (r : Router) (st : Counter_state) (th : Z) : Z :=
  match st with
  | s_move | s_check_probe | s_forward_progress => get_loop_delay r
  | s_frozen => to_unsigned th
  | s_deadlock_detection => getSpinDdThreshold (m_network_ptr r)
  | s_off => INFINITE_ - curCycle r
  end.

(** The example router with links that all weigh more than [INFINITE_]. *)
Definition ex_heavy_router : Router :=
  with_routingUnit
    (mkRoutingUnit (m_routing_table ex_routingUnit) [20000; 20000; 20000] (-1) [])
    ex_router.

(** The column and the row of router [id] in a mesh of [num_cols] columns,
    as [outportComputeXY] computes them. *)
Definition mesh_x (r : Router) (id : Z) : Z := Z.rem id (getNumCols (m_network_ptr r)).
Definition mesh_y (r : Router) (id : Z) : Z := Z.quot id (getNumCols (m_network_ptr r)).

(** The direction maps of router 0 of the 2x2 mesh of the example: outport
    0 is Local, 1 goes East, 2 goes North. *)
Definition ex_directions : Directions :=
  addOutDirection North 2
    (addOutDirection East 1
       (addOutDirection Local 0 (mkDirections empty empty empty empty))).

(** A route to router [dest], as far as direction routing reads it. *)
Definition ex_route_to (dest : Z) : RouteInfo := mkRouteInfo 0 [dest] 0 0 dest dest 0.

(** The input unit [u] at index [ip] once every entry of the registry
    [reg] that names [ip] has had its VC thawed: what the loop of
    [clear_move_registry] leaves at that unit. *)
Definition thawed (reg : list move_info) (ip : Z) (u : InputUnit) : InputUnit :=
  fold_left (fun u mi => if mi_inport mi =? ip then thaw_vc (mi_vc mi) u else u) reg u.

(** [mi] is the first entry of the registry [reg] for [outport], and [reg']
    is [reg] without it. *)
Definition first_entry_for (outport : Z) (reg : list move_info) (mi : move_info)
    (reg' : list move_info) : Prop :=
  exists before after,
    reg = before ++ mi :: after
    /\ reg' = before ++ after
    /\ mi_outport mi = outport
    /\ Forall (fun m => mi_outport m <> outport) before.

(** No VC of the router is ACTIVE, and every input unit has the VCs of the
    router. *)
Definition no_vc_active (r : Router) : Prop :=
  forall ip u,
    vget (m_input_unit r) ip = Ok u ->
    vsize (virtualChannels u) = get_num_vcs r
    /\ forall i c, vget (virtualChannels u) i = Ok c -> VC.get_state c <> ACTIVE_.

(** The example router with its SPIN counter at [cnt]. *)
Definition ex_counter_router (cnt : counter) (move : bool) : Router :=
  R.set_spin (SP.set_move move (SP.set_counter cnt ex_spin)) ex_router.

(** What SA-I leaves alone: everything but the request vectors of the
    switch allocator, its activity counter and the process-wide [rand()]
    that escape routing may draw from. *)
Definition sa1_frame (r r' : Router) : Prop :=
  m_input_unit r' = m_input_unit r
  /\ m_output_unit r' = m_output_unit r
  /\ crossbarSwitch r' = crossbarSwitch r
  /\ spin r' = spin r
  /\ routingUnit r' = routingUnit r
  /\ m_network_ptr r' = m_network_ptr r
  /\ curTick r' = curTick r
  /\ scheduled_wakeups r' = scheduled_wakeups r
  /\ m_virtual_networks r' = m_virtual_networks r
  /\ m_vc_per_vnet r' = m_vc_per_vnet r
  /\ m_round_robin_inport (switchAllocator r') = m_round_robin_inport (switchAllocator r)
  /\ m_round_robin_invc (switchAllocator r') = m_round_robin_invc (switchAllocator r)
  /\ m_output_arbiter_activity (switchAllocator r')
     = m_output_arbiter_activity (switchAllocator r).

(** Every run of [m] that returns leaves the router related by [R] to the
    one it started from. *)
Definition respects {A : Type} (R : Router -> Router -> Prop) (m : M Router A) : Prop :=
  forall r a r', m r = Ok (a, r') -> R r r'.

(** The state a VC must be in to take a flit of type [ty]: IDLE for the
    first flit of a packet, ACTIVE for the others. *)
Definition vc_state_expected (ty : flit_type) : VC_state_type :=
  if flit_type_eqb ty HEAD_ || flit_type_eqb ty HEAD_TAIL_ then IDLE_ else ACTIVE_.

(** The flit as the input unit buffers it: one more hop, and in stage SA
    from the tick at which the router's pipeline lets it go. *)
Definition buffered_flit (r : Router) (t_flit : flit) : flit :=
  advance_stage SA_
    (if m_latency r =? 1 then curTick r else clockEdge (m_latency r - 1) r)
    (increment_hops t_flit).

(** The example router in the middle of a move: the counter, in state
    [st], points at VC 0 of the West inport, the path [2; 1] is latched,
    the loop delay is 4 cycles and the registry holds the entry of that VC
    with a move half done. *)
Definition ex_moving_router (st : Counter_state) : Router :=
  R.set_spin
    (mkSpin (mkCounter 1 0 0 0 18 st) (mkPathBuffer [2; 1] true)
       (mkSourceIdBuffer 0 0 true) true 4 [] [] [] [] false true
       [mkMoveInfo 1 0 2 3 true 2])
    ex_router.

(** A router with no port yet: the example router before its links are
    added. *)
Definition ex_bare_router : Router :=
  with_routingUnit (mkRoutingUnit [] [] (-1) [])
    (R.set_output_unit [] (R.set_input_unit [] ex_router)).

(** The downstream VCs of an output port of the example: four, IDLE, with
    four credits each. *)
Definition ex_out_vcs : list OutVcState :=
  [mkOutVc IDLE_ 4; mkOutVc IDLE_ 4; mkOutVc IDLE_ 4; mkOutVc IDLE_ 4].

(** The ports of a router with a network interface and one link each
    way, added link by link: the Local inport and outport first, then the
    inport from the West, then the outport to the East. *)
Definition ex_build : M (Router * Directions) unit :=
  let* _ := addInPort Local 128 [] [] in
  let* _ := addOutPort Local 128 [[0]; [0]] 1 ex_out_vcs in
  let* _ := addInPort West 128 [] [] in
  addOutPort East 128 [[1; 3]; [1; 3]] 1 ex_out_vcs.

(** The router [r] once both VCs of vnet 0 of its inport 1, the unit [u],
    hold a packet for outport 1 and a PROBE of router 2 is due on the link
    of that inport. *)
Definition ex_probe_arrives (r : Router) (u : InputUnit) : Router :=
  with_unit 1
    (IU.set_in_link [ex_probe_flit]
       (IU.set_virtualChannels
          [ex_packet_vc; ex_packet_vc; VirtualChannel_new; VirtualChannel_new] u))
    r.

(** * Properties *)

(** ** Vectors *)

Lemma vget_Ok {A : Type} (v : list A) (i : Z) (a : A) :
  vget v i = Ok a <-> 0 <= i < vsize v /\ v !! Z.to_nat i = Some a.
Proof.
  unfold vget, vsize.
  destruct (0 <=? i) eqn:H0; destruct (i <? Z.of_nat (length v)) eqn:H1; simpl;
    try (split; [discriminate | intros [? _]; lia]).
  destruct (v !! Z.to_nat i) eqn:E.
  - split; [intros [= ->]; split; [lia | reflexivity] | intros [_ [= ->]]; reflexivity].
  - split; [discriminate | intros [_ ?]; discriminate].
Qed.

Lemma vget_in_range {A : Type} (v : list A) (i : Z) :
  0 <= i < vsize v -> exists a, vget v i = Ok a.
Proof.
  intros H. unfold vsize in H.
  destruct (lookup_lt_is_Some_2 v (Z.to_nat i)) as [a Ha]; [lia |].
  exists a. apply vget_Ok. unfold vsize. auto.
Qed.

Lemma vget_range {A : Type} (v : list A) (i : Z) (a : A) :
  vget v i = Ok a -> 0 <= i < vsize v.
Proof. intros H. apply vget_Ok in H. tauto. Qed.

Lemma vset_same {A : Type} (v : list A) (i : Z) (a : A) :
  vget v i = Ok a -> vset v i a = Ok v.
Proof.
  intros H. apply vget_Ok in H as [Hr Hl]. unfold vset, vsize in *.
  replace ((0 <=? i) && (i <? Z.of_nat (length v))) with true by lia.
  f_equal. apply list_insert_id. exact Hl.
Qed.

Lemma vset_Ok {A : Type} (v : list A) (i : Z) (a : A) :
  0 <= i < vsize v -> vset v i a = Ok (<[Z.to_nat i := a]> v).
Proof.
  intros H. unfold vset, vsize in *.
  replace ((0 <=? i) && (i <? Z.of_nat (length v))) with true by lia.
  reflexivity.
Qed.

Lemma vget_vset_eq {A : Type} (v : list A) (i : Z) (a : A) :
  0 <= i < vsize v -> vget (<[Z.to_nat i := a]> v) i = Ok a.
Proof.
  intros H. apply vget_Ok. unfold vsize in *. rewrite length_insert.
  split; [lia |]. apply list_lookup_insert_eq. lia.
Qed.

Lemma vget_vset_ne {A : Type} (v : list A) (i j : Z) (a : A) :
  0 <= i -> 0 <= j -> i <> j -> vget (<[Z.to_nat i := a]> v) j = vget v j.
Proof.
  intros Hi Hj Hne. unfold vget. rewrite length_insert.
  rewrite list_lookup_insert_ne by lia. reflexivity.
Qed.

(** Unfolding the monad. *)
Ltac munfold :=
  unfold bind, ret, get, gets, put, modify, lift, throw, assert, when in *.

(** ** Table routing *)

Lemma scan_min_weight_le dest ws entries : forall k m0 m,
  scan_min_weight dest ws entries k m0 = Ok m -> m <= m0.
Proof.
  induction entries as [|e rest IH]; simpl; intros k m0 m H.
  - injection H as <-. lia.
  - destruct (intersectionIsNotEmpty dest e).
    + destruct (vget ws k) as [w|]; [|discriminate].
      apply IH in H. destruct (w <=? m0) eqn:E; lia.
    + eauto.
Qed.

Lemma scan_min_weight_lower dest ws entries : forall k m0 m,
  scan_min_weight dest ws entries k m0 = Ok m ->
  forall (i : nat) e w,
    entries !! i = Some e -> intersectionIsNotEmpty dest e = true ->
    vget ws (k + Z.of_nat i) = Ok w -> m <= w.
Proof.
  induction entries as [|e0 rest IH]; simpl; intros k m0 m H i e w Hi He Hw.
  - discriminate.
  - destruct i as [|i]; simpl in Hi.
    + injection Hi as ->. rewrite He in H.
      replace (k + Z.of_nat 0) with k in Hw by lia. rewrite Hw in H.
      apply scan_min_weight_le in H. destruct (w <=? m0) eqn:E; lia.
    + replace (k + Z.of_nat (S i)) with ((k + 1) + Z.of_nat i) in Hw by lia.
      destruct (intersectionIsNotEmpty dest e0).
      * destruct (vget ws k) as [w0|]; [|discriminate]. eapply IH; eauto.
      * eapply IH; eauto.
Qed.

Lemma scan_min_weight_attained dest ws entries : forall k m0 m,
  scan_min_weight dest ws entries k m0 = Ok m ->
  m = m0 \/ exists (i : nat) e,
              entries !! i = Some e /\ intersectionIsNotEmpty dest e = true
              /\ vget ws (k + Z.of_nat i) = Ok m.
Proof.
  induction entries as [|e0 rest IH]; simpl; intros k m0 m H.
  - injection H as <-. auto.
  - destruct (intersectionIsNotEmpty dest e0) eqn:He.
    + destruct (vget ws k) as [w0|] eqn:Hw; [|discriminate].
      apply IH in H as [-> | (i & e & Hi & Hie & Hv)].
      * destruct (w0 <=? m0) eqn:E; [|auto].
        right. exists 0%nat, e0. replace (k + Z.of_nat 0) with k by lia. auto.
      * right. exists (S i), e.
        replace (k + Z.of_nat (S i)) with ((k + 1) + Z.of_nat i) by lia. auto.
    + apply IH in H as [-> | (i & e & Hi & Hie & Hv)]; [auto|].
      right. exists (S i), e.
      replace (k + Z.of_nat (S i)) with ((k + 1) + Z.of_nat i) by lia. auto.
Qed.

Lemma collect_candidates_In dest ws entries : forall k m cs,
  collect_candidates dest ws entries k m = Ok cs ->
  forall l, In l cs <->
            exists (i : nat) e,
              l = k + Z.of_nat i /\ entries !! i = Some e
              /\ intersectionIsNotEmpty dest e = true /\ vget ws l = Ok m.
Proof.
  induction entries as [|e0 rest IH]; simpl; intros k m cs H l.
  - injection H as <-. split; [intros [] | intros (i & e & _ & Hi & _); discriminate].
  - destruct (intersectionIsNotEmpty dest e0) eqn:He.
    + destruct (vget ws k) as [w0|] eqn:Hw; [|discriminate].
      destruct (collect_candidates dest ws rest (k + 1) m) as [cs'|] eqn:Hc;
        [|discriminate].
      injection H as <-. specialize (IH _ _ _ Hc l).
      split.
      * intros Hin.
        assert (Hcase : (w0 = m /\ l = k) \/ In l cs').
        { destruct (w0 =? m) eqn:E; [|auto].
          destruct Hin as [<- | Hin]; [left; split; [lia | reflexivity] | auto]. }
        destruct Hcase as [[-> ->] | Hin'].
        -- exists 0%nat, e0. repeat split; auto. lia.
        -- apply IH in Hin' as (i & e & -> & Hi & Hie & Hv).
           exists (S i), e. repeat split; auto. lia.
      * intros (i & e & -> & Hi & Hie & Hv).
        destruct i as [|i]; simpl in Hi.
        -- replace (k + Z.of_nat 0) with k in * by lia.
           rewrite Hw in Hv. injection Hv as ->.
           rewrite Z.eqb_refl. left. reflexivity.
        -- assert (In (k + Z.of_nat (S i)) cs').
           { apply IH. exists i, e. repeat split; auto. lia. }
           destruct (w0 =? m); [right|]; auto.
    + specialize (IH _ _ _ H l). rewrite IH. split.
      * intros (i & e & -> & Hi & Hie & Hv). exists (S i), e. repeat split; auto. lia.
      * intros (i & e & -> & Hi & Hie & Hv).
        destruct i as [|i]; simpl in Hi.
        -- injection Hi as ->. congruence.
        -- exists i, e. repeat split; auto. lia.
Qed.

Lemma collect_candidates_head dest ws entries : forall k m c cs,
  collect_candidates dest ws entries k m = Ok (c :: cs) ->
  forall (i : nat) e,
    entries !! i = Some e -> intersectionIsNotEmpty dest e = true ->
    vget ws (k + Z.of_nat i) = Ok m -> c <= k + Z.of_nat i.
Proof.
  induction entries as [|e0 rest IH]; simpl; intros k m c cs H i e Hi Hie Hv.
  - discriminate.
  - destruct i as [|i]; simpl in Hi.
    + injection Hi as ->. rewrite Hie in H.
      replace (k + Z.of_nat 0) with k in * by lia. rewrite Hv in H.
      destruct (collect_candidates dest ws rest (k + 1) m); [|discriminate].
      rewrite Z.eqb_refl in H. injection H as <- _. lia.
    + replace (k + Z.of_nat (S i)) with ((k + 1) + Z.of_nat i) in * by lia.
      destruct (intersectionIsNotEmpty dest e0).
      * destruct (vget ws k) as [w0|]; [|discriminate].
        destruct (collect_candidates dest ws rest (k + 1) m) as [cs'|] eqn:Hc;
          [|discriminate].
        destruct (w0 =? m).
        -- injection H as <- _. lia.
        -- injection H as ->. eapply IH; eauto.
      * eapply IH; eauto.
Qed.

(** The second loop lists the candidates in the order of the links. *)
Lemma collect_candidates_ascending dest ws entries : forall k m cs,
  collect_candidates dest ws entries k m = Ok cs -> ascending cs.
Proof.
  induction entries as [|e0 rest IH]; simpl; intros k m cs H.
  - injection H as <-. intros i j x y Hi. destruct i; discriminate.
  - destruct (intersectionIsNotEmpty dest e0) eqn:He; [|exact (IH _ _ _ H)].
    destruct (vget ws k) as [w0|] eqn:Hw; [|discriminate].
    destruct (collect_candidates dest ws rest (k + 1) m) as [cs'|] eqn:Hc;
      [|discriminate].
    injection H as <-. specialize (IH _ _ _ Hc).
    destruct (w0 =? m); [|exact IH].
    intros i j x y Hi Hj Hlt.
    destruct j as [|j]; [lia|]. simpl in Hj.
    destruct i as [|i]; simpl in Hi.
    + injection Hi as <-.
      assert (Hin : In y cs')
        by (apply list_elem_of_In; eapply list_elem_of_lookup_2; exact Hj).
      apply (collect_candidates_In _ _ _ _ _ _ Hc) in Hin as (n & e & -> & _).
      lia.
    + apply (IH i j); [exact Hi | exact Hj | lia].
Qed.

Lemma ascending_index (cs : list Z) (i j : Z) (x : Z) :
  ascending cs -> vget cs i = Ok x -> vget cs j = Ok x -> i = j.
Proof.
  intros Hasc Hi Hj.
  apply vget_Ok in Hi as [Hri Hi]. apply vget_Ok in Hj as [Hrj Hj].
  destruct (Z.lt_trichotomy i j) as [Hlt | [Heq | Hgt]]; [|exact Heq|].
  - pose proof (Hasc (Z.to_nat i) (Z.to_nat j) x x Hi Hj). lia.
  - pose proof (Hasc (Z.to_nat j) (Z.to_nat i) x x Hj Hi). lia.
Qed.

Lemma lookupRoutingTable_inv r vnet dest l r' :
  lookupRoutingTable vnet dest r = Ok (l, r') ->
  exists entries mw cands,
    vget (m_routing_table (routingUnit r)) vnet = Ok entries
    /\ scan_min_weight dest (m_weight_table (routingUnit r)) entries 0 INFINITE_ = Ok mw
    /\ collect_candidates dest (m_weight_table (routingUnit r)) entries 0 mw = Ok cands
    /\ if isVNetOrdered (m_network_ptr r) vnet
       then vget cands 0 = Ok l /\ r' = r
       else vget cands (Z.rem (next_rand r) (vsize cands)) = Ok l /\ r' = after_rand r.
Proof.
  unfold lookupRoutingTable. munfold. intros H.
  destruct (vget (m_routing_table (routingUnit r)) vnet) as [entries|] eqn:E1;
    [|discriminate].
  destruct (scan_min_weight dest _ entries 0 INFINITE_) as [mw|] eqn:E2;
    [|discriminate].
  destruct (collect_candidates dest _ entries 0 mw) as [cands|] eqn:E3;
    [|discriminate].
  exists entries, mw, cands. repeat split; auto.
  destruct (vsize cands =? 0); [discriminate|].
  destruct (isVNetOrdered (m_network_ptr r) vnet); simpl in H.
  - destruct (vget cands 0) as [c|]; [|discriminate]. injection H as -> ->. auto.
  - unfold rand in H. munfold. simpl in H.
    fold (next_rand r) in H. fold (after_rand r) in H.
    destruct (vget cands _) as [c|]; [|discriminate]. injection H as -> ->. auto.
Qed.

Lemma candidates_are_min_weight ru vnet dest entries mw cands l :
  vget (m_routing_table ru) vnet = Ok entries ->
  scan_min_weight dest (m_weight_table ru) entries 0 INFINITE_ = Ok mw ->
  collect_candidates dest (m_weight_table ru) entries 0 mw = Ok cands ->
  In l cands ->
  reaches ru vnet dest l mw
  /\ forall l' w', reaches ru vnet dest l' w' -> mw <= w'.
Proof.
  intros Ht Hs Hc Hin.
  apply (collect_candidates_In _ _ _ _ _ _ Hc) in Hin as (i & e & -> & Hi & Hie & Hv).
  split.
  - exists entries, e. repeat split; auto.
    apply vget_Ok. rewrite Z.add_0_l. split.
    + unfold vsize. apply lookup_lt_Some in Hi. lia.
    + rewrite Nat2Z.id. exact Hi.
  - intros l' w' (entries' & e' & Ht' & He' & Hie' & Hw').
    rewrite Ht in Ht'. injection Ht' as <-.
    apply vget_Ok in He' as [Hr He'].
    eapply (scan_min_weight_lower _ _ _ _ _ _ Hs (Z.to_nat l') e' w'); eauto.
    rewrite Z.add_0_l, Z2Nat.id; [exact Hw' | lia].
Qed.

Lemma vget_In {A : Type} (v : list A) (i : Z) (a : A) : vget v i = Ok a -> In a v.
Proof.
  intros H. apply vget_Ok in H as [_ H].
  apply list_elem_of_In. eapply list_elem_of_lookup_2. exact H.
Qed.

Lemma ordered_lookup_is_first ru vnet dest entries mw cands l :
  vget (m_routing_table ru) vnet = Ok entries ->
  scan_min_weight dest (m_weight_table ru) entries 0 INFINITE_ = Ok mw ->
  collect_candidates dest (m_weight_table ru) entries 0 mw = Ok cands ->
  vget cands 0 = Ok l ->
  first_min_weight_candidate ru vnet dest l.
Proof.
  intros Ht Hs Hc Hl.
  destruct (candidates_are_min_weight _ _ _ _ _ _ _ Ht Hs Hc (vget_In _ _ _ Hl))
    as [Hreach Hmin].
  exists mw. repeat split; auto.
  intros l' Hlt (entries' & e' & Ht' & He' & Hie' & Hw').
  rewrite Ht in Ht'. injection Ht' as <-.
  apply vget_Ok in He' as [Hr He'].
  destruct cands as [|c cs]; [discriminate|].
  apply vget_Ok in Hl as [_ Hl]. simpl in Hl. injection Hl as ->.
  pose proof (collect_candidates_head _ _ _ _ _ _ _ Hc (Z.to_nat l') e' He' Hie') as Hle.
  rewrite Z.add_0_l, Z2Nat.id in Hle by lia. specialize (Hle Hw'). lia.
Qed.

(** When every link of the table has a weight and some link to the
    destination weighs at most [INFINITE_], the two loops find a candidate. *)
Lemma candidates_exist ru vnet dest entries l w :
  vget (m_routing_table ru) vnet = Ok entries ->
  vsize entries <= vsize (m_weight_table ru) ->
  reaches ru vnet dest l w -> w <= INFINITE_ ->
  exists mw c cs,
    scan_min_weight dest (m_weight_table ru) entries 0 INFINITE_ = Ok mw
    /\ collect_candidates dest (m_weight_table ru) entries 0 mw = Ok (c :: cs).
Proof.
  intros Ht Hlen (entries' & e & Ht' & He & Hie & Hw) Hle.
  rewrite Ht in Ht'. injection Ht' as <-.
  assert (Hscan : forall es k m0, k >= 0 -> k + vsize es <= vsize (m_weight_table ru) ->
            exists m, scan_min_weight dest (m_weight_table ru) es k m0 = Ok m).
  { induction es as [|e0 rest IH]; simpl; intros k m0 Hk Hb; [eauto|].
    unfold vsize in Hb. simpl in Hb.
    destruct (intersectionIsNotEmpty dest e0).
    - destruct (vget_in_range (m_weight_table ru) k) as [w0 ->]; [unfold vsize; lia|].
      apply IH; unfold vsize; lia.
    - apply IH; unfold vsize; lia. }
  assert (Hcol : forall es k m, k >= 0 -> k + vsize es <= vsize (m_weight_table ru) ->
            exists cs, collect_candidates dest (m_weight_table ru) es k m = Ok cs).
  { induction es as [|e0 rest IH]; simpl; intros k m Hk Hb; [eauto|].
    unfold vsize in Hb. simpl in Hb.
    destruct (intersectionIsNotEmpty dest e0).
    - destruct (vget_in_range (m_weight_table ru) k) as [w0 ->]; [unfold vsize; lia|].
      destruct (IH (k + 1) m) as [cs ->]; [lia | unfold vsize; lia |]. eauto.
    - apply IH; unfold vsize; lia. }
  destruct (Hscan entries 0 INFINITE_) as [mw Hmw]; [lia | lia |].
  destruct (Hcol entries 0 mw) as [cands Hc]; [lia | lia |].
  exists mw. 
  destruct (scan_min_weight_attained _ _ _ _ _ _ Hmw) as [-> | (i & e' & Hi & Hie' & Hv)].
  - (* the minimum is INFINITE_: then [l] weighs exactly that *)
    apply vget_Ok in He as [Hr He].
    assert (INFINITE_ <= w).
    { eapply (scan_min_weight_lower _ _ _ _ _ _ Hmw (Z.to_nat l) e w); eauto.
      rewrite Z.add_0_l, Z2Nat.id; [exact Hw | lia]. }
    assert (w = INFINITE_) by lia. subst w.
    assert (Hin : In l cands).
    { apply (collect_candidates_In _ _ _ _ _ _ Hc). exists (Z.to_nat l), e.
      repeat split; auto. lia. }
    destruct cands as [|c cs]; [destruct Hin|]. eauto.
  - assert (Hin : In (0 + Z.of_nat i) cands).
    { apply (collect_candidates_In _ _ _ _ _ _ Hc). exists i, e'. repeat split; auto. }
    destruct cands as [|c cs]; [destruct Hin|]. eauto.
Qed.

Lemma lookupRoutingTable_ordered_result r vnet dest :
  isVNetOrdered (m_network_ptr r) vnet = true ->
  lookupRoutingTable vnet dest r =
    match vget (m_routing_table (routingUnit r)) vnet with
    | Ok entries =>
        match scan_min_weight dest (m_weight_table (routingUnit r)) entries 0 INFINITE_ with
        | Ok mw =>
            match collect_candidates dest (m_weight_table (routingUnit r)) entries 0 mw with
            | Ok [] => Err Fatal
            | Ok (c :: _) => Ok (c, r)
            | Err e => Err e
            end
        | Err e => Err e
        end
    | Err e => Err e
    end.
Proof.
  intros Hord. unfold lookupRoutingTable. munfold. rewrite Hord. simpl.
  destruct (vget (m_routing_table (routingUnit r)) vnet) as [entries|]; [|reflexivity].
  destruct (scan_min_weight dest _ entries 0 INFINITE_) as [mw|]; [|reflexivity].
  destruct (collect_candidates dest _ entries 0 mw) as [[|c cs]|]; reflexivity.
Qed.

Lemma lookupRoutingTable_unordered_result r vnet dest :
  isVNetOrdered (m_network_ptr r) vnet = false ->
  lookupRoutingTable vnet dest r =
    match vget (m_routing_table (routingUnit r)) vnet with
    | Ok entries =>
        match scan_min_weight dest (m_weight_table (routingUnit r)) entries 0 INFINITE_ with
        | Ok mw =>
            match collect_candidates dest (m_weight_table (routingUnit r)) entries 0 mw with
            | Ok [] => Err Fatal
            | Ok (c :: cs) =>
                match vget (c :: cs) (Z.rem (next_rand r) (vsize (c :: cs))) with
                | Ok l => Ok (l, after_rand r)
                | Err e => Err e
                end
            | Err e => Err e
            end
        | Err e => Err e
        end
    | Err e => Err e
    end.
Proof.
  intros Hord. unfold lookupRoutingTable. munfold. rewrite Hord. simpl.
  destruct (vget (m_routing_table (routingUnit r)) vnet) as [entries|]; [|reflexivity].
  destruct (scan_min_weight dest _ entries 0 INFINITE_) as [mw|]; [|reflexivity].
  destruct (collect_candidates dest _ entries 0 mw) as [[|c cs]|]; reflexivity.
Qed.

(** The state a table lookup leaves differs from the one it found in the
    process-wide [rand()] state at most. *)
Lemma lookupRoutingTable_state r vnet dest l r' :
  lookupRoutingTable vnet dest r = Ok (l, r') -> r' = r \/ r' = after_rand r.
Proof.
  intros H. apply lookupRoutingTable_inv in H as (? & ? & ? & _ & _ & _ & H).
  destruct (isVNetOrdered _ _); destruct H; auto.
Qed.

(** C8, as amended: [lookupRoutingTable] is deterministic for ordered vnets:
    two routers with the same routing table and weight table return the same
    outport for the same vnet and destination set, the first candidate of
    minimum weight, and leave their state as it is; it returns whenever every
    link of the table has a weight and some link to the destination weighs at
    most [INFINITE_].  For an unordered vnet the outport is the candidate at
    index [rand() % num_candidates] of the minimum-weight candidates taken
    in the order of the links, where [rand()] is the generator of the C
    library, global to the process: the call advances that generator by one
    draw, and two routers return the same outport exactly when their next
    [rand()] values agree modulo the number of candidates. *)
Theorem lookupRoutingTable_ordered_deterministic_unordered_rand :
  forall (r1 r2 : Router) (vnet : Z) (dest : NetDest),
    m_routing_table (routingUnit r1) = m_routing_table (routingUnit r2) ->
    m_weight_table (routingUnit r1) = m_weight_table (routingUnit r2) ->
    isVNetOrdered (m_network_ptr r1) vnet = isVNetOrdered (m_network_ptr r2) vnet ->
    (isVNetOrdered (m_network_ptr r1) vnet = true ->
       result_of (lookupRoutingTable vnet dest r1)
       = result_of (lookupRoutingTable vnet dest r2)
       /\ (forall l r1', lookupRoutingTable vnet dest r1 = Ok (l, r1') ->
             r1' = r1 /\ first_min_weight_candidate (routingUnit r1) vnet dest l)
       /\ (forall entries l0 w0,
             vget (m_routing_table (routingUnit r1)) vnet = Ok entries ->
             vsize entries <= vsize (m_weight_table (routingUnit r1)) ->
             reaches (routingUnit r1) vnet dest l0 w0 -> w0 <= INFINITE_ ->
             exists l, lookupRoutingTable vnet dest r1 = Ok (l, r1)))
    /\ (isVNetOrdered (m_network_ptr r1) vnet = false ->
          (forall l r1', lookupRoutingTable vnet dest r1 = Ok (l, r1') ->
             r1' = after_rand r1
             /\ (exists cands,
                   ascending cands
                   /\ (forall x, In x cands <->
                                 min_weight_candidate (routingUnit r1) vnet dest x)
                   /\ vget cands (Z.rem (next_rand r1) (vsize cands)) = Ok l
                   /\ (result_of (lookupRoutingTable vnet dest r2) = Ok l
                       <-> Z.rem (next_rand r2) (vsize cands)
                           = Z.rem (next_rand r1) (vsize cands))))
          /\ (forall entries l0 w0,
                vget (m_routing_table (routingUnit r1)) vnet = Ok entries ->
                vsize entries <= vsize (m_weight_table (routingUnit r1)) ->
                reaches (routingUnit r1) vnet dest l0 w0 -> w0 <= INFINITE_ ->
                exists l, lookupRoutingTable vnet dest r1 = Ok (l, after_rand r1))).
Proof.
  intros r1 r2 vnet dest Htab Hw Hord. split; intros Ho.
  - assert (Ho2 : isVNetOrdered (m_network_ptr r2) vnet = true) by congruence.
    split; [|split].
    + rewrite (lookupRoutingTable_ordered_result r1), (lookupRoutingTable_ordered_result r2)
        by assumption.
      rewrite <- Htab, <- Hw.
      destruct (vget (m_routing_table (routingUnit r1)) vnet) as [entries|]; [|reflexivity].
      destruct (scan_min_weight dest _ entries 0 INFINITE_) as [mw|]; [|reflexivity].
      destruct (collect_candidates dest _ entries 0 mw) as [[|c cs]|]; reflexivity.
    + intros l r1' H.
      apply lookupRoutingTable_inv in H as (entries & mw & cands & Ht & Hs & Hc & H).
      rewrite Ho in H. destruct H as [Hl ->]. split; [reflexivity|].
      eapply ordered_lookup_is_first; eauto.
    + intros entries l0 w0 Ht Hlen Hreach Hle.
      destruct (candidates_exist _ _ _ _ _ _ Ht Hlen Hreach Hle) as (mw & c & cs & Hs & Hc).
      exists c. rewrite lookupRoutingTable_ordered_result by assumption.
      rewrite Ht, Hs, Hc. reflexivity.
  - assert (Ho2 : isVNetOrdered (m_network_ptr r2) vnet = false) by congruence.
    split.
    + intros l r1' H.
      pose proof H as Hinv.
      apply lookupRoutingTable_inv in Hinv as (entries & mw & cands & Ht & Hs & Hc & Hinv).
      rewrite Ho in Hinv. destruct Hinv as [Hl ->]. split; [reflexivity|].
      pose proof (collect_candidates_ascending _ _ _ _ _ _ Hc) as Hasc.
      exists cands. split; [exact Hasc|]. split; [|split; [exact Hl|]].
      * intros x. split.
        -- intros Hin. exists mw. eapply candidates_are_min_weight; eauto.
        -- intros (w & Hreach & Hmin).
           destruct (candidates_are_min_weight _ _ _ _ _ _ _ Ht Hs Hc (vget_In _ _ _ Hl))
             as [Hreachl Hminl].
           assert (w = mw).
           { pose proof (Hmin _ _ Hreachl). pose proof (Hminl _ _ Hreach). lia. }
           subst w. destruct Hreach as (entries' & e & Ht' & He & Hie & Hv).
           rewrite Ht in Ht'. injection Ht' as <-.
           apply (collect_candidates_In _ _ _ _ _ _ Hc).
           apply vget_Ok in He as [Hr He].
           exists (Z.to_nat x), e. repeat split; auto. lia.
      * rewrite (lookupRoutingTable_unordered_result r2) by assumption.
        rewrite <- Htab, <- Hw, Ht, Hs, Hc.
        destruct cands as [|c cs];
          [apply vget_range in Hl; unfold vsize in Hl; simpl in Hl; lia|].
        destruct (vget_in_range (c :: cs) (Z.rem (next_rand r2) (vsize (c :: cs))))
          as [l2 Hl2].
        { assert (0 < vsize (c :: cs)) by (unfold vsize; simpl; lia).
          assert (0 <= next_rand r2) by (unfold next_rand; lia).
          pose proof (Z.rem_bound_pos (next_rand r2) (vsize (c :: cs))). lia. }
        rewrite Hl2. cbn [result_of]. split.
        -- intros Heq. injection Heq as ->.
           exact (ascending_index _ _ _ _ Hasc Hl2 Hl).
        -- intros Heq. rewrite Heq in Hl2. rewrite Hl in Hl2.
           injection Hl2 as ->. reflexivity.
    + intros entries l0 w0 Ht Hlen Hreach Hle.
      destruct (candidates_exist _ _ _ _ _ _ Ht Hlen Hreach Hle) as (mw & c & cs & Hs & Hc).
      rewrite lookupRoutingTable_unordered_result by assumption.
      rewrite Ht, Hs, Hc.
      destruct (vget_in_range (c :: cs) (Z.rem (next_rand r1) (vsize (c :: cs))))
        as [l Hl].
      { assert (0 < vsize (c :: cs)) by (unfold vsize; simpl; lia).
        assert (0 <= next_rand r1) by (unfold next_rand; lia).
        pose proof (Z.rem_bound_pos (next_rand r1) (vsize (c :: cs))). lia. }
      exists l. rewrite Hl. reflexivity.
Qed.

(** The theorem of C8 at the example router and a router that differs from
    it in the [rand()] state only, for the ordered vnet 0 and destination 3. *)
Lemma lookupRoutingTable_ordered_witness :
  result_of (lookupRoutingTable 0 [3] ex_router)
  = result_of (lookupRoutingTable 0 [3] ex_router_rand5)
  /\ lookupRoutingTable 0 [3] ex_router = Ok (1, ex_router).
Proof.
  destruct (lookupRoutingTable_ordered_deterministic_unordered_rand
              ex_router ex_router_rand5 0 [3] eq_refl eq_refl eq_refl) as [H _].
  destruct (H eq_refl) as [H1 _].
  split; [exact H1 | reflexivity].
Defined.

(** C8 as stated fails: for the unordered vnet 1 the pick comes from the
    process-wide [rand()].  Two routers that differ in nothing but the state
    of that generator return different outports for the same tables, vnet
    and destination set, and the call moves the generator on by one draw. *)
Lemma lookupRoutingTable_unordered_draws_process_rand :
  isVNetOrdered (m_network_ptr ex_router) 1 = false
  /\ routingUnit ex_router = routingUnit ex_router_rand5
  /\ result_of (lookupRoutingTable 1 [3] ex_router) = Ok 1
  /\ result_of (lookupRoutingTable 1 [3] ex_router_rand5) = Ok 2
  /\ lookupRoutingTable 1 [3] ex_router = Ok (1, after_rand ex_router)
  /\ rand_drawn (process_rand (after_rand ex_router))
     = S (rand_drawn (process_rand ex_router)).
Proof. repeat split. Qed.

(** ** Escape routing *)

(** C4: for a route whose destination router is not the local router,
    [outportEscapeVC] returns the outport of a child whose Euler-tour
    interval holds the destination when there is such a child (the first
    one, DOWN); otherwise the parent outport when the router is not the
    root (UP); otherwise, at the root, what the table lookup returns. *)
Theorem outportEscapeVC_down_up_table :
  forall (r : Router) (route : RouteInfo) (inport : Z) (inport_dirn : PortDirection),
    dest_router route <> r_id r ->
    let net := m_network_ptr r in
    let children := m_children (routingUnit r) in
    let parent := m_parentOutport (routingUnit r) in
    ((exists c, In c children /\ covers net (dest_router route) c) ->
       exists c before after,
         children = before ++ c :: after
         /\ covers net (dest_router route) c
         /\ (forall c', In c' before -> ~ covers net (dest_router route) c')
         /\ outportEscapeVC route inport inport_dirn r = Ok (c_outport c, r))
    /\ ((forall c, In c children -> ~ covers net (dest_router route) c) ->
        parent <> -1 ->
        outportEscapeVC route inport inport_dirn r = Ok (parent, r))
    /\ ((forall c, In c children -> ~ covers net (dest_router route) c) ->
        parent = -1 ->
        outportEscapeVC route inport inport_dirn r
        = lookupRoutingTable (ri_vnet route) (net_dest route) r).
Proof.
  intros r route inport inport_dirn Hne net children parent.
  unfold outportEscapeVC. munfold.
  apply Z.eqb_neq in Hne. rewrite Hne.
  fold net children parent.
  set (test := fun c : ChildInfo =>
                 (c_tin c <=? tinOf net (dest_router route))
                 && (tinOf net (dest_router route) <? c_tout c)).
  assert (Htest : forall c, test c = true <-> covers net (dest_router route) c).
  { intros c. unfold test, covers. lia. }
  assert (Hnone : (forall c, In c children -> ~ covers net (dest_router route) c) ->
                  find test children = None).
  { intros Hall. destruct (find test children) as [c|] eqn:E; [|reflexivity].
    apply find_some in E as [Hin Ht]. apply Htest in Ht. destruct (Hall c Hin Ht). }
  split; [|split].
  - intros _ex. clear Hnone.
    assert (Hsome : exists c, In c children /\ test c = true).
    { destruct _ex as (c & Hin & Hc). exists c. split; [exact Hin | apply Htest; exact Hc]. }
    clear _ex. induction children as [|c0 rest IH].
    + destruct Hsome as (c & [] & _).
    + simpl. destruct (test c0) eqn:E0.
      * exists c0, [], rest. repeat split.
        -- apply Htest; exact E0.
        -- apply Htest; exact E0.
        -- intros c' [].
      * destruct IH as (c & before & after & -> & Hc & Hbefore & Hres).
        { destruct Hsome as (c & [-> | Hin] & Hc); [congruence | eauto]. }
        exists c, (c0 :: before), after. repeat split; auto; try apply Hc.
        intros c' [<- | Hin] Hcov; [apply Htest in Hcov; congruence | eapply Hbefore; eauto].
  - intros Hall Hp. rewrite (Hnone Hall).
    apply Z.eqb_neq in Hp. rewrite Hp. reflexivity.
  - intros Hall Hp. rewrite (Hnone Hall). rewrite Hp. reflexivity.
Qed.

Lemma outportEscapeVC_witness :
  outportEscapeVC (mkRouteInfo 0 [3] 0 0 3 3 0) 1 West ex_tree_router
  = Ok (2, ex_tree_router)
  /\ outportEscapeVC (mkRouteInfo 0 [1] 0 0 1 1 0) 1 West ex_tree_router
     = Ok (1, ex_tree_router).
Proof.
  assert (H3 : dest_router (mkRouteInfo 0 [3] 0 0 3 3 0) <> r_id ex_tree_router)
    by discriminate.
  assert (H1 : dest_router (mkRouteInfo 0 [1] 0 0 1 1 0) <> r_id ex_tree_router)
    by discriminate.
  split.
  - destruct (outportEscapeVC_down_up_table ex_tree_router
                (mkRouteInfo 0 [3] 0 0 3 3 0) 1 West H3) as [Hdown _].
    destruct Hdown as (c & before & after & Hsplit & _ & _ & Hres).
    + exists (mkChild 2 2 4). split; [left; reflexivity | unfold covers; simpl; lia].
    + reflexivity.
  - destruct (outportEscapeVC_down_up_table ex_tree_router
                (mkRouteInfo 0 [1] 0 0 1 1 0) 1 West H1) as [_ [Hup _]].
    apply Hup.
    + intros c [<- | []]. unfold covers. simpl. lia.
    + discriminate.
Defined.

(** ** The routing dispatcher *)

Lemma lookupRoutingTable_ugal r vnet dest l r' :
  lookupRoutingTable vnet dest r = Ok (l, r') ->
  m_ugal_min_choices r' = m_ugal_min_choices r
  /\ m_ugal_nonmin_choices r' = m_ugal_nonmin_choices r.
Proof.
  intros H. apply lookupRoutingTable_state in H as [-> | ->]; split; reflexivity.
Qed.

(** Under [UGAL_] the dispatcher takes the [default] branch of its switch:
    the outport is the one the table lookup returns and neither UGAL counter
    moves. *)
Lemma outportCompute_UGAL_is_table_lookup
    (xy car3d adaptive : RouteInfo -> Z -> PortDirection -> M Router Z)
    (r : Router) (route : RouteInfo) (inport : Z) (inport_dirn : PortDirection) :
  getRoutingAlgorithm (m_network_ptr r) = UGAL_ ->
  dest_router route <> r_id r ->
  outportCompute xy car3d adaptive route inport inport_dirn r
  = (let* outport := lookupRoutingTable (ri_vnet route) (net_dest route) in
     let* _ := assert (negb (outport =? -1)) in
     ret outport) r
  /\ forall outport r',
       outportCompute xy car3d adaptive route inport inport_dirn r = Ok (outport, r') ->
       lookupRoutingTable (ri_vnet route) (net_dest route) r = Ok (outport, r')
       /\ m_ugal_min_choices r' = m_ugal_min_choices r
       /\ m_ugal_nonmin_choices r' = m_ugal_nonmin_choices r.
Proof.
  intros Halg Hne. apply Z.eqb_neq in Hne.
  assert (Heq : outportCompute xy car3d adaptive route inport inport_dirn r
                = (let* outport := lookupRoutingTable (ri_vnet route) (net_dest route) in
                   let* _ := assert (negb (outport =? -1)) in
                   ret outport) r).
  { unfold outportCompute. munfold. rewrite Hne, Halg. reflexivity. }
  split; [exact Heq|].
  intros outport r' H. rewrite Heq in H. munfold.
  destruct (lookupRoutingTable (ri_vnet route) (net_dest route) r) as [[o r1]|] eqn:E;
    [|discriminate].
  destruct (negb (o =? -1)); [|discriminate].
  injection H as -> ->. split; [reflexivity|].
  eapply lookupRoutingTable_ugal; eauto.
Qed.

(** C1 at a failing input: with [UGAL_] configured and a destination that
    is not the local router, [outportCompute] returns what the table lookup
    returns and leaves the router as it found it: [ugal_min_choices] and
    [ugal_nonmin_choices] are both still zero. *)
Theorem outportCompute_UGAL_counts_nothing :
  forall xy car3d adaptive : RouteInfo -> Z -> PortDirection -> M Router Z,
    getRoutingAlgorithm (m_network_ptr ex_ugal_router) = UGAL_
    /\ dest_router ex_route_to_3 <> r_id ex_ugal_router
    /\ outportCompute xy car3d adaptive ex_route_to_3 1 West ex_ugal_router
       = lookupRoutingTable 0 [3] ex_ugal_router
    /\ outportCompute xy car3d adaptive ex_route_to_3 1 West ex_ugal_router
       = Ok (1, ex_ugal_router)
    /\ m_ugal_min_choices ex_ugal_router = 0
    /\ m_ugal_nonmin_choices ex_ugal_router = 0.
Proof.
  intros xy car3d adaptive.
  repeat split; discriminate.
Qed.

(** ** Stall counters and frozen VCs *)

Lemma input_unit_eta (u : InputUnit) :
  mkInputUnit (iu_id u) (m_direction u) (virtualChannels u) (m_stall_count u)
    (m_vc_frozen u) (m_fork_vector u) (creditQueue u) (m_credit_link u)
    (m_in_link u) (m_num_buffer_reads u) (m_num_buffer_writes u)
    (m_num_probes_dropped u) (m_num_move_dropped u) (m_num_check_probe_dropped u)
  = u.
Proof. destruct u; reflexivity. Qed.

Lemma reset_stall_idempotent (vc : Z) (u : InputUnit) :
  reset_stall vc (reset_stall vc u) = reset_stall vc u.
Proof.
  unfold reset_stall.
  destruct ((vc <? 0) || (vc >=? vsize (m_stall_count u))) eqn:E.
  - rewrite E. reflexivity.
  - unfold IU.set_stall_count, vsize in *. simpl. rewrite length_insert, E.
    rewrite list_insert_insert_eq. reflexivity.
Qed.

Lemma reset_stall_zero (vc : Z) (u : InputUnit) :
  vget (m_stall_count u) vc = Ok 0 -> reset_stall vc u = u.
Proof.
  intros H. apply vget_Ok in H as [Hr Hl]. unfold reset_stall.
  replace ((vc <? 0) || (vc >=? vsize (m_stall_count u))) with false by lia.
  rewrite list_insert_id by exact Hl.
  unfold IU.set_stall_count. apply input_unit_eta.
Qed.

Lemma thaw_vc_not_frozen (vc : Z) (u : InputUnit) :
  is_vc_frozen vc u = false ->
  thaw_vc vc u
  = if (0 <=? vc) && (vc <? vsize (m_vc_frozen u)) then reset_stall vc u else u.
Proof.
  unfold is_vc_frozen, thaw_vc. intros H.
  destruct ((vc <? 0) || (vc >=? vsize (m_vc_frozen u))) eqn:E.
  - replace ((0 <=? vc) && (vc <? vsize (m_vc_frozen u))) with false by lia.
    reflexivity.
  - replace ((0 <=? vc) && (vc <? vsize (m_vc_frozen u))) with true by lia.
    destruct (vget (m_vc_frozen u) vc) as [b|] eqn:Hb.
    + subst b. apply vget_Ok in Hb as [_ Hb].
      rewrite list_insert_id by exact Hb.
      unfold IU.set_vc_frozen. rewrite input_unit_eta. reflexivity.
    + destruct (vget_in_range (m_vc_frozen u) vc) as [b Hb']; [lia | congruence].
Qed.

Lemma thaw_vc_idempotent (vc : Z) (u : InputUnit) :
  thaw_vc vc (thaw_vc vc u) = thaw_vc vc u.
Proof.
  unfold thaw_vc.
  destruct ((vc <? 0) || (vc >=? vsize (m_vc_frozen u))) eqn:E.
  - rewrite E. reflexivity.
  - assert (E' : (vc <? 0)
                 || (vc >=? vsize (m_vc_frozen
                       (reset_stall vc
                          (IU.set_vc_frozen (<[Z.to_nat vc:=false]> (m_vc_frozen u)) u))))
                 = false).
    { unfold reset_stall.
      destruct ((vc <? 0) || (vc >=? vsize (m_stall_count _))); simpl;
        unfold vsize in *; rewrite length_insert; exact E. }
    rewrite E'.
    assert (Hf : m_vc_frozen
                   (reset_stall vc
                      (IU.set_vc_frozen (<[Z.to_nat vc:=false]> (m_vc_frozen u)) u))
                 = <[Z.to_nat vc:=false]> (m_vc_frozen u)).
    { unfold reset_stall. destruct ((vc <? 0) || (vc >=? vsize (m_stall_count _)));
        reflexivity. }
    rewrite Hf, list_insert_insert_eq.
    set (u1 := reset_stall vc
                 (IU.set_vc_frozen (<[Z.to_nat vc:=false]> (m_vc_frozen u)) u)).
    assert (Hu1 : IU.set_vc_frozen (<[Z.to_nat vc:=false]> (m_vc_frozen u)) u1 = u1).
    { unfold IU.set_vc_frozen. rewrite <- Hf. fold u1. apply input_unit_eta. }
    rewrite Hu1. apply reset_stall_idempotent.
Qed.

(** C9 as stated fails: VC 0 is not frozen, and [thaw_vc] changes the state:
    it sets the stall count of the VC from 3 to 0. *)
Lemma thaw_vc_unfrozen_resets_stall_count :
  is_vc_frozen 0 ex_stalled_unit = false
  /\ m_stall_count ex_stalled_unit = [3; 0; 0; 0]
  /\ m_stall_count (thaw_vc 0 ex_stalled_unit) = [0; 0; 0; 0]
  /\ thaw_vc 0 ex_stalled_unit <> ex_stalled_unit.
Proof. repeat split. discriminate. Qed.

(** C9, as amended: [thaw_vc] is idempotent; on a VC that is not frozen it
    does what [reset_stall] does (the frozen flags and everything else stay,
    the stall count of the VC becomes zero), so it is a no-op when that
    count is zero already; and [reset_stall] is idempotent. *)
Theorem thaw_vc_reset_stall_idempotent :
  forall (vc : Z) (u : InputUnit),
    thaw_vc vc (thaw_vc vc u) = thaw_vc vc u
    /\ (is_vc_frozen vc u = false ->
        m_vc_frozen (thaw_vc vc u) = m_vc_frozen u
        /\ thaw_vc vc u
           = (if (0 <=? vc) && (vc <? vsize (m_vc_frozen u))
              then reset_stall vc u else u)
        /\ (vget (m_stall_count u) vc = Ok 0 -> thaw_vc vc u = u))
    /\ reset_stall vc (reset_stall vc u) = reset_stall vc u.
Proof.
  intros vc u. split; [apply thaw_vc_idempotent|]. split; [|apply reset_stall_idempotent].
  intros Hnf. pose proof (thaw_vc_not_frozen vc u Hnf) as Heq.
  split; [|split].
  - rewrite Heq. destruct ((0 <=? vc) && (vc <? vsize (m_vc_frozen u))); [|reflexivity].
    unfold reset_stall. destruct ((vc <? 0) || (vc >=? vsize (m_stall_count u)));
      reflexivity.
  - exact Heq.
  - intros Hz. rewrite Heq.
    destruct ((0 <=? vc) && (vc <? vsize (m_vc_frozen u))); [|reflexivity].
    apply reset_stall_zero. exact Hz.
Qed.

(** The theorem of C9 at an input unit whose VC 2 is neither frozen nor
    stalled: thawing it changes nothing. *)
Lemma thaw_vc_witness :
  thaw_vc 2 (ex_input_unit 1 West) = ex_input_unit 1 West
  /\ thaw_vc 0 (thaw_vc 0 ex_stalled_unit) = thaw_vc 0 ex_stalled_unit.
Proof.
  destruct (thaw_vc_reset_stall_idempotent 2 (ex_input_unit 1 West)) as [_ [H _]].
  destruct (H eq_refl) as [_ [_ Hnoop]].
  destruct (thaw_vc_reset_stall_idempotent 0 ex_stalled_unit) as [Hidem _].
  split; [apply Hnoop; reflexivity | exact Hidem].
Defined.

(** ** SA-I: when a request may be made *)

Lemma zrange_In (lo : Z) (n : nat) (x : Z) :
  In x (zrange lo n) <-> lo <= x < lo + Z.of_nat n.
Proof.
  unfold zrange. rewrite in_map_iff. split.
  - intros (k & <- & Hk). apply in_seq in Hk. lia.
  - intros H. exists (Z.to_nat (x - lo)). split; [lia|]. apply in_seq. lia.
Qed.

Lemma earlier_request_spec (u : InputUnit) (outport : Z) (t now : Tick) :
  forall temp_vcs,
    (forall v, In v temp_vcs -> 0 <= v < vsize (virtualChannels u)) ->
    exists b,
      earlier_request u outport t now temp_vcs = Ok b
      /\ (b = true <->
          exists temp_vc c,
            In temp_vc temp_vcs
            /\ vget (virtualChannels u) temp_vc = Ok c
            /\ VC.need_stage SA_ now c = true
            /\ m_output_port c = outport
            /\ vc_enqueue_time c < t).
Proof.
  induction temp_vcs as [|v rest IH]; intros Hr; simpl.
  - exists false. split; [reflexivity|].
    split; [discriminate | intros (? & ? & [] & _)].
  - destruct (vget_in_range (virtualChannels u) v) as [c Hc]; [apply Hr; left; reflexivity|].
    rewrite Hc.
    destruct (VC.need_stage SA_ now c && (m_output_port c =? outport)
              && (vc_enqueue_time c <? t)) eqn:E.
    + exists true. split; [reflexivity|]. split; [|reflexivity].
      apply andb_prop in E as [E1 E3]. apply andb_prop in E1 as [E1 E2].
      intros _. exists v, c. repeat split; auto; lia.
    + destruct IH as (b & Hb & Hiff); [intros; apply Hr; right; assumption|].
      exists b. split; [exact Hb|]. rewrite Hiff. split.
      * intros (v' & c' & Hin & H). exists v', c'. split; [right; exact Hin | exact H].
      * intros (v' & c' & [<- | Hin] & Hc' & Hn & Ho & Ht).
        -- rewrite Hc in Hc'. injection Hc' as <-. rewrite Hn in E. lia.
        -- exists v', c'. auto.
Qed.

Lemma has_free_vc_no_escape (vpv vnet : Z) (ou : OutputUnit) :
  OU.has_free_vc vpv false vnet ou = true <->
  exists vc st,
    vnet * vpv <= vc < vnet * vpv + vpv
    /\ vget (outVcState ou) vc = Ok st
    /\ ovc_state st = IDLE_.
Proof.
  unfold OU.has_free_vc, OU.non_escape_offsets. simpl.
  rewrite existsb_exists. split.
  - intros (off & Hin & Hidle).
    apply filter_In in Hin as [Hin _]. apply zrange_In in Hin.
    unfold OU.is_vc_idle in Hidle.
    destruct (vget (outVcState ou) (vnet * vpv + off)) as [st|] eqn:E; [|discriminate].
    exists (vnet * vpv + off), st. repeat split; auto; try lia.
    destruct (ovc_state st); try discriminate; reflexivity.
  - intros (vc & st & Hr & Hst & Hidle).
    exists (vc - vnet * vpv). split.
    + apply filter_In. split; [apply zrange_In; lia | reflexivity].
    + unfold OU.is_vc_idle. replace (vnet * vpv + (vc - vnet * vpv)) with vc by lia.
      rewrite Hst, Hidle. reflexivity.
Qed.

Lemma has_credit_spec (outvc : Z) (ou : OutputUnit) :
  OU.has_credit outvc ou = true <->
  exists st, vget (outVcState ou) outvc = Ok st /\ 0 < credit_count st.
Proof.
  unfold OU.has_credit, OU.get_credit_count.
  destruct (vget (outVcState ou) outvc) as [st|].
  - split; [intros H; exists st; split; [reflexivity | lia]
           | intros (st' & [= <-] & H); lia].
  - split; [intros H; lia | intros (st' & [=] & _)].
Qed.

Lemma get_vnet_in_range (r : Router) (invc : Z) :
  0 < m_vc_per_vnet r -> 0 <= invc < get_num_vcs r ->
  get_vnet invc r = Ok (Z.quot invc (m_vc_per_vnet r), r)
  /\ 0 <= Z.quot invc (m_vc_per_vnet r) < m_virtual_networks r.
Proof.
  intros Hv Hi. unfold get_num_vcs in Hi.
  assert (Hq : 0 <= Z.quot invc (m_vc_per_vnet r) < m_virtual_networks r).
  { rewrite Z.quot_div_nonneg by lia. split.
    - apply Z.div_pos; lia.
    - apply Z.div_lt_upper_bound; lia. }
  split; [|exact Hq].
  unfold get_vnet, int_div. munfold.
  replace (m_vc_per_vnet r =? 0) with false by lia.
  replace ((0 <=? Z.quot invc (m_vc_per_vnet r))
           && (Z.quot invc (m_vc_per_vnet r) <? m_virtual_networks r)) with true by lia.
  reflexivity.
Qed.

(** C2: in standard (non-escape) mode, for an input VC [invc] of [inport],
    an outport and a downstream VC index [outvc] ([-1] for HEAD and
    HEAD_TAIL, at least 0 for BODY and TAIL), [send_allowed] returns, changes
    nothing, and returns true if and only if (a) when [outvc = -1], some VC
    of the flit's vnet is free at that outport, (b) when [outvc >= 0], the
    credit count of [outvc] is positive, and (c) when the vnet is ordered,
    no VC of the same vnet at this inport with a strictly earlier enqueue
    time has its head flit in stage SA and asks for the same outport. *)
Theorem send_allowed_standard_mode :
  forall (r : Router) (inport invc outport outvc : Z) (u : InputUnit)
         (c : VirtualChannel),
    Router_is_escape_vc_enabled r = false ->
    0 < m_vc_per_vnet r ->
    0 <= invc < get_num_vcs r ->
    0 <= outport < get_num_outports r ->
    vget (m_input_unit r) inport = Ok u ->
    vsize (virtualChannels u) = get_num_vcs r ->
    vget (virtualChannels u) invc = Ok c ->
    -1 <= outvc ->
    let vnet := Z.quot invc (m_vc_per_vnet r) in
    exists b,
      send_allowed inport invc outport outvc (Router_is_escape_vc_enabled r) r = Ok (b, r)
      /\ (b = true <->
          (outvc = -1 -> free_vc_exists r outport vnet)
          /\ (0 <= outvc -> credit_available r outport outvc)
          /\ (isVNetOrdered (m_network_ptr r) vnet = true ->
              ~ earlier_requester r inport vnet outport (vc_enqueue_time c))).
Proof.
  intros r inport invc outport outvc u c Hesc Hvpv Hinvc Hout Hu Hsize Hc Houtvc vnet.
  destruct (get_vnet_in_range r invc Hvpv Hinvc) as [Hgv Hvnet]. fold vnet in Hgv, Hvnet.
  destruct (vget_in_range (m_output_unit r) outport Hout) as [ou Hou].
  (* the ordering check, evaluated *)
  assert (Hrange : forall v, In v (zrange (vnet * m_vc_per_vnet r)
                                     (Z.to_nat (m_vc_per_vnet r))) ->
                             0 <= v < vsize (virtualChannels u)).
  { intros v Hv. apply zrange_In in Hv. rewrite Hsize. unfold get_num_vcs. nia. }
  destruct (earlier_request_spec u outport (vc_enqueue_time c) (curTick r) _ Hrange)
    as (viol & Hviol & Hviol_iff).
  assert (Hearlier : viol = true <->
                     earlier_requester r inport vnet outport (vc_enqueue_time c)).
  { rewrite Hviol_iff. unfold earlier_requester. split.
    - intros (v & c' & Hin & H). exists u, v, c'. apply zrange_In in Hin.
      split; [exact Hu|]. split; [lia | exact H].
    - intros (u' & v & c' & Hu' & Hv & H). rewrite Hu in Hu'. injection Hu' as <-.
      exists v, c'. split; [apply zrange_In; lia | exact H]. }
  assert (Hfree : OU.has_free_vc (m_vc_per_vnet r) false vnet ou = true <->
                  free_vc_exists r outport vnet).
  { rewrite has_free_vc_no_escape. unfold free_vc_exists. split.
    - intros (vc & st & H). exists ou, vc, st. split; [exact Hou | exact H].
    - intros (ou' & vc & st & Hou' & H). rewrite Hou in Hou'. injection Hou' as <-.
      exists vc, st. exact H. }
  assert (Hcred : OU.has_credit outvc ou = true <-> credit_available r outport outvc).
  { rewrite has_credit_spec. unfold credit_available. split.
    - intros (st & H). exists ou, st. split; [exact Hou | exact H].
    - intros (ou' & st & Hou' & H). rewrite Hou in Hou'. injection Hou' as <-.
      exists st. exact H. }
  unfold send_allowed. rewrite Hesc.
  unfold bind at 1. unfold get at 1. unfold bind at 1. rewrite Hgv.
  unfold getOutputUnit, getInputUnit, int_mod. munfold. rewrite Hou.
  replace (m_vc_per_vnet r =? 0) with false by lia. simpl.
  unfold Router_is_escape_vc_enabled in Hesc. 
  destruct (outvc =? -1) eqn:Eo; simpl.
  - apply Z.eqb_eq in Eo. subst outvc.
    unfold Router_is_escape_vc_enabled. rewrite Hesc.
    destruct (OU.has_free_vc (m_vc_per_vnet r) false vnet ou) eqn:Ef; simpl.
    + destruct (isVNetOrdered (m_network_ptr r) vnet) eqn:Eord.
      * rewrite Hu. cbn beta iota. rewrite Hc. fold vnet. rewrite Hviol.
        exists (negb viol). split; [reflexivity|].
        split.
        -- intros Hb. split; [intros _; apply Hfree; reflexivity|].
           split; [intros; lia|]. intros _ He. apply Hearlier in He.
           rewrite He in Hb. discriminate.
        -- intros (_ & _ & Hno). destruct viol; [|reflexivity].
           exfalso. apply Hno; [reflexivity | apply Hearlier; reflexivity].
      * exists true. split; [reflexivity|]. split; [|reflexivity].
        intros _. split; [intros _; apply Hfree; reflexivity|].
        split; [intros; lia | intros; discriminate].
    + exists false. split; [reflexivity|]. split; [discriminate|].
      intros (Ha & _). specialize (Ha eq_refl). apply Hfree in Ha. congruence.
  - apply Z.eqb_neq in Eo.
    destruct (OU.has_credit outvc ou) eqn:Ec; simpl.
    + destruct (isVNetOrdered (m_network_ptr r) vnet) eqn:Eord.
      * rewrite Hu. cbn beta iota. rewrite Hc. fold vnet. rewrite Hviol.
        exists (negb viol). split; [reflexivity|].
        split.
        -- intros Hb. split; [intros; lia|].
           split; [intros _; apply Hcred; reflexivity|]. intros _ He.
           apply Hearlier in He. rewrite He in Hb. discriminate.
        -- intros (_ & _ & Hno). destruct viol; [|reflexivity].
           exfalso. apply Hno; [reflexivity | apply Hearlier; reflexivity].
      * exists true. split; [reflexivity|]. split; [|reflexivity].
        intros _. split; [intros; lia|].
        split; [intros _; apply Hcred; reflexivity | intros; discriminate].
    + exists false. split; [reflexivity|]. split; [discriminate|].
      intros (_ & Hb & _). assert (H0 : 0 <= outvc) by lia.
      specialize (Hb H0). apply Hcred in Hb. congruence.
Qed.

(** The theorem of C2 at that router: the HEAD_TAIL flit may be sent. *)
Lemma send_allowed_witness :
  exists b,
    send_allowed 1 0 1 (-1) (Router_is_escape_vc_enabled ex_sa_router) ex_sa_router
    = Ok (b, ex_sa_router)
    /\ b = true.
Proof.
  destruct (send_allowed_standard_mode ex_sa_router 1 0 1 (-1)
              (ex_west_unit [ex_active_vc [ex_flit HEAD_TAIL_ 0 0 3 1000] 1 (-1) 1000;
                             ex_idle_vc; ex_idle_vc; ex_idle_vc])
              (ex_active_vc [ex_flit HEAD_TAIL_ 0 0 3 1000] 1 (-1) 1000))
    as (b & Hres & Hiff).
  - reflexivity.
  - reflexivity.
  - split; [discriminate | reflexivity].
  - split; [discriminate | reflexivity].
  - reflexivity.
  - reflexivity.
  - reflexivity.
  - discriminate.
  - exists b. split; [exact Hres|].
    cbv in Hres. injection Hres as <-. reflexivity.
Defined.

(** ** Running the monad *)

Lemma bind_Ok {St A B : Type} (m : M St A) (k : A -> M St B) (s s' : St) (a : A) :
  m s = Ok (a, s') -> bind m k s = k a s'.
Proof. intros H. unfold bind. rewrite H. reflexivity. Qed.

Lemma bind_Err {St A B : Type} (m : M St A) (k : A -> M St B) (s : St) (e : error) :
  m s = Err e -> bind m k s = Err e.
Proof. intros H. unfold bind. rewrite H. reflexivity. Qed.

Lemma getInputUnit_Ok (r : Router) (port : Z) (u : InputUnit) :
  vget (m_input_unit r) port = Ok u -> getInputUnit port r = Ok (u, r).
Proof. intros H. unfold getInputUnit. munfold. rewrite H. reflexivity. Qed.

Lemma getOutputUnit_Ok (r : Router) (port : Z) (u : OutputUnit) :
  vget (m_output_unit r) port = Ok u -> getOutputUnit port r = Ok (u, r).
Proof. intros H. unfold getOutputUnit. munfold. rewrite H. reflexivity. Qed.

Lemma putInputUnit_Ok (r : Router) (port : Z) (u : InputUnit) :
  0 <= port < get_num_inports r ->
  putInputUnit port u r
  = Ok (tt, R.set_input_unit (<[Z.to_nat port := u]> (m_input_unit r)) r).
Proof.
  intros H. unfold putInputUnit. munfold. rewrite vset_Ok by exact H. reflexivity.
Qed.


Lemma router_eta (r : Router) :
  mkRouter (r_id r) (m_latency r) (m_virtual_networks r) (m_vc_per_vnet r)
    (m_bit_width r) (m_network_ptr r) (routingUnit r) (switchAllocator r)
    (crossbarSwitch r) (m_input_unit r) (m_output_unit r) (m_ugal_min_choices r)
    (m_ugal_nonmin_choices r) (spin r) (curTick r) (clockPeriod r)
    (scheduled_wakeups r) (process_rand r)
  = r.
Proof. destruct r; reflexivity. Qed.

Lemma putOutputUnit_same (r : Router) (port : Z) (u : OutputUnit) :
  vget (m_output_unit r) port = Ok u -> putOutputUnit port u r = Ok (tt, r).
Proof.
  intros H. unfold putOutputUnit. munfold. rewrite (vset_same _ _ _ H).
  unfold R.set_output_unit. rewrite router_eta. reflexivity.
Qed.

Lemma putInputUnit_same (r : Router) (port : Z) (u : InputUnit) :
  vget (m_input_unit r) port = Ok u -> putInputUnit port u r = Ok (tt, r).
Proof.
  intros H. unfold putInputUnit. munfold. rewrite (vset_same _ _ _ H).
  unfold R.set_input_unit. rewrite router_eta. reflexivity.
Qed.

(** Rewriting one step of a run with a fact about its first action. *)
Ltac mrun H := rewrite (bind_Ok _ _ _ _ _ H); cbn beta iota.

(** ** SA-II: the winner of an outport *)

Lemma zrange_S (lo : Z) (k : nat) : zrange lo (S k) = lo :: zrange (lo + 1) k.
Proof.
  unfold zrange. simpl. f_equal; [lia|].
  rewrite <- seq_shift, map_map. apply map_ext. intros a. lia.
Qed.

Lemma scan_inports_spec (test : Z -> res bool) (p : Z -> bool) (n : Z) :
  0 < n ->
  (forall i, 0 <= i < n -> test i = Ok (p i)) ->
  forall (k : nat) (pos : Z),
    0 <= pos <= n ->
    scan_inports test n k pos
    = Ok (first_in_order p (map (fun j => (pos + j) mod n) (zrange 0 k))).
Proof.
  intros Hn Htest. induction k as [|k IH]; intros pos Hpos.
  - reflexivity.
  - rewrite zrange_S. simpl.
    assert (Hin : (if pos >=? n then 0 else pos) = (pos + 0) mod n).
    { rewrite Z.add_0_r. destruct (pos >=? n) eqn:E.
      - assert (pos = n) by lia. subst pos. symmetry. apply Z_mod_same_full.
      - symmetry. apply Z.mod_small. lia. }
    rewrite Hin.
    assert (Hr : 0 <= (pos + 0) mod n < n) by (apply Z.mod_pos_bound; lia).
    rewrite (Htest _ Hr). unfold first_in_order. simpl.
    destruct (p ((pos + 0) mod n)); [reflexivity|].
    rewrite IH by lia.
    assert (Hmap : map (fun j => ((pos + 0) mod n + 1 + j) mod n) (zrange 0 k)
                   = map (fun j => (pos + j) mod n) (zrange (0 + 1) k)).
    { unfold zrange. rewrite !map_map. apply map_ext. intros j.
      rewrite Z.add_0_r.
      replace (pos mod n + 1 + (0 + Z.of_nat j)) with (pos mod n + (1 + Z.of_nat j))
        by lia.
      replace (pos + (0 + 1 + Z.of_nat j)) with (pos + (1 + Z.of_nat j)) by lia.
      rewrite Zplus_mod_idemp_l. reflexivity. }
    rewrite Hmap. reflexivity.
Qed.

Lemma choose_inport_spec (r : Router) (outport start : Z) :
  sa_sized r ->
  vget (m_round_robin_inport (switchAllocator r)) outport = Ok start ->
  choose_inport r outport = Ok (sa2_winner r outport start).
Proof.
  intros (Hrr & Hreq & Hwin & Hesc & Hptr) Hstart.
  pose proof (Hptr _ _ Hstart) as Hs.
  assert (Hn : 0 < get_num_inports r) by lia.
  unfold choose_inport, sa2_winner. rewrite Hstart.
  assert (Ht1 : forall i, 0 <= i < get_num_inports r ->
                is_escape_requester (switchAllocator r) outport i
                = Ok (escape_requesting (switchAllocator r) outport i)).
  { intros i Hi. unfold is_escape_requester, escape_requesting, requesting.
    destruct (vget_in_range (m_port_requests (switchAllocator r)) i) as [p Hp];
      [lia|].
    destruct (vget_in_range (m_is_escape_req (switchAllocator r)) i) as [b Hb];
      [lia|].
    rewrite Hp, Hb. destruct (p =? outport); reflexivity. }
  assert (Ht2 : forall i, 0 <= i < get_num_inports r ->
                is_requester (switchAllocator r) outport i
                = Ok (requesting (switchAllocator r) outport i)).
  { intros i Hi. unfold is_requester, requesting.
    destruct (vget_in_range (m_port_requests (switchAllocator r)) i) as [p Hp];
      [lia|].
    rewrite Hp. reflexivity. }
  rewrite (scan_inports_spec _ _ _ Hn Ht1) by lia.
  rewrite (scan_inports_spec _ _ _ Hn Ht2) by lia.
  fold (rr_order (get_num_inports r) start).
  unfold first_in_order.
  destruct (find (escape_requesting (switchAllocator r) outport)
              (rr_order (get_num_inports r) start)) as [i|] eqn:E.
  - apply find_some in E as [Hin _].
    unfold rr_order in Hin. apply in_map_iff in Hin as (k & <- & _).
    pose proof (Z.mod_pos_bound (start + k) (get_num_inports r) Hn).
    replace ((start + k) mod get_num_inports r =? -1) with false by lia.
    reflexivity.
  - reflexivity.
Qed.

Lemma set_escape_vc_fails (vpv vnet : Z) (ou : OutputUnit) :
  0 <= vnet -> 0 < vpv ->
  fst (OU.set_escape_vc vpv vnet ou) = -1 ->
  OU.set_escape_vc vpv vnet ou = (-1, ou).
Proof.
  intros Hv Hp. unfold OU.set_escape_vc.
  destruct (OU.is_vc_idle (vnet * vpv) ou); simpl; [nia | reflexivity].
Qed.

Lemma set_port_request_Ok (r : Router) (inport outport : Z) :
  0 <= inport < vsize (m_port_requests (switchAllocator r)) ->
  set_port_request inport outport r
  = Ok (tt, R.set_switchAllocator
              (mkSwitchAllocator (m_round_robin_inport (switchAllocator r))
                 (m_round_robin_invc (switchAllocator r))
                 (<[Z.to_nat inport := outport]> (m_port_requests (switchAllocator r)))
                 (m_vc_winners (switchAllocator r))
                 (m_is_escape_req (switchAllocator r))
                 (m_input_arbiter_activity (switchAllocator r))
                 (m_output_arbiter_activity (switchAllocator r))) r).
Proof.
  intros H. unfold set_port_request. munfold. rewrite vset_Ok by exact H. reflexivity.
Qed.

Lemma bind_get {St B : Type} (k : St -> M St B) (s : St) : bind get k s = k s s.
Proof. reflexivity. Qed.

Lemma bind_ret {St A B : Type} (a : A) (k : A -> M St B) (s : St) :
  bind (ret a) k s = k a s.
Proof. reflexivity. Qed.

Lemma bind_lift_Ok {St A B : Type} (x : res A) (a : A) (k : A -> M St B) (s : St) :
  x = Ok a -> bind (lift x) k s = k a s.
Proof. intros ->. reflexivity. Qed.

(** C3: in SA-II the winner of an outport is the first escape requester in
    round-robin order from [rr_inport[outport]] when there is one, and the
    first requester in that order only when there is none.  When the winner
    is an escape requester that needs a downstream VC ([outvc = -1]) and
    [set_escape_vc] returns [-1], the request of the inport is cleared and
    nothing else changes: the input units (no flit dequeued, no upstream
    credit queued), the output units (no credit decremented), the crossbar
    and the round-robin pointers are as before. *)
Theorem arbitrate_outport_escape_priority :
  forall (r : Router) (outport start : Z),
    sa_sized r ->
    vget (m_round_robin_inport (switchAllocator r)) outport = Ok start ->
    choose_inport r outport = Ok (sa2_winner r outport start)
    /\ forall (inport invc : Z) (u : InputUnit) (c : VirtualChannel) (ou : OutputUnit),
         sa2_winner r outport start = inport ->
         escape_requesting (switchAllocator r) outport inport = true ->
         Router_is_escape_vc_enabled r = true ->
         0 < m_vc_per_vnet r ->
         vget (m_vc_winners (switchAllocator r)) inport = Ok invc ->
         0 <= invc < get_num_vcs r ->
         vget (m_input_unit r) inport = Ok u ->
         vget (virtualChannels u) invc = Ok c ->
         m_output_vc c = -1 ->
         vget (m_output_unit r) outport = Ok ou ->
         fst (OU.set_escape_vc (m_vc_per_vnet r)
                (Z.quot invc (m_vc_per_vnet r)) ou) = -1 ->
         arbitrate_outport outport r = Ok (tt, clear_request inport r)
         /\ requesting (switchAllocator (clear_request inport r)) outport inport = false
         /\ m_input_unit (clear_request inport r) = m_input_unit r
         /\ m_output_unit (clear_request inport r) = m_output_unit r
         /\ crossbarSwitch (clear_request inport r) = crossbarSwitch r
         /\ m_round_robin_inport (switchAllocator (clear_request inport r))
            = m_round_robin_inport (switchAllocator r)
         /\ m_round_robin_invc (switchAllocator (clear_request inport r))
            = m_round_robin_invc (switchAllocator r).
Proof.
  intros r outport start Hsized Hstart.
  pose proof (choose_inport_spec r outport start Hsized Hstart) as Hchoose.
  split; [exact Hchoose|].
  intros inport invc u c ou Hwin Hescreq Hen Hvpv Hinvc Hinvc_r Hu Hc Houtvc Hou Hfail.
  destruct Hsized as (Hrr & Hreq & Hwinners & Hesc & Hptr).
  pose proof (vget_range _ _ _ Hu) as Hip. fold (get_num_inports r) in Hip.
  pose proof (vget_range _ _ _ Hou) as Hop.
  (* the winner's escape flag is set *)
  assert (Hflag : vget (m_is_escape_req (switchAllocator r)) inport = Ok true).
  { unfold escape_requesting in Hescreq. apply andb_prop in Hescreq as [_ H].
    destruct (vget (m_is_escape_req (switchAllocator r)) inport) as [b|];
      [subst b; reflexivity | discriminate]. }
  destruct (get_vnet_in_range r invc Hvpv Hinvc_r) as [Hgv Hvnet].
  rewrite Hwin in Hchoose.
  split.
  - unfold arbitrate_outport.
    rewrite bind_get. cbn beta.
    rewrite (bind_lift_Ok _ _ _ _ Hchoose). cbn beta.
    replace (inport =? -1) with false by lia.
    mrun (getOutputUnit_Ok _ _ _ Hou).
    mrun (getInputUnit_Ok _ _ _ Hu).
    rewrite (bind_lift_Ok _ _ _ _ Hinvc). cbn beta.
    rewrite (bind_lift_Ok _ _ _ _ Hc). cbn beta.
    rewrite Houtvc. simpl (-1 =? -1).  cbn iota.
    unfold bind at 1.
    rewrite (bind_lift_Ok _ _ _ _ Hflag). cbn beta. rewrite Hen. cbn [andb].
    mrun Hgv.
    rewrite (set_escape_vc_fails _ _ _ (proj1 Hvnet) Hvpv Hfail).
    mrun (putOutputUnit_same _ _ _ Hou).
    simpl (-1 =? -1). cbn iota.
    rewrite (bind_Ok _ _ _ _ _ (set_port_request_Ok r inport (-1) ltac:(lia))).
    reflexivity.
  - repeat split; try reflexivity.
    unfold requesting, clear_request. simpl.
    rewrite vget_vset_eq by lia. lia.
Qed.

(** The theorem of C3 at that router: the escape requester (inport 1) wins
    over the requester the pointer is at (inport 2), its allocation fails,
    and only its request is cleared. *)
Lemma arbitrate_outport_witness :
  choose_inport ex_escape_router 1 = Ok 1
  /\ arbitrate_outport 1 ex_escape_router = Ok (tt, clear_request 1 ex_escape_router).
Proof.
  assert (Hsized : sa_sized ex_escape_router).
  { repeat split; try reflexivity.
    - apply vget_Ok in H as [Hr Hl]. cbv in Hr.
      destruct (Z.to_nat o) as [|[|[|n]]] eqn:E; simpl in Hl; try discriminate;
        injection Hl as <-; lia.
    - apply vget_Ok in H as [Hr Hl]. cbv in Hr.
      destruct (Z.to_nat o) as [|[|[|n]]] eqn:E; simpl in Hl; try discriminate;
        injection Hl as <-; reflexivity. }
  destruct (arbitrate_outport_escape_priority ex_escape_router 1 2 Hsized eq_refl)
    as [Hchoose Hfail].
  split; [exact Hchoose|].
  assert (Hinvc : 0 <= 0 < get_num_vcs ex_escape_router)
    by (split; [discriminate | reflexivity]).
  destruct (Hfail 1 0
              (ex_west_unit [ex_active_vc [ex_flit HEAD_TAIL_ 0 0 3 1000] 1 (-1) 1000;
                             ex_idle_vc; ex_idle_vc; ex_idle_vc])
              (ex_active_vc [ex_flit HEAD_TAIL_ 0 0 3 1000] 1 (-1) 1000)
              (mkOutputUnit East
                 [mkOutVc ACTIVE_ 4; mkOutVc IDLE_ 4; mkOutVc IDLE_ 4; mkOutVc IDLE_ 4]))
    as [Hres _];
    [reflexivity | reflexivity | reflexivity | reflexivity | reflexivity
    | exact Hinvc | reflexivity | reflexivity | reflexivity | reflexivity
    | reflexivity | exact Hres].
Defined.

(** ** SA-II: the grant, the credit and the idle VC *)

Lemma getVC_Ok (r : Router) (inport vc : Z) (u : InputUnit) (c : VirtualChannel) :
  vget (m_input_unit r) inport = Ok u ->
  vget (virtualChannels u) vc = Ok c ->
  getVC inport vc r = Ok (c, r).
Proof.
  intros Hu Hc. unfold getVC. mrun (getInputUnit_Ok _ _ _ Hu).
  unfold lift. rewrite Hc. reflexivity.
Qed.

Lemma putVC_Ok (r : Router) (inport vc : Z) (u : InputUnit) (c c' : VirtualChannel) :
  vget (m_input_unit r) inport = Ok u ->
  vget (virtualChannels u) vc = Ok c ->
  putVC inport vc c' r = Ok (tt, with_vc inport vc u c' r).
Proof.
  intros Hu Hc. unfold putVC. mrun (getInputUnit_Ok _ _ _ Hu).
  rewrite (bind_lift_Ok _ _ _ _ (vset_Ok _ _ c' (vget_range _ _ _ Hc))). cbn beta.
  apply putInputUnit_Ok. exact (vget_range _ _ _ Hu).
Qed.

Lemma with_vc_unit (r : Router) (inport vc : Z) (u : InputUnit) (c' : VirtualChannel) :
  0 <= inport < get_num_inports r ->
  vget (m_input_unit (with_vc inport vc u c' r)) inport
  = Ok (IU.set_virtualChannels (<[Z.to_nat vc := c']> (virtualChannels u)) u).
Proof. intros H. unfold with_vc. simpl. apply vget_vset_eq. exact H. Qed.













(** A flit that arrives while the packet of the VC is still open, that is
    while the VC holds no TAIL or HEAD_TAIL, leaves the VC framed. *)
Lemma insertFlit_open_packet_framed (c : VirtualChannel) (f : flit) :
  Forall (fun g => is_tail_family (m_type g) = false) (inputBuffer c) ->
  packet_framed (inputBuffer (VC.insertFlit f c)) = true.
Proof.
  change (inputBuffer (VC.insertFlit f c)) with (inputBuffer c ++ [f]).
  induction 1 as [|g buf Hg _ IH].
  - cbn [app packet_framed]. rewrite orb_true_r. reflexivity.
  - cbn [app packet_framed]. rewrite Hg, IH. reflexivity.
Qed.



(** ** SPIN control flits at the input unit *)

Lemma wakeup_control
    (xy car3d adaptive : RouteInfo -> Z -> PortDirection -> M Router Z)
    (r : Router) (inport : Z) (u : InputUnit) (t_flit : flit) (rest : list flit) :
  vget (m_input_unit r) inport = Ok u ->
  m_in_link u = t_flit :: rest ->
  m_time t_flit <= curTick r ->
  m_width t_flit = m_bit_width r ->
  spin_scheme_enabled r = true ->
  is_control_type (m_type t_flit) = true ->
  wakeup xy car3d adaptive inport r
  = match m_type t_flit with
    | PROBE_ => wakeup_probe inport (arrived r t_flit)
    | MOVE_ => wakeup_move inport (arrived r t_flit)
    | CHECK_PROBE_ => wakeup_check_probe inport (arrived r t_flit)
    | _ => wakeup_kill_move inport (arrived r t_flit)
    end (consumed inport u rest r).
Proof.
  intros Hu Hlink Htime Hwidth Hspin Hctl.
  unfold wakeup. rewrite bind_get. cbn beta.
  mrun (getInputUnit_Ok _ _ _ Hu). rewrite Hlink.
  replace (m_time t_flit <=? curTick r) with true by lia. cbn [negb].
  rewrite (bind_Ok _ _ _ _ _ (putInputUnit_Ok r inport _ (vget_range _ _ _ Hu))).
  cbn beta iota. fold (consumed inport u rest r).
  replace (m_width t_flit =? m_bit_width r) with true by lia.
  cbn [assert]. rewrite bind_ret. cbn beta.
  rewrite Hspin.
  assert (Hty : m_type (increment_hops t_flit) = m_type t_flit) by reflexivity.
  rewrite Hty, Hctl. cbn [andb].
  assert (Hty' : m_type (setInport (r_id r) (increment_hops t_flit)) = m_type t_flit)
    by reflexivity.
  rewrite Hty'. reflexivity.
Qed.

Lemma consumed_unit (r : Router) (inport : Z) (u : InputUnit) (rest : list flit) :
  0 <= inport < get_num_inports r ->
  vget (m_input_unit (consumed inport u rest r)) inport = Ok (IU.set_in_link rest u).
Proof. intros H. unfold consumed. simpl. apply vget_vset_eq. exact H. Qed.

Lemma with_unit_get (r : Router) (inport : Z) (u' : InputUnit) :
  0 <= inport < get_num_inports r ->
  vget (m_input_unit (with_unit inport u' r)) inport = Ok u'.
Proof. intros H. unfold with_unit. simpl. apply vget_vset_eq. exact H. Qed.

Lemma with_unit_twice (r : Router) (inport : Z) (u1 u2 : InputUnit) :
  with_unit inport u2 (with_unit inport u1 r) = with_unit inport u2 r.
Proof.
  unfold with_unit, R.set_input_unit. simpl. rewrite list_insert_insert_eq. reflexivity.
Qed.

Lemma with_unit_inports (r : Router) (inport : Z) (u' : InputUnit) :
  get_num_inports (with_unit inport u' r) = get_num_inports r.
Proof. unfold with_unit, get_num_inports, vsize. simpl. rewrite length_insert. reflexivity. Qed.

Lemma on_input_unit_Ok (r : Router) (inport : Z) (f : InputUnit -> InputUnit)
    (u : InputUnit) :
  vget (m_input_unit r) inport = Ok u ->
  on_input_unit inport f r = Ok (tt, with_unit inport (f u) r).
Proof.
  intros Hu. unfold on_input_unit. mrun (getInputUnit_Ok _ _ _ Hu).
  apply putInputUnit_Ok. exact (vget_range _ _ _ Hu).
Qed.

Lemma getOutportDirection_Ok (r : Router) (outport : Z) (ou : OutputUnit) :
  vget (m_output_unit r) outport = Ok ou ->
  getOutportDirection outport r = Ok (ou_direction ou, r).
Proof.
  intros H. unfold getOutportDirection. rewrite bind_get. cbn beta.
  rewrite (bind_lift_Ok _ _ _ _ H). reflexivity.
Qed.











Lemma consumed_inports (r : Router) (inport : Z) (u : InputUnit) (rest : list flit) :
  get_num_inports (consumed inport u rest r) = get_num_inports r.
Proof. apply with_unit_inports. Qed.





(** ** MOVE at an intermediate router *)

Lemma find_move_vc_loop_Ok (s : Router) (inport outp : Z) (u : InputUnit) :
  vget (m_input_unit s) inport = Ok u ->
  forall idxs cs,
    Forall2 (fun i c => vget (virtualChannels u) i = Ok c) idxs cs ->
    Forall (fun c => VC.get_state c = ACTIVE_ ->
                     0 <= m_output_port c < get_num_outports s) cs ->
    find_move_vc_loop inport outp idxs s = Ok (move_vc_scan s outp idxs cs, s).
Proof.
  intros Hu idxs cs H2. induction H2 as [|i c idxs cs Hc H2 IH]; intros Hall.
  - reflexivity.
  - inversion Hall as [|? ? Hrange Hrest]; subst.
    simpl. mrun (getVC_Ok _ _ _ _ _ Hu Hc).
    unfold forkable.
    destruct (VC_state_eqb (VC.get_state c) ACTIVE_) eqn:Est; cbn [negb andb].
    + assert (Hst : VC.get_state c = ACTIVE_)
        by (destruct (VC.get_state c); try discriminate; reflexivity).
      destruct (vget_in_range (m_output_unit s) (m_output_port c) (Hrange Hst))
        as [ou Hou].
      mrun (getOutportDirection_Ok _ _ _ Hou). rewrite Hou.
      destruct (ou_direction ou =? Local)%string; cbn [negb]; [reflexivity|].
      unfold move_match.
      destruct ((m_output_port c =? outp) && VC.containsHeadAndTail c);
        [reflexivity | exact (IH Hrest)].
    + reflexivity.
Qed.

Lemma first_move_vc_facts (r : Router) (outp : Z) (cs : list VirtualChannel)
    (k : nat) (c : VirtualChannel) :
  first_move_vc r outp cs k c ->
  In c cs /\ VC.get_state c = ACTIVE_ /\ m_output_port c = outp /\ cs !! k = Some c.
Proof.
  intros (before & after & -> & <- & _ & Hf & Hm).
  unfold forkable in Hf. apply andb_prop in Hf as [Hst _].
  unfold move_match in Hm. apply andb_prop in Hm as [Hm _].
  split; [apply in_or_app; right; left; reflexivity|].
  split; [destruct (VC.get_state c); try discriminate; reflexivity|].
  split; [lia|].
  rewrite lookup_app_r by lia. rewrite Nat.sub_diag. reflexivity.
Qed.

Lemma peekPathTop_path (f : flit) :
  0 <= peekPathTop f -> m_path f = peekPathTop f :: tl (m_path f).
Proof.
  unfold peekPathTop. destruct (m_path f); [lia | reflexivity].
Qed.

Lemma move_vc_scan_ext (r1 r2 : Router) :
  m_output_unit r1 = m_output_unit r2 ->
  forall outp cs idxs, move_vc_scan r1 outp idxs cs = move_vc_scan r2 outp idxs cs.
Proof.
  intros Hou outp cs. induction cs as [|c cs IH]; intros [|i idxs]; try reflexivity.
  simpl. unfold forkable. rewrite Hou, IH. reflexivity.
Qed.

Lemma move_vc_scan_found (r : Router) (outp : Z) (cs : list VirtualChannel)
    (k : nat) (c : VirtualChannel) :
  first_move_vc r outp cs k c ->
  forall base, move_vc_scan r outp (zrange base (length cs)) cs = base + Z.of_nat k.
Proof.
  intros (before & after & -> & <- & Hbefore & Hf & Hm).
  induction before as [|b before IH]; intros base.
  - simpl length. rewrite zrange_S. simpl. rewrite Hf, Hm. simpl. lia.
  - inversion Hbefore as [|? ? [Hfb Hmb] Hrest]; subst.
    simpl length. rewrite zrange_S. simpl. rewrite Hfb, Hmb. simpl.
    rewrite (IH Hrest). lia.
Qed.

Lemma move_vc_scan_none (r : Router) (outp : Z) (cs : list VirtualChannel) :
  (forall k c, ~ first_move_vc r outp cs k c) ->
  forall idxs, move_vc_scan r outp idxs cs = -1.
Proof.
  induction cs as [|c cs IH]; intros Hnone idxs.
  - destruct idxs; reflexivity.
  - destruct idxs as [|i idxs]; [reflexivity|]. simpl.
    destruct (forkable r c) eqn:Ef; [|reflexivity]. cbn [negb].
    destruct (move_match outp c) eqn:Em.
    + exfalso. apply (Hnone 0%nat c). exists [], cs. repeat split; auto.
    + apply IH. intros k c' (before & after & Heq & Hlen & Hb & Hf & Hm).
      apply (Hnone (S k) c'). exists (c :: before), after.
      rewrite Heq. split; [reflexivity|]. split; [simpl; lia|].
      split; [constructor; auto|]. split; assumption.
Qed.

Lemma forward_move_Ok (s : Router) (mv : flit) (op : Z) (path : list Z) :
  m_path mv = op :: path ->
  exists w,
    forward_move mv s
    = Ok (tt, R.set_scheduled_wakeups w
                (R.set_spin
                   (SP.set_moveQueue
                      (moveQueue (spin s)
                       ++ [set_time (control_time s)
                             (set_outport op
                                (setPath path (subDelay (latency_ticks s) mv)))])
                      (spin s)) s)).
Proof.
  intros Hpath. unfold forward_move, getPathTop. rewrite bind_get. cbn beta.
  assert (Hp : m_path (subDelay (latency_ticks s) mv) = op :: path).
  { unfold subDelay. destruct (latency_ticks s <=? m_delay mv); exact Hpath. }
  rewrite Hp. rewrite (bind_lift_Ok _ _ _ _ eq_refl). cbn beta iota.
  unfold modify_spin. unfold bind at 1. unfold modify at 1. cbn beta iota.
  unfold wakeup_after_latency. rewrite bind_get. cbn beta.
  destruct (1 <? m_latency _).
  - eexists. reflexivity.
  - exists (scheduled_wakeups s). reflexivity.
Qed.

Lemma set_counter_frozen_Ok (s : Router) (ip vc : Z) :
  0 < m_vc_per_vnet s ->
  exists vnet,
    set_counter ip vc s_frozen 1 s
    = Ok (tt, with_counter
                (mkCounter (to_unsigned ip) (to_unsigned vc) vnet 0
                   (curCycle s + 1) s_frozen)
                (scheduled_wakeups s ++ [1]) s).
Proof.
  intros Hvpv. unfold set_counter, int_div. rewrite bind_get. cbn beta.
  replace (m_vc_per_vnet s =? 0) with false by lia.
  rewrite (bind_lift_Ok _ _ _ _ eq_refl). cbn beta.
  unfold modify_spin. unfold bind at 1. unfold modify at 1. cbn beta iota.
  cbn [Counter_state_eqb].
  assert (Hu1 : to_unsigned 1 = 1) by reflexivity. rewrite Hu1.
  replace (0 <? curCycle s + 1 - curCycle s) with true by lia.
  cbn [assert]. rewrite bind_ret. cbn beta.
  unfold schedule_wakeup, modify. eexists. unfold with_counter.
  replace (curCycle s + 1 - curCycle s) with 1 by lia.
  reflexivity.
Qed.

Lemma inc_move_dropped_consumed (r : Router) (inport : Z) (u : InputUnit)
    (rest : list flit) :
  0 <= inport < get_num_inports r ->
  inc_move_dropped inport (consumed inport u rest r)
  = Ok (tt, dropped_move inport u rest r).
Proof.
  intros Hip. unfold inc_move_dropped.
  rewrite (on_input_unit_Ok _ _ _ _ (consumed_unit r inport u rest Hip)).
  unfold consumed. fold (with_unit inport (IU.set_in_link rest u) r).
  rewrite with_unit_twice. reflexivity.
Qed.

(** C6, as amended: a MOVE that arrives at an intermediate router is
    processed only if the counter state is [deadlock_detection], [off] or
    [frozen] (and, when [frozen], only if its source id matches the latched
    one) and the move registry has no entry for the head of its path;
    otherwise it is dropped.  A processed MOVE is accepted exactly when the
    scan of the VCs of its vnet, in index order, reaches a VC routed to the
    head of the path that holds both a HEAD and a TAIL before it reaches a
    VC that is not ACTIVE or is routed to a Local outport.  Then the move
    bit is set, the source-id buffer is latched, a registry entry for the
    VC is added, the counter becomes [frozen] with a threshold one cycle
    ahead, and the MOVE goes to the move queue with the head of its path
    popped into its outport.  Otherwise the MOVE is dropped. *)
Theorem wakeup_move_intermediate :
  forall (xy car3d adaptive : RouteInfo -> Z -> PortDirection -> M Router Z)
         (r : Router) (inport : Z) (u : InputUnit) (t_flit : flit) (rest : list flit)
         (cs : list VirtualChannel),
    vget (m_input_unit r) inport = Ok u ->
    iu_id u = inport ->
    m_in_link u = t_flit :: rest ->
    m_time t_flit <= curTick r ->
    m_width t_flit = m_bit_width r ->
    spin_scheme_enabled r = true ->
    m_type t_flit = MOVE_ ->
    m_source_id t_flit <> r_id r ->
    0 < m_vc_per_vnet r ->
    Forall2 (fun i c => vget (virtualChannels u) i = Ok c)
      (zrange (m_vnet t_flit * m_vc_per_vnet r) (Z.to_nat (m_vc_per_vnet r))) cs ->
    Forall (fun c => VC.get_state c = ACTIVE_ ->
                     0 <= m_output_port c < get_num_outports r) cs ->
    (move_allowed r t_flit = false ->
       wakeup xy car3d adaptive inport r = Ok (tt, dropped_move inport u rest r))
    /\ (move_allowed r t_flit = true ->
        (forall k c,
           first_move_vc r (peekPathTop t_flit) cs k c ->
           exists r' fwd,
             wakeup xy car3d adaptive inport r = Ok (tt, r')
             /\ m_move (spin r') = true
             /\ m_source_id_buffer (spin r')
                = mkSourceIdBuffer (m_source_id t_flit) (m_id t_flit) true
             /\ move_registry (spin r')
                = move_registry (spin r)
                    ++ [mkMoveInfo inport
                          (m_vnet t_flit * m_vc_per_vnet r + Z.of_nat k)
                          (peekPathTop t_flit) (-1) false 0]
             /\ state (m_counter (spin r')) = s_frozen
             /\ thresh (m_counter (spin r')) = curCycle r + 1
             /\ moveQueue (spin r') = moveQueue (spin r) ++ [fwd]
             /\ m_type fwd = MOVE_
             /\ m_outport fwd = peekPathTop t_flit
             /\ m_path fwd = tl (m_path t_flit))
        /\ ((forall k c, ~ first_move_vc r (peekPathTop t_flit) cs k c) ->
            wakeup xy car3d adaptive inport r = Ok (tt, dropped_move inport u rest r))).
Proof.
  intros xy car3d adaptive r inport u t_flit rest cs
         Hu Hid Hlink Htime Hwidth Hspin Hty Hne Hvpv Hcs Hrange.
  pose proof (vget_range _ _ _ Hu) as Hip. fold (get_num_inports r) in Hip.
  assert (Hctl : is_control_type (m_type t_flit) = true) by (rewrite Hty; reflexivity).
  rewrite (wakeup_control xy car3d adaptive r inport u t_flit rest
             Hu Hlink Htime Hwidth Hspin Hctl).
  rewrite Hty.
  set (s0 := consumed inport u rest r).
  assert (Hu0 : vget (m_input_unit s0) inport = Ok (IU.set_in_link rest u))
    by (apply consumed_unit; exact Hip).
  assert (Hmyid : unit_id inport s0 = Ok (inport, s0)).
  { unfold unit_id. mrun (getInputUnit_Ok _ _ _ Hu0). simpl. rewrite Hid. reflexivity. }
  assert (Hdrop : inc_move_dropped inport s0 = Ok (tt, dropped_move inport u rest r))
    by (apply inc_move_dropped_consumed; exact Hip).
  assert (Hlen : length cs = Z.to_nat (m_vc_per_vnet r)).
  { apply Forall2_length in Hcs. rewrite <- Hcs. unfold zrange.
    rewrite length_map, length_seq. reflexivity. }
  assert (Hfind : find_move_vc inport (arrived r t_flit) s0
                  = Ok (move_vc_scan r (peekPathTop t_flit)
                          (zrange (m_vnet t_flit * m_vc_per_vnet r) (length cs)) cs,
                        s0)).
  { unfold find_move_vc. rewrite bind_get. cbn beta. rewrite Hlen.
    rewrite (find_move_vc_loop_Ok s0 inport _ _ Hu0 _ _ Hcs Hrange).
    rewrite (move_vc_scan_ext s0 r) by reflexivity. reflexivity. }
  unfold wakeup_move. rewrite bind_get. cbn beta. mrun Hmyid.
  assert (Hsrc : m_source_id (arrived r t_flit) = m_source_id t_flit) by reflexivity.
  assert (Hrid : r_id s0 = r_id r) by reflexivity.
  assert (Hcst : get_counter_state s0 = get_counter_state r) by reflexivity.
  assert (Hpc : partial_check_source_id_buffer (m_source_id t_flit) s0
                = partial_check_source_id_buffer (m_source_id t_flit) r) by reflexivity.
  assert (Hpeek : peekPathTop (arrived r t_flit) = peekPathTop t_flit) by reflexivity.
  assert (Hchk : check_outport_entry_in_move_registry (peekPathTop t_flit) s0
                 = check_outport_entry_in_move_registry (peekPathTop t_flit) r)
    by reflexivity.
  rewrite Hsrc, Hrid, Hcst, Hpc, Hpeek, Hchk.
  replace (m_source_id t_flit =? r_id r) with false by lia.
  unfold move_allowed.
  set (ok1 := Counter_state_eqb (get_counter_state r) s_deadlock_detection
              || Counter_state_eqb (get_counter_state r) s_off
              || Counter_state_eqb (get_counter_state r) s_frozen).
  set (fr := Counter_state_eqb (get_counter_state r) s_frozen).
  set (pc := partial_check_source_id_buffer (m_source_id t_flit) r).
  set (inreg := check_outport_entry_in_move_registry (peekPathTop t_flit) r).
  split.
  - intros Hallow.
    destruct ok1; cbn [negb andb orb] in *; [|exact Hdrop].
    destruct fr; cbn [negb andb orb] in *.
    + destruct pc; cbn [negb andb orb] in *; [|exact Hdrop].
      destruct inreg; cbn [negb] in *; [exact Hdrop | discriminate].
    + destruct inreg; cbn [negb] in *; [exact Hdrop | discriminate].
  - intros Hallow.
    assert (Hpass : ok1 = true /\ (fr && negb pc) = false /\ inreg = false).
    { destruct ok1, fr, pc, inreg; cbn in Hallow; try discriminate; repeat split. }
    destruct Hpass as (-> & -> & ->). cbn [negb].
    mrun Hfind.
    split.
    + intros k c Hfirst.
      rewrite (move_vc_scan_found _ _ _ _ _ Hfirst).
      set (mvc := m_vnet t_flit * m_vc_per_vnet r + Z.of_nat k).
      destruct (first_move_vc_facts _ _ _ _ _ Hfirst) as (Hin & Hact & Hport & Hlook).
      assert (Hop : 0 <= peekPathTop t_flit).
      { rewrite <- Hport. apply (proj1 (List.Forall_forall _ _) Hrange c Hin Hact). }
      pose proof (peekPathTop_path _ Hop) as Hpath.
      set (path := tl (m_path t_flit)) in *.
      assert (Hmvc : 0 <= mvc).
      { destruct (Forall2_lookup_r _ _ _ k c Hcs Hlook) as (i & Hi & Hget).
        unfold zrange in Hi. rewrite list_lookup_fmap in Hi.
        destruct (seq 0 (Z.to_nat (m_vc_per_vnet r)) !! k) as [j|] eqn:Ej;
          [|discriminate].
        apply lookup_seq in Ej as [-> _]. simpl in Hi. injection Hi as <-.
        apply vget_range in Hget. unfold mvc. lia. }
      replace (mvc =? -1) with false by lia. cbn [negb].
      unfold set_move_bit, modify_spin. unfold bind at 1. unfold modify at 1.
      cbn beta iota.
      unfold latch_source_id_buffer, modify_spin. unfold bind at 1. unfold modify at 1.
      cbn beta iota.
      unfold create_move_info_entry, modify_spin.
      unfold bind at 1. unfold bind at 1. unfold modify at 1. cbn beta iota.
      rewrite bind_get. cbn beta.
      match goal with
      | |- context [on_input_unit inport ?f ?s] =>
          rewrite (on_input_unit_Ok s inport f _ Hu0)
      end.
      cbn beta iota.
      match goal with
      | |- exists _ _, bind _ _ ?s = _ /\ _ => set (s1 := s)
      end.
      destruct (set_counter_frozen_Ok s1 inport mvc Hvpv) as (vnet & Hcnt).
      mrun Hcnt.
      match goal with
      | |- exists _ _, forward_move _ ?s = _ /\ _ => set (s2 := s)
      end.
      destruct (forward_move_Ok s2 (arrived r t_flit) (peekPathTop t_flit) path Hpath)
        as (w & Hfwd).
      rewrite Hfwd.
      eexists. eexists. split; [reflexivity|].
      repeat split; try reflexivity;
        unfold subDelay; destruct (_ <=? _); try reflexivity; exact Hty.
    + intros Hnone. rewrite (move_vc_scan_none _ _ _ Hnone).
      cbn. exact Hdrop.
Qed.

(** C6, counterexample to the claim as stated: the MOVE is processed and
    VC 1 of its vnet is routed to the head of the path and holds a HEAD and
    a TAIL, but VC 0 is IDLE, so the scan stops there and the MOVE is
    dropped: nothing is forwarded, no registry entry is made, the move bit
    stays clear. *)
Lemma wakeup_move_idle_vc_first_drops :
  move_allowed (ex_move_router ex_idle_vc ex_packet_vc) ex_move_flit = true
  /\ (exists u c,
        vget (m_input_unit (ex_move_router ex_idle_vc ex_packet_vc)) 1 = Ok u
        /\ vget (virtualChannels u) (m_vnet ex_move_flit * 2 + 1) = Ok c
        /\ m_output_port c = peekPathTop ex_move_flit
        /\ VC.containsHeadAndTail c = true)
  /\ exists r' u',
       wakeup no_algorithm no_algorithm no_algorithm 1
         (ex_move_router ex_idle_vc ex_packet_vc) = Ok (tt, r')
       /\ moveQueue (spin r') = []
       /\ move_registry (spin r') = []
       /\ m_move (spin r') = false
       /\ vget (m_input_unit r') 1 = Ok u'
       /\ m_num_move_dropped u' = 1.
Proof.
  split; [reflexivity|]. split.
  - eexists. eexists. repeat split; reflexivity.
  - eexists. eexists. split; [lazy; reflexivity|]. repeat split; reflexivity.
Qed.

(** The theorem of C6 at a router whose VC 0 holds a whole packet for
    outport 1: the MOVE is accepted for VC 0 and goes on to outport 1 with
    the rest of the path. *)
Lemma wakeup_move_witness :
  exists r' fwd,
    wakeup no_algorithm no_algorithm no_algorithm 1
      (ex_move_router ex_packet_vc ex_idle_vc) = Ok (tt, r')
    /\ m_move (spin r') = true
    /\ move_registry (spin r') = [mkMoveInfo 1 0 1 (-1) false 0]
    /\ state (m_counter (spin r')) = s_frozen
    /\ moveQueue (spin r') = [fwd]
    /\ m_outport fwd = 1
    /\ m_path fwd = [2].
Proof.
  set (r := ex_move_router ex_packet_vc ex_idle_vc).
  assert (Htime : m_time ex_move_flit <= curTick r) by discriminate.
  assert (Hne : m_source_id ex_move_flit <> r_id r) by discriminate.
  assert (Hvpv : 0 < m_vc_per_vnet r) by reflexivity.
  assert (Hcs : Forall2 (fun i c =>
                  vget (virtualChannels
                          (IU.set_in_link [ex_move_flit]
                             (ex_west_unit [ex_packet_vc; ex_idle_vc;
                                            ex_idle_vc; ex_idle_vc]))) i = Ok c)
                  (zrange (m_vnet ex_move_flit * m_vc_per_vnet r)
                     (Z.to_nat (m_vc_per_vnet r)))
                  [ex_packet_vc; ex_idle_vc]).
  { repeat constructor. }
  assert (Hrange : Forall (fun c => VC.get_state c = ACTIVE_ ->
                                    0 <= m_output_port c < get_num_outports r)
                     [ex_packet_vc; ex_idle_vc]).
  { constructor; [intros _; split; [discriminate | reflexivity]|].
    constructor; [discriminate | constructor]. }
  destruct (wakeup_move_intermediate no_algorithm no_algorithm no_algorithm r 1
              (IU.set_in_link [ex_move_flit]
                 (ex_west_unit [ex_packet_vc; ex_idle_vc; ex_idle_vc; ex_idle_vc]))
              ex_move_flit [] [ex_packet_vc; ex_idle_vc]
              eq_refl eq_refl eq_refl Htime eq_refl eq_refl eq_refl Hne Hvpv
              Hcs Hrange) as [_ Hacc].
  destruct (Hacc eq_refl) as [Hfound _].
  assert (Hfirst : first_move_vc r (peekPathTop ex_move_flit)
                     [ex_packet_vc; ex_idle_vc] 0 ex_packet_vc).
  { exists [], [ex_idle_vc]. repeat split; constructor. }
  destruct (Hfound 0%nat ex_packet_vc Hfirst)
    as (r' & fwd & Hrun & Hmove & _ & Hreg & Hst & _ & Hq & _ & Hop & Hpath).
  exists r', fwd. repeat split; assumption.
Defined.

(** ** PROBE at an intermediate router *)

Lemma create_fork_vector_loop_Ok (s0 : Router) (inport : Z) (u : InputUnit) :
  0 <= inport < get_num_inports s0 ->
  forall idxs cs,
    Forall2 (fun i c => vget (virtualChannels u) i = Ok c) idxs cs ->
    forall fv any,
      Forall (fun c => VC.get_state c = ACTIVE_ ->
                       0 <= m_output_port c < get_num_outports s0
                       /\ m_output_port c < vsize fv) cs ->
      create_fork_vector_loop inport idxs any
        (with_unit inport (IU.set_fork_vector fv u) s0)
      = Ok (fst (fork_scan s0 cs fv any),
            with_unit inport (IU.set_fork_vector (snd (fork_scan s0 cs fv any)) u) s0).
Proof.
  intros Hip idxs cs H2. induction H2 as [|i c idxs cs Hc H2 IH]; intros fv any Hall.
  - reflexivity.
  - inversion Hall as [|? ? Hrange Hrest]; subst.
    pose proof (with_unit_get s0 inport (IU.set_fork_vector fv u) Hip) as Hu.
    cbn [create_fork_vector_loop fork_scan].
    mrun (getVC_Ok _ _ _ _ _ Hu Hc).
    unfold forkable.
    destruct (VC_state_eqb (VC.get_state c) ACTIVE_) eqn:Est; cbn [negb andb];
      [|reflexivity].
    assert (Hst : VC.get_state c = ACTIVE_)
      by (destruct (VC.get_state c); try discriminate; reflexivity).
    destruct (Hrange Hst) as [Hop Hfv].
    destruct (vget_in_range (m_output_unit s0) (m_output_port c) Hop) as [ou Hou].
    assert (Hou' : vget (m_output_unit (with_unit inport (IU.set_fork_vector fv u) s0))
                     (m_output_port c) = Ok ou) by exact Hou.
    mrun (getOutportDirection_Ok _ _ _ Hou'). rewrite Hou.
    destruct (ou_direction ou =? Local)%string; cbn [negb]; [reflexivity|].
    mrun (getInputUnit_Ok _ _ _ Hu).
    assert (Hset : vset (m_fork_vector (IU.set_fork_vector fv u)) (m_output_port c) true
                   = Ok (<[Z.to_nat (m_output_port c) := true]> fv)).
    { apply (vset_Ok fv). lia. }
    rewrite (bind_lift_Ok _ _ _ _ Hset). cbn beta.
    assert (Hip' : 0 <= inport
                   < get_num_inports (with_unit inport (IU.set_fork_vector fv u) s0))
      by (rewrite with_unit_inports; exact Hip).
    rewrite (bind_Ok _ _ _ _ _ (putInputUnit_Ok _ inport _ Hip')). cbn beta iota.
    fold (with_unit inport
            (IU.set_fork_vector (<[Z.to_nat (m_output_port c) := true]> fv)
               (IU.set_fork_vector fv u))
            (with_unit inport (IU.set_fork_vector fv u) s0)).
    rewrite with_unit_twice.
    change (IU.set_fork_vector (<[Z.to_nat (m_output_port c) := true]> fv)
              (IU.set_fork_vector fv u))
      with (IU.set_fork_vector (<[Z.to_nat (m_output_port c) := true]> fv) u).
    apply IH.
    eapply Forall_impl; [exact Hrest|].
    intros c' Hc' Hact. unfold vsize in *. rewrite length_insert. exact (Hc' Hact).
Qed.

Lemma fork_scan_some_not_forkable (r : Router) (cs : list VirtualChannel) :
  Exists (fun c => forkable r c = false) cs ->
  forall fv any, fst (fork_scan r cs fv any) = false.
Proof.
  induction 1 as [c cs Hc | c cs _ IH]; intros fv any; simpl.
  - rewrite Hc. reflexivity.
  - destruct (forkable r c); [apply IH | reflexivity].
Qed.

Lemma fork_scan_all_forkable (r : Router) (cs : list VirtualChannel) :
  Forall (fun c => forkable r c = true) cs ->
  forall fv any,
    fork_scan r cs fv any
    = (match cs with [] => any | _ => true end,
       fold_left (fun fv c => <[Z.to_nat (m_output_port c) := true]> fv) cs fv).
Proof.
  induction 1 as [|c cs Hc _ IH]; intros fv any; simpl; [reflexivity|].
  rewrite Hc. cbn [negb]. rewrite IH. destruct cs; reflexivity.
Qed.

Lemma fold_mark_length (cs : list VirtualChannel) :
  forall fv : list bool,
    length (fold_left (fun fv c => <[Z.to_nat (m_output_port c) := true]> fv) cs fv)
    = length fv.
Proof.
  induction cs as [|c cs IH]; intros fv; simpl; [reflexivity|].
  rewrite IH, length_insert. reflexivity.
Qed.

Lemma fold_mark_lookup (cs : list VirtualChannel) :
  forall (fv : list bool) (n : nat),
    fold_left (fun fv c => <[Z.to_nat (m_output_port c) := true]> fv) cs fv !! n
    = Some true
    <-> fv !! n = Some true
        \/ ((n < length fv)%nat
            /\ exists c, In c cs /\ Z.to_nat (m_output_port c) = n).
Proof.
  induction cs as [|c cs IH]; intros fv n; simpl.
  - split; [auto|]. intros [H | (_ & c & [] & _)]. exact H.
  - rewrite IH, length_insert.
    destruct (Nat.eq_dec (Z.to_nat (m_output_port c)) n) as [E | E].
    + subst n. split.
      * intros [H | (Hl & c' & Hin & Hc')].
        -- right. apply lookup_lt_Some in H. rewrite length_insert in H.
           split; [exact H|]. exists c. auto.
        -- right. split; [exact Hl|]. exists c'. auto.
      * intros [H | (Hl & _)].
        -- left. rewrite list_lookup_insert_eq by exact (lookup_lt_Some _ _ _ H).
           reflexivity.
        -- left. rewrite list_lookup_insert_eq by exact Hl. reflexivity.
    + rewrite list_lookup_insert_ne by exact E. split.
      * intros [H | (Hl & c' & Hin & Hc')]; [left; exact H|].
        right. split; [exact Hl|]. exists c'. auto.
      * intros [H | (Hl & c' & [<- | Hin] & Hc')]; [left; exact H | contradiction |].
        right. split; [exact Hl|]. exists c'. auto.
Qed.

Lemma set_bits_In (fv : list bool) :
  forall op x,
    In x (set_bits fv op) <-> op <= x /\ fv !! Z.to_nat (x - op) = Some true.
Proof.
  induction fv as [|b fv IH]; intros op x; simpl.
  - split; [intros [] | intros [_ H]; discriminate].
  - rewrite in_app_iff, IH. split.
    + intros [Hb | [Hle Hl]].
      * destruct b; [|destruct Hb]. destruct Hb as [<- | []].
        split; [lia|]. rewrite Z.sub_diag. reflexivity.
      * split; [lia|].
        replace (Z.to_nat (x - op)) with (S (Z.to_nat (x - (op + 1)))) by lia.
        exact Hl.
    + intros [Hle Hl].
      destruct (Z.eq_dec x op) as [-> | Hne].
      * left. rewrite Z.sub_diag in Hl. simpl in Hl. injection Hl as ->.
        left. reflexivity.
      * right. split; [lia|].
        replace (Z.to_nat (x - op)) with (S (Z.to_nat (x - (op + 1)))) in Hl by lia.
        exact Hl.
Qed.

Lemma set_bits_NoDup (fv : list bool) : forall op, List.NoDup (set_bits fv op).
Proof.
  induction fv as [|b fv IH]; intros op; simpl; [constructor|].
  destruct b; simpl; [|apply IH].
  constructor; [|apply IH].
  intros Hin. apply set_bits_In in Hin. lia.
Qed.

Lemma spin_same (s : Router) : R.set_spin (spin s) s = s.
Proof. destruct s. reflexivity. Qed.

Lemma probeQueue_same (p : Spin) : SP.set_probeQueue (probeQueue p) p = p.
Proof. destruct p. reflexivity. Qed.

Lemma fork_probes_from_Ok (t_flit : flit) (fv : list bool) :
  forall (op : Z) (s : Router),
    fork_probes_from t_flit fv op s
    = Ok (tt, R.set_spin
                (SP.set_probeQueue
                   (probeQueue (spin s) ++ map (probe_copy s t_flit) (set_bits fv op))
                   (spin s)) s).
Proof.
  induction fv as [|b fv IH]; intros op s.
  - simpl. rewrite app_nil_r, probeQueue_same, spin_same. reflexivity.
  - cbn [fork_probes_from set_bits]. destruct b; cbn [negb].
    + match goal with
      | |- bind ?m _ _ = _ =>
          assert (Hm : m s = Ok (tt, R.set_spin
                                       (SP.set_probeQueue
                                          (probeQueue (spin s) ++ [probe_copy s t_flit op])
                                          (spin s)) s))
            by reflexivity
      end.
      mrun Hm. rewrite IH. cbn [app map]. f_equal. f_equal.
      unfold R.set_spin, SP.set_probeQueue. simpl.
      rewrite <- app_assoc. reflexivity.
    + rewrite bind_ret. cbn beta. rewrite IH. reflexivity.
Qed.

Lemma probe_copy_facts (r : Router) (t_flit : flit) (op : Z) :
  m_type (probe_copy r t_flit op) = PROBE_
  /\ m_path (probe_copy r t_flit op) = m_path t_flit ++ [op]
  /\ m_source_id (probe_copy r t_flit op) = m_source_id t_flit
  /\ m_vnet (probe_copy r t_flit op) = m_vnet t_flit.
Proof.
  unfold probe_copy, subDelay. destruct (_ <=? _); repeat split; reflexivity.
Qed.

Lemma fork_scan_ext (r1 r2 : Router) :
  m_output_unit r1 = m_output_unit r2 ->
  forall cs fv any, fork_scan r1 cs fv any = fork_scan r2 cs fv any.
Proof.
  intros Hou cs. induction cs as [|c cs IH]; intros fv any; [reflexivity|].
  simpl. unfold forkable. rewrite Hou, IH. reflexivity.
Qed.

Lemma all_false_lookup (fv : list bool) (n : nat) :
  map (fun _ => false) fv !! n <> Some true.
Proof.
  revert n. induction fv as [|b fv IH]; intros [|n]; simpl; try discriminate.
  apply IH.
Qed.

Lemma forkable_active (r : Router) (c : VirtualChannel) :
  forkable r c = true -> VC.get_state c = ACTIVE_.
Proof.
  unfold forkable. intros H. apply andb_prop in H as [H _].
  destruct (VC.get_state c); try discriminate; reflexivity.
Qed.

Lemma probe_copies (r : Router) (t_flit : flit) (path : list Z) (src vnet : Z)
    (ops : list Z) :
  m_path t_flit = path -> m_source_id t_flit = src -> m_vnet t_flit = vnet ->
  Forall2 (fun p op => m_type p = PROBE_ /\ m_path p = path ++ [op]
                       /\ m_source_id p = src /\ m_vnet p = vnet)
    (map (probe_copy r t_flit) ops) ops.
Proof.
  intros <- <- <-. induction ops as [|op ops IH]; simpl; constructor.
  - apply probe_copy_facts.
  - exact IH.
Qed.

(** What C5 says holds where the fork vector of the input unit covers the
    outports that its ACTIVE VCs wait for.  A PROBE that arrives at an
    intermediate router is dropped when its path is longer than the
    configured turn capacity.  Otherwise, when every VC of its vnet at
    the inport is ACTIVE with an outport that is not Local, one copy is
    forked for each distinct outport among those VCs, and each copy
    carries the path of the probe with that outport appended; when some
    VC of the vnet is not ACTIVE or is routed to a Local outport, the
    probe is dropped and no copy is forked. *)
Theorem wakeup_probe_intermediate :
  forall (xy car3d adaptive : RouteInfo -> Z -> PortDirection -> M Router Z)
         (r : Router) (inport : Z) (u : InputUnit) (t_flit : flit) (rest : list flit)
         (cs : list VirtualChannel),
    vget (m_input_unit r) inport = Ok u ->
    m_in_link u = t_flit :: rest ->
    m_time t_flit <= curTick r ->
    m_width t_flit = m_bit_width r ->
    spin_scheme_enabled r = true ->
    m_type t_flit = PROBE_ ->
    m_source_id t_flit <> r_id r ->
    0 < m_vc_per_vnet r ->
    Forall2 (fun i c => vget (virtualChannels u) i = Ok c)
      (zrange (m_vnet t_flit * m_vc_per_vnet r) (Z.to_nat (m_vc_per_vnet r))) cs ->
    Forall (fun c => VC.get_state c = ACTIVE_ ->
                     0 <= m_output_port c < get_num_outports r
                     /\ m_output_port c < vsize (m_fork_vector u)) cs ->
    (getSpinMaxTurnCapacity (m_network_ptr r) < getNumTurns t_flit ->
       exists r',
         wakeup xy car3d adaptive inport r = Ok (tt, r')
         /\ probe_dropped inport u r r')
    /\ (getNumTurns t_flit <= getSpinMaxTurnCapacity (m_network_ptr r) ->
        (Forall (fun c => forkable r c = true) cs ->
           exists r' probes ops,
             wakeup xy car3d adaptive inport r = Ok (tt, r')
             /\ probeQueue (spin r') = probeQueue (spin r) ++ probes
             /\ List.NoDup ops
             /\ (forall op, In op ops <-> exists c, In c cs /\ m_output_port c = op)
             /\ Forall2 (fun p op => m_type p = PROBE_
                                     /\ m_path p = m_path t_flit ++ [op]
                                     /\ m_source_id p = m_source_id t_flit
                                     /\ m_vnet p = m_vnet t_flit) probes ops
             /\ exists u',
                  vget (m_input_unit r') inport = Ok u'
                  /\ m_num_probes_dropped u' = m_num_probes_dropped u)
        /\ (Exists (fun c => forkable r c = false) cs ->
            exists r',
              wakeup xy car3d adaptive inport r = Ok (tt, r')
              /\ probe_dropped inport u r r')).
Proof.
  intros xy car3d adaptive r inport u t_flit rest cs
         Hu Hlink Htime Hwidth Hspin Hty Hne Hvpv Hcs Hrange.
  pose proof (vget_range _ _ _ Hu) as Hip. fold (get_num_inports r) in Hip.
  assert (Hctl : is_control_type (m_type t_flit) = true) by (rewrite Hty; reflexivity).
  rewrite (wakeup_control xy car3d adaptive r inport u t_flit rest
             Hu Hlink Htime Hwidth Hspin Hctl).
  rewrite Hty.
  set (s0 := consumed inport u rest r).
  set (u0 := IU.set_in_link rest u).
  assert (Hu0 : vget (m_input_unit s0) inport = Ok u0)
    by (apply consumed_unit; exact Hip).
  assert (Hip0 : 0 <= inport < get_num_inports s0)
    by (change (0 <= inport < get_num_inports (with_unit inport u0 r));
        rewrite with_unit_inports; exact Hip).
  assert (Hmyid : unit_id inport s0 = Ok (iu_id u0, s0)).
  { unfold unit_id. mrun (getInputUnit_Ok _ _ _ Hu0). reflexivity. }
  unfold wakeup_probe. rewrite bind_get. cbn beta. mrun Hmyid.
  assert (Hsrc : m_source_id (arrived r t_flit) = m_source_id t_flit) by reflexivity.
  assert (Hrid : r_id s0 = r_id r) by reflexivity.
  assert (Hcap : getSpinMaxTurnCapacity (m_network_ptr s0)
                 = getSpinMaxTurnCapacity (m_network_ptr r)) by reflexivity.
  assert (Hturns : getNumTurns (arrived r t_flit) = getNumTurns t_flit) by reflexivity.
  rewrite Hsrc, Hrid, Hcap, Hturns.
  replace (m_source_id t_flit =? r_id r) with false by lia.
  (* the probe is counted as dropped, from any state of the unit *)
  assert (Hdropped : forall s ux,
            0 <= inport < get_num_inports s ->
            spin s = spin r ->
            m_num_probes_dropped ux = m_num_probes_dropped u ->
            exists r',
              (let* _ := inc_probes_dropped inport in clear_fork_vector inport)
                (with_unit inport ux s) = Ok (tt, r')
              /\ probe_dropped inport u r r').
  { intros s ux Hs Hspin_s Hcount.
    unfold inc_probes_dropped.
    mrun (on_input_unit_Ok _ inport
            (fun u1 => IU.set_dropped (m_num_probes_dropped u1 + 1)
                         (m_num_move_dropped u1) (m_num_check_probe_dropped u1) u1)
            _ (with_unit_get s inport ux Hs)).
    rewrite with_unit_twice. unfold clear_fork_vector.
    rewrite (on_input_unit_Ok _ inport _ _ (with_unit_get s inport _ Hs)).
    rewrite with_unit_twice.
    eexists. split; [reflexivity|]. split; [exact Hspin_s|].
    eexists. split; [apply with_unit_get; exact Hs|].
    simpl. rewrite Hcount. reflexivity. }
  split.
  - intros Hlong.
    replace (getSpinMaxTurnCapacity (m_network_ptr r) <? getNumTurns t_flit)
      with true by lia.
    unfold inc_probes_dropped. rewrite (on_input_unit_Ok _ inport _ _ Hu0).
    eexists. split; [reflexivity|]. split; [reflexivity|].
    eexists. split; [apply with_unit_get; exact Hip0|]. reflexivity.
  - intros Hshort.
    replace (getSpinMaxTurnCapacity (m_network_ptr r) <? getNumTurns t_flit)
      with false by lia.
    set (fv0 := map (fun _ : bool => false) (m_fork_vector u0)).
    assert (Hall : Forall (fun c => VC.get_state c = ACTIVE_ ->
                                    0 <= m_output_port c < get_num_outports s0
                                    /\ m_output_port c < vsize fv0) cs).
    { eapply Forall_impl; [exact Hrange|]. intros c Hc Hact.
      destruct (Hc Hact) as [H1 H2]. split; [exact H1|].
      unfold fv0, vsize. rewrite length_map. exact H2. }
    assert (Hloop := create_fork_vector_loop_Ok s0 inport u0 Hip0 _ _ Hcs fv0 false Hall).
    rewrite (fork_scan_ext s0 r eq_refl) in Hloop.
    assert (Hcreate : create_fork_vector inport (arrived r t_flit) s0
                      = Ok (fst (fork_scan r cs fv0 false),
                            with_unit inport
                              (IU.set_fork_vector (snd (fork_scan r cs fv0 false)) u0) s0)).
    { unfold create_fork_vector. rewrite bind_get. cbn beta.
      unfold clear_fork_vector. mrun (on_input_unit_Ok _ inport
              (fun u1 => IU.set_fork_vector (map (fun _ => false) (m_fork_vector u1)) u1)
              _ Hu0).
      exact Hloop. }
    mrun Hcreate.
    split.
    + intros Hfork.
      rewrite (fork_scan_all_forkable _ _ Hfork).
      assert (Hne_cs : cs <> []).
      { intros ->. inversion Hcs as [Hz|]. unfold zrange in Hz.
        apply (f_equal (@length Z)) in Hz. rewrite length_map, length_seq in Hz.
        simpl in Hz. lia. }
      destruct cs as [|c0 cs']; [contradiction|]. cbn [fst snd].
      set (fvF := fold_left
                    (fun fv c => <[Z.to_nat (m_output_port c) := true]> fv)
                    (c0 :: cs') fv0).
      set (s2 := with_unit inport (IU.set_fork_vector fvF u0) s0).
      assert (Hforked :
                (let* u1 := getInputUnit inport in
                 fork_probes (arrived r t_flit) (m_fork_vector u1)) s2
                = Ok (tt, R.set_spin
                            (SP.set_probeQueue
                               (probeQueue (spin s2)
                                ++ map (probe_copy s2 (arrived r t_flit)) (set_bits fvF 0))
                               (spin s2)) s2)).
      { mrun (getInputUnit_Ok _ _ _
                (with_unit_get s0 inport (IU.set_fork_vector fvF u0) Hip0)).
        unfold fork_probes.
        assert (Hfv : m_fork_vector (IU.set_fork_vector fvF u0) = fvF) by reflexivity.
        rewrite Hfv. apply fork_probes_from_Ok. }
      mrun Hforked.
      unfold clear_fork_vector.
      assert (Hip2 : 0 <= inport < get_num_inports s2)
        by (unfold s2; rewrite with_unit_inports; exact Hip0).
      match goal with
      | |- exists _ _ _, on_input_unit inport ?f ?s = _ /\ _ =>
          assert (Hu3 : vget (m_input_unit s) inport = Ok (IU.set_fork_vector fvF u0))
            by (exact (with_unit_get s0 inport (IU.set_fork_vector fvF u0) Hip0));
          rewrite (on_input_unit_Ok s inport f _ Hu3);
          assert (Hip3 : 0 <= inport < get_num_inports s) by exact Hip2
      end.
      eexists. exists (map (probe_copy s2 (arrived r t_flit)) (set_bits fvF 0)).
      exists (set_bits fvF 0).
      split; [reflexivity|]. split; [reflexivity|].
      split; [apply set_bits_NoDup|].
      split.
      { intros op. rewrite set_bits_In. rewrite Z.sub_0_r.
        unfold fvF. rewrite fold_mark_lookup. split.
        - intros [Hop [Hbad | (Hlen & c & Hin & Hc)]].
          + exfalso. exact (all_false_lookup _ _ Hbad).
          + exists c. split; [exact Hin|].
            pose proof (proj1 (List.Forall_forall _ _) Hfork c Hin) as Hf.
            pose proof (proj1 (List.Forall_forall _ _) Hrange c Hin
                          (forkable_active _ _ Hf)) as [Hr _].
            lia.
        - intros (c & Hin & <-).
          pose proof (proj1 (List.Forall_forall _ _) Hfork c Hin) as Hf.
          pose proof (proj1 (List.Forall_forall _ _) Hall c Hin
                        (forkable_active _ _ Hf)) as [Hr Hv].
          split; [lia|]. right. split.
          + unfold vsize in Hv. lia.
          + exists c. split; [exact Hin | reflexivity]. }
      split; [apply probe_copies; reflexivity|].
      eexists. split; [apply with_unit_get; exact Hip3|]. reflexivity.
    + intros Hsome. rewrite (fork_scan_some_not_forkable _ _ Hsome).
      apply Hdropped; [exact Hip0 | reflexivity | reflexivity].
Qed.

(** At the example router, whose fork vectors cover its three outports:
    the two VCs of the vnet wait for the same outport, so one copy is
    forked, with the path [2; 1]. *)
Lemma wakeup_probe_witness :
  exists r' p,
    wakeup no_algorithm no_algorithm no_algorithm 1 ex_probe_router = Ok (tt, r')
    /\ probeQueue (spin r') = [p]
    /\ m_type p = PROBE_
    /\ m_path p = [2; 1].
Proof.
  assert (Htime : m_time ex_probe_flit <= curTick ex_probe_router) by discriminate.
  assert (Hne : m_source_id ex_probe_flit <> r_id ex_probe_router) by discriminate.
  assert (Hvpv : 0 < m_vc_per_vnet ex_probe_router) by reflexivity.
  assert (Hcs : Forall2 (fun i c =>
                  vget (virtualChannels
                          (IU.set_in_link [ex_probe_flit]
                             (ex_west_unit [ex_packet_vc; ex_packet_vc;
                                            ex_idle_vc; ex_idle_vc]))) i = Ok c)
                  (zrange (m_vnet ex_probe_flit * m_vc_per_vnet ex_probe_router)
                     (Z.to_nat (m_vc_per_vnet ex_probe_router)))
                  [ex_packet_vc; ex_packet_vc]).
  { repeat constructor. }
  assert (Hrange : Forall (fun c => VC.get_state c = ACTIVE_ ->
                     0 <= m_output_port c < get_num_outports ex_probe_router
                     /\ m_output_port c
                        < vsize (m_fork_vector
                                   (IU.set_in_link [ex_probe_flit]
                                      (ex_west_unit [ex_packet_vc; ex_packet_vc;
                                                     ex_idle_vc; ex_idle_vc]))))
                     [ex_packet_vc; ex_packet_vc]).
  { repeat constructor; discriminate. }
  destruct (wakeup_probe_intermediate no_algorithm no_algorithm no_algorithm
              ex_probe_router 1
              (IU.set_in_link [ex_probe_flit]
                 (ex_west_unit [ex_packet_vc; ex_packet_vc; ex_idle_vc; ex_idle_vc]))
              ex_probe_flit [] [ex_packet_vc; ex_packet_vc]
              eq_refl eq_refl Htime eq_refl eq_refl eq_refl Hne Hvpv
              Hcs Hrange) as [_ Hshort].
  assert (Hcap : getNumTurns ex_probe_flit
                 <= getSpinMaxTurnCapacity (m_network_ptr ex_probe_router))
    by discriminate.
  destruct (Hshort Hcap) as [Hfork _].
  assert (Hall : Forall (fun c => forkable ex_probe_router c = true)
                   [ex_packet_vc; ex_packet_vc]) by (repeat constructor).
  destruct (Hfork Hall) as (r' & probes & ops & Hrun & Hq & Hnd & Hops & Hcopies & _).
  assert (Hone : ops = [1]).
  { assert (H1 : forall op, In op ops -> op = 1).
    { intros op Hin. apply Hops in Hin as (c & [<- | [<- | []]] & <-); reflexivity. }
    assert (Hin1 : In 1 ops).
    { apply Hops. exists ex_packet_vc. split; [left; reflexivity | reflexivity]. }
    destruct ops as [|a [|b ops]].
    - destruct Hin1.
    - rewrite (H1 a (or_introl eq_refl)). reflexivity.
    - exfalso. inversion Hnd as [|? ? Hnotin _]; subst. apply Hnotin.
      rewrite (H1 a (or_introl eq_refl)), (H1 b (or_intror (or_introl eq_refl))).
      left. reflexivity. }
  subst ops.
  inversion Hcopies as [|p ? ? ? (Hty & Hpath & _) Hnil]; subst.
  inversion Hnil; subst.
  exists r', p. split; [exact Hrun|]. split; [exact Hq|]. split; [exact Hty | exact Hpath].
Defined.

(** ** A fork vector shorter than the outports *)

(** One pass of the loop of [create_fork_vector] over a VC that is ACTIVE
    with an outport that is not Local and lies inside the fork vector. *)
Lemma create_fork_vector_loop_step (s0 : Router) (inport : Z) (u : InputUnit)
    (i : Z) (idxs : list Z) (c : VirtualChannel) (fv : list bool) (any : bool) :
  0 <= inport < get_num_inports s0 ->
  vget (virtualChannels u) i = Ok c ->
  forkable s0 c = true ->
  m_output_port c < vsize fv ->
  create_fork_vector_loop inport (i :: idxs) any
    (with_unit inport (IU.set_fork_vector fv u) s0)
  = create_fork_vector_loop inport idxs true
      (with_unit inport
         (IU.set_fork_vector (<[Z.to_nat (m_output_port c) := true]> fv) u) s0).
Proof.
  intros Hip Hc Hf Hfv.
  pose proof (with_unit_get s0 inport (IU.set_fork_vector fv u) Hip) as Hu.
  unfold forkable in Hf. apply andb_prop in Hf as [Hst Hdir].
  destruct (vget (m_output_unit s0) (m_output_port c)) as [ou|] eqn:Hou;
    [|discriminate].
  pose proof (vget_range _ _ _ Hou) as Hop.
  cbn [create_fork_vector_loop].
  mrun (getVC_Ok _ _ _ _ _ Hu Hc). rewrite Hst. cbn [negb].
  assert (Hou' : vget (m_output_unit (with_unit inport (IU.set_fork_vector fv u) s0))
                   (m_output_port c) = Ok ou) by exact Hou.
  mrun (getOutportDirection_Ok _ _ _ Hou').
  destruct (ou_direction ou =? Local)%string; [discriminate|].
  mrun (getInputUnit_Ok _ _ _ Hu).
  assert (Hset : vset (m_fork_vector (IU.set_fork_vector fv u)) (m_output_port c) true
                 = Ok (<[Z.to_nat (m_output_port c) := true]> fv)).
  { apply (vset_Ok fv). lia. }
  rewrite (bind_lift_Ok _ _ _ _ Hset). cbn beta.
  assert (Hip' : 0 <= inport
                 < get_num_inports (with_unit inport (IU.set_fork_vector fv u) s0))
    by (rewrite with_unit_inports; exact Hip).
  rewrite (bind_Ok _ _ _ _ _ (putInputUnit_Ok _ inport _ Hip')). cbn beta iota.
  fold (with_unit inport
          (IU.set_fork_vector (<[Z.to_nat (m_output_port c) := true]> fv)
             (IU.set_fork_vector fv u))
          (with_unit inport (IU.set_fork_vector fv u) s0)).
  rewrite with_unit_twice. reflexivity.
Qed.

(** The loop writes [m_fork_vector[outp] = true] without a bound check:
    at the first VC whose outport lies beyond the fork vector the write is
    out of bounds. *)
Lemma create_fork_vector_loop_beyond (s0 : Router) (inport : Z) (u : InputUnit) :
  0 <= inport < get_num_inports s0 ->
  forall before idxs c after fv any,
    Forall2 (fun i c => vget (virtualChannels u) i = Ok c) idxs (before ++ c :: after) ->
    Forall (fun c' => forkable s0 c' = true /\ m_output_port c' < vsize fv) before ->
    forkable s0 c = true ->
    vsize fv <= m_output_port c ->
    create_fork_vector_loop inport idxs any
      (with_unit inport (IU.set_fork_vector fv u) s0)
    = Err Undefined.
Proof.
  intros Hip before. induction before as [|c0 before IH];
    intros idxs c after fv any H2 Hbefore Hf Hfv.
  - inversion H2 as [|i ? idxs' ? Hc _]; subst.
    pose proof (with_unit_get s0 inport (IU.set_fork_vector fv u) Hip) as Hu.
    pose proof Hf as Hf'.
    unfold forkable in Hf'. apply andb_prop in Hf' as [Hst Hdir].
    destruct (vget (m_output_unit s0) (m_output_port c)) as [ou|] eqn:Hou;
      [|discriminate].
    cbn [create_fork_vector_loop].
    mrun (getVC_Ok _ _ _ _ _ Hu Hc). rewrite Hst. cbn [negb].
    assert (Hou' : vget (m_output_unit (with_unit inport (IU.set_fork_vector fv u) s0))
                     (m_output_port c) = Ok ou) by exact Hou.
    mrun (getOutportDirection_Ok _ _ _ Hou').
    destruct (ou_direction ou =? Local)%string; [discriminate|].
    mrun (getInputUnit_Ok _ _ _ Hu).
    apply bind_Err. unfold lift, vset.
    change (m_fork_vector (IU.set_fork_vector fv u)) with fv.
    replace ((0 <=? m_output_port c) && (m_output_port c <? Z.of_nat (length fv)))
      with false by (unfold vsize in Hfv; lia).
    reflexivity.
  - inversion H2 as [|i ? idxs' ? Hc H2']; subst.
    inversion Hbefore as [|? ? [Hf0 Hfv0] Hrest]; subst.
    rewrite (create_fork_vector_loop_step s0 inport u i idxs' c0 fv any Hip Hc Hf0 Hfv0).
    apply (IH idxs' c after); [exact H2' | | exact Hf |].
    + eapply Forall_impl; [exact Hrest|]. intros c' [H1 H3]. split; [exact H1|].
      unfold vsize in *. rewrite length_insert. exact H3.
    + unfold vsize in *. rewrite length_insert. exact Hfv.
Qed.

(** A PROBE at an intermediate router whose fork vector is shorter than
    the outports: when the VCs of the vnet are ACTIVE with outports that
    are not Local and one of them waits for an outport beyond the fork
    vector, [create_fork_vector] writes out of the bounds of the vector
    and no copy is forked. *)
Lemma wakeup_probe_beyond_fork_vector
    (xy car3d adaptive : RouteInfo -> Z -> PortDirection -> M Router Z)
    (r : Router) (inport : Z) (u : InputUnit) (t_flit : flit) (rest : list flit)
    (before after : list VirtualChannel) (c : VirtualChannel) :
  vget (m_input_unit r) inport = Ok u ->
  m_in_link u = t_flit :: rest ->
  m_time t_flit <= curTick r ->
  m_width t_flit = m_bit_width r ->
  spin_scheme_enabled r = true ->
  m_type t_flit = PROBE_ ->
  m_source_id t_flit <> r_id r ->
  getNumTurns t_flit <= getSpinMaxTurnCapacity (m_network_ptr r) ->
  Forall2 (fun i c => vget (virtualChannels u) i = Ok c)
    (zrange (m_vnet t_flit * m_vc_per_vnet r) (Z.to_nat (m_vc_per_vnet r)))
    (before ++ c :: after) ->
  Forall (fun c' => forkable r c' = true
                    /\ m_output_port c' < vsize (m_fork_vector u)) before ->
  forkable r c = true ->
  vsize (m_fork_vector u) <= m_output_port c ->
  wakeup xy car3d adaptive inport r = Err Undefined.
Proof.
  intros Hu Hlink Htime Hwidth Hspin Hty Hne Hcap Hcs Hbefore Hf Hfv.
  pose proof (vget_range _ _ _ Hu) as Hip. fold (get_num_inports r) in Hip.
  assert (Hctl : is_control_type (m_type t_flit) = true) by (rewrite Hty; reflexivity).
  rewrite (wakeup_control xy car3d adaptive r inport u t_flit rest
             Hu Hlink Htime Hwidth Hspin Hctl).
  rewrite Hty.
  set (s0 := consumed inport u rest r).
  set (u0 := IU.set_in_link rest u).
  assert (Hu0 : vget (m_input_unit s0) inport = Ok u0)
    by (apply consumed_unit; exact Hip).
  assert (Hip0 : 0 <= inport < get_num_inports s0)
    by (change (0 <= inport < get_num_inports (with_unit inport u0 r));
        rewrite with_unit_inports; exact Hip).
  assert (Hmyid : unit_id inport s0 = Ok (iu_id u0, s0)).
  { unfold unit_id. mrun (getInputUnit_Ok _ _ _ Hu0). reflexivity. }
  unfold wakeup_probe. rewrite bind_get. cbn beta. mrun Hmyid.
  assert (Hsrc : m_source_id (arrived r t_flit) = m_source_id t_flit) by reflexivity.
  assert (Hrid : r_id s0 = r_id r) by reflexivity.
  assert (Hcap0 : getSpinMaxTurnCapacity (m_network_ptr s0)
                  = getSpinMaxTurnCapacity (m_network_ptr r)) by reflexivity.
  assert (Hturns : getNumTurns (arrived r t_flit) = getNumTurns t_flit) by reflexivity.
  rewrite Hsrc, Hrid, Hcap0, Hturns.
  replace (m_source_id t_flit =? r_id r) with false by lia.
  replace (getSpinMaxTurnCapacity (m_network_ptr r) <? getNumTurns t_flit)
    with false by lia.
  apply bind_Err.
  unfold create_fork_vector. rewrite bind_get. cbn beta.
  unfold clear_fork_vector.
  mrun (on_input_unit_Ok _ inport
          (fun u1 => IU.set_fork_vector (map (fun _ => false) (m_fork_vector u1)) u1)
          _ Hu0).
  set (fv0 := map (fun _ : bool => false) (m_fork_vector u0)).
  assert (Hlen : vsize fv0 = vsize (m_fork_vector u))
    by (unfold fv0, vsize; rewrite length_map; reflexivity).
  change (m_vnet (arrived r t_flit)) with (m_vnet t_flit).
  change (m_vc_per_vnet s0) with (m_vc_per_vnet r).
  apply (create_fork_vector_loop_beyond s0 inport u0 Hip0 before _ c after fv0 false).
  - exact Hcs.
  - eapply Forall_impl; [exact Hbefore|]. intros c' [H1 H2].
    split; [exact H1 | rewrite Hlen; exact H2].
  - exact Hf.
  - rewrite Hlen. exact Hfv.
Qed.

(** [addInPort] gives the new input unit a fork vector with one flag per
    outport that the router has at that moment, and [addOutPort] adds an
    outport without touching an input unit: the fork vector of every
    unit built before an outport is shorter than the outports. *)
Lemma addInPort_then_addOutPort_fork_vector
    (r r1 r2 : Router) (ds ds1 ds2 : Directions)
    (inport_dirn outport_dirn : PortDirection) (w1 w2 : Z)
    (in_link : list flit) (credit_link : list Tick)
    (entry : list NetDest) (weight : Z) (out_vcs : list OutVcState) :
  addInPort inport_dirn w1 in_link credit_link (r, ds) = Ok (tt, (r1, ds1)) ->
  addOutPort outport_dirn w2 entry weight out_vcs (r1, ds1) = Ok (tt, (r2, ds2)) ->
  exists u,
    m_input_unit r2 = m_input_unit r ++ [u]
    /\ vsize (m_fork_vector u) = get_num_outports r
    /\ get_num_outports r2 = get_num_outports r + 1.
Proof.
  unfold addInPort, addOutPort. rewrite !bind_get. cbn [fst snd]. cbn beta.
  destruct (negb (w1 =? m_bit_width r)); [discriminate|].
  unfold InputUnit_new.
  destruct (int_div (get_num_vcs r) (m_vc_per_vnet r)) as [n|] eqn:En; [|discriminate].
  destruct ((n <? 0) || (get_num_vcs r <? 0)); [discriminate|].
  unfold lift at 1. unfold bind at 1. cbn beta iota. unfold put.
  intros H1. injection H1 as <- <-.
  cbn [m_bit_width R.set_input_unit].
  destruct (negb (w2 =? m_bit_width r)); [discriminate|].
  destruct (addRoute entry _) as [ru|] eqn:Er; [|discriminate].
  unfold lift at 1. unfold bind at 1. cbn beta iota.
  intros H2. injection H2 as <- <-.
  eexists. split; [reflexivity|]. split.
  - unfold vsize. cbn. rewrite repeat_length.
    unfold get_num_outports, vsize. lia.
  - unfold get_num_outports, vsize. cbn. rewrite length_app. simpl. lia.
Qed.

(** C5 fails on a router as its ports are built.  The inport from the West
    is added when the router has one outport, so that its fork vector has
    one flag, and the outport to the East, outport 1, is added after it.
    When both VCs of vnet 0 at that inport wait for outport 1 and a PROBE
    of another router arrives, [create_fork_vector] writes
    [m_fork_vector[1]] out of the bounds of the vector: no copy of the
    probe is forked for the outport. *)
Theorem wakeup_probe_fork_vector_out_of_bounds :
  exists r ds u,
    ex_build (ex_bare_router, mkDirections empty empty empty empty) = Ok (tt, (r, ds))
    /\ get_num_outports r = 2
    /\ vget (m_input_unit r) 1 = Ok u
    /\ m_fork_vector u = [false]
    /\ Forall (fun c => forkable r c = true) [ex_packet_vc; ex_packet_vc]
    /\ wakeup no_algorithm no_algorithm no_algorithm 1 (ex_probe_arrives r u)
       = Err Undefined.
Proof.
  eexists. eexists. eexists.
  split; [vm_compute; reflexivity|].
  split; [reflexivity|].
  split; [vm_compute; reflexivity|].
  split; [reflexivity|].
  split; [repeat constructor|].
  eapply (wakeup_probe_beyond_fork_vector _ _ _ _ 1 _ ex_probe_flit []
            [] [ex_packet_vc] ex_packet_vc).
  - vm_compute. reflexivity.
  - reflexivity.
  - vm_compute. discriminate.
  - reflexivity.
  - reflexivity.
  - reflexivity.
  - vm_compute. discriminate.
  - vm_compute. discriminate.
  - repeat constructor.
  - constructor.
  - reflexivity.
  - vm_compute. discriminate.
Qed.

(** * Further properties of the code *)

(** ** The order of flits (flit.hh) *)

(** [flit::greater] is a strict order on flits that compares the time and
    then the id: no flit is greater than itself, two flits are never
    greater than each other, the order is transitive, and two flits that it
    does not order have the same time and the same id. *)
Theorem greater_strict_order :
  forall a b c : flit,
    greater a a = false
    /\ (greater a b = true -> greater b a = false)
    /\ (greater a b = true -> greater b c = true -> greater a c = true)
    /\ (greater a b = false -> greater b a = false ->
        m_time a = m_time b /\ m_id a = m_id b).
Proof.
  intros a b c. unfold greater.
  destruct (Z.eqb_spec (m_time a) (m_time a)) as [_|]; [|congruence].
  destruct (Z.eqb_spec (m_time a) (m_time b)), (Z.eqb_spec (m_time b) (m_time a)),
           (Z.eqb_spec (m_time b) (m_time c)), (Z.eqb_spec (m_time a) (m_time c));
    repeat split; intros; lia.
Qed.

(** ** Stall counters and frozen VCs, continued (InputUnit.cc) *)

Lemma increment_stall_step (net : GarnetNetwork) (vc : Z) (u : InputUnit) (n : Z) :
  isSpinSchemeEnabled net = true ->
  isEscapeVcEnabled net = true ->
  0 <= vc < vsize (m_stall_count u) ->
  vsize (m_vc_frozen u) = vsize (m_stall_count u) ->
  vget (m_stall_count u) vc = Ok n ->
  vget (m_vc_frozen u) vc = Ok false ->
  let u' := increment_stall net vc u in
  vsize (m_stall_count u') = vsize (m_stall_count u)
  /\ vsize (m_vc_frozen u') = vsize (m_vc_frozen u)
  /\ vget (m_stall_count u') vc = Ok (n + 1)
  /\ vget (m_vc_frozen u') vc
     = Ok ((0 <? getSpinDdThreshold net) && (n + 1 >=? getSpinDdThreshold net)).
Proof.
  intros Hspin Hesc Hvc Hsize Hn Hf. unfold increment_stall.
  rewrite Hspin, Hesc. cbn [negb].
  replace ((vc <? 0) || (vc >=? vsize (m_stall_count u))) with false by lia.
  rewrite Hf, Hn.
  destruct ((0 <? getSpinDdThreshold net) && (n + 1 >=? getSpinDdThreshold net));
    simpl; unfold vsize in *; rewrite ?length_insert;
    (split; [reflexivity|]); (split; [reflexivity|]);
    (split; [apply vget_vset_eq; unfold vsize; lia|]).
  - apply vget_vset_eq. unfold vsize. lia.
  - exact Hf.
Qed.

Lemma increment_stall_frozen (net : GarnetNetwork) (vc : Z) (u : InputUnit) :
  vget (m_vc_frozen u) vc = Ok true ->
  increment_stall net vc u = u.
Proof.
  intros Hf. unfold increment_stall.
  destruct (negb (isSpinSchemeEnabled net)); [reflexivity|].
  destruct (negb (isEscapeVcEnabled net)); [reflexivity|].
  destruct ((vc <? 0) || (vc >=? vsize (m_stall_count u))); [reflexivity|].
  rewrite Hf. destruct (vget (m_stall_count u) vc); reflexivity.
Qed.

(** A VC freezes at the stall that brings its count to the SPIN threshold
    and the count stops there: with SPIN and the escape VCs on and a
    positive threshold [T], after [n] calls of [increment_stall] on a VC
    that started at count 0 and not frozen, the count is [min n T] and the
    VC is frozen exactly when [n >= T]. *)
Theorem increment_stall_freezes_at_threshold :
  forall (net : GarnetNetwork) (vc : Z) (u : InputUnit) (n : nat),
    isSpinSchemeEnabled net = true ->
    isEscapeVcEnabled net = true ->
    0 < getSpinDdThreshold net ->
    0 <= vc < vsize (m_stall_count u) ->
    vsize (m_vc_frozen u) = vsize (m_stall_count u) ->
    vget (m_stall_count u) vc = Ok 0 ->
    vget (m_vc_frozen u) vc = Ok false ->
    vget (m_stall_count (stalls n net vc u)) vc
    = Ok (Z.min (Z.of_nat n) (getSpinDdThreshold net))
    /\ vget (m_vc_frozen (stalls n net vc u)) vc
       = Ok (getSpinDdThreshold net <=? Z.of_nat n).
Proof.
  intros net vc u n Hspin Hesc HT Hvc Hsize H0 Hf0.
  assert (Hinv : vsize (m_stall_count (stalls n net vc u)) = vsize (m_stall_count u)
                 /\ vsize (m_vc_frozen (stalls n net vc u)) = vsize (m_vc_frozen u)
                 /\ vget (m_stall_count (stalls n net vc u)) vc
                    = Ok (Z.min (Z.of_nat n) (getSpinDdThreshold net))
                 /\ vget (m_vc_frozen (stalls n net vc u)) vc
                    = Ok (getSpinDdThreshold net <=? Z.of_nat n)).
  { induction n as [|n IH].
    - cbn [stalls]. split; [reflexivity|]. split; [reflexivity|]. split.
      + rewrite H0. f_equal. lia.
      + rewrite Hf0. f_equal. symmetry. apply Z.leb_gt. lia.
    - destruct IH as (Hs & Hfz & Hc & Hfr). cbn [stalls].
      destruct (getSpinDdThreshold net <=? Z.of_nat n) eqn:E.
      + rewrite (increment_stall_frozen _ _ _ Hfr).
        split; [exact Hs|]. split; [exact Hfz|]. split.
        * rewrite Hc. f_equal. lia.
        * rewrite Hfr. f_equal. symmetry. apply Z.leb_le. lia.
      + destruct (increment_stall_step net vc (stalls n net vc u)
                    (Z.min (Z.of_nat n) (getSpinDdThreshold net)))
          as (Hs' & Hfz' & Hc' & Hfr'); try assumption; try lia.
        split; [lia|]. split; [lia|]. split.
        * rewrite Hc'. f_equal. lia.
        * rewrite Hfr'. f_equal.
          replace (0 <? getSpinDdThreshold net) with true by lia. cbn [andb].
          rewrite Z.geb_leb. f_equal. lia. }
  destruct Hinv as (_ & _ & Hc & Hfr). split; assumption.
Qed.

(** The theorem at the West input unit of the example, under a network with
    SPIN and escape VCs on and threshold 3: after five stalls VC 0 is frozen
    with count 3. *)
Lemma increment_stall_witness :
  vget (m_stall_count
          (stalls 5 (mkNetwork TABLE_ true true 3 8 (fun vnet => vnet =? 0) 2 2
                       (fun id => id) (fun id => id + 1)) 0 (ex_input_unit 1 West))) 0
  = Ok 3
  /\ vget (m_vc_frozen
             (stalls 5 (mkNetwork TABLE_ true true 3 8 (fun vnet => vnet =? 0) 2 2
                          (fun id => id) (fun id => id + 1)) 0 (ex_input_unit 1 West))) 0
     = Ok true.
Proof.
  apply (increment_stall_freezes_at_threshold
           (mkNetwork TABLE_ true true 3 8 (fun vnet => vnet =? 0) 2 2
              (fun id => id) (fun id => id + 1)) 0 (ex_input_unit 1 West) 5);
    try reflexivity; simpl; unfold vsize; simpl; lia.
Defined.

(** Freezing and thawing a VC: with SPIN on, a VC in range is frozen after
    [freeze_vc] and not frozen after [thaw_vc], and no other VC changes its
    flag; for an index out of range [freeze_vc] and [thaw_vc] do nothing and
    [is_vc_frozen] answers false; with SPIN off [freeze_vc] does nothing. *)
Theorem freeze_thaw_round_trip :
  forall (net : GarnetNetwork) (vc : Z) (u : InputUnit),
    (isSpinSchemeEnabled net = true ->
     0 <= vc < vsize (m_vc_frozen u) ->
     is_vc_frozen vc (freeze_vc net vc u) = true
     /\ is_vc_frozen vc (thaw_vc vc (freeze_vc net vc u)) = false
     /\ forall vc', vc' <> vc ->
          is_vc_frozen vc' (freeze_vc net vc u) = is_vc_frozen vc' u
          /\ is_vc_frozen vc' (thaw_vc vc u) = is_vc_frozen vc' u)
    /\ (~ 0 <= vc < vsize (m_vc_frozen u) ->
        freeze_vc net vc u = u /\ thaw_vc vc u = u /\ is_vc_frozen vc u = false)
    /\ (isSpinSchemeEnabled net = false -> freeze_vc net vc u = u).
Proof.
  intros net vc u. split; [|split].
  - intros Hspin Hvc.
    assert (Hfz : forall b vc',
              is_vc_frozen vc'
                (IU.set_vc_frozen (<[Z.to_nat vc := b]> (m_vc_frozen u)) u)
              = if vc' =? vc then b else is_vc_frozen vc' u).
    { intros b vc'. unfold is_vc_frozen. simpl. unfold vsize.
      rewrite length_insert. fold (vsize (m_vc_frozen u)).
      destruct ((vc' <? 0) || (vc' >=? vsize (m_vc_frozen u))) eqn:Er.
      - destruct (Z.eqb_spec vc' vc); [lia | reflexivity].
      - destruct (Z.eqb_spec vc' vc) as [-> | Hne].
        + rewrite vget_vset_eq by exact Hvc. reflexivity.
        + rewrite vget_vset_ne by lia. reflexivity. }
    assert (Hfreeze : freeze_vc net vc u
                      = IU.set_vc_frozen (<[Z.to_nat vc := true]> (m_vc_frozen u)) u).
    { unfold freeze_vc. rewrite Hspin. cbn [negb].
      replace ((vc <? 0) || (vc >=? vsize (m_vc_frozen u))) with false by lia.
      reflexivity. }
    assert (Hthaw : forall u1,
              vsize (m_vc_frozen u1) = vsize (m_vc_frozen u) ->
              forall vc', is_vc_frozen vc' (thaw_vc vc u1)
                          = is_vc_frozen vc'
                              (IU.set_vc_frozen
                                 (<[Z.to_nat vc := false]> (m_vc_frozen u1)) u1)).
    { intros u1 Hs vc'. unfold thaw_vc. rewrite Hs.
      replace ((vc <? 0) || (vc >=? vsize (m_vc_frozen u))) with false by lia.
      unfold reset_stall.
      destruct ((vc <? 0) || (vc >=? vsize (m_stall_count _))); reflexivity. }
    split; [rewrite Hfreeze, Hfz, Z.eqb_refl; reflexivity|].
    split.
    + rewrite Hthaw by (rewrite Hfreeze; simpl; unfold vsize;
                        rewrite length_insert; reflexivity).
      unfold is_vc_frozen. simpl. unfold vsize. rewrite length_insert.
      fold (vsize (m_vc_frozen (freeze_vc net vc u))).
      assert (Hs : vsize (m_vc_frozen (freeze_vc net vc u)) = vsize (m_vc_frozen u))
        by (rewrite Hfreeze; simpl; unfold vsize; rewrite length_insert; reflexivity).
      rewrite Hs.
      replace ((vc <? 0) || (vc >=? vsize (m_vc_frozen u))) with false by lia.
      rewrite vget_vset_eq by (rewrite Hs; exact Hvc). reflexivity.
    + intros vc' Hne. split.
      * rewrite Hfreeze, Hfz. destruct (Z.eqb_spec vc' vc); [contradiction | reflexivity].
      * rewrite Hthaw by reflexivity. rewrite Hfz.
        destruct (Z.eqb_spec vc' vc); [contradiction | reflexivity].
  - intros Hout.
    assert (E : (vc <? 0) || (vc >=? vsize (m_vc_frozen u)) = true) by lia.
    unfold freeze_vc, thaw_vc, is_vc_frozen. rewrite E.
    destruct (negb (isSpinSchemeEnabled net)); repeat split.
  - intros Hoff. unfold freeze_vc. rewrite Hoff. reflexivity.
Qed.

(** ** The SPIN counter and latches (Router.cc) *)

(** [set_counter] for a state other than [off] asserts that the threshold
    lies ahead: it stops at that assertion when the delay of the state (the
    loop delay for [move], [check_probe] and [forward_progress], the given
    threshold for [frozen], the SPIN detection threshold for
    [deadlock_detection]) is not positive; otherwise the counter takes the
    state with count 0, the threshold is that many cycles ahead, and one
    wakeup is scheduled for it.  For [off] the threshold is [INFINITE_] and
    no wakeup is scheduled. *)
Theorem set_counter_needs_future_threshold :
  forall (r : Router) (ip vc th : Z) (st : Counter_state),
    0 < m_vc_per_vnet r ->
    (st <> s_off ->
       (counter_delay r st th <= 0 -> set_counter ip vc st th r = Err AssertFail)
       /\ (0 < counter_delay r st th ->
           exists r',
             set_counter ip vc st th r = Ok (tt, r')
             /\ state (m_counter (spin r')) = st
             /\ count (m_counter (spin r')) = 0
             /\ thresh (m_counter (spin r')) = curCycle r + counter_delay r st th
             /\ cptr_input_port (m_counter (spin r')) = to_unsigned ip
             /\ cptr_vc (m_counter (spin r')) = to_unsigned vc
             /\ scheduled_wakeups r' = scheduled_wakeups r ++ [counter_delay r st th]))
    /\ (st = s_off ->
        exists r',
          set_counter ip vc st th r = Ok (tt, r')
          /\ state (m_counter (spin r')) = s_off
          /\ thresh (m_counter (spin r')) = INFINITE_
          /\ scheduled_wakeups r' = scheduled_wakeups r).
Proof.
  intros r ip vc th st Hvpv.
  assert (Hrun : set_counter ip vc st th r
                 = (let new_thresh :=
                      match st with
                      | s_off => INFINITE_
                      | _ => curCycle r + counter_delay r st th
                      end in
                    let r1 := R.set_spin
                                (SP.set_counter
                                   (mkCounter (to_unsigned ip) (to_unsigned vc)
                                      (Z.quot (to_unsigned vc) (m_vc_per_vnet r)) 0
                                      new_thresh st) (spin r)) r in
                    if Counter_state_eqb st s_off then Ok (tt, r1)
                    else if 0 <? new_thresh - curCycle r
                         then Ok (tt, R.set_scheduled_wakeups
                                        (scheduled_wakeups r1
                                         ++ [new_thresh - curCycle r]) r1)
                         else Err AssertFail)).
  { unfold set_counter, int_div. rewrite bind_get. cbn beta.
    replace (m_vc_per_vnet r =? 0) with false by lia.
    rewrite (bind_lift_Ok _ _ _ _ eq_refl). cbn beta.
    unfold modify_spin. unfold bind at 1. unfold modify at 1. cbn beta iota zeta.
    destruct st; cbn [Counter_state_eqb counter_delay]; try reflexivity;
      match goal with
      | |- context [assert (0 <? ?x)] => destruct (0 <? x); reflexivity
      end. }
  rewrite Hrun. cbn zeta. split.
  - intros Hst.
    assert (E : Counter_state_eqb st s_off = false) by (destruct st; try reflexivity; congruence).
    rewrite E.
    assert (Ed : match st with
                 | s_off => INFINITE_
                 | _ => curCycle r + counter_delay r st th
                 end = curCycle r + counter_delay r st th)
      by (destruct st; try reflexivity; congruence).
    rewrite Ed.
    replace (curCycle r + counter_delay r st th - curCycle r)
      with (counter_delay r st th) by lia.
    split; intros Hd.
    + replace (0 <? counter_delay r st th) with false by lia. reflexivity.
    + replace (0 <? counter_delay r st th) with true by lia.
      eexists. split; [reflexivity|]. repeat split.
  - intros ->. cbn [Counter_state_eqb].
    eexists. split; [reflexivity|]. repeat split.
Qed.

(** The theorem at the example router (loop delay 0, SPIN threshold 16):
    the counter cannot be put in state [move], and it can be put in state
    [deadlock_detection], 16 cycles ahead. *)
Lemma set_counter_witness :
  set_counter 1 0 s_move 0 ex_router = Err AssertFail
  /\ exists r',
       set_counter 1 0 s_deadlock_detection 0 ex_router = Ok (tt, r')
       /\ thresh (m_counter (spin r')) = 18
       /\ scheduled_wakeups r' = [16].
Proof.
  assert (Hvpv : 0 < m_vc_per_vnet ex_router) by reflexivity.
  split.
  - destruct (set_counter_needs_future_threshold ex_router 1 0 0 s_move Hvpv)
      as [H _].
    destruct (H ltac:(discriminate)) as [Hfail _].
    apply Hfail. discriminate.
  - destruct (set_counter_needs_future_threshold ex_router 1 0 0
                s_deadlock_detection Hvpv) as [H _].
    destruct (H ltac:(discriminate)) as [_ Hok].
    destruct (Hok eq_refl) as (r' & Hrun & _ & _ & Hth & _ & _ & Hw).
    exists r'. split; [exact Hrun|]. split; [exact Hth | exact Hw].
Defined.

(** The source-id buffer: after [latch_source_id_buffer(s, m)] the partial
    check accepts exactly the source id [s] and the full check exactly the
    pair [(s, m)]; after [invalidate_source_id_buffer] both checks refuse
    every id, also [-1], the value the invalid buffer holds. *)
Theorem source_id_buffer_round_trip :
  forall (r : Router) (s m s' m' : Z),
    (exists r',
       latch_source_id_buffer s m r = Ok (tt, r')
       /\ partial_check_source_id_buffer s' r' = (s =? s')
       /\ check_source_id_buffer s' m' r' = ((s =? s') && (m =? m')))
    /\ (exists r',
          invalidate_source_id_buffer r = Ok (tt, r')
          /\ partial_check_source_id_buffer s' r' = false
          /\ check_source_id_buffer s' m' r' = false
          /\ sb_source_id (m_source_id_buffer (spin r')) = -1).
Proof.
  intros r s m s' m'. split.
  - eexists. split; [reflexivity|]. split; reflexivity.
  - eexists. split; [reflexivity|]. repeat split.
Qed.

(** The path buffer: after [latch_path(f)] the top of the buffer is the
    head of the path of [f], or [-1] when that path is empty;
    [peek_path_top] changes nothing; and it stops at its assertion on a
    buffer that is not valid, as it is after [invalidate_path_buffer]. *)
Theorem path_buffer_round_trip :
  forall (r : Router) (f : flit),
    (exists r',
       latch_path f r = Ok (tt, r')
       /\ peek_path_top r' = Ok (peekPathTop f, r'))
    /\ (exists r',
          invalidate_path_buffer r = Ok (tt, r')
          /\ peek_path_top r' = Err AssertFail)
    /\ (pb_valid (m_path_buffer (spin r)) = false ->
        peek_path_top r = Err AssertFail).
Proof.
  intros r f. split; [|split].
  - eexists. split; [reflexivity|]. reflexivity.
  - eexists. split; [reflexivity|]. reflexivity.
  - intros Hv. unfold peek_path_top. rewrite bind_get. cbn beta.
    rewrite Hv. reflexivity.
Qed.

(** Forwarding a control flit pops the head of its path with
    [m_path.front()] and [pop()]: for a flit whose path is empty that is
    undefined behaviour, in all three forwarding functions. *)
Theorem forward_empty_path_undefined :
  forall (r : Router) (f : flit),
    m_path f = [] ->
    forward_kill_move f r = Err Undefined
    /\ forward_move f r = Err Undefined
    /\ forward_check_probe f r = Err Undefined.
Proof.
  intros r f Hp.
  assert (Hsub : forall t, getPathTop (subDelay t f) = Err Undefined).
  { intros t. unfold getPathTop, subDelay.
    destruct (t <=? m_delay f); simpl; rewrite Hp; reflexivity. }
  split; [|split].
  - unfold forward_kill_move. rewrite bind_get. cbn beta.
    unfold getPathTop. rewrite Hp. reflexivity.
  - unfold forward_move. rewrite bind_get. cbn beta. rewrite Hsub. reflexivity.
  - unfold forward_check_probe. rewrite bind_get. cbn beta. rewrite Hsub. reflexivity.
Qed.

(** The theorem at the example router, for a KILL_MOVE whose path is used
    up. *)
Lemma forward_empty_path_witness :
  forward_kill_move (ex_control_flit KILL_MOVE_ 2 0 []) ex_router = Err Undefined
  /\ forward_move (ex_control_flit KILL_MOVE_ 2 0 []) ex_router = Err Undefined
  /\ forward_check_probe (ex_control_flit KILL_MOVE_ 2 0 []) ex_router = Err Undefined.
Proof.
  apply (forward_empty_path_undefined ex_router (ex_control_flit KILL_MOVE_ 2 0 [])).
  reflexivity.
Defined.

(** ** Table routing, continued (RoutingUnit.cc) *)

Lemma scan_min_weight_total dest ws es :
  forall k m0, 0 <= k -> k + vsize es <= vsize ws ->
    exists m, scan_min_weight dest ws es k m0 = Ok m.
Proof.
  induction es as [|e0 rest IH]; simpl; intros k m0 Hk Hb; [eauto|].
  unfold vsize in Hb. simpl in Hb.
  destruct (intersectionIsNotEmpty dest e0).
  - destruct (vget_in_range ws k) as [w0 ->]; [unfold vsize; lia|].
    apply IH; unfold vsize; lia.
  - apply IH; unfold vsize; lia.
Qed.

Lemma collect_candidates_total dest ws es :
  forall k m, 0 <= k -> k + vsize es <= vsize ws ->
    exists cs, collect_candidates dest ws es k m = Ok cs.
Proof.
  induction es as [|e0 rest IH]; simpl; intros k m Hk Hb; [eauto|].
  unfold vsize in Hb. simpl in Hb.
  destruct (intersectionIsNotEmpty dest e0).
  - destruct (vget_in_range ws k) as [w0 ->]; [unfold vsize; lia|].
    destruct (IH (k + 1) m) as [cs ->]; [lia | unfold vsize; lia |]. eauto.
  - apply IH; unfold vsize; lia.
Qed.

(** What a lookup returns, in terms of its two loops. *)
Lemma lookupRoutingTable_result r vnet dest entries mw cands :
  vget (m_routing_table (routingUnit r)) vnet = Ok entries ->
  scan_min_weight dest (m_weight_table (routingUnit r)) entries 0 INFINITE_ = Ok mw ->
  collect_candidates dest (m_weight_table (routingUnit r)) entries 0 mw = Ok cands ->
  (cands = [] -> lookupRoutingTable vnet dest r = Err Fatal)
  /\ (cands <> [] ->
      exists l r', lookupRoutingTable vnet dest r = Ok (l, r') /\ In l cands).
Proof.
  intros Ht Hs Hc.
  destruct (isVNetOrdered (m_network_ptr r) vnet) eqn:Hord.
  - rewrite (lookupRoutingTable_ordered_result r vnet dest Hord), Ht, Hs, Hc.
    split; [intros ->; reflexivity|].
    intros Hne. destruct cands as [|c cs]; [contradiction|].
    exists c, r. split; [reflexivity | left; reflexivity].
  - rewrite (lookupRoutingTable_unordered_result r vnet dest Hord), Ht, Hs, Hc.
    split; [intros ->; reflexivity|].
    intros Hne. destruct cands as [|c cs]; [contradiction|].
    destruct (vget_in_range (c :: cs) (Z.rem (next_rand r) (vsize (c :: cs))))
      as [l Hl].
    { assert (0 < vsize (c :: cs)) by (unfold vsize; simpl; lia).
      assert (0 <= next_rand r) by (unfold next_rand; lia).
      pose proof (Z.rem_bound_pos (next_rand r) (vsize (c :: cs))). lia. }
    exists l, (after_rand r). rewrite Hl. split; [reflexivity|].
    exact (vget_In _ _ _ Hl).
Qed.

(** [lookupRoutingTable] stops with "No Route exists from this Router"
    exactly when no link of the vnet that leads to the destination weighs
    at most [INFINITE_] (10000): a destination that only links of a greater
    weight lead to counts as one without a route. *)
Theorem lookupRoutingTable_fatal_iff_no_route :
  forall (r : Router) (vnet : Z) (dest : NetDest) (entries : list NetDest),
    vget (m_routing_table (routingUnit r)) vnet = Ok entries ->
    vsize entries <= vsize (m_weight_table (routingUnit r)) ->
    (lookupRoutingTable vnet dest r = Err Fatal
     <-> forall l w, reaches (routingUnit r) vnet dest l w -> INFINITE_ < w).
Proof.
  intros r vnet dest entries Ht Hlen.
  destruct (scan_min_weight_total dest (m_weight_table (routingUnit r)) entries
              0 INFINITE_) as [mw Hs]; [lia | lia |].
  destruct (collect_candidates_total dest (m_weight_table (routingUnit r)) entries
              0 mw) as [cands Hc]; [lia | lia |].
  destruct (lookupRoutingTable_result r vnet dest entries mw cands Ht Hs Hc)
    as [Hnil Hcons].
  pose proof (scan_min_weight_le _ _ _ _ _ _ Hs) as Hmw.
  split.
  - intros Hfatal l w Hreach.
    destruct (Z_lt_le_dec INFINITE_ w) as [Hgt | Hle]; [exact Hgt|]. exfalso.
    destruct (candidates_exist _ _ _ _ _ _ Ht Hlen Hreach Hle)
      as (mw' & c & cs & Hs' & Hc').
    rewrite Hs in Hs'. injection Hs' as <-. rewrite Hc in Hc'. injection Hc' as ->.
    destruct Hcons as (l' & r' & Hrun & _); [discriminate|].
    rewrite Hfatal in Hrun. discriminate.
  - intros Hall. apply Hnil.
    destruct cands as [|c cs]; [reflexivity|]. exfalso.
    destruct (candidates_are_min_weight _ _ _ _ _ _ c Ht Hs Hc (or_introl eq_refl))
      as [Hreach _].
    specialize (Hall _ _ Hreach). lia.
Qed.

(** The theorem at the example router: router 7 is in no entry of the
    table, so the lookup is fatal; and at the router whose links all weigh
    20000 the lookup for router 3 is fatal although links 1 and 2 lead
    there. *)
Lemma lookupRoutingTable_fatal_witness :
  (forall l w, reaches (routingUnit ex_router) 0 [7] l w -> INFINITE_ < w)
  /\ lookupRoutingTable 0 [3] ex_heavy_router = Err Fatal.
Proof.
  split.
  - apply (proj1 (lookupRoutingTable_fatal_iff_no_route ex_router 0 [7]
                    [[0]; [1; 3]; [2; 3]] eq_refl ltac:(discriminate))).
    reflexivity.
  - apply (proj2 (lookupRoutingTable_fatal_iff_no_route ex_heavy_router 0 [3]
                    [[0]; [1; 3]; [2; 3]] eq_refl ltac:(discriminate))).
    intros l w (entries & e & _ & _ & _ & Hw).
    apply vget_In in Hw. simpl in Hw.
    destruct Hw as [<- | [<- | [<- | []]]]; reflexivity.
Defined.

(** ** Building the routing table (RoutingUnit.cc) *)

Lemma addRoute_loop_spec (entry : list NetDest) :
  forall (k : nat) (table : list (list NetDest)),
    (k + length entry <= length table)%nat ->
    exists table',
      addRoute_loop entry (Z.of_nat k) table = Ok table'
      /\ length table' = length table
      /\ forall i : nat,
           table' !! i
           = match table !! i with
             | Some row =>
                 Some (row ++ (if (k <=? i)%nat
                               then match entry !! (i - k)%nat with
                                    | Some e => [e]
                                    | None => []
                                    end
                               else []))
             | None => None
             end.
Proof.
  induction entry as [|e rest IH]; intros k table Hlen.
  - exists table. split; [reflexivity|]. split; [reflexivity|].
    intros i. destruct (table !! i) as [row|]; [|reflexivity].
    destruct (k <=? i)%nat; [rewrite lookup_nil|]; rewrite app_nil_r; reflexivity.
  - simpl in Hlen. cbn [addRoute_loop].
    destruct (lookup_lt_is_Some_2 table k ltac:(lia)) as [row Hrow].
    assert (Hget : vget table (Z.of_nat k) = Ok row).
    { apply vget_Ok. split; [unfold vsize; lia|]. rewrite Nat2Z.id. exact Hrow. }
    rewrite Hget.
    rewrite (vset_Ok table (Z.of_nat k) (row ++ [e])) by (unfold vsize; lia).
    rewrite Nat2Z.id.
    replace (Z.of_nat k + 1) with (Z.of_nat (S k)) by lia.
    destruct (IH (S k) (<[k := row ++ [e]]> table)) as (table' & Hrun & Hl & Hspec).
    { rewrite length_insert. lia. }
    exists table'. split; [exact Hrun|]. split; [rewrite Hl, length_insert; reflexivity|].
    intros i. rewrite Hspec.
    destruct (Nat.eq_dec i k) as [-> | Hne].
    + rewrite list_lookup_insert_eq by lia. rewrite Hrow.
      replace (S k <=? k)%nat with false by (symmetry; apply Nat.leb_gt; lia).
      rewrite Nat.leb_refl, Nat.sub_diag. simpl. rewrite app_nil_r. reflexivity.
    + rewrite list_lookup_insert_ne by lia.
      destruct (table !! i) as [row'|]; [|reflexivity].
      destruct (Nat.leb_spec (S k) i), (Nat.leb_spec k i); try lia; [|reflexivity].
      replace (i - k)%nat with (S (i - S k)) by lia. reflexivity.
Qed.

Lemma addRoute_run :
  forall (routing_table_entry : list NetDest) (ru : RoutingUnit),
    exists ru',
      addRoute routing_table_entry ru = Ok ru'
      /\ m_weight_table ru' = m_weight_table ru
      /\ vsize (m_routing_table ru')
         = Z.max (vsize (m_routing_table ru)) (vsize routing_table_entry)
      /\ forall v,
           0 <= v < vsize (m_routing_table ru') ->
           vget (m_routing_table ru') v
           = Ok (match vget (m_routing_table ru) v with
                 | Ok row => row
                 | Err _ => []
                 end
                 ++ match vget routing_table_entry v with
                    | Ok e => [e]
                    | Err _ => []
                    end).
Proof.
  intros entry ru. unfold addRoute.
  set (table := if vsize (m_routing_table ru) <? vsize entry
                then m_routing_table ru
                     ++ repeat [] (length entry - length (m_routing_table ru))
                else m_routing_table ru).
  assert (Hlen : length table = Nat.max (length (m_routing_table ru)) (length entry)).
  { unfold table, vsize.
    destruct (Z.ltb_spec (Z.of_nat (length (m_routing_table ru)))
                (Z.of_nat (length entry))).
    - rewrite length_app, repeat_length. lia.
    - lia. }
  assert (Hrows : forall i : nat,
            (i < length table)%nat ->
            table !! i = Some (match m_routing_table ru !! i with
                               | Some row => row
                               | None => []
                               end)).
  { intros i Hi. unfold table, vsize in *.
    destruct (Z.ltb_spec (Z.of_nat (length (m_routing_table ru)))
                (Z.of_nat (length entry))).
    - destruct (Nat.lt_ge_cases i (length (m_routing_table ru))) as [Hin | Hout].
      + rewrite lookup_app_l by exact Hin.
        destruct (lookup_lt_is_Some_2 _ _ Hin) as [row Hrow]. rewrite Hrow. reflexivity.
      + rewrite lookup_app_r by exact Hout.
        rewrite (lookup_ge_None_2 (m_routing_table ru) i) by exact Hout.
        destruct (repeat [] (length entry - length (m_routing_table ru))
                  !! (i - length (m_routing_table ru))%nat) as [x|] eqn:Ex.
        * apply list_elem_of_lookup_2, list_elem_of_In, repeat_spec in Ex.
          rewrite Ex. reflexivity.
        * apply lookup_ge_None_1 in Ex. rewrite repeat_length in Ex.
          rewrite length_app, repeat_length in Hi. lia.
    - destruct (lookup_lt_is_Some_2 _ _ Hi) as [row Hrow]. rewrite Hrow. reflexivity. }
  destruct (addRoute_loop_spec entry 0 table) as (table' & Hrun & Hl & Hspec);
    [lia|].
  change (Z.of_nat 0) with 0 in Hrun. rewrite Hrun.
  eexists. split; [reflexivity|]. split; [reflexivity|]. simpl. split.
  - unfold vsize. rewrite Hl, Hlen. lia.
  - intros v Hv. unfold vsize in Hv. rewrite Hl in Hv.
    apply vget_Ok. split; [unfold vsize; lia|].
    rewrite Hspec, Hrows by lia. cbn [Nat.leb]. rewrite Nat.sub_0_r. f_equal.
    unfold vget.
    destruct (m_routing_table ru !! Z.to_nat v) as [row|] eqn:Er;
      destruct (entry !! Z.to_nat v) as [e|] eqn:Ee.
    + apply lookup_lt_Some in Er as Hr1. apply lookup_lt_Some in Ee as He1.
      replace ((0 <=? v) && (v <? Z.of_nat (length (m_routing_table ru))))
        with true by lia.
      replace ((0 <=? v) && (v <? Z.of_nat (length entry))) with true by lia.
      reflexivity.
    + apply lookup_lt_Some in Er as Hr1. apply lookup_ge_None_1 in Ee.
      replace ((0 <=? v) && (v <? Z.of_nat (length (m_routing_table ru))))
        with true by lia.
      replace ((0 <=? v) && (v <? Z.of_nat (length entry))) with false by lia.
      reflexivity.
    + apply lookup_ge_None_1 in Er. apply lookup_lt_Some in Ee as He1.
      replace ((0 <=? v) && (v <? Z.of_nat (length (m_routing_table ru))))
        with false by lia.
      replace ((0 <=? v) && (v <? Z.of_nat (length entry))) with true by lia.
      reflexivity.
    + apply lookup_ge_None_1 in Er. apply lookup_ge_None_1 in Ee. lia.
Qed.

(** [addRoute] never fails and leaves the weights and the escape tree
    alone.  The table gets
    as many vnets as the longer of the table and the entry; every vnet the
    entry covers gets the set of the entry as its last link, starting from
    no links when the vnet is new; a vnet beyond the entry keeps its links,
    so that it has one link fewer than the others from then on. *)
Theorem addRoute_appends_per_vnet :
  forall (routing_table_entry : list NetDest) (ru : RoutingUnit),
    exists ru',
      addRoute routing_table_entry ru = Ok ru'
      /\ m_weight_table ru' = m_weight_table ru
      /\ m_parentOutport ru' = m_parentOutport ru
      /\ m_children ru' = m_children ru
      /\ vsize (m_routing_table ru')
         = Z.max (vsize (m_routing_table ru)) (vsize routing_table_entry)
      /\ forall v,
           0 <= v < vsize (m_routing_table ru') ->
           vget (m_routing_table ru') v
           = Ok (match vget (m_routing_table ru) v with
                 | Ok row => row
                 | Err _ => []
                 end
                 ++ match vget routing_table_entry v with
                    | Ok e => [e]
                    | Err _ => []
                    end).
Proof.
  intros entry ru.
  destruct (addRoute_run entry ru) as (ru' & Hrun & Hw & Hsize & Hrows).
  exists ru'. split; [exact Hrun|]. split; [exact Hw|].
  assert (Hrest : m_parentOutport ru' = m_parentOutport ru
                  /\ m_children ru' = m_children ru).
  { unfold addRoute in Hrun.
    destruct (addRoute_loop entry 0 _) as [table'|]; [|discriminate].
    injection Hrun as <-. split; reflexivity. }
  destruct Hrest as [Hp Hc].
  split; [exact Hp|]. split; [exact Hc|]. split; [exact Hsize | exact Hrows].
Qed.

(** What [addOutPort] does to the routing unit, followed by a lookup: on a
    routing unit whose vnets all have [n] links and [n] weights, after
    [addRoute(entry)] and [addWeight(w)] with an entry for every vnet, the
    new link has index [n]; the lookup for a destination that the entry of
    the vnet meets returns [n] when the new link weighs at most [INFINITE_]
    and less than every older link to that destination. *)
Theorem addRoute_addWeight_then_lookup :
  forall (r : Router) (routing_table_entry : list NetDest) (link_weight : Z)
         (ru' : RoutingUnit) (vnet n : Z) (dest e : NetDest),
    addRoute routing_table_entry (routingUnit r) = Ok ru' ->
    Forall (fun row => vsize row = n) (m_routing_table (routingUnit r)) ->
    vsize (m_weight_table (routingUnit r)) = n ->
    vsize routing_table_entry = vsize (m_routing_table (routingUnit r)) ->
    vget routing_table_entry vnet = Ok e ->
    intersectionIsNotEmpty dest e = true ->
    link_weight <= INFINITE_ ->
    (forall l w, reaches (routingUnit r) vnet dest l w -> link_weight < w) ->
    exists r',
      lookupRoutingTable vnet dest (with_routingUnit (addWeight link_weight ru') r)
      = Ok (n, r').
Proof.
  intros r entry link_weight ru' vnet n dest e Hadd Halign Hw Hentry He Hie Hle Hold.
  destruct (addRoute_run entry (routingUnit r))
    as (ru1 & Hadd1 & Hweights & Hsize & Hrow).
  rewrite Hadd in Hadd1. injection Hadd1 as <-.
  pose proof (vget_range _ _ _ He) as Hv.
  assert (Hvt : 0 <= vnet < vsize (m_routing_table (routingUnit r))) by lia.
  destruct (vget_in_range _ _ Hvt) as [row Hrow0].
  assert (Hrown : vsize row = n).
  { rewrite Forall_forall in Halign. apply Halign.
    apply list_elem_of_In. exact (vget_In _ _ _ Hrow0). }
  assert (Hnew : vget (m_routing_table ru') vnet = Ok (row ++ [e])).
  { rewrite Hrow by lia. rewrite Hrow0, He. reflexivity. }
  set (r2 := with_routingUnit (addWeight link_weight ru') r).
  assert (Ht2 : vget (m_routing_table (routingUnit r2)) vnet = Ok (row ++ [e]))
    by exact Hnew.
  assert (Hw2 : m_weight_table (routingUnit r2)
                = m_weight_table (routingUnit r) ++ [link_weight]).
  { unfold r2. simpl. rewrite Hweights. reflexivity. }
  assert (Hn0 : 0 <= n) by (rewrite <- Hw; unfold vsize; lia).
  assert (HnW : Z.to_nat n = length (m_weight_table (routingUnit r)))
    by (unfold vsize in Hw; lia).
  assert (HnR : Z.to_nat n = length row) by (unfold vsize in Hrown; lia).
  (* the new link leads to the destination *)
  assert (Hreach : reaches (routingUnit r2) vnet dest n link_weight).
  { exists (row ++ [e]), e. split; [exact Ht2|]. split; [|split; [exact Hie|]].
    - apply vget_Ok. split; [unfold vsize; rewrite length_app; simpl; lia|].
      rewrite HnR, lookup_app_r, Nat.sub_diag by lia. reflexivity.
    - rewrite Hw2. apply vget_Ok.
      split; [unfold vsize; rewrite length_app; simpl; lia|].
      rewrite HnW, lookup_app_r, Nat.sub_diag by lia. reflexivity. }
  assert (Hcover : vsize (row ++ [e]) <= vsize (m_weight_table (routingUnit r2))).
  { rewrite Hw2. unfold vsize in *. rewrite !length_app. simpl. lia. }
  destruct (candidates_exist _ _ _ _ _ _ Ht2 Hcover Hreach Hle)
    as (mw & c & cs & Hs & Hc).
  destruct (lookupRoutingTable_result r2 vnet dest _ _ _ Ht2 Hs Hc) as [_ Hcons].
  destruct Hcons as (l & r' & Hrun & Hin); [discriminate|].
  exists r'. rewrite Hrun. f_equal. f_equal.
  destruct (candidates_are_min_weight _ _ _ _ _ _ l Ht2 Hs Hc Hin) as [Hl Hmin].
  pose proof (Hmin _ _ Hreach) as Hmw.
  destruct Hl as (entries' & e' & Ht' & He' & Hie' & Hw').
  rewrite Ht2 in Ht'. injection Ht' as <-.
  pose proof (vget_range _ _ _ He') as Hlr.
  unfold vsize in Hlr. rewrite length_app in Hlr. simpl in Hlr.
  destruct (Z.eq_dec l n) as [-> | Hne]; [reflexivity|]. exfalso.
  assert (Hlt : 0 <= l < n) by (unfold vsize in Hrown; lia).
  assert (Hreach_old : reaches (routingUnit r) vnet dest l mw).
  { exists row, e'. split; [exact Hrow0|]. split; [|split; [exact Hie'|]].
    - apply vget_Ok in He' as [_ He']. apply vget_Ok.
      split; [lia|]. rewrite lookup_app_l in He' by lia. exact He'.
    - rewrite Hw2 in Hw'. apply vget_Ok in Hw' as [_ Hw']. apply vget_Ok.
      split; [lia|]. rewrite lookup_app_l in Hw' by lia. exact Hw'. }
  specialize (Hold _ _ Hreach_old). lia.
Qed.

(** The theorem at the example router, for a new link to router 9 with
    weight 1: the table has three links in each of its two vnets, and the
    lookup for router 9 returns the new link 3. *)
Lemma addRoute_addWeight_witness :
  exists ru' r',
    addRoute [[9]; [9]] (routingUnit ex_router) = Ok ru'
    /\ lookupRoutingTable 0 [9] (with_routingUnit (addWeight 1 ru') ex_router)
       = Ok (3, r').
Proof.
  destruct (addRoute_run [[9]; [9]] (routingUnit ex_router))
    as (ru' & Hadd & _).
  exists ru'.
  destruct (addRoute_addWeight_then_lookup ex_router [[9]; [9]] 1 ru' 0 3 [9] [9]
              Hadd) as [r' Hrun].
  - repeat constructor.
  - reflexivity.
  - reflexivity.
  - reflexivity.
  - reflexivity.
  - discriminate.
  - intros l w (entries & e & Ht & He & Hie & _). exfalso.
    injection Ht as <-. apply vget_In in He. simpl in He.
    destruct He as [<- | [<- | [<- | []]]]; discriminate.
  - exists r'. split; [exact Hadd | exact Hrun].
Defined.

(** ** XY routing and the direction maps (RoutingUnit.cc, RoutingUnit.hh) *)

(** Which direction [outportComputeXY] takes, and when its assertions
    hold. *)
Lemma outportComputeXY_run (r : Router) (route : RouteInfo) (inport : Z)
    (inport_dirn : PortDirection) (ds : Directions) :
  0 < getNumRows (m_network_ptr r) ->
  0 < getNumCols (m_network_ptr r) ->
  let my_x := mesh_x r (r_id r) in
  let my_y := mesh_y r (r_id r) in
  let dest_x := mesh_x r (dest_router route) in
  let dest_y := mesh_y r (dest_router route) in
  outportComputeXY r route inport inport_dirn ds
  = if (dest_x =? my_x) && (dest_y =? my_y) then Err AssertFail
    else if my_x <? dest_x then
      if String.eqb inport_dirn Local || String.eqb inport_dirn West
      then outports_dirn2idx_at East ds else Err AssertFail
    else if dest_x <? my_x then
      if String.eqb inport_dirn Local || String.eqb inport_dirn East
      then outports_dirn2idx_at West ds else Err AssertFail
    else if my_y <? dest_y then
      if negb (String.eqb inport_dirn North)
      then outports_dirn2idx_at North ds else Err AssertFail
    else
      if negb (String.eqb inport_dirn South)
      then outports_dirn2idx_at South ds else Err AssertFail.
Proof.
  intros Hrows Hcols my_x my_y dest_x dest_y.
  unfold outportComputeXY.
  fold (mesh_x r (r_id r)) (mesh_y r (r_id r))
       (mesh_x r (dest_router route)) (mesh_y r (dest_router route)).
  fold my_x my_y dest_x dest_y.
  replace ((0 <? getNumRows (m_network_ptr r)) && (0 <? getNumCols (m_network_ptr r)))
    with true by lia.
  cbn [assert]. rewrite bind_ret. cbn beta.
  destruct (Z.eqb_spec dest_x my_x) as [Ex | Ex];
    destruct (Z.eqb_spec dest_y my_y) as [Ey | Ey]; cbn [andb].
  - replace ((Z.abs (dest_x - my_x) =? 0) && (Z.abs (dest_y - my_y) =? 0))
      with true by lia.
    reflexivity.
  - replace ((Z.abs (dest_x - my_x) =? 0) && (Z.abs (dest_y - my_y) =? 0))
      with false by lia.
    cbn [negb assert]. rewrite bind_ret. cbn beta.
    replace (0 <? Z.abs (dest_x - my_x)) with false by lia.
    replace (0 <? Z.abs (dest_y - my_y)) with true by lia.
    replace (my_x <? dest_x) with false by lia.
    replace (dest_x <? my_x) with false by lia.
    destruct (Z.ltb_spec my_y dest_y).
    + replace (dest_y >=? my_y) with true by lia.
      destruct (negb (inport_dirn =? North)%string); reflexivity.
    + replace (dest_y >=? my_y) with false by lia.
      destruct (negb (inport_dirn =? South)%string); reflexivity.
  - replace ((Z.abs (dest_x - my_x) =? 0) && (Z.abs (dest_y - my_y) =? 0))
      with false by lia.
    cbn [negb assert]. rewrite bind_ret. cbn beta.
    replace (0 <? Z.abs (dest_x - my_x)) with true by lia.
    destruct (Z.ltb_spec my_x dest_x).
    + replace (dest_x >=? my_x) with true by lia.
      destruct ((inport_dirn =? Local)%string || (inport_dirn =? West)%string);
        reflexivity.
    + replace (dest_x >=? my_x) with false by lia.
      replace (dest_x <? my_x) with true by lia.
      destruct ((inport_dirn =? Local)%string || (inport_dirn =? East)%string);
        reflexivity.
  - replace ((Z.abs (dest_x - my_x) =? 0) && (Z.abs (dest_y - my_y) =? 0))
      with false by lia.
    cbn [negb assert]. rewrite bind_ret. cbn beta.
    replace (0 <? Z.abs (dest_x - my_x)) with true by lia.
    destruct (Z.ltb_spec my_x dest_x).
    + replace (dest_x >=? my_x) with true by lia.
      destruct ((inport_dirn =? Local)%string || (inport_dirn =? West)%string);
        reflexivity.
    + replace (dest_x >=? my_x) with false by lia.
      replace (dest_x <? my_x) with true by lia.
      destruct ((inport_dirn =? Local)%string || (inport_dirn =? East)%string);
        reflexivity.
Qed.

Ltac xy_distinct :=
  intros ?; unfold Local, West, East, North, South in *; congruence.

(** Whenever [outportComputeXY] returns, the outport is the one the
    direction map has for one of East, West, North and South, and the turn
    is legal: the direction is not the one of the inport (no U-turn), East
    and West are only taken by a flit that came in by the Local, West or
    East port (no turn from Y to X), East and West lead towards the column
    of the destination, and North and South are only taken in the column
    of the destination, towards its row (X first, then Y). *)
Theorem outportComputeXY_legal_turn :
  forall (r : Router) (route : RouteInfo) (inport : Z) (inport_dirn : PortDirection)
         (ds ds' : Directions) (outport : Z),
    0 < getNumRows (m_network_ptr r) ->
    0 < getNumCols (m_network_ptr r) ->
    outportComputeXY r route inport inport_dirn ds = Ok (outport, ds') ->
    exists outport_dirn,
      outports_dirn2idx_at outport_dirn ds = Ok (outport, ds')
      /\ outport_dirn <> inport_dirn
      /\ (outport_dirn = East
          /\ (inport_dirn = Local \/ inport_dirn = West)
          /\ mesh_x r (r_id r) < mesh_x r (dest_router route)
          \/ outport_dirn = West
             /\ (inport_dirn = Local \/ inport_dirn = East)
             /\ mesh_x r (dest_router route) < mesh_x r (r_id r)
          \/ outport_dirn = North
             /\ mesh_x r (dest_router route) = mesh_x r (r_id r)
             /\ mesh_y r (r_id r) < mesh_y r (dest_router route)
          \/ outport_dirn = South
             /\ mesh_x r (dest_router route) = mesh_x r (r_id r)
             /\ mesh_y r (dest_router route) < mesh_y r (r_id r)).
Proof.
  intros r route inport inport_dirn ds ds' outport Hrows Hcols Hrun.
  rewrite (outportComputeXY_run r route inport inport_dirn ds Hrows Hcols) in Hrun.
  cbn zeta in Hrun.
  destruct (Z.eqb_spec (mesh_x r (dest_router route)) (mesh_x r (r_id r))) as [Ex | Ex];
    destruct (Z.eqb_spec (mesh_y r (dest_router route)) (mesh_y r (r_id r))) as [Ey | Ey];
    cbn [andb] in Hrun; try discriminate.
  - (* the column of the destination: North or South *)
    replace (mesh_x r (r_id r) <? mesh_x r (dest_router route)) with false in Hrun by lia.
    replace (mesh_x r (dest_router route) <? mesh_x r (r_id r)) with false in Hrun by lia.
    destruct (Z.ltb_spec (mesh_y r (r_id r)) (mesh_y r (dest_router route))).
    + destruct (String.eqb_spec inport_dirn North) as [-> | Hne];
        cbn [negb] in Hrun; [discriminate|].
      exists North. split; [exact Hrun|]. split; [congruence|].
      right. right. left. repeat split; [exact Ex | lia].
    + destruct (String.eqb_spec inport_dirn South) as [-> | Hne];
        cbn [negb] in Hrun; [discriminate|].
      exists South. split; [exact Hrun|]. split; [congruence|].
      right. right. right. repeat split; [exact Ex | lia].
  - destruct (Z.ltb_spec (mesh_x r (r_id r)) (mesh_x r (dest_router route))).
    + destruct (String.eqb_spec inport_dirn Local) as [Hl | Hl];
        destruct (String.eqb_spec inport_dirn West) as [Hw | Hw];
        cbn [orb] in Hrun; try discriminate;
        (exists East; split; [exact Hrun|]; split; [xy_distinct|];
         left; repeat split; auto).
    + replace (mesh_x r (dest_router route) <? mesh_x r (r_id r)) with true in Hrun by lia.
      destruct (String.eqb_spec inport_dirn Local) as [Hl | Hl];
        destruct (String.eqb_spec inport_dirn East) as [He | He];
        cbn [orb] in Hrun; try discriminate;
        (exists West; split; [exact Hrun|]; split; [xy_distinct|];
         right; left; repeat split; auto; lia).
  - destruct (Z.ltb_spec (mesh_x r (r_id r)) (mesh_x r (dest_router route))).
    + destruct (String.eqb_spec inport_dirn Local) as [Hl | Hl];
        destruct (String.eqb_spec inport_dirn West) as [Hw | Hw];
        cbn [orb] in Hrun; try discriminate;
        (exists East; split; [exact Hrun|]; split; [xy_distinct|];
         left; repeat split; auto).
    + replace (mesh_x r (dest_router route) <? mesh_x r (r_id r)) with true in Hrun by lia.
      destruct (String.eqb_spec inport_dirn Local) as [Hl | Hl];
        destruct (String.eqb_spec inport_dirn East) as [He | He];
        cbn [orb] in Hrun; try discriminate;
        (exists West; split; [exact Hrun|]; split; [xy_distinct|];
         right; left; repeat split; auto; lia).
Qed.

(** The theorem at router 0 of the 2x2 mesh of the example: a flit from
    the Local port for router 3 leaves by outport 1, to the East. *)
Lemma outportComputeXY_witness :
  exists outport_dirn,
    outports_dirn2idx_at outport_dirn ex_directions = Ok (1, ex_directions)
    /\ outport_dirn <> Local
    /\ outport_dirn = East.
Proof.
  destruct (outportComputeXY_legal_turn ex_router (ex_route_to 3) 0 Local
              ex_directions ex_directions 1 eq_refl eq_refl eq_refl)
    as (d & Hat & Hne & [(Hd & _) | [(Hd & _ & Hx) | [(Hd & Hx & _) | (Hd & Hx & _)]]]).
  - exists d. split; [exact Hat|]. split; [exact Hne | exact Hd].
  - exfalso. revert Hx. vm_compute. discriminate.
  - exfalso. revert Hx. vm_compute. discriminate.
  - exfalso. revert Hx. vm_compute. discriminate.
Defined.

(** A flit that comes in by the Local port is always routed by
    [outportComputeXY] when its destination is another router of the mesh,
    in one of the four directions; for a destination at the coordinates of
    this router the function stops at its assertion, whatever the
    inport. *)
Theorem outportComputeXY_from_local :
  forall (r : Router) (route : RouteInfo) (inport : Z) (inport_dirn : PortDirection)
         (ds : Directions),
    0 < getNumRows (m_network_ptr r) ->
    0 < getNumCols (m_network_ptr r) ->
    (mesh_x r (dest_router route) = mesh_x r (r_id r)
     /\ mesh_y r (dest_router route) = mesh_y r (r_id r) ->
     outportComputeXY r route inport inport_dirn ds = Err AssertFail)
    /\ (~ (mesh_x r (dest_router route) = mesh_x r (r_id r)
           /\ mesh_y r (dest_router route) = mesh_y r (r_id r)) ->
        exists outport_dirn outport ds',
          outportComputeXY r route inport Local ds = Ok (outport, ds')
          /\ outports_dirn2idx_at outport_dirn ds = Ok (outport, ds')
          /\ (outport_dirn = East \/ outport_dirn = West
              \/ outport_dirn = North \/ outport_dirn = South)).
Proof.
  intros r route inport inport_dirn ds Hrows Hcols. split.
  - intros [Ex Ey].
    rewrite (outportComputeXY_run r route inport inport_dirn ds Hrows Hcols).
    cbn zeta. rewrite Ex, Ey, !Z.eqb_refl. reflexivity.
  - intros Hne.
    rewrite (outportComputeXY_run r route inport Local ds Hrows Hcols). cbn zeta.
    assert (Hat : forall d, exists o ds', outports_dirn2idx_at d ds = Ok (o, ds')).
    { intros d. unfold outports_dirn2idx_at. rewrite bind_get. cbn beta.
      destruct (m_outports_dirn2idx ds !! d); eexists; eexists; reflexivity. }
    destruct (Z.eqb_spec (mesh_x r (dest_router route)) (mesh_x r (r_id r)));
      destruct (Z.eqb_spec (mesh_y r (dest_router route)) (mesh_y r (r_id r)));
      cbn [andb]; [tauto | | |].
    + replace (mesh_x r (r_id r) <? mesh_x r (dest_router route)) with false by lia.
      replace (mesh_x r (dest_router route) <? mesh_x r (r_id r)) with false by lia.
      destruct (mesh_y r (r_id r) <? mesh_y r (dest_router route)).
      * destruct (Hat North) as (o & ds' & Hres). exists North, o, ds'. rewrite Hres. repeat split; auto 6.
      * destruct (Hat South) as (o & ds' & Hres). exists South, o, ds'. rewrite Hres. repeat split; auto 6.
    + destruct (Z.ltb_spec (mesh_x r (r_id r)) (mesh_x r (dest_router route))).
      * destruct (Hat East) as (o & ds' & Hres). exists East, o, ds'. rewrite Hres. repeat split; auto 6.
      * replace (mesh_x r (dest_router route) <? mesh_x r (r_id r)) with true by lia.
        destruct (Hat West) as (o & ds' & Hres). exists West, o, ds'. rewrite Hres. repeat split; auto 6.
    + destruct (Z.ltb_spec (mesh_x r (r_id r)) (mesh_x r (dest_router route))).
      * destruct (Hat East) as (o & ds' & Hres). exists East, o, ds'. rewrite Hres. repeat split; auto 6.
      * replace (mesh_x r (dest_router route) <? mesh_x r (r_id r)) with true by lia.
        destruct (Hat West) as (o & ds' & Hres). exists West, o, ds'. rewrite Hres. repeat split; auto 6.
Qed.

(** The theorem at router 0 of the example: a flit for router 0 itself
    stops XY routing at its assertion, and a flit from the Local port for
    router 2, in the same column, is sent North, to outport 2. *)
Lemma outportComputeXY_from_local_witness :
  outportComputeXY ex_router (ex_route_to 0) 1 West ex_directions = Err AssertFail
  /\ exists outport_dirn outport ds',
       outportComputeXY ex_router (ex_route_to 2) 0 Local ex_directions
       = Ok (outport, ds')
       /\ outports_dirn2idx_at outport_dirn ex_directions = Ok (outport, ds')
       /\ (outport_dirn = East \/ outport_dirn = West
           \/ outport_dirn = North \/ outport_dirn = South).
Proof.
  split.
  - apply (outportComputeXY_from_local ex_router (ex_route_to 0) 1 West ex_directions
             eq_refl eq_refl).
    split; reflexivity.
  - apply (outportComputeXY_from_local ex_router (ex_route_to 2) 0 Local ex_directions
             eq_refl eq_refl).
    intros [_ Hy]. revert Hy. vm_compute. discriminate.
Defined.

(** The direction maps: after [addOutDirection(d, i)] the direction [d] has
    the index [i] and the index [i] the direction [d], for [outportIndex],
    [getDirection] and the lookup of XY routing alike.  When a second port
    [j] gets the same direction, as the Local ports of a router with several
    network interfaces do, the direction gives the port added last while
    both indices still give the direction.  A direction that no port has
    gives [-1] with [outportIndex], but the lookup of XY routing returns 0
    for it and makes it a key, so that [outportIndex] gives 0 afterwards;
    the map from indices to directions does not learn of it. *)
Theorem direction_maps_round_trip :
  forall (ds : Directions) (d : PortDirection) (i j : Z),
    outportIndex d (addOutDirection d i ds) = i
    /\ getDirection i (addOutDirection d i ds) = d
    /\ outports_dirn2idx_at d (addOutDirection d i ds)
       = Ok (i, addOutDirection d i ds)
    /\ outportIndex d (addOutDirection d j (addOutDirection d i ds)) = j
    /\ getDirection i (addOutDirection d j (addOutDirection d i ds)) = d
    /\ getDirection j (addOutDirection d j (addOutDirection d i ds)) = d
    /\ (m_outports_dirn2idx ds !! d = None ->
        outportIndex d ds = -1
        /\ exists ds',
             outports_dirn2idx_at d ds = Ok (0, ds')
             /\ outportIndex d ds' = 0
             /\ m_outports_idx2dirn ds' = m_outports_idx2dirn ds).
Proof.
  intros ds d i j.
  assert (Hat : forall ds0 k, m_outports_dirn2idx ds0 !! d = Some k ->
                              outports_dirn2idx_at d ds0 = Ok (k, ds0)).
  { intros ds0 k Hk. unfold outports_dirn2idx_at. rewrite bind_get. cbn beta.
    rewrite Hk. reflexivity. }
  unfold outportIndex, getDirection.
  split; [unfold addOutDirection; simpl; rewrite lookup_insert_eq; reflexivity|].
  split; [unfold addOutDirection; simpl; rewrite lookup_insert_eq; reflexivity|].
  split; [apply Hat; unfold addOutDirection; simpl; apply lookup_insert_eq|].
  split; [unfold addOutDirection; simpl; rewrite lookup_insert_eq; reflexivity|].
  split.
  { unfold addOutDirection. simpl.
    destruct (Z.eq_dec j i) as [-> | Hne].
    - rewrite lookup_insert_eq. reflexivity.
    - rewrite lookup_insert_ne by exact Hne. rewrite lookup_insert_eq. reflexivity. }
  split; [unfold addOutDirection; simpl; rewrite lookup_insert_eq; reflexivity|].
  intros Hnone. rewrite Hnone. split; [reflexivity|].
  unfold outports_dirn2idx_at. rewrite bind_get. cbn beta. rewrite Hnone.
  eexists. split; [reflexivity|]. simpl.
  rewrite lookup_insert_eq. split; reflexivity.
Qed.

(** ** The move registry (Router.cc) *)

Lemma remove_entry_first (outport : Z) (reg : list move_info) (mi : move_info)
    (reg' : list move_info) :
  first_entry_for outport reg mi reg' -> remove_entry outport reg = Some (mi, reg').
Proof.
  intros (before & after & -> & -> & Hop & Hbefore).
  induction before as [|b before IH]; simpl.
  - replace (mi_outport mi =? outport) with true by lia. reflexivity.
  - inversion Hbefore as [|? ? Hb Hrest]; subst.
    replace (mi_outport b =? mi_outport mi) with false by lia.
    rewrite (IH Hrest). reflexivity.
Qed.

Lemma remove_entry_none (outport : Z) (reg : list move_info) :
  existsb (fun mi => mi_outport mi =? outport) reg = false ->
  remove_entry outport reg = None.
Proof.
  induction reg as [|b reg IH]; simpl; [reflexivity|].
  intros H. apply orb_false_elim in H as [Hb Hrest].
  rewrite Hb, (IH Hrest). reflexivity.
Qed.

Lemma existsb_outport_app (outport : Z) (reg : list move_info) (mi : move_info) :
  existsb (fun m => mi_outport m =? outport) (reg ++ [mi])
  = existsb (fun m => mi_outport m =? outport) reg || (mi_outport mi =? outport).
Proof. rewrite existsb_app. simpl. rewrite orb_false_r. reflexivity. Qed.

(** The move registry, entered and left: on a registry that has no entry
    for [outport], [create_move_info_entry(inport, vc, outport)] makes
    [check_outport_entry_in_move_registry(outport)] true and freezes the
    VC; [invalidate_move_registry_entry(inport, outport)] after it gives
    the registry back as it was, with the check false again and the VC
    thawed.  The entry is made for any value of [vc]; one that is no VC of
    the unit freezes nothing. *)
Theorem move_registry_round_trip :
  forall (r : Router) (inport vc outport : Z) (u : InputUnit),
    vget (m_input_unit r) inport = Ok u ->
    check_outport_entry_in_move_registry outport r = false ->
    exists r1 r2,
      create_move_info_entry inport vc outport r = Ok (tt, r1)
      /\ move_registry (spin r1)
         = move_registry (spin r) ++ [mkMoveInfo inport vc outport (-1) false 0]
      /\ check_outport_entry_in_move_registry outport r1 = true
      /\ (forall o, o <> outport ->
            check_outport_entry_in_move_registry o r1
            = check_outport_entry_in_move_registry o r)
      /\ vget (m_input_unit r1) inport = Ok (freeze_vc (m_network_ptr r) vc u)
      /\ invalidate_move_registry_entry inport outport r1 = Ok (tt, r2)
      /\ move_registry (spin r2) = move_registry (spin r)
      /\ check_outport_entry_in_move_registry outport r2 = false
      /\ vget (m_input_unit r2) inport
         = Ok (thaw_vc vc (freeze_vc (m_network_ptr r) vc u)).
Proof.
  intros r inport vc outport u Hu Hno.
  pose proof (vget_range _ _ _ Hu) as Hip. fold (get_num_inports r) in Hip.
  set (mi := mkMoveInfo inport vc outport (-1) false 0).
  set (s1 := R.set_spin (SP.set_move_registry (move_registry (spin r) ++ [mi]) (spin r)) r).
  set (r1 := with_unit inport (freeze_vc (m_network_ptr r) vc u) s1).
  assert (Hcreate : create_move_info_entry inport vc outport r = Ok (tt, r1)).
  { unfold create_move_info_entry, modify_spin.
    unfold bind at 1. unfold modify at 1. cbn beta iota.
    rewrite bind_get. cbn beta.
    exact (on_input_unit_Ok s1 inport _ u Hu). }
  assert (Hu1 : vget (m_input_unit r1) inport = Ok (freeze_vc (m_network_ptr r) vc u))
    by (apply (with_unit_get s1); exact Hip).
  assert (Hrem : remove_entry outport (move_registry (spin r1))
                 = Some (mi, move_registry (spin r))).
  { apply remove_entry_first. exists (move_registry (spin r)), [].
    split; [reflexivity|]. split; [rewrite app_nil_r; reflexivity|].
    split; [reflexivity|].
    unfold check_outport_entry_in_move_registry in Hno.
    apply Forall_forall. intros m Hm Heq.
    assert (Hex : existsb (fun mi0 => mi_outport mi0 =? outport)
                    (move_registry (spin r)) = true).
    { apply existsb_exists. exists m. split; [apply list_elem_of_In; exact Hm | lia]. }
    rewrite Hex in Hno. discriminate. }
  set (r2 := R.set_spin (SP.set_move_registry (move_registry (spin r)) (spin r1))
               (with_unit inport (thaw_vc vc (freeze_vc (m_network_ptr r) vc u)) r1)).
  assert (Hinv : invalidate_move_registry_entry inport outport r1 = Ok (tt, r2)).
  { unfold invalidate_move_registry_entry. rewrite bind_get. cbn beta.
    rewrite Hrem. mrun (on_input_unit_Ok r1 inport (thaw_vc (mi_vc mi)) _ Hu1).
    reflexivity. }
  exists r1, r2.
  split; [exact Hcreate|]. split; [reflexivity|]. split.
  { unfold check_outport_entry_in_move_registry. simpl.
    rewrite existsb_outport_app. simpl. rewrite Z.eqb_refl. apply orb_true_r. }
  split.
  { intros o Ho. unfold check_outport_entry_in_move_registry. simpl.
    rewrite existsb_outport_app. simpl.
    replace (outport =? o) with false by lia. apply orb_false_r. }
  split; [exact Hu1|]. split; [exact Hinv|]. split; [reflexivity|].
  split; [exact Hno|].
  unfold r2. simpl. apply vget_vset_eq.
  unfold r1, with_unit. simpl. unfold vsize. rewrite length_insert. exact Hip.
Qed.

(** The theorem at the example router: an entry for VC 1 of the West
    inport and outport 2 is made and removed again. *)
Lemma move_registry_witness :
  exists r1 r2,
    create_move_info_entry 1 1 2 ex_router = Ok (tt, r1)
    /\ check_outport_entry_in_move_registry 2 r1 = true
    /\ invalidate_move_registry_entry 1 2 r1 = Ok (tt, r2)
    /\ move_registry (spin r2) = []
    /\ check_outport_entry_in_move_registry 2 r2 = false.
Proof.
  destruct (move_registry_round_trip ex_router 1 1 2 (ex_input_unit 1 West)
              eq_refl eq_refl)
    as (r1 & r2 & Hc & _ & Hchk & _ & _ & Hinv & Hreg & Hchk2 & _).
  exists r1, r2. repeat split; assumption.
Defined.

(** [invalidate_move_registry_entry(inport, outport)] removes the first
    entry of the registry for [outport] and thaws the VC of that entry at
    the input unit [inport] of the call, not at the inport the entry names:
    no other input unit changes, so that the VC the entry froze stays
    frozen when the two inports differ.  Without an entry for [outport]
    nothing changes. *)
Theorem invalidate_move_registry_entry_thaws_at_argument :
  forall (r : Router) (inport outport : Z) (u : InputUnit),
    vget (m_input_unit r) inport = Ok u ->
    (forall mi reg',
       first_entry_for outport (move_registry (spin r)) mi reg' ->
       exists r',
         invalidate_move_registry_entry inport outport r = Ok (tt, r')
         /\ move_registry (spin r') = reg'
         /\ vget (m_input_unit r') inport = Ok (thaw_vc (mi_vc mi) u)
         /\ forall ip, ip <> inport ->
              vget (m_input_unit r') ip = vget (m_input_unit r) ip)
    /\ (check_outport_entry_in_move_registry outport r = false ->
        invalidate_move_registry_entry inport outport r = Ok (tt, r)).
Proof.
  intros r inport outport u Hu.
  pose proof (vget_range _ _ _ Hu) as Hip.
  split.
  - intros mi reg' Hfirst.
    unfold invalidate_move_registry_entry. rewrite bind_get. cbn beta.
    rewrite (remove_entry_first _ _ _ _ Hfirst).
    mrun (on_input_unit_Ok r inport (thaw_vc (mi_vc mi)) _ Hu).
    eexists. split; [reflexivity|]. split; [reflexivity|]. split.
    + simpl. apply vget_vset_eq. exact Hip.
    + intros ip Hne. simpl.
      destruct (Z_lt_le_dec ip 0) as [Hneg | Hnn].
      * unfold vget. replace (0 <=? ip) with false by lia. reflexivity.
      * unfold vget. rewrite length_insert.
        rewrite list_lookup_insert_ne by lia. reflexivity.
  - intros Hno. unfold invalidate_move_registry_entry. rewrite bind_get. cbn beta.
    rewrite (remove_entry_none _ _ Hno). reflexivity.
Qed.

(** The theorem at a router whose registry holds an entry that the South
    inport (2) made for its VC 1 and outport 1: invalidating it from the
    West inport (1) removes the entry and leaves VC 1 of the South inport
    frozen. *)
Lemma invalidate_move_registry_entry_witness :
  exists r1 r' u2,
    create_move_info_entry 2 1 1 ex_router = Ok (tt, r1)
    /\ invalidate_move_registry_entry 1 1 r1 = Ok (tt, r')
    /\ move_registry (spin r') = []
    /\ vget (m_input_unit r') 2 = Ok u2
    /\ is_vc_frozen 1 u2 = true.
Proof.
  assert (Hc : exists r1, create_move_info_entry 2 1 1 ex_router = Ok (tt, r1)
                          /\ move_registry (spin r1) = [mkMoveInfo 2 1 1 (-1) false 0]
                          /\ vget (m_input_unit r1) 1 = Ok (ex_input_unit 1 West)
                          /\ exists u2, vget (m_input_unit r1) 2 = Ok u2
                                        /\ is_vc_frozen 1 u2 = true).
  { eexists. split; [reflexivity|]. split; [reflexivity|]. split; [reflexivity|].
    eexists. split; reflexivity. }
  destruct Hc as (r1 & Hc & Hreg & Hu1 & u2 & Hu2 & Hfz).
  destruct (invalidate_move_registry_entry_thaws_at_argument r1 1 1
              (ex_input_unit 1 West) Hu1) as [Hrm _].
  destruct (Hrm (mkMoveInfo 2 1 1 (-1) false 0) []) as (r' & Hinv & Hreg' & _ & Hother).
  { exists [], []. rewrite Hreg. repeat split. constructor. }
  exists r1, r', u2. split; [exact Hc|]. split; [exact Hinv|]. split; [exact Hreg'|].
  split; [|exact Hfz]. rewrite (Hother 2) by discriminate. exact Hu2.
Defined.

Lemma is_vc_frozen_thaw (vc vc' : Z) (u : InputUnit) :
  is_vc_frozen vc (thaw_vc vc' u) = if vc =? vc' then false else is_vc_frozen vc u.
Proof.
  unfold thaw_vc.
  destruct ((vc' <? 0) || (vc' >=? vsize (m_vc_frozen u))) eqn:Er.
  - destruct (Z.eqb_spec vc vc') as [-> | Hne]; [|reflexivity].
    unfold is_vc_frozen. rewrite Er. reflexivity.
  - assert (Hfz : is_vc_frozen vc
                    (reset_stall vc'
                       (IU.set_vc_frozen (<[Z.to_nat vc' := false]> (m_vc_frozen u)) u))
                  = is_vc_frozen vc
                      (IU.set_vc_frozen (<[Z.to_nat vc' := false]> (m_vc_frozen u)) u)).
    { unfold reset_stall.
      destruct ((vc' <? 0) || (vc' >=? vsize (m_stall_count _))); reflexivity. }
    rewrite Hfz. unfold is_vc_frozen. simpl. unfold vsize in *.
    rewrite length_insert.
    destruct (Z.eqb_spec vc vc') as [-> | Hne].
    + rewrite Er. rewrite vget_vset_eq by (unfold vsize; lia). reflexivity.
    + destruct ((vc <? 0) || (vc >=? Z.of_nat (length (m_vc_frozen u)))) eqn:Er2;
        [reflexivity|].
      rewrite vget_vset_ne by lia. reflexivity.
Qed.

Lemma thawed_not_frozen (reg : list move_info) (ip vc : Z) :
  forall u,
    is_vc_frozen vc (thawed reg ip u)
    = if existsb (fun mi => (mi_inport mi =? ip) && (mi_vc mi =? vc)) reg
      then false else is_vc_frozen vc u.
Proof.
  unfold thawed. induction reg as [|mi reg IH]; intros u; [reflexivity|].
  cbn [fold_left existsb]. rewrite IH.
  destruct (existsb _ reg); [rewrite orb_true_r; reflexivity|].
  rewrite orb_false_r.
  destruct (mi_inport mi =? ip); cbn [andb]; [|reflexivity].
  rewrite is_vc_frozen_thaw, (Z.eqb_sym vc). reflexivity.
Qed.

Lemma thaw_registry_units (reg : list move_info) :
  forall s,
    Forall (fun mi => 0 <= mi_inport mi < get_num_inports s) reg ->
    exists ius',
      for_each reg (fun mi => on_input_unit (mi_inport mi) (thaw_vc (mi_vc mi))) s
      = Ok (tt, R.set_input_unit ius' s)
      /\ forall ip u, vget (m_input_unit s) ip = Ok u ->
                      vget ius' ip = Ok (thawed reg ip u).
Proof.
  induction reg as [|mi rest IH]; intros s Hall.
  - exists (m_input_unit s). split; [|intros ip u Hu; exact Hu].
    simpl. unfold ret, R.set_input_unit. rewrite router_eta. reflexivity.
  - inversion Hall as [|? ? Hmi Hrest]; subst.
    destruct (vget_in_range (m_input_unit s) (mi_inport mi) Hmi) as [u0 Hu0].
    simpl. mrun (on_input_unit_Ok _ _ (thaw_vc (mi_vc mi)) _ Hu0).
    destruct (IH (with_unit (mi_inport mi) (thaw_vc (mi_vc mi) u0) s))
      as (ius' & Hrun & Hunits).
    { rewrite with_unit_inports. exact Hrest. }
    exists ius'. split; [exact Hrun|].
    intros ip u Hu. unfold thawed. cbn [fold_left]. fold (thawed rest ip).
    apply Hunits. unfold with_unit. simpl.
    destruct (Z.eqb_spec (mi_inport mi) ip) as [<- | Hne].
    + rewrite Hu in Hu0. injection Hu0 as <-. apply vget_vset_eq. exact Hmi.
    + rewrite vget_vset_ne by (pose proof (vget_range _ _ _ Hu); lia). exact Hu.
Qed.

(** [clear_move_registry] empties the registry and thaws the VC of every
    entry at the inport the entry names: afterwards none of those VCs is
    frozen, and a VC that no entry names keeps its flag.  It needs every
    entry to name an input unit of the router; [getInputUnit] asserts
    it. *)
Theorem clear_move_registry_thaws_every_entry :
  forall (r : Router),
    Forall (fun mi => 0 <= mi_inport mi < get_num_inports r) (move_registry (spin r)) ->
    exists r',
      clear_move_registry r = Ok (tt, r')
      /\ move_registry (spin r') = []
      /\ (forall o, check_outport_entry_in_move_registry o r' = false)
      /\ forall ip u vc,
           vget (m_input_unit r) ip = Ok u ->
           exists u',
             vget (m_input_unit r') ip = Ok u'
             /\ is_vc_frozen vc u'
                = if existsb (fun mi => (mi_inport mi =? ip) && (mi_vc mi =? vc))
                       (move_registry (spin r))
                  then false else is_vc_frozen vc u.
Proof.
  intros r Hall. unfold clear_move_registry. rewrite bind_get. cbn beta.
  destruct (thaw_registry_units _ r Hall) as (ius' & Hrun & Hunits).
  mrun Hrun. eexists. split; [reflexivity|]. split; [reflexivity|].
  split; [reflexivity|].
  intros ip u vc Hu. exists (thawed (move_registry (spin r)) ip u).
  split; [exact (Hunits ip u Hu)|]. apply thawed_not_frozen.
Qed.

(** The theorem at the example router after two entries were made, for
    VC 1 of the West inport and VC 0 of the South inport: clearing the
    registry leaves both VCs thawed. *)
Lemma clear_move_registry_witness :
  exists r1 r2 r' u1 u2,
    create_move_info_entry 1 1 2 ex_router = Ok (tt, r1)
    /\ create_move_info_entry 2 0 1 r1 = Ok (tt, r2)
    /\ clear_move_registry r2 = Ok (tt, r')
    /\ move_registry (spin r') = []
    /\ vget (m_input_unit r') 1 = Ok u1 /\ is_vc_frozen 1 u1 = false
    /\ vget (m_input_unit r') 2 = Ok u2 /\ is_vc_frozen 0 u2 = false.
Proof.
  assert (Hc : exists r1 r2 v1 v2,
            create_move_info_entry 1 1 2 ex_router = Ok (tt, r1)
            /\ create_move_info_entry 2 0 1 r1 = Ok (tt, r2)
            /\ move_registry (spin r2)
               = [mkMoveInfo 1 1 2 (-1) false 0; mkMoveInfo 2 0 1 (-1) false 0]
            /\ get_num_inports r2 = 3
            /\ vget (m_input_unit r2) 1 = Ok v1
            /\ vget (m_input_unit r2) 2 = Ok v2).
  { eexists. eexists. eexists. eexists.
    split; [reflexivity|]. split; [reflexivity|]. split; [reflexivity|].
    split; [reflexivity|]. split; reflexivity. }
  destruct Hc as (r1 & r2 & v1 & v2 & Hc1 & Hc2 & Hreg & Hn & Hv1 & Hv2).
  destruct (clear_move_registry_thaws_every_entry r2) as (r' & Hrun & Hempty & _ & Hth).
  { rewrite Hreg, Hn. repeat constructor; simpl; lia. }
  destruct (Hth 1 v1 1 Hv1) as (u1 & Hu1 & Hf1).
  destruct (Hth 2 v2 0 Hv2) as (u2 & Hu2 & Hf2).
  rewrite Hreg in Hf1, Hf2.
  exists r1, r2, r', u1, u2. repeat split; assumption.
Defined.

(** ** The counter timeout and the probe (Router.cc) *)

(** [check_counter_timeout] does nothing while the counter is [off] or its
    threshold lies ahead.  Once the threshold is reached in state [frozen]
    or [forward_progress], all it does is set [start_move], and only when
    the move bit is set. *)
Theorem check_counter_timeout_start_move :
  forall (r : Router),
    (get_counter_state r = s_off \/ curCycle r < thresh (m_counter (spin r)) ->
     check_counter_timeout r = Ok (tt, r))
    /\ (thresh (m_counter (spin r)) <= curCycle r ->
        get_counter_state r = s_frozen \/ get_counter_state r = s_forward_progress ->
        check_counter_timeout r
        = Ok (tt, if get_move_bit r
                  then R.set_spin (SP.set_start_move true (spin r)) r
                  else r)).
Proof.
  intros r. unfold check_counter_timeout, get_counter_state.
  rewrite bind_get. cbn beta. split.
  - intros [Hoff | Hbefore].
    + rewrite Hoff. reflexivity.
    + destruct (Counter_state_eqb (state (m_counter (spin r))) s_off); [reflexivity|].
      replace (curCycle r <? thresh (m_counter (spin r))) with true by lia.
      reflexivity.
  - intros Hdue Hst.
    replace (curCycle r <? thresh (m_counter (spin r))) with false by lia.
    destruct Hst as [-> | ->]; cbn [Counter_state_eqb];
      destruct (get_move_bit r); reflexivity.
Qed.

(** The theorem at the example router with the counter [frozen] and due at
    cycle 2, the current cycle: with the move bit set [start_move] becomes
    true; one cycle before the threshold nothing happens. *)
Lemma check_counter_timeout_witness :
  (exists r',
     check_counter_timeout (ex_counter_router (mkCounter 1 0 0 0 2 s_frozen) true)
     = Ok (tt, r')
     /\ start_move (spin r') = true)
  /\ check_counter_timeout (ex_counter_router (mkCounter 1 0 0 0 3 s_frozen) true)
     = Ok (tt, ex_counter_router (mkCounter 1 0 0 0 3 s_frozen) true).
Proof.
  split.
  - destruct (check_counter_timeout_start_move
                (ex_counter_router (mkCounter 1 0 0 0 2 s_frozen) true)) as [_ H].
    eexists. split; [apply H; [discriminate | left; reflexivity]|]. reflexivity.
  - destruct (check_counter_timeout_start_move
                (ex_counter_router (mkCounter 1 0 0 0 3 s_frozen) true)) as [H _].
    apply H. right. reflexivity.
Defined.

(** [send_probe] puts one PROBE on the probe queue for the VC the counter
    points at.  Its path is the outport of that VC and nothing else, and it
    names this router, the inport and the VC as its source; when it comes
    back to this router at that inport, [verify_dependence_at_source]
    accepts it as long as the VC still has that outport, however much path
    was appended behind the first outport on the way. *)
Theorem send_probe_names_the_vc_outport :
  forall (r : Router) (u : InputUnit) (c : VirtualChannel),
    0 < m_vc_per_vnet r ->
    vget (m_input_unit r) (cptr_input_port (m_counter (spin r))) = Ok u ->
    vget (virtualChannels u) (cptr_vc (m_counter (spin r))) = Ok c ->
    exists r' probe,
      send_probe r = Ok (tt, r')
      /\ probeQueue (spin r') = probeQueue (spin r) ++ [probe]
      /\ m_type probe = PROBE_
      /\ m_path probe = [m_output_port c]
      /\ m_source_id probe = r_id r
      /\ m_source_inp_port probe = cptr_input_port (m_counter (spin r))
      /\ m_source_vc probe = cptr_vc (m_counter (spin r))
      /\ m_input_unit r' = m_input_unit r
      /\ forall more,
           verify_dependence_at_source (cptr_input_port (m_counter (spin r)))
             (setPath (m_path probe ++ more) probe) r'
           = Ok (true, r').
Proof.
  intros r u c Hvpv Hu Hc.
  pose proof (vget_range _ _ _ Hc) as Hvc.
  unfold send_probe. rewrite bind_get. cbn beta.
  unfold int_div. replace (m_vc_per_vnet r =? 0) with false by lia.
  rewrite (bind_lift_Ok _ _ _ _ eq_refl). cbn beta.
  mrun (getVC_Ok _ _ _ _ _ Hu Hc).
  unfold modify_spin. unfold bind at 1. unfold modify at 1. cbn beta iota.
  assert (Hw : forall s, exists w,
            wakeup_after_latency s = Ok (tt, R.set_scheduled_wakeups w s)).
  { intros s. unfold wakeup_after_latency. rewrite bind_get. cbn beta.
    destruct (1 <? m_latency s).
    - eexists. reflexivity.
    - exists (scheduled_wakeups s). unfold ret. rewrite <- (router_eta s) at 1.
      reflexivity. }
  match goal with
  | |- exists _ _, wakeup_after_latency ?s = _ /\ _ =>
      destruct (Hw s) as (w & Hwake); rewrite Hwake
  end.
  eexists. eexists. split; [reflexivity|]. split; [reflexivity|].
  assert (Hfields : forall t f, m_type (subDelay t f) = m_type f
                                /\ m_path (subDelay t f) = m_path f
                                /\ m_source_id (subDelay t f) = m_source_id f
                                /\ m_source_inp_port (subDelay t f) = m_source_inp_port f
                                /\ m_source_vc (subDelay t f) = m_source_vc f).
  { intros t f. unfold subDelay. destruct (t <=? m_delay f); repeat split. }
  match goal with
  | |- m_type (subDelay ?t ?f) = _ /\ _ =>
      destruct (Hfields t f) as (H1 & H2 & H3 & H4 & H5)
  end.
  split; [rewrite H1; reflexivity|]. split; [rewrite H2; reflexivity|].
  split; [rewrite H3; reflexivity|]. split; [rewrite H4; reflexivity|].
  split; [rewrite H5; reflexivity|]. split; [reflexivity|].
  intros more. unfold verify_dependence_at_source.
  change (m_source_vc (setPath ?p ?f)) with (m_source_vc f).
  rewrite H5. cbn [m_source_vc new_control_flit addDelay setDelay].
  replace (cptr_vc (m_counter (spin r)) <? 0) with false by lia.
  match goal with
  | |- bind (getVC ?ip ?vc) _ ?s = _ =>
      assert (Hget : getVC ip vc s = Ok (c, s))
        by (apply (getVC_Ok s ip vc u c); [exact Hu | exact Hc]);
      mrun Hget
  end.
  unfold peekPathTop. cbn [m_path setPath]. rewrite H2.
  cbn [m_path new_control_flit addDelay setDelay app].
  rewrite Z.eqb_refl. reflexivity.
Qed.

(** The theorem at the router whose West inport holds a packet for outport
    1 in VC 0, with the counter pointing at that VC: the probe has the
    path [1]. *)
Lemma send_probe_witness :
  exists r' probe,
    send_probe (R.set_spin (SP.set_counter (mkCounter 1 0 0 0 18 s_deadlock_detection)
                              ex_spin) ex_sa_router)
    = Ok (tt, r')
    /\ probeQueue (spin r') = [probe]
    /\ m_path probe = [1]
    /\ m_source_vc probe = 0.
Proof.
  destruct (send_probe_names_the_vc_outport
              (R.set_spin (SP.set_counter (mkCounter 1 0 0 0 18 s_deadlock_detection)
                             ex_spin) ex_sa_router)
              (ex_west_unit [ex_active_vc [ex_flit HEAD_TAIL_ 0 0 3 1000] 1 (-1) 1000;
                             ex_idle_vc; ex_idle_vc; ex_idle_vc])
              (ex_active_vc [ex_flit HEAD_TAIL_ 0 0 3 1000] 1 (-1) 1000)
              eq_refl eq_refl eq_refl)
    as (r' & probe & Hrun & Hq & _ & Hpath & _ & _ & Hvc & _).
  exists r', probe. repeat split; assumption.
Defined.

Lemma first_active_vc_none (s : Router) (ip : Z) (u : InputUnit) :
  no_vc_active s ->
  vget (m_input_unit s) ip = Ok u ->
  forall idxs,
    (forall i, In i idxs -> 0 <= i < get_num_vcs s) ->
    first_active_vc ip idxs s = Ok (None, s).
Proof.
  intros Hno Hu. destruct (Hno _ _ Hu) as [Hsize Hidle].
  induction idxs as [|i rest IH]; intros Hr; [reflexivity|].
  destruct (vget_in_range (virtualChannels u) i) as [c Hc];
    [rewrite Hsize; apply Hr; left; reflexivity|].
  cbn [first_active_vc]. mrun (getVC_Ok _ _ _ _ _ Hu Hc).
  pose proof (Hidle _ _ Hc) as Hst.
  replace (VC_state_eqb (VC.get_state c) ACTIVE_) with false
    by (destruct (VC.get_state c); try reflexivity; congruence).
  rewrite bind_ret. cbn beta iota.
  apply IH. intros j Hj. apply Hr. right. exact Hj.
Qed.

Lemma first_active_inport_none (s : Router) :
  no_vc_active s ->
  forall ips,
    (forall ip, In ip ips -> 0 <= ip < get_num_inports s) ->
    first_active_inport ips (get_num_vcs s) s = Ok (None, s).
Proof.
  intros Hno. induction ips as [|ip rest IH]; intros Hr; [reflexivity|].
  destruct (vget_in_range (m_input_unit s) ip) as [u Hu]; [apply Hr; left; reflexivity|].
  assert (Hdir : getInportDirection ip s = Ok (m_direction u, s)).
  { unfold getInportDirection. rewrite bind_get. cbn beta.
    rewrite (bind_lift_Ok _ _ _ _ Hu). reflexivity. }
  cbn [first_active_inport]. mrun Hdir.
  assert (Hrest : first_active_inport rest (get_num_vcs s) s = Ok (None, s))
    by (apply IH; intros j Hj; apply Hr; right; exact Hj).
  destruct (m_direction u =? Local)%string; [exact Hrest|].
  rewrite (bind_Ok _ _ _ _ _
             (first_active_vc_none s ip u Hno Hu
                (zrange 0 (Z.to_nat (get_num_vcs s)))
                ltac:(intros i Hi; apply zrange_In in Hi; lia))).
  cbn beta iota. exact Hrest.
Qed.

(** When no VC of the router is ACTIVE, [increment_counter_ptr] finds no
    VC to watch and turns the counter [off]: the pointer stays where it
    was, the threshold becomes [INFINITE_], and no wakeup is scheduled. *)
Theorem increment_counter_ptr_turns_off :
  forall (r : Router),
    0 < m_vc_per_vnet r ->
    0 <= cptr_input_port (m_counter (spin r)) < get_num_inports r ->
    get_num_inports r <= 2 ^ 32 ->
    0 <= cptr_vc (m_counter (spin r)) < 2 ^ 32 ->
    no_vc_active r ->
    exists r',
      increment_counter_ptr r = Ok (tt, r')
      /\ state (m_counter (spin r')) = s_off
      /\ thresh (m_counter (spin r')) = INFINITE_
      /\ cptr_input_port (m_counter (spin r')) = cptr_input_port (m_counter (spin r))
      /\ cptr_vc (m_counter (spin r')) = cptr_vc (m_counter (spin r))
      /\ scheduled_wakeups r' = scheduled_wakeups r
      /\ m_input_unit r' = m_input_unit r.
Proof.
  intros r Hvpv Hip Hmax Hvc Hno.
  destruct (vget_in_range (m_input_unit r) _ Hip) as [u Hu].
  unfold increment_counter_ptr. rewrite bind_get. cbn beta.
  rewrite (bind_Ok _ _ _ _ _
             (first_active_vc_none r _ u Hno Hu
                (zrange (cptr_vc (m_counter (spin r)) + 1)
                   (Z.to_nat (get_num_vcs r - (cptr_vc (m_counter (spin r)) + 1))))
                ltac:(intros i Hi; apply zrange_In in Hi; lia))).
  cbn beta iota.
  rewrite (bind_Ok _ _ _ _ _
             (first_active_inport_none r Hno
                (zrange (cptr_input_port (m_counter (spin r)) + 1)
                   (Z.to_nat (get_num_inports r
                              - (cptr_input_port (m_counter (spin r)) + 1))))
                ltac:(intros i Hi; apply zrange_In in Hi; lia))).
  cbn beta iota.
  rewrite (bind_Ok _ _ _ _ _
             (first_active_inport_none r Hno
                (zrange 0 (Z.to_nat (cptr_input_port (m_counter (spin r)) + 1)))
                ltac:(intros i Hi; apply zrange_In in Hi; lia))).
  cbn beta iota.
  unfold set_counter, int_div. rewrite bind_get. cbn beta.
  replace (m_vc_per_vnet r =? 0) with false by lia.
  rewrite (bind_lift_Ok _ _ _ _ eq_refl). cbn beta.
  unfold modify_spin. unfold bind at 1. unfold modify at 1. cbn beta iota.
  cbn [Counter_state_eqb].
  eexists. split; [reflexivity|]. simpl.
  unfold to_unsigned.
  repeat split; try reflexivity; apply Z.mod_small; lia.
Qed.

(** The theorem at the example router, all of whose VCs are IDLE, with the
    counter watching VC 0 of the West inport: the counter goes [off]. *)
Lemma increment_counter_ptr_witness :
  exists r',
    increment_counter_ptr
      (ex_counter_router (mkCounter 1 0 0 0 18 s_deadlock_detection) false)
    = Ok (tt, r')
    /\ state (m_counter (spin r')) = s_off
    /\ thresh (m_counter (spin r')) = 10000
    /\ scheduled_wakeups r' = [].
Proof.
  destruct (increment_counter_ptr_turns_off
              (ex_counter_router (mkCounter 1 0 0 0 18 s_deadlock_detection) false))
    as (r' & Hrun & Hst & Hth & _ & _ & Hw & _).
  - reflexivity.
  - split; [discriminate | reflexivity].
  - discriminate.
  - split; [discriminate | reflexivity].
  - intros ip u Hu. apply vget_In in Hu. simpl in Hu.
    destruct Hu as [<- | [<- | [<- | []]]];
      (split; [reflexivity|]);
      intros i c Hc; apply vget_In in Hc; simpl in Hc;
      destruct Hc as [<- | [<- | [<- | [<- | []]]]]; discriminate.
  - exists r'. repeat split; assumption.
Defined.

(** ** The switch allocator at rest (SwitchAllocator.cc) *)

Lemma vget_repeat {A : Type} (x : A) (n : nat) (i : Z) :
  0 <= i < Z.of_nat n -> vget (repeat x n) i = Ok x.
Proof.
  intros Hi. apply vget_Ok. split; [unfold vsize; rewrite repeat_length; lia|].
  destruct (repeat x n !! Z.to_nat i) as [y|] eqn:E.
  - apply list_elem_of_lookup_2, list_elem_of_In, repeat_spec in E. rewrite E. reflexivity.
  - apply lookup_ge_None_1 in E. rewrite repeat_length in E. lia.
Qed.

Lemma vget_map_const {A B : Type} (x : B) (l : list A) (i : Z) (y : B) :
  vget (map (fun _ => x) l) i = Ok y -> y = x.
Proof.
  intros H. apply vget_In in H. apply in_map_iff in H as (_ & <- & _). reflexivity.
Qed.

Lemma for_each_idle {A : Type} (l : list A) (body : A -> M Router unit) (r : Router) :
  (forall a, In a l -> body a r = Ok (tt, r)) ->
  for_each l body r = Ok (tt, r).
Proof.
  induction l as [|a l IH]; intros H; [reflexivity|].
  simpl. rewrite (bind_Ok _ _ _ _ _ (H a (or_introl eq_refl))). cbn beta iota.
  apply IH. intros b Hb. apply H. right. exact Hb.
Qed.

(** With no request for it, an outport grants nothing. *)
Lemma arbitrate_outport_idle (r : Router) (outport : Z) :
  sa_sized r ->
  0 <= outport < get_num_outports r ->
  (forall i, requesting (switchAllocator r) outport i = false) ->
  arbitrate_outport outport r = Ok (tt, r).
Proof.
  intros Hsized Ho Hnone.
  destruct Hsized as (Hrr & Hrest) eqn:Hs.
  destruct (vget_in_range (m_round_robin_inport (switchAllocator r)) outport)
    as [start Hstart]; [lia|].
  unfold arbitrate_outport. rewrite bind_get. cbn beta.
  rewrite (bind_lift_Ok _ _ _ _
             (choose_inport_spec r outport start
                (conj Hrr Hrest) Hstart)).
  cbn beta.
  assert (Hw : sa2_winner r outport start = -1).
  { unfold sa2_winner, first_in_order.
    assert (Hf : forall (p : Z -> bool) l, (forall i, p i = false) -> find p l = None).
    { intros p l Hp. induction l as [|a l IH]; simpl; [reflexivity|].
      rewrite Hp. exact IH. }
    rewrite (Hf (escape_requesting (switchAllocator r) outport)).
    - rewrite (Hf (requesting (switchAllocator r) outport)) by exact Hnone.
      reflexivity.
    - intros i. unfold escape_requesting. rewrite Hnone. reflexivity. }
  rewrite Hw. reflexivity.
Qed.

Lemma arbitrate_outports_idle (r : Router) :
  sa_sized r ->
  (forall i p, vget (m_port_requests (switchAllocator r)) i = Ok p -> p = -1) ->
  arbitrate_outports r = Ok (tt, r).
Proof.
  intros Hsized Hreq. unfold arbitrate_outports. rewrite bind_get. cbn beta.
  apply for_each_idle. intros o Ho. apply zrange_In in Ho.
  apply arbitrate_outport_idle; [exact Hsized | lia |].
  intros i. unfold requesting.
  destruct (vget (m_port_requests (switchAllocator r)) i) as [p|] eqn:Ep;
    [|reflexivity].
  rewrite (Hreq _ _ Ep). lia.
Qed.

(** [SwitchAllocator::init] on a router with at least one inport: every
    vector gets the size that SA-I and SA-II index it by, every
    round-robin pointer starts at 0, no inport has a request, a winner or
    an escape flag, and SA-II run on that state grants nothing. *)
Theorem SwitchAllocator_init_is_at_rest :
  forall (r : Router),
    0 < get_num_inports r ->
    exists r',
      SwitchAllocator_init r = Ok (tt, r')
      /\ sa_sized r'
      /\ (forall i, 0 <= i < get_num_inports r ->
            vget (m_port_requests (switchAllocator r')) i = Ok (-1)
            /\ vget (m_vc_winners (switchAllocator r')) i = Ok (-1)
            /\ vget (m_is_escape_req (switchAllocator r')) i = Ok false
            /\ vget (m_round_robin_invc (switchAllocator r')) i = Ok 0)
      /\ (forall o, 0 <= o < get_num_outports r ->
            vget (m_round_robin_inport (switchAllocator r')) o = Ok 0)
      /\ m_input_unit r' = m_input_unit r
      /\ m_output_unit r' = m_output_unit r
      /\ arbitrate_outports r' = Ok (tt, r').
Proof.
  intros r Hn. unfold SwitchAllocator_init. rewrite bind_get. cbn beta.
  eexists. split; [reflexivity|].
  assert (Hin : forall i, 0 <= i < get_num_inports r ->
                          0 <= i < Z.of_nat (Z.to_nat (get_num_inports r))) by lia.
  assert (Hout : forall o, 0 <= o < get_num_outports r ->
                           0 <= o < Z.of_nat (Z.to_nat (get_num_outports r))) by lia.
  assert (Hno : 0 <= get_num_outports r) by (unfold get_num_outports, vsize; lia).
  assert (Hsized : sa_sized
                     (R.set_switchAllocator
                        (mkSwitchAllocator
                           (repeat 0 (Z.to_nat (get_num_outports r)))
                           (repeat 0 (Z.to_nat (get_num_inports r)))
                           (repeat (-1) (Z.to_nat (get_num_inports r)))
                           (repeat (-1) (Z.to_nat (get_num_inports r)))
                           (repeat false (Z.to_nat (get_num_inports r)))
                           (m_input_arbiter_activity (switchAllocator r))
                           (m_output_arbiter_activity (switchAllocator r))) r)).
  { unfold sa_sized, R.set_switchAllocator. simpl. unfold vsize.
    rewrite !repeat_length.
    change (get_num_inports (mkRouter _ _ _ _ _ _ _ _ _ _ _ _ _ _ _ _ _ _))
      with (get_num_inports r).
    change (get_num_outports (mkRouter _ _ _ _ _ _ _ _ _ _ _ _ _ _ _ _ _ _))
      with (get_num_outports r).
    split; [lia|]. split; [lia|]. split; [lia|]. split; [lia|].
    intros o s Hs. apply vget_In, repeat_spec in Hs. lia. }
  split; [exact Hsized|]. split.
  { intros i Hi. simpl. rewrite !vget_repeat by (apply Hin; exact Hi).
    repeat split. }
  split; [intros o Ho; simpl; apply vget_repeat, Hout, Ho|].
  split; [reflexivity|]. split; [reflexivity|].
  apply arbitrate_outports_idle; [exact Hsized|].
  intros i p Hp. simpl in Hp. apply vget_In, repeat_spec in Hp. exact Hp.
Qed.

(** The theorem at the example router. *)
Lemma SwitchAllocator_init_witness :
  exists r',
    SwitchAllocator_init ex_escape_router = Ok (tt, r')
    /\ m_port_requests (switchAllocator r') = [-1; -1; -1]
    /\ m_is_escape_req (switchAllocator r') = [false; false; false]
    /\ arbitrate_outports r' = Ok (tt, r').
Proof.
  destruct (SwitchAllocator_init_is_at_rest ex_escape_router)
    as (r' & Hrun & _ & _ & _ & _ & _ & Hidle); [reflexivity|].
  exists r'. split; [exact Hrun|].
  assert (Hr : SwitchAllocator_init ex_escape_router
               = Ok (tt, R.set_switchAllocator
                           (mkSwitchAllocator [0; 0; 0] [0; 0; 0] [-1; -1; -1]
                              [-1; -1; -1] [false; false; false] 2 0)
                           ex_escape_router)) by reflexivity.
  rewrite Hr in Hrun. injection Hrun as <-.
  split; [reflexivity|]. split; [reflexivity | exact Hidle].
Defined.

(** [clear_request_vector], the last step of switch allocation, removes
    every request and every escape flag and keeps the winners and the
    round-robin pointers: SA-II run again on that state grants nothing, so
    that no request of this cycle is served a second time. *)
Theorem clear_request_vector_ends_the_round :
  forall (r : Router),
    sa_sized r ->
    exists r',
      clear_request_vector r = Ok (tt, r')
      /\ sa_sized r'
      /\ (forall i, 0 <= i < get_num_inports r ->
            vget (m_port_requests (switchAllocator r')) i = Ok (-1)
            /\ vget (m_is_escape_req (switchAllocator r')) i = Ok false)
      /\ m_vc_winners (switchAllocator r') = m_vc_winners (switchAllocator r)
      /\ m_round_robin_inport (switchAllocator r')
         = m_round_robin_inport (switchAllocator r)
      /\ m_round_robin_invc (switchAllocator r')
         = m_round_robin_invc (switchAllocator r)
      /\ arbitrate_outports r' = Ok (tt, r').
Proof.
  intros r Hsized. pose proof Hsized as (Hrr & Hreq & Hwin & Hesc & Hptr).
  eexists. split; [reflexivity|].
  assert (Hsized' : sa_sized
                      (R.set_switchAllocator
                         (mkSwitchAllocator (m_round_robin_inport (switchAllocator r))
                            (m_round_robin_invc (switchAllocator r))
                            (map (fun _ => -1) (m_port_requests (switchAllocator r)))
                            (m_vc_winners (switchAllocator r))
                            (map (fun _ => false) (m_is_escape_req (switchAllocator r)))
                            (m_input_arbiter_activity (switchAllocator r))
                            (m_output_arbiter_activity (switchAllocator r))) r)).
  { unfold sa_sized, R.set_switchAllocator. simpl. unfold vsize.
    rewrite !length_map.
    change (get_num_inports (mkRouter _ _ _ _ _ _ _ _ _ _ _ _ _ _ _ _ _ _))
      with (get_num_inports r).
    change (get_num_outports (mkRouter _ _ _ _ _ _ _ _ _ _ _ _ _ _ _ _ _ _))
      with (get_num_outports r).
    split; [exact Hrr|]. split; [exact Hreq|]. split; [exact Hwin|].
    split; [exact Hesc | exact Hptr]. }
  split; [exact Hsized'|]. split.
  { intros i Hi. simpl. split.
    - destruct (vget_in_range (map (fun _ : Z => -1) (m_port_requests (switchAllocator r))) i)
        as [p Hp]; [unfold vsize in *; rewrite length_map; lia|].
      rewrite Hp. f_equal. exact (vget_map_const _ _ _ _ Hp).
    - destruct (vget_in_range
                  (map (fun _ : bool => false) (m_is_escape_req (switchAllocator r))) i)
        as [b Hb]; [unfold vsize in *; rewrite length_map; lia|].
      rewrite Hb. f_equal. exact (vget_map_const _ _ _ _ Hb). }
  split; [reflexivity|]. split; [reflexivity|]. split; [reflexivity|].
  apply arbitrate_outports_idle; [exact Hsized'|].
  intros i p Hp. simpl in Hp. exact (vget_map_const _ _ _ _ Hp).
Qed.

(** The theorem at the router where SA-I left two requests for outport 1:
    after [clear_request_vector] SA-II has nothing to grant. *)
Lemma clear_request_vector_witness :
  exists r',
    clear_request_vector ex_escape_router = Ok (tt, r')
    /\ m_port_requests (switchAllocator r') = [-1; -1; -1]
    /\ arbitrate_outports r' = Ok (tt, r').
Proof.
  destruct (clear_request_vector_ends_the_round ex_escape_router)
    as (r' & Hrun & _ & _ & _ & _ & _ & Hidle).
  - split; [reflexivity|]. split; [reflexivity|]. split; [reflexivity|].
    split; [reflexivity|].
    intros o s Hs. apply vget_In in Hs. simpl in Hs.
    destruct Hs as [<- | [<- | [<- | []]]]; split; try discriminate; reflexivity.
  - exists r'. split; [exact Hrun|].
    assert (Hr : clear_request_vector ex_escape_router
                 = Ok (tt, R.set_switchAllocator
                             (mkSwitchAllocator [0; 2; 0] [0; 0; 0] [-1; -1; -1]
                                [-1; 0; 1] [false; false; false] 2 0)
                             ex_escape_router)) by reflexivity.
    rewrite Hr in Hrun. injection Hrun as <-.
    split; [reflexivity | exact Hidle].
Defined.

(** ** What SA-I changes (SwitchAllocator.cc) *)

Lemma respects_ret {A : Type} (R : Router -> Router -> Prop) (a : A) :
  (forall r, R r r) -> respects R (ret a).
Proof. intros Hrefl r a' r' H. injection H as _ <-. apply Hrefl. Qed.

Lemma respects_get (R : Router -> Router -> Prop) :
  (forall r, R r r) -> respects R get.
Proof. intros Hrefl r a' r' H. injection H as _ <-. apply Hrefl. Qed.

Lemma respects_lift {A : Type} (R : Router -> Router -> Prop) (x : res A) :
  (forall r, R r r) -> respects R (lift x).
Proof.
  intros Hrefl r a' r' H. unfold lift in H. destruct x; [|discriminate].
  injection H as _ <-. apply Hrefl.
Qed.

Lemma respects_throw {A : Type} (R : Router -> Router -> Prop) (e : error) :
  respects R (@throw Router A e).
Proof. intros r a' r' H. discriminate. Qed.

Lemma respects_assert (R : Router -> Router -> Prop) (b : bool) :
  (forall r, R r r) -> respects R (assert b).
Proof.
  intros Hrefl r a' r' H. destruct b; [|discriminate].
  injection H as _ <-. apply Hrefl.
Qed.

Lemma respects_bind {A B : Type} (R : Router -> Router -> Prop)
    (m : M Router A) (k : A -> M Router B) :
  (forall a b c, R a b -> R b c -> R a c) ->
  respects R m -> (forall a, respects R (k a)) -> respects R (bind m k).
Proof.
  intros Htrans Hm Hk r b r' H. unfold bind in H.
  destruct (m r) as [[a s]|] eqn:E; [|discriminate].
  exact (Htrans _ _ _ (Hm _ _ _ E) (Hk _ _ _ _ H)).
Qed.

Lemma respects_weaken {A : Type} (R : Router -> Router -> Prop) (m : M Router A) :
  (forall r, R r r) -> respects eq m -> respects R m.
Proof. intros Hrefl Hm r a r' H. rewrite <- (Hm _ _ _ H). apply Hrefl. Qed.

Lemma eq_router_trans (a b c : Router) : a = b -> b = c -> a = c.
Proof. congruence. Qed.

(** One step of the proof that a computation only reads the router. *)
Ltac pure_step :=
  first
    [ apply respects_ret; reflexivity
    | apply respects_get; reflexivity
    | apply respects_lift; reflexivity
    | apply respects_throw
    | apply respects_assert; reflexivity
    | apply respects_bind; [exact eq_router_trans | | intros ?]
    | match goal with
      | |- respects _ (if ?b then _ else _) => destruct b
      | |- respects _ (match ?x with _ => _ end) => destruct x
      end ].

Lemma pure_getInputUnit (port : Z) : respects eq (getInputUnit port).
Proof. unfold getInputUnit. repeat pure_step. Qed.

Lemma pure_getOutputUnit (port : Z) : respects eq (getOutputUnit port).
Proof. unfold getOutputUnit. repeat pure_step. Qed.

Lemma pure_getVC (inport vc : Z) : respects eq (getVC inport vc).
Proof. unfold getVC. pure_step; [apply pure_getInputUnit|]. repeat pure_step. Qed.

Lemma pure_getInportDirection (inport : Z) : respects eq (getInportDirection inport).
Proof. unfold getInportDirection. repeat pure_step. Qed.

Lemma pure_get_vnet (invc : Z) : respects eq (get_vnet invc).
Proof. unfold get_vnet. repeat pure_step. Qed.

Lemma pure_peekTopFlit (inport vc : Z) : respects eq (peekTopFlit inport vc).
Proof. unfold peekTopFlit. pure_step; [apply pure_getVC|]. repeat pure_step. Qed.

(** [send_allowed] only reads the router. *)
Lemma pure_send_allowed (inport invc outport outvc : Z) (esc : bool) :
  respects eq (send_allowed inport invc outport outvc esc).
Proof.
  unfold send_allowed.
  repeat first [ apply pure_get_vnet | apply pure_getOutputUnit
               | apply pure_getInputUnit | pure_step ].
Qed.

Lemma sa1_frame_refl (r : Router) : sa1_frame r r.
Proof. unfold sa1_frame. repeat split. Qed.

Lemma sa1_frame_trans (a b c : Router) : sa1_frame a b -> sa1_frame b c -> sa1_frame a c.
Proof.
  unfold sa1_frame.
  intros (H1 & H2 & H3 & H4 & H5 & H6 & H7 & H8 & H9 & H10 & H11 & H12 & H13)
         (G1 & G2 & G3 & G4 & G5 & G6 & G7 & G8 & G9 & G10 & G11 & G12 & G13).
  repeat split; congruence.
Qed.

Lemma frame_set_port_request (inport outport : Z) :
  respects sa1_frame (set_port_request inport outport).
Proof.
  intros r a r' H. unfold set_port_request in H. revert H. munfold.
  destruct (vset _ inport outport); [|discriminate].
  intros H. injection H as _ <-. unfold sa1_frame. repeat split.
Qed.

Lemma frame_set_vc_winner (inport invc : Z) :
  respects sa1_frame (set_vc_winner inport invc).
Proof.
  intros r a r' H. unfold set_vc_winner in H. revert H. munfold.
  destruct (vset _ inport invc); [|discriminate].
  intros H. injection H as _ <-. unfold sa1_frame. repeat split.
Qed.

Lemma frame_set_is_escape_req (inport : Z) (b : bool) :
  respects sa1_frame (set_is_escape_req inport b).
Proof.
  intros r a r' H. unfold set_is_escape_req in H. revert H. munfold.
  destruct (vset _ inport b); [|discriminate].
  intros H. injection H as _ <-. unfold sa1_frame. repeat split.
Qed.

Lemma frame_inc_input_arbiter_activity : respects sa1_frame inc_input_arbiter_activity.
Proof.
  intros r a r' H. injection H as _ <-. unfold sa1_frame. repeat split.
Qed.

Lemma frame_lookupRoutingTable (vnet : Z) (dest : NetDest) :
  respects sa1_frame (lookupRoutingTable vnet dest).
Proof.
  intros r l r' H. destruct (lookupRoutingTable_state _ _ _ _ _ H) as [-> | ->].
  - apply sa1_frame_refl.
  - unfold sa1_frame, after_rand. repeat split.
Qed.

(** One step of the proof that a computation keeps the frame of SA-I. *)
Ltac frame_step :=
  first
    [ apply respects_ret; exact sa1_frame_refl
    | apply respects_get; exact sa1_frame_refl
    | apply respects_lift; exact sa1_frame_refl
    | apply respects_throw
    | apply respects_assert; exact sa1_frame_refl
    | apply frame_set_port_request
    | apply frame_set_vc_winner
    | apply frame_set_is_escape_req
    | apply frame_inc_input_arbiter_activity
    | apply frame_lookupRoutingTable
    | apply respects_weaken;
        [exact sa1_frame_refl
        | first [ apply pure_send_allowed | apply pure_getInputUnit
                | apply pure_getOutputUnit | apply pure_getInportDirection
                | apply pure_get_vnet | apply pure_peekTopFlit | apply pure_getVC ] ]
    | apply respects_bind; [exact sa1_frame_trans | | intros ?]
    | match goal with
      | |- respects _ (if ?b then _ else _) => destruct b
      | |- respects _ (match ?x with _ => _ end) => destruct x
      end ].

Lemma frame_escape_route_compute (route : RouteInfo) (inport : Z) (d : PortDirection) :
  respects sa1_frame (escape_route_compute route inport d).
Proof. unfold escape_route_compute, outportEscapeVC. repeat frame_step. Qed.

Lemma frame_arbitrate_inport (inport : Z) (iters : nat) :
  forall invc, respects sa1_frame (arbitrate_inport inport iters invc).
Proof.
  induction iters as [|k IH]; intros invc; cbn [arbitrate_inport].
  - repeat frame_step.
  - frame_step; [frame_step|].
    frame_step; [frame_step|].
    frame_step; [frame_step|].
    frame_step; [repeat frame_step|].
    destruct a2; [frame_step | apply IH].
Qed.

Lemma frame_for_each {A : Type} (l : list A) (body : A -> M Router unit) :
  (forall a, respects sa1_frame (body a)) -> respects sa1_frame (for_each l body).
Proof.
  intros Hbody. induction l as [|a l IH]; cbn [for_each].
  - frame_step.
  - frame_step; [apply Hbody | exact IH].
Qed.

Lemma frame_escape_vcs_first (inport : Z) (iters : nat) :
  forall invc, respects sa1_frame (escape_vcs_first inport iters invc).
Proof.
  induction iters as [|k IH]; intros invc; cbn [escape_vcs_first].
  - frame_step.
  - frame_step; [frame_step|].
    frame_step; [frame_step|].
    frame_step; [frame_step|].
    frame_step; [frame_step|].
    frame_step; [apply IH|].
    frame_step; [frame_step|].
    frame_step; [frame_step|].
    frame_step; [apply frame_escape_route_compute|].
    frame_step; [frame_step|].
    frame_step; [repeat frame_step | apply IH].
Qed.

Lemma frame_other_vcs_round_robin (inport : Z) (iters : nat) :
  forall invc, respects sa1_frame (other_vcs_round_robin inport iters invc).
Proof.
  induction iters as [|k IH]; intros invc; cbn [other_vcs_round_robin].
  - frame_step.
  - frame_step; [frame_step|].
    frame_step; [frame_step|].
    frame_step; [apply IH|].
    frame_step; [frame_step|].
    frame_step; [frame_step|].
    frame_step.
    + frame_step; [|frame_step].
      frame_step; [frame_step|].
      frame_step.
      * frame_step; [|repeat frame_step].
        frame_step; [frame_step|].
        frame_step; [frame_step|].
        frame_step; [frame_step|].
        frame_step; [apply frame_escape_route_compute|].
        repeat frame_step.
      * repeat frame_step.
    + destruct a3; [frame_step | apply IH].
Qed.

(** SA-I of the standard allocator only places requests: a run of
    [arbitrate_inports] that returns leaves the input units, the output
    units, the crossbar, the SPIN state, the routing unit, the clock and
    both round-robin pointers as they were; only the request vectors and
    the input arbiter's activity count of the switch allocator can differ. *)
Theorem arbitrate_inports_only_places_requests (r r' : Router) :
  arbitrate_inports r = Ok (tt, r') -> sa1_frame r r'.
Proof.
  enough (Hall : respects sa1_frame arbitrate_inports) by exact (Hall r tt r').
  unfold arbitrate_inports.
  frame_step; [frame_step|].
  apply frame_for_each. intros inport.
  frame_step; [frame_step|].
  frame_step; [frame_step|].
  apply frame_arbitrate_inport.
Qed.

Lemma arbitrate_inports_witness :
  exists r',
    arbitrate_inports ex_sa_router = Ok (tt, r')
    /\ sa1_frame ex_sa_router r'.
Proof.
  eexists. split; [vm_compute; reflexivity|].
  apply arbitrate_inports_only_places_requests. vm_compute. reflexivity.
Defined.

(** SA-I of the escape-aware allocator, which may also compute an escape
    route through the routing table, only places requests too: whatever VC
    it picks, the input and output units, the crossbar, the SPIN state, the
    routing unit, the clock and both round-robin pointers stay as they
    were; only the request vectors, the escape flags and the input
    arbiter's activity count of the switch allocator, and the random
    numbers the table lookup draws, can differ. *)
Theorem arbitrate_inports_escape_only_places_requests (r r' : Router) :
  arbitrate_inports_escape r = Ok (tt, r') -> sa1_frame r r'.
Proof.
  enough (Hall : respects sa1_frame arbitrate_inports_escape)
    by exact (Hall r tt r').
  unfold arbitrate_inports_escape.
  frame_step; [frame_step|].
  apply frame_for_each. intros inport. unfold arbitrate_inport_escape.
  frame_step; [frame_step|].
  frame_step.
  - frame_step; [apply frame_escape_vcs_first | frame_step].
  - frame_step; [frame_step|].
    frame_step; [frame_step|].
    frame_step; [frame_step|].
    apply frame_other_vcs_round_robin.
Qed.

Lemma arbitrate_inports_escape_witness :
  exists r',
    arbitrate_inports_escape ex_escape_router = Ok (tt, r')
    /\ sa1_frame ex_escape_router r'.
Proof.
  eexists. split; [vm_compute; reflexivity|].
  apply arbitrate_inports_escape_only_places_requests. vm_compute. reflexivity.
Defined.

(** ** Data flits at the input unit (InputUnit.cc) *)

Lemma vget_insert_other {A : Type} (v : list A) (i j : Z) (a : A) :
  0 <= i -> i <> j -> vget (<[Z.to_nat i := a]> v) j = vget v j.
Proof.
  intros Hi Hne. unfold vget. rewrite length_insert.
  destruct ((0 <=? j) && (j <? Z.of_nat (length v))) eqn:E; [|reflexivity].
  rewrite list_lookup_insert_ne by lia. reflexivity.
Qed.

Lemma wakeup_data_entry
    (xy car3d adaptive : RouteInfo -> Z -> PortDirection -> M Router Z)
    (r : Router) (inport : Z) (u : InputUnit) (t_flit : flit) (rest : list flit) :
  vget (m_input_unit r) inport = Ok u ->
  m_in_link u = t_flit :: rest ->
  m_time t_flit <= curTick r ->
  m_width t_flit = m_bit_width r ->
  spin_scheme_enabled r && is_control_type (m_type t_flit) = false ->
  wakeup xy car3d adaptive inport r
  = wakeup_data xy car3d adaptive inport (increment_hops t_flit)
      (consumed inport u rest r).
Proof.
  intros Hu Hlink Htime Hwidth Hdata.
  unfold wakeup. rewrite bind_get. cbn beta.
  mrun (getInputUnit_Ok _ _ _ Hu). rewrite Hlink.
  replace (m_time t_flit <=? curTick r) with true by lia. cbn [negb].
  rewrite (bind_Ok _ _ _ _ _ (putInputUnit_Ok r inport _ (vget_range _ _ _ Hu))).
  cbn beta iota. fold (consumed inport u rest r).
  replace (m_width t_flit =? m_bit_width r) with true by lia.
  cbn [assert]. rewrite bind_ret. cbn beta.
  assert (Hty : m_type (increment_hops t_flit) = m_type t_flit) by reflexivity.
  rewrite Hty, Hdata. reflexivity.
Qed.

(** An arriving flit that does not fit stops the simulation on an
    assertion: a flit whose width is not the router's, a HEAD or HEAD_TAIL
    for a VC that is not IDLE, or a BODY or TAIL for a VC that is not
    ACTIVE. *)
Theorem wakeup_rejects_unexpected_flit
    (xy car3d adaptive : RouteInfo -> Z -> PortDirection -> M Router Z)
    (r : Router) (inport : Z) (u : InputUnit) (t_flit : flit) (rest : list flit)
    (c : VirtualChannel) :
  vget (m_input_unit r) inport = Ok u ->
  m_in_link u = t_flit :: rest ->
  m_time t_flit <= curTick r ->
  vget (virtualChannels u) (m_vc t_flit) = Ok c ->
  spin_scheme_enabled r && is_control_type (m_type t_flit) = false ->
  m_width t_flit <> m_bit_width r
  \/ VC.get_state c <> vc_state_expected (m_type t_flit) ->
  wakeup xy car3d adaptive inport r = Err AssertFail.
Proof.
  intros Hu Hlink Htime Hc Hdata Hbad.
  destruct (Z.eq_dec (m_width t_flit) (m_bit_width r)) as [Hwidth | Hwidth].
  - destruct Hbad as [Hbad | Hbad]; [contradiction|].
    rewrite (wakeup_data_entry _ _ _ _ _ _ _ _ Hu Hlink Htime Hwidth Hdata).
    set (r1 := consumed inport u rest r).
    assert (Hu1 : vget (m_input_unit r1) inport = Ok (IU.set_in_link rest u))
      by (apply consumed_unit; exact (vget_range _ _ _ Hu)).
    assert (Hc1 : getVC inport (m_vc t_flit) r1 = Ok (c, r1))
      by (apply (getVC_Ok _ _ _ _ _ Hu1); exact Hc).
    unfold wakeup_data. rewrite bind_get. cbn beta.
    mrun (getInputUnit_Ok _ _ _ Hu1).
    apply bind_Err.
    assert (Hty : m_type (increment_hops t_flit) = m_type t_flit) by reflexivity.
    assert (Hvc : m_vc (increment_hops t_flit) = m_vc t_flit) by reflexivity.
    rewrite Hty, Hvc. unfold vc_state_expected in Hbad.
    destruct (flit_type_eqb (m_type t_flit) HEAD_
              || flit_type_eqb (m_type t_flit) HEAD_TAIL_).
    + mrun Hc1. apply bind_Err.
      destruct (VC.get_state c); try reflexivity; congruence.
    + mrun Hc1.
      destruct (VC.get_state c); try reflexivity; congruence.
  - unfold wakeup. rewrite bind_get. cbn beta.
    mrun (getInputUnit_Ok _ _ _ Hu). rewrite Hlink.
    replace (m_time t_flit <=? curTick r) with true by lia. cbn [negb].
    rewrite (bind_Ok _ _ _ _ _ (putInputUnit_Ok r inport _ (vget_range _ _ _ Hu))).
    cbn beta iota. apply bind_Err.
    replace (m_width t_flit =? m_bit_width r) with false by lia. reflexivity.
Qed.

Lemma wakeup_rejects_witness :
  wakeup no_algorithm no_algorithm no_algorithm 1
    (ex_link_router
       [ex_active_vc [ex_flit HEAD_ 0 0 3 900] 1 1 900;
        ex_idle_vc; ex_idle_vc; ex_idle_vc]
       [ex_flit HEAD_ 0 0 3 1000] ex_router)
  = Err AssertFail.
Proof.
  apply (wakeup_rejects_unexpected_flit no_algorithm no_algorithm no_algorithm
           _ 1
           (IU.set_in_link [ex_flit HEAD_ 0 0 3 1000]
              (ex_west_unit
                 [ex_active_vc [ex_flit HEAD_ 0 0 3 900] 1 1 900;
                  ex_idle_vc; ex_idle_vc; ex_idle_vc]))
           (ex_flit HEAD_ 0 0 3 1000) []
           (ex_active_vc [ex_flit HEAD_ 0 0 3 900] 1 1 900)).
  - reflexivity.
  - reflexivity.
  - vm_compute. discriminate.
  - reflexivity.
  - reflexivity.
  - right. vm_compute. discriminate.
Defined.

(** A BODY or TAIL flit that is due on the link of an input unit, for a VC
    that is ACTIVE, is taken off the link and put at the end of that VC's
    buffer, in stage SA and with one more hop; the buffer write and read
    counts of its vnet go up by one.  The other VCs of the unit, the other
    input units, the output units, the switch allocator and the SPIN state
    stay as they were. *)
Theorem wakeup_buffers_body_flit
    (xy car3d adaptive : RouteInfo -> Z -> PortDirection -> M Router Z)
    (r : Router) (inport : Z) (u : InputUnit) (t_flit : flit) (rest : list flit)
    (c : VirtualChannel) (rd wr : Z) :
  vget (m_input_unit r) inport = Ok u ->
  m_in_link u = t_flit :: rest ->
  m_time t_flit <= curTick r ->
  m_width t_flit = m_bit_width r ->
  m_type t_flit = BODY_ \/ m_type t_flit = TAIL_ ->
  vget (virtualChannels u) (m_vc t_flit) = Ok c ->
  VC.get_state c = ACTIVE_ ->
  1 <= m_latency r ->
  m_vc_per_vnet r <> 0 ->
  vget (m_num_buffer_reads u) (Z.quot (m_vc t_flit) (m_vc_per_vnet r)) = Ok rd ->
  vget (m_num_buffer_writes u) (Z.quot (m_vc t_flit) (m_vc_per_vnet r)) = Ok wr ->
  exists r' u',
    wakeup xy car3d adaptive inport r = Ok (tt, r')
    /\ vget (m_input_unit r') inport = Ok u'
    /\ m_in_link u' = rest
    /\ vget (virtualChannels u') (m_vc t_flit)
       = Ok (VC.insertFlit (buffered_flit r t_flit) c)
    /\ (forall j, j <> m_vc t_flit ->
        vget (virtualChannels u') j = vget (virtualChannels u) j)
    /\ vget (m_num_buffer_reads u') (Z.quot (m_vc t_flit) (m_vc_per_vnet r))
       = Ok (rd + 1)
    /\ vget (m_num_buffer_writes u') (Z.quot (m_vc t_flit) (m_vc_per_vnet r))
       = Ok (wr + 1)
    /\ (forall ip, ip <> inport ->
        vget (m_input_unit r') ip = vget (m_input_unit r) ip)
    /\ m_output_unit r' = m_output_unit r
    /\ switchAllocator r' = switchAllocator r
    /\ spin r' = spin r.
Proof.
  intros Hu Hlink Htime Hwidth Hty Hc Hact Hlat Hvpv Hrd Hwr.
  assert (Hin : 0 <= inport < get_num_inports r) by exact (vget_range _ _ _ Hu).
  assert (Hdata : spin_scheme_enabled r && is_control_type (m_type t_flit) = false).
  { destruct Hty as [-> | ->]; cbn [is_control_type]; apply andb_false_r. }
  rewrite (wakeup_data_entry _ _ _ _ _ _ _ _ Hu Hlink Htime Hwidth Hdata).
  set (u1 := IU.set_in_link rest u).
  set (r1 := consumed inport u rest r).
  assert (Hu1 : vget (m_input_unit r1) inport = Ok u1)
    by (apply consumed_unit; exact Hin).
  assert (Hc1 : getVC inport (m_vc t_flit) r1 = Ok (c, r1))
    by (apply (getVC_Ok _ _ _ _ _ Hu1); exact Hc).
  unfold wakeup_data. rewrite bind_get. cbn beta.
  mrun (getInputUnit_Ok _ _ _ Hu1).
  assert (Ety : m_type (increment_hops t_flit) = m_type t_flit) by reflexivity.
  assert (Evc : m_vc (increment_hops t_flit) = m_vc t_flit) by reflexivity.
  rewrite Ety, Evc.
  replace (flit_type_eqb (m_type t_flit) HEAD_
           || flit_type_eqb (m_type t_flit) HEAD_TAIL_) with false
    by (destruct Hty as [-> | ->]; reflexivity).
  assert (Hchk : (let* c0 := getVC inport (m_vc t_flit) in
                  assert (VC_state_eqb (VC.get_state c0) ACTIVE_)) r1
                 = Ok (tt, r1)).
  { mrun Hc1. rewrite Hact. reflexivity. }
  mrun Hchk. mrun Hc1.
  change (m_latency r1) with (m_latency r).
  change (curTick r1) with (curTick r).
  change (clockEdge (m_latency r - 1) r1) with (clockEdge (m_latency r - 1) r).
  change (m_vc_per_vnet r1) with (m_vc_per_vnet r).
  replace (if m_latency r =? 1
           then advance_stage SA_ (curTick r) (increment_hops t_flit)
           else advance_stage SA_ (clockEdge (m_latency r - 1) r)
                  (increment_hops t_flit))
    with (buffered_flit r t_flit)
    by (unfold buffered_flit; destruct (m_latency r =? 1); reflexivity).
  set (c' := VC.insertFlit (buffered_flit r t_flit) c).
  mrun (putVC_Ok r1 inport (m_vc t_flit) u1 c c' Hu1 Hc).
  set (u2 := IU.set_virtualChannels (<[Z.to_nat (m_vc t_flit) := c']> (virtualChannels u1)) u1).
  set (r2 := with_vc inport (m_vc t_flit) u1 c' r1).
  assert (Hin1 : 0 <= inport < get_num_inports r1)
    by (unfold r1; rewrite consumed_inports; exact Hin).
  assert (Hu2 : vget (m_input_unit r2) inport = Ok u2)
    by (apply with_vc_unit; exact Hin1).
  assert (Hdiv : int_div (m_vc t_flit) (m_vc_per_vnet r)
                 = Ok (Z.quot (m_vc t_flit) (m_vc_per_vnet r))).
  { unfold int_div. replace (m_vc_per_vnet r =? 0) with false by lia. reflexivity. }
  rewrite (bind_lift_Ok _ _ _ _ Hdiv). cbn beta.
  set (vnet := Z.quot (m_vc t_flit) (m_vc_per_vnet r)) in *.
  mrun (getInputUnit_Ok _ _ _ Hu2).
  rewrite (bind_lift_Ok _ _ _ _ Hwr). cbn beta.
  rewrite (bind_lift_Ok _ _ _ _ Hrd). cbn beta.
  set (u3 := IU.set_buffer_activity _ _ u2).
  assert (Hin2 : 0 <= inport < get_num_inports r2)
    by exact (vget_range _ _ _ Hu2).
  mrun (putInputUnit_Ok r2 inport u3 Hin2).
  set (r3 := R.set_input_unit _ r2).
  assert (Hunits : m_input_unit r3 = <[Z.to_nat inport := u3]> (m_input_unit r)).
  { unfold r3, r2, r1, with_vc, consumed. simpl.
    rewrite !list_insert_insert_eq. reflexivity. }
  assert (Htail :
    forall s, m_input_unit s = m_input_unit r3 ->
      exists s',
        (let* u0 := getInputUnit inport in
         match m_in_link u0 with
         | [] => ret tt
         | next :: _ => if m_time next <=? curTick r then schedule_wakeup 1 else ret tt
         end) s = Ok (tt, s')
        /\ m_input_unit s' = m_input_unit s
        /\ m_output_unit s' = m_output_unit s
        /\ switchAllocator s' = switchAllocator s
        /\ spin s' = spin s).
  { intros s Hs.
    assert (Hus : vget (m_input_unit s) inport = Ok u3).
    { rewrite Hs, Hunits. apply vget_vset_eq. exact Hin. }
    mrun (getInputUnit_Ok _ _ _ Hus).
    destruct (m_in_link u3) as [|next l]; [|destruct (m_time next <=? curTick r)];
      eexists; (split; [reflexivity|]); repeat split. }
  assert (Hrun : exists r',
    (let* _ := (if m_latency r =? 1 then ret tt
                else let* _ := assert (1 <? m_latency r) in
                     schedule_wakeup (m_latency r - 1)) in
     let* u0 := getInputUnit inport in
     match m_in_link u0 with
     | [] => ret tt
     | next :: _ => if m_time next <=? curTick r then schedule_wakeup 1 else ret tt
     end) r3 = Ok (tt, r')
    /\ m_input_unit r' = m_input_unit r3
    /\ m_output_unit r' = m_output_unit r3
    /\ switchAllocator r' = switchAllocator r3
    /\ spin r' = spin r3).
  { destruct (m_latency r =? 1) eqn:Elat; cbn iota.
    - rewrite bind_ret. cbn beta. apply Htail. reflexivity.
    - replace (1 <? m_latency r) with true by lia.
      destruct (Htail (R.set_scheduled_wakeups
                         (scheduled_wakeups r3 ++ [m_latency r - 1]) r3) eq_refl)
        as (s' & Hs' & H1 & H2 & H3 & H4).
      exists s'. split; [|repeat split; assumption].
      rewrite <- Hs'. reflexivity. }
  destruct Hrun as (r' & Hr' & Hiu & Hou & Hsa & Hsp).
  exists r', u3. split; [exact Hr'|].
  assert (Hvc0 : 0 <= m_vc t_flit < vsize (virtualChannels u))
    by exact (vget_range _ _ _ Hc).
  split; [rewrite Hiu, Hunits; apply vget_vset_eq; exact Hin|].
  split; [reflexivity|].
  split; [apply (vget_vset_eq (virtualChannels u)); exact Hvc0|].
  split.
  { intros j Hj. apply (vget_insert_other (virtualChannels u)); lia. }
  split; [apply (vget_vset_eq (m_num_buffer_reads u)); exact (vget_range _ _ _ Hrd)|].
  split; [apply (vget_vset_eq (m_num_buffer_writes u)); exact (vget_range _ _ _ Hwr)|].
  split.
  { intros ip Hip. rewrite Hiu, Hunits. apply vget_insert_other; lia. }
  split; [rewrite Hou; reflexivity|].
  split; [rewrite Hsa; reflexivity | rewrite Hsp; reflexivity].
Qed.

Lemma wakeup_buffers_witness :
  exists r' u',
    wakeup no_algorithm no_algorithm no_algorithm 1
      (ex_link_router
         [ex_active_vc [ex_flit HEAD_ 0 0 3 900] 1 1 900;
          ex_idle_vc; ex_idle_vc; ex_idle_vc]
         [ex_flit BODY_ 0 0 3 1000] ex_router)
    = Ok (tt, r')
    /\ vget (m_input_unit r') 1 = Ok u'
    /\ m_in_link u' = []
    /\ vget (virtualChannels u') 0
       = Ok (VC.insertFlit
               (buffered_flit ex_router (ex_flit BODY_ 0 0 3 1000))
               (ex_active_vc [ex_flit HEAD_ 0 0 3 900] 1 1 900))
    /\ vget (m_num_buffer_writes u') 0 = Ok 1.
Proof.
  destruct (wakeup_buffers_body_flit no_algorithm no_algorithm no_algorithm
              (ex_link_router
                 [ex_active_vc [ex_flit HEAD_ 0 0 3 900] 1 1 900;
                  ex_idle_vc; ex_idle_vc; ex_idle_vc]
                 [ex_flit BODY_ 0 0 3 1000] ex_router)
              1
              (IU.set_in_link [ex_flit BODY_ 0 0 3 1000]
                 (ex_west_unit
                    [ex_active_vc [ex_flit HEAD_ 0 0 3 900] 1 1 900;
                     ex_idle_vc; ex_idle_vc; ex_idle_vc]))
              (ex_flit BODY_ 0 0 3 1000) []
              (ex_active_vc [ex_flit HEAD_ 0 0 3 900] 1 1 900) 0 0)
    as (r' & u' & H1 & H2 & H3 & H4 & _ & _ & H5 & _).
  - reflexivity.
  - reflexivity.
  - vm_compute. discriminate.
  - reflexivity.
  - left. reflexivity.
  - reflexivity.
  - reflexivity.
  - vm_compute. discriminate.
  - vm_compute. discriminate.
  - reflexivity.
  - reflexivity.
  - exists r', u'. repeat split; assumption.
Defined.

(** ** The end of a move (Router.cc) *)

Lemma modify_spin_run (f : Spin -> Spin) (r : Router) :
  modify_spin f r = Ok (tt, R.set_spin (f (spin r)) r).
Proof. reflexivity. Qed.

Lemma send_check_probe_run (s : Router) (ip vc : Z) :
  0 < m_vc_per_vnet s ->
  exists cp w,
    send_check_probe ip vc s
    = Ok (tt, R.set_scheduled_wakeups w
                (R.set_spin
                   (SP.set_check_probeQueue (check_probeQueue (spin s) ++ [cp]) (spin s))
                   s))
    /\ m_type cp = CHECK_PROBE_
    /\ m_path cp = pb_path (m_path_buffer (spin s))
    /\ m_source_id cp = r_id s
    /\ m_source_inp_port cp = ip
    /\ m_source_vc cp = vc.
Proof.
  intros Hvpv. unfold send_check_probe, int_div. rewrite bind_get. cbn beta.
  replace (m_vc_per_vnet s =? 0) with false by lia.
  rewrite (bind_lift_Ok _ _ _ _ eq_refl). cbn beta zeta.
  rewrite (bind_Ok _ _ _ _ _ (modify_spin_run _ _)). cbn beta.
  unfold wakeup_after_latency. rewrite bind_get. cbn beta.
  match goal with
  | |- context [check_probeQueue (spin s) ++ [?f]] => set (cp := f)
  end.
  assert (Hcp : m_type cp = CHECK_PROBE_
                /\ m_path cp = pb_path (m_path_buffer (spin s))
                /\ m_source_id cp = r_id s
                /\ m_source_inp_port cp = ip
                /\ m_source_vc cp = vc).
  { unfold cp, subDelay. destruct (_ <=? _); repeat split. }
  exists cp.
  change (m_latency (R.set_spin _ s)) with (m_latency s).
  destruct (1 <? m_latency s).
  - eexists. split; [reflexivity | exact Hcp].
  - exists (scheduled_wakeups s). split; [reflexivity | exact Hcp].
Qed.

Lemma set_counter_check_probe_run (s : Router) (ip vc : Z) :
  0 < m_vc_per_vnet s ->
  0 < get_loop_delay s ->
  set_counter ip vc s_check_probe 0 s
  = Ok (tt, with_counter
              (mkCounter (to_unsigned ip) (to_unsigned vc)
                 (Z.quot (to_unsigned vc) (m_vc_per_vnet s)) 0
                 (curCycle s + get_loop_delay s) s_check_probe)
              (scheduled_wakeups s ++ [get_loop_delay s]) s).
Proof.
  intros Hvpv Hld. unfold set_counter, int_div. rewrite bind_get. cbn beta.
  replace (m_vc_per_vnet s =? 0) with false by lia.
  rewrite (bind_lift_Ok _ _ _ _ eq_refl). cbn beta zeta.
  rewrite (bind_Ok _ _ _ _ _ (modify_spin_run _ _)). cbn beta.
  cbn [Counter_state_eqb].
  replace (curCycle s + get_loop_delay s - curCycle s) with (get_loop_delay s) by lia.
  replace (0 <? get_loop_delay s) with true by lia.
  reflexivity.
Qed.

(** When a move has gone round, the router that started it (its counter is
    in state [forward_progress] and its registry holds the one entry of the
    VC the counter points at) clears [start_move] and the move bit, sends a
    CHECK_PROBE along the latched path, puts the counter in state
    [check_probe] one loop delay ahead, and replaces its registry entry by
    a fresh one for the same VC whose outport is the head of the latched
    path; the VC is thawed and frozen again. *)
Theorem move_complete_at_source
    (r : Router) (mi : move_info) (u : InputUnit) :
  get_counter_state r = s_forward_progress ->
  move_registry (spin r) = [mi] ->
  mi_inport mi = cptr_input_port (m_counter (spin r)) ->
  mi_vc mi = cptr_vc (m_counter (spin r)) ->
  0 <= cptr_input_port (m_counter (spin r)) < 2 ^ 32 ->
  0 <= cptr_vc (m_counter (spin r)) < 2 ^ 32 ->
  vget (m_input_unit r) (cptr_input_port (m_counter (spin r))) = Ok u ->
  0 < m_vc_per_vnet r ->
  0 < get_loop_delay r ->
  pb_valid (m_path_buffer (spin r)) = true ->
  exists r' cp,
    move_complete r = Ok (tt, r')
    /\ get_start_move r' = false
    /\ get_move_bit r' = false
    /\ get_counter_state r' = s_check_probe
    /\ cptr_input_port (m_counter (spin r')) = cptr_input_port (m_counter (spin r))
    /\ cptr_vc (m_counter (spin r')) = cptr_vc (m_counter (spin r))
    /\ thresh (m_counter (spin r')) = curCycle r + get_loop_delay r
    /\ check_probeQueue (spin r') = check_probeQueue (spin r) ++ [cp]
    /\ m_type cp = CHECK_PROBE_
    /\ m_path cp = pb_path (m_path_buffer (spin r))
    /\ m_source_inp_port cp = cptr_input_port (m_counter (spin r))
    /\ m_source_vc cp = cptr_vc (m_counter (spin r))
    /\ move_registry (spin r')
       = [mkMoveInfo (cptr_input_port (m_counter (spin r)))
            (cptr_vc (m_counter (spin r)))
            (match pb_path (m_path_buffer (spin r)) with [] => -1 | v :: _ => v end)
            (-1) false 0]
    /\ vget (m_input_unit r') (cptr_input_port (m_counter (spin r)))
       = Ok (freeze_vc (m_network_ptr r) (cptr_vc (m_counter (spin r)))
               (thaw_vc (cptr_vc (m_counter (spin r))) u)).
Proof.
  intros Hst Hreg Hmip Hmvc Hip Hvc Hu Hvpv Hld Hpb.
  set (ip := cptr_input_port (m_counter (spin r))) in *.
  set (vc := cptr_vc (m_counter (spin r))) in *.
  assert (Hipu : to_unsigned ip = ip) by (apply Z.mod_small; exact Hip).
  assert (Hvcu : to_unsigned vc = vc) by (apply Z.mod_small; exact Hvc).
  unfold move_complete, reset_start_move, reset_move_bit.
  rewrite (bind_Ok _ _ _ _ _ (modify_spin_run _ _)). cbn beta.
  rewrite (bind_Ok _ _ _ _ _ (modify_spin_run _ _)). cbn beta.
  rewrite bind_get. cbn beta.
  set (rb := R.set_spin _ (R.set_spin _ r)).
  change (get_counter_state rb) with (get_counter_state r). rewrite Hst.
  cbn [Counter_state_eqb].
  change (move_registry (spin rb)) with (move_registry (spin r)). rewrite Hreg.
  change (vsize [mi] =? 1) with true. cbn [assert]. rewrite bind_ret. cbn beta.
  rewrite (bind_lift_Ok _ _ _ _ (eq_refl : vget [mi] 0 = Ok mi)). cbn beta.
  change (m_counter (spin rb)) with (m_counter (spin r)).
  fold ip vc. rewrite Hmip, Hmvc, !Z.eqb_refl.
  cbn [assert]. rewrite !bind_ret. cbn beta.
  destruct (send_check_probe_run rb ip vc Hvpv)
    as (cp & w & Hsend & Hcpt & Hcpp & _ & Hcpi & Hcpv).
  mrun Hsend. rewrite bind_get. cbn beta.
  set (rc := R.set_scheduled_wakeups w _).
  change (m_counter (spin rc)) with (m_counter (spin r)). fold ip vc.
  mrun (set_counter_check_probe_run rc ip vc Hvpv Hld).
  rewrite Hipu, Hvcu.
  set (rd := with_counter _ _ rc).
  assert (Hud : vget (m_input_unit rd) ip = Ok u) by exact Hu.
  set (re := R.set_spin (SP.set_move_registry [] (spin rd))
               (with_unit ip (thaw_vc vc u) rd)).
  assert (Hclear : clear_move_registry rd = Ok (tt, re)).
  { unfold clear_move_registry. rewrite bind_get. cbn beta.
    change (move_registry (spin rd)) with (move_registry (spin r)). rewrite Hreg.
    cbn [for_each]. rewrite Hmip, Hmvc.
    assert (Hthaw : (let* _ := on_input_unit ip (thaw_vc vc) in ret tt) rd
                    = Ok (tt, with_unit ip (thaw_vc vc u) rd)).
    { mrun (on_input_unit_Ok rd ip (thaw_vc vc) u Hud). reflexivity. }
    mrun Hthaw. reflexivity. }
  mrun Hclear. rewrite bind_get. cbn beta.
  assert (Hpeek : peek_path_top re
                  = Ok (match pb_path (m_path_buffer (spin r)) with
                        | [] => -1
                        | v :: _ => v
                        end, re)).
  { unfold peek_path_top. rewrite bind_get. cbn beta.
    change (m_path_buffer (spin re)) with (m_path_buffer (spin r)). rewrite Hpb.
    reflexivity. }
  mrun Hpeek.
  change (cptr_input_port (m_counter (spin re))) with ip.
  change (cptr_vc (m_counter (spin re))) with vc.
  unfold create_move_info_entry.
  rewrite (bind_Ok _ _ _ _ _ (modify_spin_run _ _)). cbn beta.
  rewrite bind_get. cbn beta.
  set (rf := R.set_spin _ re).
  assert (Hin : 0 <= ip < get_num_inports r) by exact (vget_range _ _ _ Hu).
  assert (Huf : vget (m_input_unit rf) ip = Ok (thaw_vc vc u))
    by (apply (with_unit_get rd); exact Hin).
  rewrite (on_input_unit_Ok rf ip _ _ Huf).
  eexists. exists cp. split; [reflexivity|].
  split; [reflexivity|]. split; [reflexivity|]. split; [reflexivity|].
  split; [reflexivity|]. split; [reflexivity|]. split; [reflexivity|].
  split; [reflexivity|]. split; [exact Hcpt|]. split; [exact Hcpp|].
  split; [exact Hcpi|]. split; [exact Hcpv|]. split; [reflexivity|].
  apply with_unit_get. unfold rf, re, rd, rc, rb, with_unit, get_num_inports, vsize.
  simpl. rewrite length_insert. exact Hin.
Qed.

Lemma move_complete_at_source_witness :
  exists r' cp,
    move_complete (ex_moving_router s_forward_progress) = Ok (tt, r')
    /\ get_counter_state r' = s_check_probe
    /\ check_probeQueue (spin r') = [cp]
    /\ m_path cp = [2; 1]
    /\ move_registry (spin r') = [mkMoveInfo 1 0 2 (-1) false 0].
Proof.
  destruct (move_complete_at_source (ex_moving_router s_forward_progress)
              (mkMoveInfo 1 0 2 3 true 2) (ex_input_unit 1 West))
    as (r' & cp & Hrun & _ & _ & Hst & _ & _ & _ & Hq & _ & Hpath & _ & _ & Hreg & _).
  - reflexivity.
  - reflexivity.
  - reflexivity.
  - reflexivity.
  - vm_compute. split; [discriminate | reflexivity].
  - vm_compute. split; [discriminate | reflexivity].
  - reflexivity.
  - reflexivity.
  - reflexivity.
  - reflexivity.
  - exists r', cp. repeat split; assumption.
Defined.

Lemma existsb_map_compose {A B : Type} (f : A -> B) (p : B -> bool) (l : list A) :
  existsb p (map f l) = existsb (fun a => p (f a)) l.
Proof. induction l as [|a l IH]; simpl; [reflexivity | rewrite IH; reflexivity]. Qed.

(** At every other router the end of a move clears [start_move] and the
    move bit and makes every registry entry forget the progress of its
    move, and nothing else: the entries stay, for the same VCs and
    outports, so the VCs of the move stay frozen and their outports stay
    reserved; the counter and the input units are not touched. *)
Theorem move_complete_elsewhere (r : Router) :
  get_counter_state r <> s_forward_progress ->
  exists r',
    move_complete r = Ok (tt, r')
    /\ get_start_move r' = false
    /\ get_move_bit r' = false
    /\ map mi_inport (move_registry (spin r')) = map mi_inport (move_registry (spin r))
    /\ map mi_vc (move_registry (spin r')) = map mi_vc (move_registry (spin r))
    /\ map mi_outport (move_registry (spin r')) = map mi_outport (move_registry (spin r))
    /\ Forall (fun mi => vc_at_downstream_router mi = -1
                         /\ tail_moved mi = false
                         /\ cur_move_count mi = 0)
         (move_registry (spin r'))
    /\ (forall o, check_outport_entry_in_move_registry o r'
                  = check_outport_entry_in_move_registry o r)
    /\ m_counter (spin r') = m_counter (spin r)
    /\ m_input_unit r' = m_input_unit r.
Proof.
  intros Hst.
  unfold move_complete, reset_start_move, reset_move_bit.
  rewrite (bind_Ok _ _ _ _ _ (modify_spin_run _ _)). cbn beta.
  rewrite (bind_Ok _ _ _ _ _ (modify_spin_run _ _)). cbn beta.
  rewrite bind_get. cbn beta.
  set (rb := R.set_spin _ (R.set_spin _ r)).
  change (get_counter_state rb) with (get_counter_state r).
  replace (Counter_state_eqb (get_counter_state r) s_forward_progress) with false
    by (destruct (get_counter_state r); try reflexivity; congruence).
  unfold invalidate_move_vcs. rewrite modify_spin_run.
  eexists. split; [reflexivity|].
  split; [reflexivity|]. split; [reflexivity|].
  cbn [spin R.set_spin move_registry SP.set_move_registry].
  change (move_registry (spin rb)) with (move_registry (spin r)).
  split; [rewrite map_map; reflexivity|].
  split; [rewrite map_map; reflexivity|].
  split; [rewrite map_map; reflexivity|].
  split; [apply Forall_map, Forall_forall; intros; repeat split|].
  split; [|split; reflexivity].
  intros o. unfold check_outport_entry_in_move_registry.
  cbn [spin R.set_spin move_registry SP.set_move_registry].
  change (move_registry (spin rb)) with (move_registry (spin r)).
  rewrite existsb_map_compose. reflexivity.
Qed.

Lemma move_complete_elsewhere_witness :
  exists r',
    move_complete (ex_moving_router s_frozen) = Ok (tt, r')
    /\ get_start_move r' = false
    /\ get_move_bit r' = false
    /\ move_registry (spin r') = [mkMoveInfo 1 0 2 (-1) false 0]
    /\ get_counter_state r' = s_frozen.
Proof.
  destruct (move_complete_elsewhere (ex_moving_router s_frozen))
    as (r' & Hrun & Hsm & Hmb & _).
  - discriminate.
  - exists r'. split; [exact Hrun|]. split; [exact Hsm|]. split; [exact Hmb|].
    vm_compute in Hrun. injection Hrun as <-. split; reflexivity.
Defined.

(** ** The downstream VC of a move (Router.cc) *)

Lemma set_downstream_vc_none (vc outport : Z) (reg : list move_info) :
  existsb (fun m => mi_outport m =? outport) reg = false ->
  set_downstream_vc vc outport reg = reg.
Proof.
  induction reg as [|m rest IH]; [reflexivity|]. cbn [existsb set_downstream_vc].
  intros H. apply orb_false_iff in H as [Hm Hrest].
  rewrite Hm, (IH Hrest). reflexivity.
Qed.

Lemma set_downstream_vc_first (vc outport : Z) (before after : list move_info)
    (mi : move_info) :
  Forall (fun m => mi_outport m <> outport) before ->
  mi_outport mi = outport ->
  set_downstream_vc vc outport (before ++ mi :: after)
  = before
    ++ mkMoveInfo (mi_inport mi) (mi_vc mi) (mi_outport mi) vc (tail_moved mi)
         (cur_move_count mi) :: after.
Proof.
  intros Hbefore Hmi. induction Hbefore as [|m rest Hm Hrest IH].
  - cbn [app set_downstream_vc]. rewrite Hmi, Z.eqb_refl. reflexivity.
  - cbn [app set_downstream_vc].
    replace (mi_outport m =? outport) with false by lia.
    rewrite IH. reflexivity.
Qed.

(** [update_move_vc_at_downstream_router(vc, outport)] writes the
    downstream VC into the first registry entry for [outport] and into no
    other: later entries for the same outport keep theirs, a registry with
    no entry for [outport] is left as it was, and no entry is added or
    removed. *)
Theorem update_move_vc_first_entry_only (r : Router) (vc outport : Z) :
  exists r',
    update_move_vc_at_downstream_router vc outport r = Ok (tt, r')
    /\ (check_outport_entry_in_move_registry outport r = false ->
        move_registry (spin r') = move_registry (spin r))
    /\ (forall before mi after,
          move_registry (spin r) = before ++ mi :: after ->
          mi_outport mi = outport ->
          Forall (fun m => mi_outport m <> outport) before ->
          move_registry (spin r')
          = before
            ++ mkMoveInfo (mi_inport mi) (mi_vc mi) outport vc (tail_moved mi)
                 (cur_move_count mi) :: after)
    /\ (forall o, check_outport_entry_in_move_registry o r'
                  = check_outport_entry_in_move_registry o r)
    /\ m_input_unit r' = m_input_unit r.
Proof.
  unfold update_move_vc_at_downstream_router. rewrite modify_spin_run.
  eexists. split; [reflexivity|].
  cbn [spin R.set_spin move_registry SP.set_move_registry].
  split; [|split; [|split; [|reflexivity]]].
  - intros Hno. apply set_downstream_vc_none. exact Hno.
  - intros before mi after Hreg Hmi Hbefore.
    rewrite Hreg, (set_downstream_vc_first _ _ _ _ _ Hbefore Hmi), Hmi. reflexivity.
  - intros o. unfold check_outport_entry_in_move_registry.
    cbn [spin R.set_spin move_registry SP.set_move_registry].
    induction (move_registry (spin r)) as [|m rest IH]; [reflexivity|].
    cbn [set_downstream_vc].
    destruct (mi_outport m =? outport); cbn [existsb mi_outport]; [reflexivity|].
    rewrite IH. reflexivity.
Qed.
